(* ===== verification/_CoqProject ===== *)
-Q . S2P
Prelude.v
PyData.v
Score.v
PySort.v
Chunker.v
VectorIndex.v
Retriever.v
AnswerClient.v
Ingest.v
Json.v
Api.v
Ieee.v
Live.v
Typing.v
Debug.v
Norm.v
Downloader.v
Connector.v
Scraper.v
Pipeline.v
Ocr.v
Hub.v
Summation.v
System.v
Embed.v
Logs.v
