(* ===== verification/Prelude.v ===== *)
(** * Verification of the MHA helpdesk chatbot (retrieval-augmented generation)

    The program under [src/mha_chatbot/] answers questions over a corpus of
    scanned PDFs.  [ingest2.py] OCRs each PDF, cuts every page into
    overlapping token windows ([chunk_text]), numbers the chunks, embeds and
    normalises them and writes a flat inner-product index together with the
    chunk metadata.  [chat2.py] loads both, and at query time embeds the
    query, searches the index, re-ranks the candidates with a keyword boost
    ([retrieve]), formats the context ([build_context]) and calls the
    language model ([query_llm]) with one key of a pool that
    [_rotate_api_key] advances round-robin.  [api.py] exposes this over
    HTTP.  [Scrapper_mha.py] walks the pages of the ministry's archive and
    lists the PDF links it finds; [download_pdfs.py] fetches the files of
    that list concurrently into the folder ingestion reads.

    ** Files of the development (in dependency order)

    - [Prelude] (this file): the Python semantics every component shares:
      slices [l[lo:hi]] with negative and out-of-range bounds ([py_slice],
      [py_prefix]), indexing ([py_index]), [range(lo, hi, step)]
      ([py_range]), [enumerate] ([py_enumerate]), exceptions as values
      ([exn], [result]) with a bind notation ([let! x := r in k]) in
      [result_scope], the tactics [zbool] and [inv_result], the hint
      databases [helpdesk] and [helpdesk_rw], and what the scripts share
      of the outside: a file that is missing, complete or torn ([file]),
      the outcome of a write ([write_file]), the states a file passes
      through while it is written ([write_states]) and the way a script
      ends ([exit_status]).
    - [PyData]: Python values and dictionaries as loaded from JSON ([pyval],
      [pydict] as [gmap string pyval], [dict_get]), and the string functions
      the code calls: [str.lower], [str.strip], [re.findall(r'\w+', s)],
      [str()] rendering, [str.endswith], [str.startswith], the last
      segment of [str.split], [len], a prefix slice and [str.replace].
    - [Score]: the interface the ranking code needs of its numbers
      (class [ScoreOps], laws [ScoreLaws] and [ScoreStrict]) and its
      instance on [Q].
    - [PySort]: [list.sort(key=..., reverse=True)] as a stable descending
      insertion sort, with sortedness, permutation, stability and the
      uniqueness of a stable sorted arrangement, and the sort under two
      comparisons that agree on the keys of the list ([agree_on]).
    - [Chunker]: [chunk_text] of [ingest2.py], its closed-form
      specification ([Module Spec]) and the refinement between them.
    - [VectorIndex]: what [retrieve] and ingestion assume of the FAISS
      index (class [IndexSearch], laws [IndexSearchLaws]), the flat
      inner-product index as its instance, and the same index with the
      routine that computes an inner product left open ([search_with],
      [kernel_index]).
    - [Retriever]: [retrieve] of [chat2.py].
    - [AnswerClient]: the key pool, [_configure_gemini_client],
      [_rotate_api_key], [build_context] and [query_llm] of [chat2.py].
    - [Ingest]: [process_pdf_for_worker], [normalize_embeddings] and [main]
      of [ingest2.py], and the script with the loading of the tokenizer
      ([ingest2]).
    - [Json]: the JSON values of a request body ([jval]), [data.get]
      ([json_get]), [int()] and [float()] ([py_int], [py_float]) with the
      literals [int()] reads ([py_int_of_str]) and the decimal literals
      [float()] reads ([decimal_of_unsigned]); the class [FloatConv] of
      what the conversions need of the numbers, and its instance on [Q].
    - [Api]: the module-level loading of [chat2.py] ([load], [startup]) and
      the three handlers of [api.py] ([get_stats], [chat_endpoint] as
      [chat_fields] followed by [chat_answer], [get_chunks]), with a
      session as a sequence of requests ([serve]).
    - [Ieee]: the instance of [ScoreOps] and [FloatConv] on the binary
      formats of IEEE 754 ([ieee_score], [ieee_conv]; [binary64] is the
      Python [float]), with [float()] of a literal and of an integer
      correctly rounded, and what of the ranking holds on them.
    - [Live]: a session during which [chunks.json] changes on disk
      ([serve_live]), a second ingestion interleaved with the requests
      ([reingest], [interleaved]), and the states of the two files a
      server can start on while ingestion writes ([persist_states]).
    - [Typing]: the schema of the records of the metadata, of the worker
      and of [chunks.json] ([meta_schema], [raw_schema], [chunk_schema]),
      conformance of a dictionary to a schema ([conforms], decidable)
      and typed hits ([hit_typed]).
    - [Debug]: [debug_retrieval] of [chat2.py] as what is printed and
      what is returned.
    - [Norm]: the real numbers as an instance of [ScoreOps], with the
      true square root, and the normalisation of the embeddings and of
      the query over them.
    - [Downloader]: [download_pdf] and [main] of [download_pdfs.py]: the
      coroutine as a function ([download_pdf]) and as a state machine with
      one step between two awaits ([task_step]), [asyncio.gather] as a
      step relation over the coroutines ([gather_step]), [main] from the
      list file to its end ([entry_task], [main_run]) and the script
      with the making of the folder ([download_script]).
    - [Connector]: the connection limit of [main] of [download_pdfs.py]
      as a step relation over [task_step] with the set of the
      coroutines that hold a connection ([limited_step]).
    - [Scraper]: the loops of [scrape_mha_whats_new] of [Scrapper_mha.py]
      over the pages ([scrape_loop]) and the rows ([rows_loop]), the entry
      built from a row ([row_entry]), the closed form of the result
      ([web_entries]), the writing of the list ([save_entries]) and the
      script from the launch of the browser to its closing
      ([scraper_script]).
    - [Pipeline]: the three scripts and the server composed through the
      files they share ([pipeline_env], [folder_exists], [folder_open]).
    - [Ocr]: the reader of the worker of [ingest2.py] built from its
      parts: [pdfplumber] ([pdf_library]), the recognition program the
      machine holds at a path ([ocr_host]), [image_to_string] with the
      path [tesseract_cmd] and the languages [OCR_LANGS] the module
      sets ([ocr_reader]).
    - [Hub]: the tokenizer and the embedding model that [ingest2.py]
      and [chat2.py] each load under their constant [EMBED_MODEL]
      ([INGEST_EMBED_MODEL] and [EMBED_MODEL] here), as a function of
      the name ([hub]); the script and the start-up with the models
      of the hub ([ingest2_hub], [hub_startup]).
    - [Summation]: the sums an inner-product routine may compute
      ([sum_any], [any_order]), three routines ([dot], [dot_left],
      [dot_lanes]) and the numbers on which the order is immaterial
      ([ScoreExact]).
    - [System]: the scraper, the downloader, ingestion with the
      recognition program and the model of the hub, the server and a
      question, together ([system_ingest]).
    - [Embed]: the embedding model as the library runs it on a text
      ([transformer]): the text is tokenised again and cut to the
      sequence length of the model less its special tokens
      ([tokens_read]), and [model.encode] of [ingest2.py] (line 156)
      computes a row from the tokens kept ([tf_encode]).
    - [Logs]: the line [download_pdf] of [download_pdfs.py] prints on
      each of its paths ([download_line], [download_print]) and the
      lines of a sequential run ([sequential_print]).

    ** How the model corresponds to the code

    Python [int]s are [Z]; lists are [list]; a dictionary read from JSON is
    a [gmap string pyval]; a dictionary built by a literal with fixed keys
    is a [Record]; an exception is a value [Raise e] of [result], and a
    [try]/[except] is [result_catch].  Module level state
    ([GEMINI_API_KEYS], [current_key_index], [GEMINI_GENERATIVE_MODEL];
    [INDEX], [CHUNKS], [MODEL]) is a record the operations take and
    return.  The keys of the pool are a field of that record: the
    development holds none of the source's keys.

    External libraries are parameters: the tokenizer is a record of
    [encode] and [decode]; opening and recognising a PDF is a function
    from the path to the exception raised or the text of each page
    ([pdf_reader]); the embedding model, the completion order of the
    worker pool and the outcome of each file write are fields of
    [ingest_env]; the language model is a function from the key and the
    prompt to the response or the exception.  Every theorem holds for any
    behaviour of theirs.  [Ocr] and [Hub] open two of these parameters
    where the code fixes something about them: the reader is
    [pdfplumber] followed by the program at [tesseract_cmd]
    (ingest2.py, lines 15 and 63 to 66), which a machine holds or not,
    and the model of either script is the one a hub of repositories
    holds under the name the script gives (ingest2.py, lines 25, 31
    and 142; chat2.py, lines 20 and 76), with a dimension that every
    row it computes has.  The index is the flat index with the
    products of two rows summed from the right; [kernel_index] is the
    index with any other routine.  A file of [FAISS_DIR] is [Missing], [Holds] a
    value or is [Torn] (left incomplete by a failed write); [main] is a
    function from the world and the files before the run to the exit
    status ([Completed], [Exit code], [Uncaught e]) and the files after.

    The download folder is a [gmap string string] from file names to
    contents and the network a function from the value given to
    [session.get] to the exception raised, or the status with the body
    or the exception of reading it.  The disk is a function from the
    name of a file to what storing it does ([disk_fate]): the file is
    opened and the body written, [aiofiles.open] raises, or the write
    raises after some bytes have reached the file; both exceptions are
    caught by the [try] of the coroutine.  A body is written from the start
    of the file as it is then ([write_over]): the file was truncated when
    it was opened, not when it is written.  The end of the script is a
    relation ([main_run]); when an entry cannot be read the relation
    admits every place a schedule can bring the other coroutines to
    before they are cancelled, which covers the order of the event
    loop.  A coroutine of [download_pdf] is [Start], [Requested]
    (after the existence test, awaiting the response), [Opened body]
    (the file is created empty, awaiting the body) or [Finished]; a
    configuration of [asyncio.gather] is the folder with the list of
    these states, and one step resumes one coroutine up to its next
    await.  Under the connector a configuration carries in addition the
    set of the coroutines that hold a connection ([conf]): a coroutine
    at its request first acquires a connection, which it can when fewer
    than [limit] are held, and gives it back when it returns.  The
    browser is a function from the address of a page ([page_url]) to
    the exception raised while the page is opened or read, or to the
    rows the page shows ([None] when the selector times out), and a row
    is what the loop reads of it: the number of cells, whether the second and third cell
    hold a link, and the texts.  Launching the browser and closing it
    are results of their own.

    Floating-point scores are abstracted by [ScoreOps]; the laws used
    ([ScoreLaws]: a total preorder, monotone addition and scaling;
    [ScoreStrict]: strictly monotone addition) hold of [Q] and of the
    reals.  On the formats of IEEE 754 ([Ieee]) the comparison is
    transitive and total on the numbers that are no NaN, and addition
    rounds: the theorems of [Ieee] state what holds of [retrieve]
    there, for every precision and exponent range.  One format stands
    for all the numbers of a run.  The sort of the model is the sort of
    Python when the comparison is a total preorder on the keys of the
    list, which it is when no score is a NaN ([sort_numbers_unique]).
    Strings are [string]
    (bytes); the character classes of [\w], [str.lower] and [str.strip]
    are modelled on ASCII, so a claim about tokenisation is a claim about
    ASCII text.  The body of a chat request is the value [request.json()]
    yields or the exception it raises; a query that is no string goes to
    [retrieve_other], where the encoder is a parameter: it raises, or the
    dimension check or [query.lower()] does.  The web framework is
    reduced to the refusal of a query parameter outside its bounds
    (422), the rendering of the response of a question, which raises
    on a score that is a NaN or an infinity ([json_response]), and the
    conversion of an exception into status 500.  Paths are joined as on
    POSIX.

    The scripts are composed in [Pipeline] under the assumptions that
    their file names leave open: the list file the downloader reads is
    the one the scraper wrote (the two scripts name it differently,
    [OUTPUT_FILE] and [JSON_FILE], see [list_file_names_differ]), the
    metadata file of ingestion ([METADATA_PATH], a third name, see
    [metadata_name_differs]) is that list file, the data folder of
    ingestion is the folder of the downloader, and what the PDF library
    makes of the bytes of a file is a function ([read_pdf]) that refuses
    a file without bytes.

    ** What the theorems show

    - [Chunker]: [chunk_text] refines the closed-form windows; every
      window but the last has exactly [chunk_size] tokens, consecutive
      windows share exactly [overlap] tokens, the windows reconstruct the
      token stream, no window is empty, and the loop stops for every
      choice of parameters.
    - [PySort], [Retriever]: the result of [retrieve] is sorted by combined
      score, is what any stable descending sort gives, has [min k n]
      elements for [0 <= k] (and [max 0 (min 50 n + k)] for a negative
      [k]), every score is the semantic score plus the boost, a dimension
      mismatch always raises and nothing else does, and of two hits with
      the same semantic score the one with more keyword matches comes
      first.
    - [AnswerClient]: the start-up check, the invariant of the pool (the
      cursor is inside the pool and the client holds the key under it)
      and its preservation by rotation, the full cycle, the reachability
      of every key, the shape of the context, and the key and prompt
      [query_llm] calls the model with.
    - [Typing]: every record a completed ingestion writes conforms to
      [chunk_schema]; on a store that conforms [retrieve] raises only
      for a dimension mismatch and its hits are typed, so the defaults of
      [build_context] are not used.
    - [Json], [Api]: [int(str(z)) = z]; a question is answered only when
      its body is an object with a string query and convertible [k] and
      boost, every other body ends in status 500; the defaults of the
      three fields; [k] sent as text is [k] sent as a number.
    - [Debug]: the helper returns what [retrieve] returns and prints two
      lines per hit between a header and a footer; a preview has at most
      [preview_chars + 3] characters for [0 <= preview_chars].
    - [Pipeline]: every chunk of the chunk file, and every hit of every
      answer, comes from an entry of the scraper whose body the
      downloader fetched with status 200 and read to its end, and of
      which the bytes the disk kept are a PDF; an entry whose body could
      not be read is lost without a trace.
    - [Ieee]: with finite inner products and a finite boost (other than
      zero, or with fewer than [2 ^ prec] words in the query, whose
      counts then convert exactly) no score is a NaN, the hits are
      sorted and are what any stable sort gives; an infinity as boost, which [float()] reads
      from a request, gives a NaN to every hit without a match, and a
      question with an infinity or a NaN as boost ends with status 500
      when the response is rendered; the laws [ScoreLaws] and [ScoreStrict] fail on [binary64], and a boost
      below the rounding error leaves a chunk with more matches behind
      one with fewer.
    - [Live]: while ingestion rewrites the chunk file, the questions
      are answered from the state of the start-up, and the statistics
      and pages are those of the old file, of the new file, or status
      500 for the file being written; a server that starts while a run
      that completes writes its files fails, or starts on the old
      pair, on the new pair, or on the new index beside the old
      chunks, and this last start-up does occur.
    - [Ingest]: a failing PDF contributes nothing and raises nothing; the
      chunks of a readable PDF in closed form; a completed run leaves a
      matched pair with uids [1..n] in collection order; the exit status
      and the effect on the two files of every run, among them the runs
      that end with status 0 without a corpus and the run that leaves a
      new index beside old chunks; the independence of the chunk set from
      the pool's delivery order.
    - [Api]: the start-up succeeds on the files of a completed ingestion
      and yields a state in which every well-dimensioned question is
      answered; statistics count distinct sources; a page is a slice of
      at most 500 chunks and the pages cover the file; the handlers
      change no state, so replies do not depend on the order of the
      requests and the key cursor never moves.
    - [Norm]: over the reals a stored row has norm 1 unless its norm is
      below the floor, the normalised query has norm [n / (n + 1e-12)],
      and the semantic score of a candidate lies between -1 and 1
      (Cauchy and Schwarz).
    - [Downloader]: when no two entries name the same file, every
      interleaving of the coroutines leaves the folder the sequential
      run leaves; every schedule stops within three steps per entry; no
      schedule changes a file that was there; a body that fails to
      arrive leaves an empty file, and a write that fails the bytes
      written, which every later run skips; the script completes
      exactly when every entry can be read, and however it ends the
      files that were there are unchanged.
    - [Connector]: a run under the limit is a run of [asyncio.gather];
      at most [limit] connections are held at any moment, each by a
      coroutine between its request and the end of its body; with a
      limit above zero a step is possible as long as a coroutine has
      not returned, a run takes at most four steps per entry and ends,
      without duplicate names, in the folder of the sequential run.
    - [Scraper]: on a site of [n] pages the loop returns the first 648
      entries in page and row order; whatever the site, the result has
      at most 648 entries, each with a link that ends with [.pdf] and
      does not start with a slash, and its last segment as file name;
      an exception of a page ends the script before anything is
      written; the script completes exactly when the list is written
      and the browser closed.
    - [Ocr]: on a machine without a program at [tesseract_cmd] every
      worker returns the empty list and a run of [main] writes nothing
      and ends with status 0; with the program the worker returns the
      chunks of the recognised pages.
    - [Hub]: since both scripts name one model, the server started on
      the files of a completed ingestion never meets the dimension
      mismatch; with a model of another dimension every question is
      refused, and with another model of the same dimension none is.
    - [Summation]: on exact numbers every routine that sums the
      products in some order computes [dot], and [retrieve] does not
      depend on the routine of the index; on [binary32] two routines
      put different rows first.
    - [System]: after the three scripts and the start-up, every
      question whose fields are read is answered with hits that cite
      files of the archive; the run found the recognition program.
    - [Embed]: the model reads the first [min W (L - special)] tokens
      of a chunk; when one stride fits in that room, a token of a page
      is read in some chunk exactly when it lies before the cut of
      the last window; with windows of 512 tokens that overlap by 75
      and a model of 512 positions only the last two tokens of a page
      can stay unread; the row stored for a chunk is computed from
      the tokens read of its text.  These rest on the assumption,
      stated in each theorem, that a window is tokenised as it was
      cut ([round_trip]).
    - [Logs]: [Downloaded] is printed exactly when the body was
      fetched with status 200, read and stored whole; after [Failed to
      download] the folder is as it was; after [Error downloading]
      that came once the file was open, a file is left under the
      name and the next run prints [Already downloaded] for it.

    ** Bounds and fuel

    One definition uses fuel: [scrape_loop], whose [while] has no bound
    of its own, takes one unit per page visited and returns [None] when
    it runs out; [scrape_spec] shows that [n + 1] units suffice on a
    site whose page [n] is the first without rows, and that more fuel
    does not change the result.  Everything else is total: the chunking
    loop is a structural recursion over [py_range]; sorting is an
    insertion sort; the loops of the worker and of [main] recurse on the
    list they traverse; a run of [asyncio.gather] is bounded by the
    measure [work_left] (three steps per coroutine), a run under the
    connector by [limited_work] (four: one more to acquire the
    connection).  Integers are unbounded as in Python.  Floats are kept
    at their width: [Ieee] is parametric in the precision and the
    exponent range, and its concrete runs are on [binary64] (53 bits,
    exponents below 1024) and, for the order of summation, on
    [binary32].  The other concrete runs use a tokenizer whose tokens
    are characters and embeddings over [Q].

    ** Not modelled

    The numerical content of embeddings (the forward pass of the
    model is a function of the tokens it reads), what the recognition
    program makes of an image and the format [:.4f] of a score are left
    abstract; the interleaving of concurrent
    requests inside one handler is not modelled (a session is a sequence
    of whole requests; the handlers assign no global, and the handler
    of a question awaits nothing after the body of the request, so the
    replies do not depend on it; what changes under a running server is
    the chunk file, which [Live] covers).  [Norm] states what holds of the exact values of
    the normalisation, and relies on the axioms of the Standard
    Library's real numbers; the square root of a format of [Ieee] is
    the one of [SpecFloat].  Of the floats three things are stated and
    not modelled, because they belong to libraries the sources only
    call and change with their version: the width in which NumPy adds
    a [float32] score and a Python [float] ([float64] before NumPy 2,
    [float32] from it on), where the model has one format; the order
    in which NumPy sums the squares of a norm, where the model sums
    from the right; and the order Python's sort leaves a list in when
    a key is a NaN, where the insertion sort of the model need not
    agree with it.  The order in which the index sums is left open by
    [kernel_index]; which order a build of the library takes is not
    modelled.  Text is ASCII throughout, although [OCR_LANGS] asks for
    Hindi beside English: the words of [\w+], [str.lower] and
    [str.strip] on other scripts are not modelled.  The count of
    the matches is converted by rounding, where Python raises
    [OverflowError] from [2^1024] on, a count no text reaches.  [int()]
    and [float()] are modelled on ASCII digits and without the limit on
    the length of a literal.  The rows of a page of the archive are
    read as a whole: an exception while a row is read is the exception
    of its page.  A limit of [0] of the connector, which means no
    limit, is the machine [gather_step] and not [limited_step].  The
    CORS middleware and the parsing of the query string of
    [/api/chunks] belong to the web framework; [uvicorn.run] is the
    loop [serve]. *)

From stdpp Require Export base numbers list option strings.
From Stdlib Require Export ZArith Lia.

Create HintDb helpdesk discriminated.
Create Rewrite HintDb helpdesk_rw.

(** ** Exceptions as values *)

(** The exceptions the modelled code raises or catches. *)
Inductive exn : Type :=
| ValueError (msg : string)
| AttributeError (msg : string)
| IndexError
| KeyError (key : string)
| ZeroDivisionError
| TypeError (msg : string)
| FileNotFoundError (path : string)
| OtherError (msg : string).

#[export] Instance exn_eq_dec : EqDecision exn.
Proof. solve_decision. Defined.

(** The outcome of a call that may raise. *)
Inductive result (A : Type) : Type :=
| Ok (a : A)
| Raise (e : exn).
Arguments Ok {A} a.
Arguments Raise {A} e.

#[export] Instance result_eq_dec `{EqDecision A} : EqDecision (result A).
Proof. solve_decision. Defined.

Definition result_bind {A B} (r : result A) (k : A → result B) : result B :=
  match r with
  | Ok a => k a
  | Raise e => Raise e
  end.

Definition result_map {A B} (f : A → B) (r : result A) : result B :=
  result_bind r (λ a, Ok (f a)).

(** [try: r except: h]: the handler receives the exception. *)
Definition result_catch {A} (r : result A) (h : exn → A) : A :=
  match r with
  | Ok a => a
  | Raise e => h e
  end.

(** A comprehension whose body may raise: the first exception ends it. *)
Fixpoint result_mapM {A B} (f : A → result B) (l : list A) : result (list B) :=
  match l with
  | [] => Ok []
  | x :: l =>
      result_bind (f x) (λ y, result_bind (result_mapM f l) (λ ys, Ok (y :: ys)))
  end.

Definition is_ok {A} (r : result A) : bool :=
  match r with Ok _ => true | Raise _ => false end.

Declare Scope result_scope.
Delimit Scope result_scope with result.
Notation "'let!' x := r 'in' k" := (result_bind r (λ x, k))
  (at level 10, x name, r at level 100, k at level 200,
   only parsing) : result_scope.

(** ** Python integers and sequences *)

Local Open Scope Z_scope.

(** [len(l)] as a Python [int]. *)
Definition py_len {A} (l : list A) : Z := Z.of_nat (length l).

(** How a slice bound is read against a sequence of length [n]: a negative
    bound counts from the end, and the result is clamped to [0..n]. *)
Definition py_clamp (n i : Z) : Z :=
  if i <? 0 then Z.max 0 (n + i) else Z.min i n.

(** [l[lo:hi]]. *)
Definition py_slice {A} (l : list A) (lo hi : Z) : list A :=
  let n := py_len l in
  let a := py_clamp n lo in
  let b := py_clamp n hi in
  take (Z.to_nat (b - a)) (drop (Z.to_nat a) l).

(** [l[:k]]. *)
Definition py_prefix {A} (l : list A) (k : Z) : list A := py_slice l 0 k.

(** [l[i]]: a negative index counts from the end; [IndexError] outside
    [-len(l) .. len(l)-1]. *)
Definition py_index {A} (l : list A) (i : Z) : result A :=
  if i <? 0 then
    match l !! Z.to_nat (py_len l + i) with
    | Some x => if 0 <=? py_len l + i then Ok x else Raise IndexError
    | None => Raise IndexError
    end
  else
    match l !! Z.to_nat i with
    | Some x => Ok x
    | None => Raise IndexError
    end.

(** [range(lo, hi, step)] for a positive [step]: [lo, lo+step, ...] below
    [hi].  (Python raises on [step = 0] and counts down on a negative one;
    the callers pass [max(1, ...)].) *)
Definition py_range (lo hi step : Z) : list Z :=
  if step <=? 0 then []
  else (λ i, lo + i * step) <$> seqZ 0 ((hi - lo + step - 1) `div` step).

(** [enumerate(l, start)]. *)
Definition py_enumerate {A} (start : Z) (l : list A) : list (Z * A) :=
  zip (seqZ start (py_len l)) l.

(** ** Tactics *)

(** Case analysis on every boolean comparison of integers in the goal. *)
Ltac zbool :=
  repeat match goal with
  | |- context [?a <? ?b] => destruct (Z.ltb_spec a b)
  | |- context [?a <=? ?b] => destruct (Z.leb_spec a b)
  | |- context [?a >=? ?b] => rewrite (Z.geb_leb a b)
  | |- context [?a >? ?b] => rewrite (Z.gtb_ltb a b)
  | |- context [?a =? ?b] => destruct (Z.eqb_spec a b)
  | H : context [?a <? ?b] |- _ => destruct (Z.ltb_spec a b)
  | H : context [?a <=? ?b] |- _ => destruct (Z.leb_spec a b)
  | H : context [?a >=? ?b] |- _ => rewrite (Z.geb_leb a b) in H
  | H : context [?a >? ?b] |- _ => rewrite (Z.gtb_ltb a b) in H
  | H : context [?a =? ?b] |- _ => destruct (Z.eqb_spec a b)
  end.

(** Inversion of equations between outcomes. *)
Ltac inv_result :=
  repeat match goal with
  | H : Ok _ = Ok _ |- _ => injection H as H; try subst
  | H : Raise _ = Raise _ |- _ => injection H as H; try subst
  | H : Ok _ = Raise _ |- _ => discriminate H
  | H : Raise _ = Ok _ |- _ => discriminate H
  | H : result_bind ?r _ = _ |- _ =>
      let E := fresh "E" in destruct r eqn:E; simpl in H
  end.

(** ** Lemmas on outcomes *)

Lemma result_bind_Ok {A B} (r : result A) (k : A → result B) b :
  result_bind r k = Ok b ↔ ∃ a, r = Ok a ∧ k a = Ok b.
Proof. destruct r; simpl; split; [eauto | | done |]; intros (? & ? & ?); by simplify_eq. Qed.

Lemma result_bind_Raise {A B} (r : result A) (k : A → result B) e :
  result_bind r k = Raise e ↔ r = Raise e ∨ ∃ a, r = Ok a ∧ k a = Raise e.
Proof.
  destruct r; simpl; split; eauto.
  - intros [|(? & ? & ?)]; by simplify_eq.
  - intros ?; left; congruence.
  - intros [|(? & ? & ?)]; by simplify_eq.
Qed.

Lemma result_catch_total {A} (r : result A) (h : exn → A) :
  ∃ a, result_catch r h = a.
Proof. eauto. Qed.

Lemma forallb_Forall {A} (f : A → bool) (l : list A) :
  forallb f l = true ↔ Forall (λ x, f x = true) l.
Proof.
  induction l as [|x l IH]; cbn [forallb]; [by split|].
  by rewrite andb_true_iff, Forall_cons, IH.
Qed.

Lemma result_map_Ok {A B} (f : A → B) (r : result A) b :
  result_map f r = Ok b → ∃ a, r = Ok a ∧ b = f a.
Proof. destruct r as [a|]; [|done]. intros [= <-]. by exists a. Qed.

Lemma result_mapM_Ok {A B} (f : A → result B) (l : list A) (ys : list B) :
  result_mapM f l = Ok ys ↔ Forall2 (λ x y, f x = Ok y) l ys.
Proof.
  revert ys. induction l as [|x l IH]; intros ys; simpl.
  - split; [intros [= <-]; constructor|by intros ->%Forall2_nil_inv_l].
  - split.
    + intros H. inv_result. constructor; [done|]. by apply IH.
    + intros (y & ys' & Hy & Hys & ->)%Forall2_cons_inv_l.
      rewrite Hy. simpl. apply IH in Hys. by rewrite Hys.
Qed.

(** ** Lemmas on slices *)

Section slices.
Context {A : Type}.
Implicit Types (l : list A) (lo hi k n i : Z).

Lemma py_len_nonneg l : 0 ≤ py_len l.
Proof. unfold py_len; lia. Qed.

Lemma py_len_app l1 l2 : py_len (l1 ++ l2) = py_len l1 + py_len l2.
Proof. unfold py_len. rewrite length_app. lia. Qed.

Lemma py_clamp_range n i : 0 ≤ n → 0 ≤ py_clamp n i ≤ n.
Proof. unfold py_clamp; intros; zbool; lia. Qed.

Lemma py_clamp_nonneg n i : 0 ≤ i → py_clamp n i = Z.min i n.
Proof. unfold py_clamp; intros; zbool; lia. Qed.

Lemma py_clamp_neg n i : i < 0 → py_clamp n i = Z.max 0 (n + i).
Proof. unfold py_clamp; intros; zbool; lia. Qed.

(** A slice with bounds inside the list is [take] after [drop]. *)
Lemma take_min_length l (m : nat) : take (m `min` length l) l = take m l.
Proof.
  destruct (Nat.le_gt_cases m (length l)).
  - by rewrite Nat.min_l.
  - rewrite Nat.min_r, !take_ge by lia. done.
Qed.

Lemma py_slice_nonneg l lo hi :
  0 ≤ lo → 0 ≤ hi →
  py_slice l lo hi = take (Z.to_nat hi - Z.to_nat lo) (drop (Z.to_nat lo) l).
Proof.
  intros Hlo Hhi. unfold py_slice. rewrite !py_clamp_nonneg by done.
  unfold py_len. destruct (Z.le_gt_cases lo (Z.of_nat (length l))) as [H1|H1].
  - rewrite (Z.min_l lo) by done.
    rewrite <- (take_min_length (drop _ _) (_ - _)), length_drop. f_equal. lia.
  - rewrite !drop_ge by lia. by rewrite !take_nil.
Qed.

Lemma py_slice_length l lo hi :
  py_len (py_slice l lo hi) =
  Z.max 0 (py_clamp (py_len l) hi - py_clamp (py_len l) lo).
Proof.
  unfold py_slice, py_len at 1. rewrite length_take, length_drop.
  pose proof (py_clamp_range (py_len l) lo (py_len_nonneg l)).
  pose proof (py_clamp_range (py_len l) hi (py_len_nonneg l)).
  unfold py_len in *. lia.
Qed.

Lemma py_prefix_nonneg l k : 0 ≤ k → py_prefix l k = take (Z.to_nat k) l.
Proof.
  intros. unfold py_prefix. rewrite py_slice_nonneg by lia.
  simpl. by rewrite Nat.sub_0_r.
Qed.

(** [l[:k]] for a negative [k] drops the last [-k] elements. *)
Lemma py_prefix_neg l k :
  k < 0 → py_prefix l k = take (length l - Z.to_nat (- k)) l.
Proof.
  intros. unfold py_prefix, py_slice.
  rewrite (py_clamp_nonneg _ 0), (py_clamp_neg _ k) by lia.
  pose proof (py_len_nonneg l). rewrite Z.min_l by lia. simpl.
  f_equal. unfold py_len. lia.
Qed.

Lemma py_prefix_length l k :
  0 ≤ k → length (py_prefix l k) = Nat.min (Z.to_nat k) (length l).
Proof. intros. rewrite py_prefix_nonneg by done. apply length_take. Qed.

Lemma py_prefix_is_prefix l k : py_prefix l k `prefix_of` l.
Proof.
  unfold py_prefix, py_slice.
  rewrite (py_clamp_nonneg _ 0), Z.min_l by (pose proof (py_len_nonneg l); lia).
  simpl. eexists. symmetry. apply take_drop.
Qed.

Lemma py_index_Ok l i x :
  0 ≤ i → (py_index l i = Ok x ↔ l !! Z.to_nat i = Some x).
Proof.
  intros. unfold py_index. destruct (Z.ltb_spec i 0); [lia|].
  destruct (l !! Z.to_nat i); split; intros; by simplify_eq.
Qed.

(** What an index reads is an element of the list. *)
Lemma py_index_elem l i x : py_index l i = Ok x → x ∈ l.
Proof.
  unfold py_index. intros Hx.
  repeat case_match; simplify_eq; by eapply list_elem_of_lookup_2.
Qed.

End slices.

(** ** Files and the end of a script *)

(** A file that holds a value of type [A] when it is complete: absent,
    holding a value, or left incomplete by a write that failed after the
    file was opened for writing. *)
Inductive file (A : Type) : Type :=
| Missing
| Holds (a : A)
| Torn.
Arguments Missing {A}.
Arguments Holds {A} a.
Arguments Torn {A}.

(** What a write does: it succeeds, it fails before the file is touched
    (the file cannot be opened), or it fails after the file was
    truncated. *)
Inductive write_outcome : Type :=
| Written
| Refused
| Interrupted.

#[export] Instance write_outcome_eq_dec : EqDecision write_outcome.
Proof. solve_decision. Defined.

Definition write_file {A} (o : write_outcome) (a : A) (f : file A) : file A :=
  match o with
  | Written => Holds a
  | Refused => f
  | Interrupted => Torn
  end.

(** What a reader can find in the file while the write runs, in order:
    from the opening for writing to the end of the write the file is
    incomplete. *)
Definition write_states {A} (o : write_outcome) (a : A) : list (file A) :=
  match o with
  | Written => [Torn; Holds a]
  | Refused => []
  | Interrupted => [Torn]
  end.

Lemma write_states_last {A} (o : write_outcome) (a : A) (f : file A) :
  last (f :: write_states o a) = Some (write_file o a f).
Proof. by destruct o. Qed.

(** How a script ends: its [main] returns, [sys.exit(code)] is called,
    or an exception leaves [main]. *)
Inductive exit_status : Type :=
| Completed
| Exit (code : Z)
| Uncaught (e : exn).

#[export] Instance exit_status_eq_dec : EqDecision exit_status.
Proof. solve_decision. Defined.

(** ** Lemmas on filters *)

Section filters.
Context {A : Type} (P : A → Prop) `{!∀ x, Decision (P x)}.

Lemma filter_Forall_id (l : list A) : Forall P l → filter P l = l.
Proof.
  induction 1 as [|x l Hx _ IH]; [done|].
  by rewrite filter_cons_True, IH.
Qed.

Lemma filter_Forall_nil (l : list A) : Forall (λ x, ¬ P x) l → filter P l = [].
Proof.
  induction 1 as [|x l Hx _ IH]; [done|]. by rewrite filter_cons_False.
Qed.

End filters.

(** Filtering pairs on a test of their first component keeps as many
    pairs as filtering the first components does. *)
Lemma filter_zip_fst_length {A B} (f : A → bool) (l : list A) (k : list B) :
  (length l ≤ length k)%nat →
  length (filter (λ p, f p.1 = true) (zip l k)) =
  length (filter (λ x, f x = true) l).
Proof.
  revert k. induction l as [|x l IH]; intros [|y k] Hlen; simpl in *;
    [done|done|lia|].
  rewrite !filter_cons. simpl. destruct (decide (f x = true)); simpl;
    rewrite IH; lia.
Qed.

(** ** Lemmas on ranges and enumerations *)

(** Consecutive blocks of [s] elements, from position [a], put end to
    end. *)
Lemma join_strided_takes {A} (l : list A) (a s k : nat) :
  mjoin ((λ m : nat, take s (drop (a + m * s) l)) <$> seq 0 k) =
  take (k * s) (drop a l).
Proof.
  induction k as [|k IH]; [done|].
  rewrite seq_S, fmap_app, join_app, IH. simpl.
  rewrite app_nil_r, <- (drop_drop _ (k * s) a), take_take_drop.
  f_equal. lia.
Qed.

Lemma py_range_length lo hi step :
  0 < step →
  py_len (py_range lo hi step) = Z.max 0 ((hi - lo + step - 1) `div` step).
Proof.
  intros. unfold py_range, py_len. destruct (Z.leb_spec step 0); [lia|].
  rewrite length_fmap, length_seqZ. lia.
Qed.

Lemma py_range_lookup lo hi step (i : nat) :
  0 < step → lo + Z.of_nat i * step < hi →
  py_range lo hi step !! i = Some (lo + Z.of_nat i * step).
Proof.
  intros Hs Hi. unfold py_range. destruct (Z.leb_spec step 0); [lia|].
  enough (Z.of_nat i + 1 ≤ (hi - lo + step - 1) `div` step).
  { rewrite list_lookup_fmap, lookup_seqZ_lt; [done|lia]. }
  apply Z.div_le_lower_bound; [done|]. nia.
Qed.

Lemma py_range_elem lo hi step x :
  0 < step →
  x ∈ py_range lo hi step ↔ ∃ i, 0 ≤ i ∧ x = lo + i * step ∧ x < hi.
Proof.
  intros Hs. unfold py_range. destruct (Z.leb_spec step 0); [lia|].
  rewrite list_elem_of_fmap. setoid_rewrite elem_of_seqZ. split.
  - intros (i & -> & Hi). exists i. split_and!; [lia|done|].
    assert (i + 1 ≤ (hi - lo + step - 1) `div` step) as Hle by lia.
    pose proof (Z.mul_div_le (hi - lo + step - 1) step Hs). nia.
  - intros (i & ? & -> & Hi). exists i. split; [done|]. split; [lia|].
    enough (i + 1 ≤ (hi - lo + step - 1) `div` step) by lia.
    apply Z.div_le_lower_bound; [done|]. nia.
Qed.

Lemma py_enumerate_nil {A} start : py_enumerate start ([] : list A) = [].
Proof. done. Qed.

Lemma py_enumerate_cons {A} start (x : A) (l : list A) :
  py_enumerate start (x :: l) = (start, x) :: py_enumerate (start + 1) l.
Proof.
  unfold py_enumerate, py_len. rewrite seqZ_cons by (simpl; lia).
  cbn [zip_with length]. do 3 f_equal; lia.
Qed.

Lemma py_enumerate_length {A} start (l : list A) :
  length (py_enumerate start l) = length l.
Proof.
  unfold py_enumerate, py_len. rewrite length_zip_with, length_seqZ. lia.
Qed.

Lemma py_enumerate_lookup {A} start (l : list A) (i : nat) x :
  l !! i = Some x → py_enumerate start l !! i = Some (start + Z.of_nat i, x).
Proof.
  intros Hx. unfold py_enumerate, py_len.
  apply lookup_zip_with_Some. eexists _, _. split_and!; [done| |done].
  apply lookup_seqZ_lt. apply lookup_lt_Some in Hx. lia.
Qed.

Lemma py_enumerate_snd {A} start (l : list A) :
  (py_enumerate start l).*2 = l.
Proof.
  unfold py_enumerate, py_len. apply snd_zip. rewrite length_seqZ. lia.
Qed.

Lemma py_enumerate_fst {A} start (l : list A) :
  (py_enumerate start l).*1 = seqZ start (py_len l).
Proof.
  unfold py_enumerate, py_len. apply fst_zip. rewrite length_seqZ. lia.
Qed.

#[export] Hint Resolve py_len_nonneg py_prefix_is_prefix : helpdesk.
#[export] Hint Rewrite @py_enumerate_length @py_enumerate_snd : helpdesk_rw.
