(* ===== verification/PyData.v ===== *)
(** * PyData: Python values, dictionaries and the string methods called

    The chunk store is a JSON array of objects: each object is a
    dictionary from strings to values ([pydict]).  [dict_get] and
    [dict_get_or] are [d.get(k)] and [d.get(k, v)].  The string
    functions are the ones the code calls, on ASCII: [str.lower],
    [str.strip], [re.findall(r'\w+', s)] and the [str()] rendering an
    f-string applies. *)

From stdpp Require Export gmap pretty.
From S2P Require Import Prelude.

Local Open Scope Z_scope.

(** ** Values and dictionaries *)

(** The values a chunk record holds: JSON [null], integers and strings. *)
Inductive pyval : Type :=
| PNone
| PInt (z : Z)
| PStr (s : string).

#[export] Instance pyval_eq_dec : EqDecision pyval.
Proof. solve_decision. Defined.

#[export] Instance pyval_inhabited : Inhabited pyval := populate PNone.

(** [pyval] is countable, so that sets of values (the distinct sources of
    the statistics) are [gset]s. *)
Definition pyval_encode (v : pyval) : unit + (Z + string) :=
  match v with
  | PNone => inl ()
  | PInt z => inr (inl z)
  | PStr s => inr (inr s)
  end.

Definition pyval_decode (x : unit + (Z + string)) : pyval :=
  match x with
  | inl _ => PNone
  | inr (inl z) => PInt z
  | inr (inr s) => PStr s
  end.

#[export] Instance pyval_countable : Countable pyval.
Proof.
  apply (inj_countable' pyval_encode pyval_decode). by intros [].
Defined.

(** A dictionary with string keys. *)
Abbreviation pydict := (gmap string pyval).

(** [d.get(k)]: [None] when the key is absent. *)
Definition dict_get (d : pydict) (k : string) : pyval := default PNone (d !! k).

(** [d.get(k, v)]. *)
Definition dict_get_or (d : pydict) (k : string) (v : pyval) : pyval :=
  default v (d !! k).

(** [d[k]]: [KeyError] when the key is absent. *)
Definition dict_item (d : pydict) (k : string) : result pyval :=
  match d !! k with
  | Some v => Ok v
  | None => Raise (KeyError k)
  end.

(** [str(v)], as an f-string renders a value. *)
Definition py_str (v : pyval) : string :=
  match v with
  | PNone => "None"
  | PInt z => pretty z
  | PStr s => s
  end.

(** ** Characters *)

Definition char_code (c : Ascii.ascii) : N := Ascii.N_of_ascii c.

Definition in_range (lo hi : N) (c : Ascii.ascii) : bool :=
  ((lo <=? char_code c) && (char_code c <=? hi))%N.

Definition is_upper (c : Ascii.ascii) : bool := in_range 65 90 c.
Definition is_lower (c : Ascii.ascii) : bool := in_range 97 122 c.
Definition is_digit (c : Ascii.ascii) : bool := in_range 48 57 c.

(** The ASCII characters [\w] matches: letters, digits and the underscore. *)
Definition is_word_char (c : Ascii.ascii) : bool :=
  is_upper c || is_lower c || is_digit c || (char_code c =? 95)%N.

(** The ASCII characters [str.strip] removes: tab to carriage return, the
    four separators 28..31 and the space. *)
Definition is_space (c : Ascii.ascii) : bool :=
  in_range 9 13 c || in_range 28 32 c.

Definition lower_char (c : Ascii.ascii) : Ascii.ascii :=
  if is_upper c then Ascii.ascii_of_N (char_code c + 32) else c.

(** ** Strings *)

Fixpoint str_map (f : Ascii.ascii → Ascii.ascii) (s : string) : string :=
  match s with
  | EmptyString => EmptyString
  | String c s => String (f c) (str_map f s)
  end.

(** [s.lower()]. *)
Definition str_lower (s : string) : string := str_map lower_char s.

(** [s.lstrip()]. *)
Fixpoint str_lstrip (s : string) : string :=
  match s with
  | EmptyString => EmptyString
  | String c s' => if is_space c then str_lstrip s' else s
  end.

(** [s.rstrip()]: a space is dropped when only spaces follow it. *)
Fixpoint str_rstrip (s : string) : string :=
  match s with
  | EmptyString => EmptyString
  | String c s' =>
      match str_rstrip s' with
      | EmptyString => if is_space c then EmptyString else String c EmptyString
      | r => String c r
      end
  end.

(** [s.strip()]. *)
Definition str_strip (s : string) : string := str_rstrip (str_lstrip s).

(** [not s]: the empty string is the only false one. *)
Definition str_is_empty (s : string) : bool :=
  match s with EmptyString => true | _ => false end.

(** Every character of [s] satisfies [p]. *)
Fixpoint str_forall (p : Ascii.ascii → bool) (s : string) : bool :=
  match s with
  | EmptyString => true
  | String c s => p c && str_forall p s
  end.

(** The scan of [re.findall(r'\w+', s)]: [cur] is the word being read,
    reversed; a character outside [\w] ends it. *)
Fixpoint findall_go (cur : list Ascii.ascii) (s : string) : list string :=
  let emit (k : list string) :=
    match cur with
    | [] => k
    | _ => String.string_of_list_ascii (reverse cur) :: k
    end in
  match s with
  | EmptyString => emit []
  | String c s' =>
      if is_word_char c then findall_go (c :: cur) s'
      else emit (findall_go [] s')
  end.

(** [re.findall(r'\w+', s)]: the maximal runs of word characters, in
    order of occurrence. *)
Definition findall_words (s : string) : list string := findall_go [] s.

(** [set(re.findall(r'\w+', s))]. *)
Definition word_set (s : string) : gset string := list_to_set (findall_words s).

(** [s.endswith(suffix)]: [s] is [suffix], or its tail ends with it. *)
Fixpoint str_endswith (suffix s : string) : bool :=
  String.eqb s suffix ||
  match s with
  | EmptyString => false
  | String _ s' => str_endswith suffix s'
  end.

(** [s.startswith(prefix)]. *)
Definition str_startswith (prefix s : string) : bool := String.prefix prefix s.

(** The scan of [s.split(sep)[-1]]: [cur] is the segment being read,
    reversed; a separator starts a new one. *)
Fixpoint last_segment_go (sep : Ascii.ascii) (cur : list Ascii.ascii) (s : string)
    : string :=
  match s with
  | EmptyString => String.string_of_list_ascii (reverse cur)
  | String c s' =>
      if Ascii.eqb c sep then last_segment_go sep [] s'
      else last_segment_go sep (c :: cur) s'
  end.

(** [s.split(sep)[-1]] for a separator of one character: what follows
    the last separator, [s] itself when there is none. *)
Definition str_last_segment (sep : Ascii.ascii) (s : string) : string :=
  last_segment_go sep [] s.

(** The character [/]. *)
Definition slash : Ascii.ascii := Ascii.ascii_of_nat 47.

(** The character [c] occurs in [s]. *)
Fixpoint str_contains (c : Ascii.ascii) (s : string) : bool :=
  match s with
  | EmptyString => false
  | String x s' => Ascii.eqb x c || str_contains c s'
  end.

(** [len(s)]. *)
Definition str_len (s : string) : Z := Z.of_nat (String.length s).

(** [s[:n]]. *)
Definition str_prefix (s : string) (n : Z) : string :=
  String.string_of_list_ascii (py_prefix (String.list_ascii_of_string s) n).

(** [s.replace(a, b)] for two characters. *)
Definition str_replace (a b : Ascii.ascii) (s : string) : string :=
  str_map (λ c, if Ascii.eqb c a then b else c) s.

(** [''.join(parts)]. *)
Definition str_concat (parts : list string) : string := foldr String.append "" parts.

(** ** Lemmas *)

Lemma str_app_cons x (a b : string) : String x a +:+ b = String x (a +:+ b).
Proof. reflexivity. Qed.

Lemma str_app_nil_l (a : string) : "" +:+ a = a.
Proof. reflexivity. Qed.

Lemma str_app_assoc (a b c : string) : (a +:+ b) +:+ c = a +:+ (b +:+ c).
Proof. induction a as [|x a IH]; [done|]. by rewrite !str_app_cons, IH. Qed.

Lemma str_app_nil_r (a : string) : a +:+ "" = a.
Proof. induction a as [|x a IH]; [done|]. by rewrite str_app_cons, IH. Qed.

Lemma str_app_length (a b : string) :
  String.length (a +:+ b) = (String.length a + String.length b)%nat.
Proof.
  induction a as [|x a IH]; [done|]. rewrite str_app_cons. simpl. by rewrite IH.
Qed.

Lemma str_concat_app (l1 l2 : list string) :
  str_concat (l1 ++ l2) = str_concat l1 +:+ str_concat l2.
Proof.
  unfold str_concat. induction l1 as [|x l1 IH]; [done|].
  cbn [foldr app]. by rewrite IH, str_app_assoc.
Qed.

Lemma dict_get_insert d k v : dict_get (<[k:=v]> d) k = v.
Proof. unfold dict_get. by rewrite lookup_insert_eq. Qed.

Lemma dict_get_insert_ne d k k' v :
  k ≠ k' → dict_get (<[k:=v]> d) k' = dict_get d k'.
Proof. intros. unfold dict_get. by rewrite lookup_insert_ne. Qed.

Lemma dict_get_or_Some d k v x : d !! k = Some x → dict_get_or d k v = x.
Proof. intros H. unfold dict_get_or. by rewrite H. Qed.

Lemma dict_get_or_None d k v : d !! k = None → dict_get_or d k v = v.
Proof. intros H. unfold dict_get_or. by rewrite H. Qed.

Lemma lower_char_not_upper c : is_upper (lower_char c) = false.
Proof.
  unfold lower_char. destruct (is_upper c) eqn:E; [|done].
  revert E. unfold is_upper, in_range, char_code.
  destruct c as [[] [] [] [] [] [] [] []]; by vm_compute.
Qed.

Lemma lower_char_idemp c : lower_char (lower_char c) = lower_char c.
Proof. unfold lower_char at 1. by rewrite lower_char_not_upper. Qed.

Lemma str_lower_idemp s : str_lower (str_lower s) = str_lower s.
Proof.
  unfold str_lower. induction s as [|c s IH]; simpl; [done|].
  by rewrite lower_char_idemp, IH.
Qed.

Lemma str_lower_length s : String.length (str_lower s) = String.length s.
Proof. unfold str_lower. induction s; simpl; congruence. Qed.

Lemma str_map_length f s : String.length (str_map f s) = String.length s.
Proof. induction s as [|c s IH]; simpl; congruence. Qed.

Lemma str_replace_length a b s :
  String.length (str_replace a b s) = String.length s.
Proof. apply str_map_length. Qed.

Lemma str_lstrip_length s : (String.length (str_lstrip s) ≤ String.length s)%nat.
Proof. induction s as [|c s IH]; simpl; [done|]. destruct (is_space c); simpl; lia. Qed.

Lemma str_rstrip_length s : (String.length (str_rstrip s) ≤ String.length s)%nat.
Proof.
  induction s as [|c s IH]; simpl; [done|].
  destruct (str_rstrip s); [destruct (is_space c)|]; simpl in *; lia.
Qed.

(** [strip] does not lengthen a string. *)
Lemma str_strip_length s : (String.length (str_strip s) ≤ String.length s)%nat.
Proof.
  unfold str_strip. etrans; [apply str_rstrip_length|apply str_lstrip_length].
Qed.

Lemma string_of_list_length (l : list Ascii.ascii) :
  String.length (String.string_of_list_ascii l) = length l.
Proof. induction l; simpl; congruence. Qed.

Lemma list_of_string_length (s : string) :
  length (String.list_ascii_of_string s) = String.length s.
Proof. induction s; simpl; congruence. Qed.

(** [len(s[:n]) = min(n, len(s))] for [0 <= n]. *)
Lemma str_prefix_length s n :
  0 ≤ n → str_len (str_prefix s n) = Z.min n (str_len s).
Proof.
  intros Hn. unfold str_len, str_prefix.
  rewrite string_of_list_length, py_prefix_length, list_of_string_length by done. lia.
Qed.

(** A prefix that is not shorter than the string is the string. *)
Lemma str_prefix_all s n : str_len s ≤ n → str_prefix s n = s.
Proof.
  intros Hn. unfold str_prefix, str_len in *.
  rewrite py_prefix_nonneg by lia.
  rewrite take_ge by (rewrite list_of_string_length; lia).
  apply String.string_of_list_ascii_of_string.
Qed.

Lemma str_lstrip_blank s : str_forall is_space s = true → str_lstrip s = "".
Proof.
  induction s as [|c s IH]; simpl; [done|].
  intros [-> ?]%andb_true_iff. auto.
Qed.

Lemma str_rstrip_empty s :
  str_rstrip s = "" ↔ str_forall is_space s = true.
Proof.
  induction s as [|c s IH]; simpl; [done|].
  destruct (str_rstrip s) eqn:E.
  - destruct (is_space c); simpl; [by rewrite <- IH|done].
  - split; [done|]. intros [_ H]%andb_true_iff. by apply IH in H.
Qed.

Lemma str_lstrip_forall s :
  str_forall is_space (str_lstrip s) = str_forall is_space s.
Proof.
  induction s as [|c s IH]; simpl; [done|].
  destruct (is_space c) eqn:E; simpl; [done|]. by rewrite E.
Qed.

(** [s.strip()] is empty exactly when [s] holds only whitespace. *)
Lemma str_strip_empty s :
  str_is_empty (str_strip s) = str_forall is_space s.
Proof.
  unfold str_strip. rewrite <- str_lstrip_forall.
  destruct (str_rstrip (str_lstrip s)) eqn:E; simpl.
  - symmetry. by apply str_rstrip_empty.
  - destruct (str_forall is_space (str_lstrip s)) eqn:F; [|done].
    apply str_rstrip_empty in F. congruence.
Qed.

Lemma str_endswith_spec suffix s :
  str_endswith suffix s = true ↔ ∃ p, s = p +:+ suffix.
Proof.
  induction s as [|c s IH]; cbn [str_endswith].
  - rewrite orb_false_r, String.eqb_eq. split.
    + intros <-. by exists "".
    + intros [[|x p] Hp]; [done|by rewrite str_app_cons in Hp].
  - rewrite orb_true_iff, String.eqb_eq, IH. split.
    + intros [<-|[p ->]]; [by exists ""|]. exists (String c p). by rewrite str_app_cons.
    + intros [[|x p] Hp]; [by left|]. rewrite str_app_cons in Hp.
      injection Hp as -> ->. right. by exists p.
Qed.

Lemma str_endswith_app p suffix s :
  str_endswith suffix s = true → str_endswith suffix (p +:+ s) = true.
Proof.
  rewrite !str_endswith_spec. intros [q ->]. exists (p +:+ q).
  by rewrite str_app_assoc.
Qed.

Lemma str_endswith_trans t suffix s :
  str_endswith suffix t = true → str_endswith t s = true →
  str_endswith suffix s = true.
Proof.
  rewrite !str_endswith_spec. intros [q ->] [p ->]. exists (p +:+ q).
  by rewrite str_app_assoc.
Qed.

(** Stripping on the left keeps a suffix that starts with no space. *)
Lemma str_endswith_lstrip c t s :
  is_space c = false → str_endswith (String c t) s = true →
  str_endswith (String c t) (str_lstrip s) = true.
Proof.
  intros Hc. induction s as [|x s IH]; [done|]. cbn [str_lstrip].
  destruct (is_space x) eqn:Hx; [|done]. cbn [str_endswith].
  intros [Heq%String.eqb_eq|Hs]%orb_true_iff; [|by apply IH]. congruence.
Qed.

(** Stripping on the right changes nothing when the last character is
    no space. *)
Lemma str_rstrip_id x s :
  is_space x = false → str_endswith (String x "") s = true → str_rstrip s = s.
Proof.
  intros Hx. induction s as [|c s IH]; [done|]. cbn [str_endswith str_rstrip].
  intros [Heq%String.eqb_eq|Hs]%orb_true_iff.
  - injection Heq as -> ->. cbn. by rewrite Hx.
  - rewrite (IH Hs). destruct s; [done|done].
Qed.

(** [s.strip()] keeps a suffix that starts and ends with no space. *)
Lemma str_endswith_strip c t x s :
  is_space c = false → is_space x = false →
  str_endswith (String x "") (String c t) = true →
  str_endswith (String c t) s = true →
  str_endswith (String c t) (str_strip s) = true.
Proof.
  intros Hc Hx Hlast Hs. unfold str_strip.
  pose proof (str_endswith_lstrip c t s Hc Hs) as Hl.
  by rewrite (str_rstrip_id x _ Hx (str_endswith_trans _ _ _ Hlast Hl)).
Qed.

Lemma string_of_list_app (l1 l2 : list Ascii.ascii) :
  String.string_of_list_ascii (l1 ++ l2) =
  String.string_of_list_ascii l1 +:+ String.string_of_list_ascii l2.
Proof. induction l1 as [|c l1 IH]; [done|]. cbn. by rewrite str_app_cons, IH. Qed.

Lemma str_contains_app c (a b : string) :
  str_contains c (a +:+ b) = str_contains c a || str_contains c b.
Proof.
  induction a as [|x a IH]; [done|]. rewrite str_app_cons. cbn.
  by rewrite IH, orb_assoc.
Qed.

(** The last segment holds no separator, and [s] is the last segment
    after a prefix that is empty or ends with the separator. *)
Lemma last_segment_go_spec sep cur s :
  Forall (λ c, Ascii.eqb c sep = false) cur →
  str_contains sep (last_segment_go sep cur s) = false ∧
  ∃ p, String.string_of_list_ascii (reverse cur) +:+ s =
         p +:+ last_segment_go sep cur s ∧
       (p = "" ∨ str_endswith (String sep "") p = true).
Proof.
  revert cur. induction s as [|c s IH]; intros cur Hcur; cbn [last_segment_go].
  - split.
    + apply Forall_reverse in Hcur. induction Hcur as [|x l Hx _ IHl]; [done|].
      cbn. by rewrite Hx.
    + exists "". rewrite str_app_nil_r. auto.
  - destruct (Ascii.eqb c sep) eqn:E.
    + apply Ascii.eqb_eq in E as ->.
      destruct (IH [] (Forall_nil_2 _)) as (Hc & p & Hp & Hsep). split; [done|].
      cbn in Hp. rewrite str_app_nil_l in Hp.
      exists (String.string_of_list_ascii (reverse cur) +:+ String sep "" +:+ p).
      split.
      * rewrite Hp at 1. rewrite !str_app_assoc.
        by rewrite (str_app_cons sep ""), str_app_nil_l.
      * right. apply str_endswith_spec. destruct Hsep as [->|[q ->]%str_endswith_spec].
        -- eexists. by rewrite str_app_nil_r.
        -- exists (String.string_of_list_ascii (reverse cur) +:+ String sep "" +:+ q).
           by rewrite !str_app_assoc.
    + destruct (IH (c :: cur)) as (Hc & p & Hp & Hsep); [by constructor|].
      split; [done|]. exists p. split; [|done]. rewrite <- Hp.
      rewrite reverse_cons, string_of_list_app, str_app_assoc. done.
Qed.

Lemma str_last_segment_spec sep s :
  str_contains sep (str_last_segment sep s) = false ∧
  ∃ p, s = p +:+ str_last_segment sep s ∧
       (p = "" ∨ str_endswith (String sep "") p = true).
Proof.
  destruct (last_segment_go_spec sep [] s (Forall_nil_2 _)) as (Hc & p & Hp & Hsep).
  split; [done|]. exists p. split; [exact Hp|done].
Qed.

(** Every word [findall_words] returns is a non-empty run of word
    characters. *)
Lemma findall_go_words cur s w :
  Forall (λ c, is_word_char c = true) cur →
  w ∈ findall_go cur s →
  w ≠ "" ∧ str_forall is_word_char w = true.
Proof.
  assert (Hemit : ∀ cur, Forall (λ c, is_word_char c = true) cur → cur ≠ [] →
    String.string_of_list_ascii (reverse cur) ≠ "" ∧
    str_forall is_word_char (String.string_of_list_ascii (reverse cur)) = true).
  { intros cur' Hc Hne. apply Forall_reverse in Hc.
    assert (reverse cur' ≠ []) as Hne'.
    { intros E. apply Hne. by rewrite <- (reverse_involutive cur'), E. }
    revert Hc Hne'. generalize (reverse cur'). intros l Hl Hne'.
    split; [by destruct l|]. induction Hl as [|c l Hc _ IH]; simpl; [done|].
    rewrite Hc. simpl. destruct l; [done|]. by apply IH. }
  revert cur. induction s as [|c s IH]; intros cur Hcur; simpl.
  - destruct cur; [by intros ?%elem_of_nil|].
    intros ->%list_elem_of_singleton. by apply Hemit.
  - destruct (is_word_char c) eqn:Ec.
    + apply IH. by constructor.
    + destruct cur.
      * by apply IH.
      * intros [->|?]%elem_of_cons; [by apply Hemit|by apply (IH [])].
Qed.

Lemma findall_words_spec s w :
  w ∈ findall_words s → w ≠ "" ∧ str_forall is_word_char w = true.
Proof. by apply findall_go_words. Qed.

Lemma word_set_elem s w : w ∈ word_set s ↔ w ∈ findall_words s.
Proof. unfold word_set. by rewrite elem_of_list_to_set. Qed.

(** ** Concrete runs *)

Example findall_words_ex :
  findall_words "visa fee, 500 rupees!" = ["visa"; "fee"; "500"; "rupees"].
Proof. reflexivity. Qed.

Example str_lower_ex : str_lower "Visa Application_Fee 9" = "visa application_fee 9".
Proof. reflexivity. Qed.

Example str_strip_ex : str_strip "  a b
 " = "a b".
Proof. reflexivity. Qed.

Example str_last_segment_ex :
  str_last_segment slash "https://site/docs/a.pdf" = "a.pdf" ∧
  str_last_segment slash "a.pdf" = "a.pdf" ∧ str_last_segment slash "docs/" = "".
Proof. by vm_compute. Qed.

Example str_endswith_ex :
  str_endswith ".pdf" "docs/a.pdf" = true ∧ str_endswith ".pdf" "a.pdf " = false ∧
  str_endswith ".pdf" "a.PDF" = false.
Proof. by vm_compute. Qed.

Example str_prefix_ex :
  str_prefix "abcdef" 4 = "abcd" ∧ str_prefix "abcdef" (-2) = "abcd" ∧
  str_prefix "abc" 10 = "abc" ∧ str_prefix "abc" (-10) = "".
Proof. by vm_compute. Qed.

Example py_str_ex : py_str (PInt 12) = "12" ∧ py_str PNone = "None".
Proof. by vm_compute. Qed.
