(* ===== verification/Score.v ===== *)
(** * Score: the numbers of the ranking code

    [retrieve] adds a semantic score (an inner product of floating-point
    vectors) and a boost ([keyword_boost * len(matches)]) and sorts by the
    sum.  [ScoreOps] is the interface of these numbers and [ScoreLaws] the
    laws the theorems use: the comparison is a total preorder, and adding
    a boost and scaling a non-negative boost are monotone.  [ScoreStrict]
    adds strict monotonicity, which exact arithmetic has and rounding
    arithmetic can lose by absorption.  [Q] is an instance of all three. *)

From Stdlib Require Import QArith Qround Lqa.
From S2P Require Import Prelude.

(** The operations. [s_of_Z] is the conversion of a Python [int] that the
    product [keyword_boost * len(...)] applies; [s_leb a b] is [a <= b]. *)
Class ScoreOps (Sc : Type) := {
  s_zero : Sc;
  s_add : Sc → Sc → Sc;
  s_mul : Sc → Sc → Sc;
  s_div : Sc → Sc → Sc;
  s_sqrt : Sc → Sc;
  s_of_Z : Z → Sc;
  s_eps : Sc;
  s_leb : Sc → Sc → bool;
}.

(** [a < b], as the negation of [b <= a]. *)
Definition s_ltb `{ScoreOps Sc} (a b : Sc) : bool := negb (s_leb b a).

(** [a] and [b] compare equal. *)
Definition s_equiv `{ScoreOps Sc} (a b : Sc) : bool := s_leb a b && s_leb b a.

Class ScoreLaws (Sc : Type) `{ScoreOps Sc} := {
  s_leb_total a b : s_leb a b = true ∨ s_leb b a = true;
  s_leb_trans a b c : s_leb a b = true → s_leb b c = true → s_leb a c = true;
  s_add_mono c a b : s_leb a b = true → s_leb (s_add c a) (s_add c b) = true;
  s_scale_mono k (n m : Z) :
    s_leb s_zero k = true → (n ≤ m)%Z →
    s_leb (s_mul k (s_of_Z n)) (s_mul k (s_of_Z m)) = true;
}.

Class ScoreStrict (Sc : Type) `{ScoreOps Sc} := {
  s_add_strict c a b : s_ltb a b = true → s_ltb (s_add c a) (s_add c b) = true;
  s_scale_strict k (n m : Z) :
    s_ltb s_zero k = true → (n < m)%Z →
    s_ltb (s_mul k (s_of_Z n)) (s_mul k (s_of_Z m)) = true;
}.

(** ** Consequences of the laws *)

Section laws.
Context `{ScoreLaws Sc}.
Implicit Types a b c : Sc.

Lemma s_leb_refl a : s_leb a a = true.
Proof. by destruct (s_leb_total a a). Qed.

Lemma s_ltb_leb a b : s_ltb a b = true → s_leb a b = true.
Proof.
  unfold s_ltb. intros Hn%negb_true_iff.
  destruct (s_leb_total a b); congruence.
Qed.

Lemma s_ltb_irrefl a : s_ltb a a = false.
Proof. unfold s_ltb. by rewrite s_leb_refl. Qed.

Lemma s_leb_ltb_trans a b c :
  s_leb a b = true → s_ltb b c = true → s_ltb a c = true.
Proof.
  unfold s_ltb. intros Hab Hbc%negb_true_iff. apply negb_true_iff.
  destruct (s_leb c a) eqn:E; [|done].
  by rewrite (s_leb_trans c a b) in Hbc.
Qed.

Lemma s_ltb_leb_trans a b c :
  s_ltb a b = true → s_leb b c = true → s_ltb a c = true.
Proof.
  unfold s_ltb. intros Hab%negb_true_iff Hbc. apply negb_true_iff.
  destruct (s_leb c a) eqn:E; [|done].
  by rewrite (s_leb_trans b c a) in Hab.
Qed.

Lemma s_equiv_refl a : s_equiv a a = true.
Proof. unfold s_equiv. by rewrite s_leb_refl. Qed.

Lemma s_equiv_sym a b : s_equiv a b = s_equiv b a.
Proof. unfold s_equiv. apply andb_comm. Qed.

Lemma s_equiv_trans a b c :
  s_equiv a b = true → s_equiv b c = true → s_equiv a c = true.
Proof.
  unfold s_equiv. intros [??]%andb_true_iff [??]%andb_true_iff.
  apply andb_true_iff. eauto using s_leb_trans.
Qed.

End laws.

(** The order on scores as a relation, for [Sorted] and [transitivity]. *)
Definition s_le `{ScoreOps Sc} (a b : Sc) : Prop := s_leb a b = true.

#[export] Instance s_le_dec `{ScoreOps Sc} (a b : Sc) : Decision (s_le a b).
Proof. unfold s_le. apply _. Defined.

#[export] Instance s_le_preorder `{ScoreLaws Sc} : PreOrder (s_le (Sc:=Sc)).
Proof.
  split; [intros a; apply s_leb_refl|intros a b c; apply s_leb_trans].
Qed.

#[export] Instance s_le_total `{ScoreLaws Sc} : Total (s_le (Sc:=Sc)).
Proof. intros a b. apply s_leb_total. Qed.

(** ** The rationals *)

(** The square root on [Q] is the floor of the root of numerator and
    denominator scaled by [10^24]: exact to 12 decimal digits, as the
    epsilon [1e-12] of the code.  No theorem depends on it. *)
Definition Q_sqrt (q : Q) : Q :=
  Qmake (Z.sqrt (Qfloor (Qmult q (inject_Z (10 ^ 24)%Z)))) (10 ^ 12)%positive.

#[export] Instance Q_score : ScoreOps Q := {|
  s_zero := 0%Q;
  s_add := Qplus;
  s_mul := Qmult;
  s_div := Qdiv;
  s_sqrt := Q_sqrt;
  s_of_Z := inject_Z;
  s_eps := Qmake 1 (10 ^ 12)%positive;
  s_leb := Qle_bool;
|}.

Lemma Qle_bool_false (a b : Q) : Qle_bool a b = false ↔ (b < a)%Q.
Proof.
  pose proof (Qle_bool_iff a b). destruct (Qle_bool a b); split; try done.
  - intros ?. assert (a <= b)%Q by tauto. lra.
  - intros _. apply Qnot_le_lt. intros ?. assert (false = true) by tauto. done.
Qed.

Lemma Q_ltb_lt (a b : Q) : s_ltb a b = true ↔ (a < b)%Q.
Proof. unfold s_ltb. simpl. by rewrite negb_true_iff, Qle_bool_false. Qed.

#[export] Instance Q_score_laws : ScoreLaws Q.
Proof.
  split; simpl; intros *; rewrite ?Qle_bool_iff.
  - lra.
  - lra.
  - lra.
  - intros Hk Hnm. rewrite (Zle_Qle n m) in Hnm. nra.
Qed.

#[export] Instance Q_score_strict : ScoreStrict Q.
Proof.
  split; intros *; rewrite ?Q_ltb_lt; simpl.
  - lra.
  - intros Hk Hnm. rewrite (Zlt_Qlt n m) in Hnm. nra.
Qed.
