(* ===== verification/PySort.v ===== *)
(** * PySort: [list.sort(key=..., reverse=True)]

    Python sorts stably, and with [reverse=True] elements whose keys
    compare equal keep their original order.  The model is a stable
    insertion sort into descending order, [sort_desc].  Its result is
    sorted, a permutation of the input and stable; and a list with these
    three properties is unique ([sort_desc_unique]), so the model agrees
    with any stable sorting algorithm, whichever one the interpreter
    runs. *)

From stdpp Require Import sorting.
From S2P Require Import Prelude.

Section sort.
Context {A K : Type} (leb : K → K → bool) (key : A → K).
Implicit Types (x y : A) (l : list A).

(** [x] goes before the first element whose key is not above its own:
    before its equals, which come later in the original list. *)
Fixpoint insert_desc (x : A) (l : list A) : list A :=
  match l with
  | [] => [x]
  | y :: l' => if leb (key y) (key x) then x :: l else y :: insert_desc x l'
  end.

(** [l.sort(key=key, reverse=True)]. *)
Definition sort_desc (l : list A) : list A := foldr insert_desc [] l.

(** [x] may stand before [y] in a descending list. *)
Definition ge_key (x y : A) : Prop := leb (key y) (key x) = true.

(** The keys of [x] and [y] compare equal. *)
Definition same_key (x y : A) : bool := leb (key x) (key y) && leb (key y) (key x).

(** Sorted by key, largest first. *)
Definition desc_sorted (l : list A) : Prop := StronglySorted ge_key l.

(** [l'] keeps the elements of every key in the order they have in [l]. *)
Definition stable_of (l l' : list A) : Prop :=
  ∀ x, filter (λ y, same_key y x = true) l' = filter (λ y, same_key y x = true) l.

(** ** Properties that need no law *)

Lemma insert_desc_perm x l : insert_desc x l ≡ₚ x :: l.
Proof.
  induction l as [|y l IH]; simpl; [done|].
  destruct (leb _ _); [done|]. rewrite IH. apply Permutation_swap.
Qed.

Lemma sort_desc_perm l : sort_desc l ≡ₚ l.
Proof.
  induction l as [|x l IH]; simpl; [done|].
  by rewrite insert_desc_perm, IH.
Qed.

Lemma sort_desc_length l : length (sort_desc l) = length l.
Proof. by rewrite sort_desc_perm. Qed.

Lemma sort_desc_elem x l : x ∈ sort_desc l ↔ x ∈ l.
Proof. by rewrite sort_desc_perm. Qed.

(** ** Properties of a total preorder *)

Hypothesis leb_total : ∀ a b, leb a b = true ∨ leb b a = true.
Hypothesis leb_trans : ∀ a b c, leb a b = true → leb b c = true → leb a c = true.

Lemma ge_key_trans x y z : ge_key x y → ge_key y z → ge_key x z.
Proof. unfold ge_key. eauto. Qed.

Lemma same_key_refl x : same_key x x = true.
Proof. unfold same_key. by destruct (leb_total (key x) (key x)) as [-> | ->]. Qed.

Lemma same_key_sym x y : same_key x y = same_key y x.
Proof. unfold same_key. apply andb_comm. Qed.

Lemma same_key_trans x y z :
  same_key x y = true → same_key y z = true → same_key x z = true.
Proof.
  unfold same_key. intros [??]%andb_true_iff [??]%andb_true_iff.
  apply andb_true_iff. eauto.
Qed.

Lemma insert_desc_sorted x l : desc_sorted l → desc_sorted (insert_desc x l).
Proof.
  unfold desc_sorted. induction 1 as [|y l Hl IH Hy]; simpl.
  - repeat constructor.
  - destruct (leb (key y) (key x)) eqn:E.
    + constructor; [by constructor|]. constructor; [done|].
      eapply Forall_impl; [done|]. intros z Hz. by eapply ge_key_trans.
    + constructor; [done|]. rewrite (insert_desc_perm x l).
      constructor; [|done]. unfold ge_key.
      destruct (leb_total (key x) (key y)); congruence.
Qed.

Lemma sort_desc_sorted l : desc_sorted (sort_desc l).
Proof.
  induction l as [|x l IH]; simpl; [constructor|by apply insert_desc_sorted].
Qed.

Lemma insert_desc_filter x z l :
  filter (λ y, same_key y z = true) (insert_desc x l) =
  filter (λ y, same_key y z = true) (x :: l).
Proof.
  induction l as [|y l IH]; simpl; [done|].
  destruct (leb (key y) (key x)) eqn:E; [done|].
  rewrite !filter_cons in *. rewrite IH.
  destruct (decide (same_key x z = true)) as [Hx|Hx]; [|done].
  destruct (decide (same_key y z = true)) as [Hy|Hy]; [|done].
  rewrite same_key_sym in Hx. pose proof (same_key_trans _ _ _ Hy Hx) as Hyx.
  unfold same_key in Hyx. apply andb_true_iff in Hyx as [? _]. congruence.
Qed.

Lemma sort_desc_stable l : stable_of l (sort_desc l).
Proof.
  intros z. induction l as [|x l IH]; simpl; [done|].
  rewrite insert_desc_filter, !filter_cons. by rewrite IH.
Qed.

(** Two descending lists with the same elements of every key, in the same
    order, are equal. *)
Lemma desc_sorted_stable_eq l1 l2 :
  desc_sorted l1 → desc_sorted l2 → stable_of l1 l2 → l1 = l2.
Proof.
  intros H1. revert l2. induction H1 as [|a l1 Hs1 IH Ha]; intros l2 H2 Hst.
  - destruct l2 as [|b l2]; [done|]. specialize (Hst b).
    rewrite filter_cons, decide_True in Hst by apply same_key_refl. done.
  - destruct H2 as [|b l2 Hs2 Hb].
    { specialize (Hst a). rewrite filter_cons, decide_True in Hst
        by apply same_key_refl. done. }
    assert (a ∈ b :: l2) as Ha2.
    { eapply (list_elem_of_filter (λ y, same_key y a = true)).
      rewrite (Hst a), filter_cons, decide_True by apply same_key_refl.
      apply list_elem_of_here. }
    assert (b ∈ a :: l1) as Hb1.
    { eapply (list_elem_of_filter (λ y, same_key y b = true)).
      rewrite <- (Hst b), filter_cons, decide_True by apply same_key_refl.
      apply list_elem_of_here. }
    assert (same_key b a = true) as Hba.
    { unfold same_key. apply andb_true_iff. split.
      - apply elem_of_cons in Hb1 as [->|Hb1]; [by destruct (leb_total (key a) (key a))|].
        by apply (proj1 (Forall_forall _ _) Ha).
      - apply elem_of_cons in Ha2 as [->|Ha2]; [by destruct (leb_total (key b) (key b))|].
        by apply (proj1 (Forall_forall _ _) Hb). }
    pose proof (Hst a) as Hh. rewrite !filter_cons in Hh.
    rewrite !decide_True in Hh by (done || apply same_key_refl).
    injection Hh as -> _. f_equal. apply IH; [done|].
    intros x. specialize (Hst x). rewrite !filter_cons in Hst.
    destruct (decide (same_key a x = true)); by simplify_eq.
Qed.

(** Any stable descending arrangement of [l] is [sort_desc l]. *)
Theorem sort_desc_unique l l' :
  desc_sorted l' → stable_of l l' → l' = sort_desc l.
Proof.
  intros Hs Hst. symmetry. apply desc_sorted_stable_eq; [apply sort_desc_sorted|done|].
  intros x. by rewrite Hst, sort_desc_stable.
Qed.

(** In a descending list an element with a strictly larger key stands
    before one with a smaller key. *)
Lemma desc_sorted_lookup_lt l (i j : nat) x y :
  desc_sorted l → l !! i = Some x → l !! j = Some y →
  leb (key x) (key y) = false → (i < j)%nat.
Proof.
  intros Hs Hi Hj Hlt. destruct (decide (i < j)%nat) as [|Hge]; [done|].
  exfalso. destruct (decide (i = j)) as [->|].
  { rewrite Hi in Hj. injection Hj as <-.
    destruct (leb_total (key x) (key x)); congruence. }
  assert (ge_key y x) as Hl; [|unfold ge_key in Hl; congruence].
  unfold desc_sorted in Hs. rewrite <- (take_drop_middle l j y Hj) in Hs.
  apply StronglySorted_app_1_r, StronglySorted_inv in Hs as [_ Hall].
  apply (proj1 (Forall_forall _ _) Hall), list_elem_of_lookup.
  exists (i - S j)%nat. rewrite lookup_drop, <- Hi. f_equal. lia.
Qed.

Lemma desc_sorted_prefix l l' : l' `prefix_of` l → desc_sorted l → desc_sorted l'.
Proof.
  intros [k ->] Hs. by apply StronglySorted_app_1_l in Hs.
Qed.

(** The first [n] elements of a descending list dominate the others. *)
Lemma desc_sorted_take_drop l (n : nat) x y :
  desc_sorted l → x ∈ take n l → y ∈ drop n l → ge_key x y.
Proof.
  intros Hs Hx Hy. unfold desc_sorted in Hs. rewrite <- (take_drop n l) in Hs.
  by eapply StronglySorted_app_1_elem_of.
Qed.

End sort.

(** Sorting through a projection. *)
Lemma desc_sorted_fmap {A B K} (leb : K → K → bool) (key : B → K) (f : A → B)
    (l : list A) :
  desc_sorted leb (key ∘ f) l → desc_sorted leb key (f <$> l).
Proof.
  unfold desc_sorted. induction 1 as [|x l _ IH Hx]; simpl; constructor; [done|].
  by apply Forall_fmap.
Qed.

Arguments desc_sorted {A K} leb key l.
Arguments stable_of {A K} leb key l l'.
Arguments ge_key {A K} leb key x y.
Arguments same_key {A K} leb key x y.

(** ** Two comparisons that agree on the keys of a list

    The sort compares keys of elements of the list only: where two
    comparisons agree on them, sorting with the one is sorting with the
    other.  This carries the properties of a total preorder over to a
    comparison that is one on the keys at hand only. *)

Section ext.
Context {A K : Type} (leb leb' : K → K → bool) (key : A → K).
Implicit Types (x y : A) (l : list A).

(** The two comparisons agree on the keys of [l]. *)
Definition agree_on (l : list A) : Prop :=
  ∀ x y, x ∈ l → y ∈ l → leb (key x) (key y) = leb' (key x) (key y).

Lemma agree_on_perm l l' : l ≡ₚ l' → agree_on l → agree_on l'.
Proof. intros Hp Ha x y Hx Hy. apply Ha; by rewrite Hp. Qed.

Lemma agree_on_cons x l : agree_on (x :: l) → agree_on l.
Proof. intros Ha y z Hy Hz. apply Ha; by apply list_elem_of_further. Qed.

Lemma insert_desc_ext x l :
  agree_on (x :: l) → insert_desc leb key x l = insert_desc leb' key x l.
Proof.
  induction l as [|y l IH]; intros Ha; simpl; [done|].
  rewrite <- (Ha y x) by (rewrite !elem_of_cons; auto).
  destruct (leb (key y) (key x)); [done|].
  f_equal. apply IH. intros u v Hu Hv.
  apply elem_of_cons in Hu, Hv. apply Ha; rewrite !elem_of_cons; tauto.
Qed.

Lemma sort_desc_ext l : agree_on l → sort_desc leb key l = sort_desc leb' key l.
Proof.
  induction l as [|x l IH]; intros Ha; simpl; [done|].
  rewrite IH by by eapply agree_on_cons. apply insert_desc_ext.
  eapply agree_on_perm; [|done]. by rewrite sort_desc_perm.
Qed.

Lemma desc_sorted_ext l : agree_on l → desc_sorted leb' key l → desc_sorted leb key l.
Proof.
  unfold desc_sorted. intros Ha Hs. induction Hs as [|x l Hs IH Hx]; constructor.
  - apply IH. by eapply agree_on_cons.
  - apply Forall_forall. intros y Hy. unfold ge_key.
    rewrite (Ha y x) by (rewrite !elem_of_cons; auto).
    by apply (proj1 (Forall_forall _ _) Hx).
Qed.

Lemma filter_same_key_ext l z :
  agree_on (z :: l) →
  filter (λ y, same_key leb key y z = true) l =
  filter (λ y, same_key leb' key y z = true) l.
Proof.
  induction l as [|x l IH]; intros Ha; [done|]. rewrite !filter_cons.
  rewrite IH.
  2:{ intros u v Hu Hv. apply elem_of_cons in Hu, Hv.
      apply Ha; rewrite !elem_of_cons; tauto. }
  assert (same_key leb key x z = same_key leb' key x z) as ->; [|done].
  unfold same_key.
  by rewrite (Ha x z), (Ha z x) by (rewrite !elem_of_cons; auto).
Qed.

End ext.

(** ** Concrete runs *)

(** Pairs of a name and a key: equal keys keep their order, as in
    [sorted([('a',1),('b',3),('c',1),('d',3)], key=..., reverse=True)]. *)
Example sort_desc_ex :
  sort_desc Z.leb snd [("a", 1); ("b", 3); ("c", 1); ("d", 3)]%Z =
  [("b", 3); ("d", 3); ("a", 1); ("c", 1)]%Z.
Proof. reflexivity. Qed.
