(* ===== verification/Chunker.v ===== *)
(** * Chunker: [chunk_text] of [ingest2.py]

    The page text is tokenised, cut into windows of [chunk_size] tokens
    whose starts are [stride = max(1, chunk_size - overlap)] apart, and
    every window is decoded.  The tokenizer is external: it is a record of
    two functions and every theorem holds for any tokenizer.

    [chunk_loop] is the [for start in range(...)] loop with its [break];
    [chunk_windows] the token windows; [chunk_text] the function itself.
    [Spec.windows] is the closed form the theorems relate it to. *)

From S2P Require Import Prelude.

Local Open Scope Z_scope.

(** [CHUNK_SIZE] and [CHUNK_OVERLAP], the defaults of [chunk_text]. *)
Definition CHUNK_SIZE : Z := 512.
Definition CHUNK_OVERLAP : Z := 75.

(** The two methods of the tokenizer that [chunk_text] calls. *)
Record tokenizer (token : Type) := Tokenizer {
  encode : string → list token;
  decode : list token → string;
}.
Arguments Tokenizer {token} _ _.
Arguments encode {token} _ _.
Arguments decode {token} _ _.

(** [stride = max(1, chunk_size - overlap)]. *)
Definition stride (chunk_size overlap : Z) : Z := Z.max 1 (chunk_size - overlap).

(** The body of the loop, over the starts the range yields: the window
    [token_ids[start:start + chunk_size]] is appended, and the loop breaks
    once the window reaches the end of the tokens. *)
Fixpoint chunk_loop {token} (token_ids : list token) (chunk_size : Z)
    (starts : list Z) : list (list token) :=
  match starts with
  | [] => []
  | start :: rest =>
      let chunk_ids := py_slice token_ids start (start + chunk_size) in
      chunk_ids ::
        (if start + chunk_size >=? py_len token_ids then []
         else chunk_loop token_ids chunk_size rest)
  end.

(** The token windows [chunk_text] decodes. *)
Definition chunk_windows {token} (token_ids : list token)
    (chunk_size overlap : Z) : list (list token) :=
  chunk_loop token_ids chunk_size
    (py_range 0 (py_len token_ids) (stride chunk_size overlap)).

(** [chunk_text(text, tokenizer, chunk_size, overlap)]. *)
Definition chunk_text {token} (text : string) (tk : tokenizer token)
    (chunk_size overlap : Z) : list string :=
  let token_ids := encode tk text in
  decode tk <$> chunk_windows token_ids chunk_size overlap.

(** ** The specification: windows in closed form *)

Module Spec.

(** The number of starts whose window stops short of the end of [n]
    tokens: the loop continues after exactly these. *)
Definition short_windows (n chunk_size step : Z) : Z :=
  if n <=? chunk_size then 0 else (n - chunk_size + step - 1) `div` step.

(** The number of windows cut from [n > 0] tokens. *)
Definition num_windows (n chunk_size step : Z) : Z :=
  if n <=? 0 then 0 else short_windows n chunk_size step + 1.

(** The [i]-th window. *)
Definition window {token} (token_ids : list token) (chunk_size step : Z)
    (i : Z) : list token :=
  take (Z.to_nat chunk_size) (drop (Z.to_nat (i * step)) token_ids).

Definition windows {token} (token_ids : list token) (chunk_size step : Z)
    : list (list token) :=
  window token_ids chunk_size step <$>
    seqZ 0 (num_windows (py_len token_ids) chunk_size step).

(** Undoing the cut: the first window, then every later window without
    the [overlap] tokens it repeats. *)
Definition unchunk {token} (overlap : Z) (ws : list (list token)) : list token :=
  match ws with
  | [] => []
  | w :: ws => w ++ mjoin (drop (Z.to_nat overlap) <$> ws)
  end.

End Spec.

(** The parameters the specification allows: a positive window and an
    overlap smaller than it. *)
Definition valid_params (chunk_size overlap : Z) : Prop :=
  0 < chunk_size ∧ 0 ≤ overlap < chunk_size.

#[export] Instance valid_params_dec w o : Decision (valid_params w o).
Proof. unfold valid_params. apply _. Defined.

(** ** The loop against the closed form *)

Section chunker.
Context {token : Type}.
Implicit Types (ids : list token) (W O s n i j : Z).

Lemma stride_valid W O : valid_params W O → stride W O = W - O ∧ 1 ≤ stride W O ≤ W.
Proof. unfold valid_params, stride. lia. Qed.

Lemma stride_pos W O : 1 ≤ stride W O.
Proof. unfold stride. lia. Qed.

Lemma chunk_loop_length_le ids W (starts : list Z) :
  py_len (chunk_loop ids W starts) ≤ py_len starts.
Proof.
  unfold py_len. induction starts as [|st starts IH]; simpl; [done|].
  destruct (_ >=? _); simpl; lia.
Qed.

Lemma short_windows_nonneg n W s : 0 < s → 0 ≤ Spec.short_windows n W s.
Proof.
  intros. unfold Spec.short_windows. destruct (Z.leb_spec n W); [done|].
  apply Z.div_pos; lia.
Qed.

Lemma short_windows_spec n W s i :
  0 < s → 0 ≤ i → (i * s + W < n ↔ i < Spec.short_windows n W s).
Proof.
  intros Hs Hi. unfold Spec.short_windows. destruct (Z.leb_spec n W).
  - nia.
  - split; intros.
    + enough (i + 1 ≤ (n - W + s - 1) `div` s) by lia.
      apply Z.div_le_lower_bound; [done|nia].
    + pose proof (Z.mul_div_le (n - W + s - 1) s Hs). nia.
Qed.

Lemma window_slice ids W s i :
  0 ≤ W → 0 ≤ i → 0 ≤ s →
  py_slice ids (i * s) (i * s + W) = Spec.window ids W s i.
Proof.
  intros. unfold Spec.window. rewrite py_slice_nonneg by nia.
  f_equal. nia.
Qed.

Lemma chunk_loop_seqZ ids W s (c : nat) j :
  0 < s → 0 ≤ W → 0 ≤ j →
  j ≤ Spec.short_windows (py_len ids) W s < j + Z.of_nat c →
  chunk_loop ids W ((λ i, 0 + i * s) <$> seqZ j (Z.of_nat c)) =
  Spec.window ids W s <$> seqZ j (Spec.short_windows (py_len ids) W s - j + 1).
Proof.
  intros Hs HW. revert j. induction c as [|c IH]; intros j Hj Hq; [lia|].
  rewrite seqZ_cons by lia. simpl.
  rewrite (seqZ_cons j) by lia. simpl.
  rewrite Z.add_0_l, window_slice by lia. f_equal.
  pose proof (short_windows_spec (py_len ids) W s j Hs Hj) as Hspec.
  rewrite Z.geb_leb. destruct (Z.leb_spec (py_len ids) (j * s + W)).
  - rewrite seqZ_nil; [done|]. lia.
  - replace (Z.pred (Z.of_nat (S c))) with (Z.of_nat c) by lia.
    rewrite IH by lia. f_equal. f_equal. lia.
Qed.

Lemma short_windows_in_range n W s :
  0 < s → s ≤ W → 0 < n →
  Spec.short_windows n W s < (n - 0 + s - 1) `div` s.
Proof.
  intros Hs HW Hn. pose proof (short_windows_nonneg n W s Hs) as Hq.
  enough (Spec.short_windows n W s + 1 ≤ (n - 0 + s - 1) `div` s) by lia.
  apply Z.div_le_lower_bound; [done|].
  destruct (decide (Spec.short_windows n W s = 0)) as [->|]; [lia|].
  pose proof (proj2 (short_windows_spec n W s (Spec.short_windows n W s - 1) Hs
    ltac:(lia)) ltac:(lia)). nia.
Qed.

(** The windows the loop produces are those of the closed form. *)
Lemma chunk_windows_windows ids W O :
  valid_params W O →
  chunk_windows ids W O = Spec.windows ids W (stride W O).
Proof.
  intros Hv. destruct (stride_valid W O Hv) as [_ [Hs1 Hs2]].
  unfold chunk_windows, Spec.windows, Spec.num_windows, py_range.
  destruct (Z.leb_spec (stride W O) 0); [lia|].
  pose proof (py_len_nonneg ids).
  destruct (Z.leb_spec (py_len ids) 0).
  - replace (py_len ids) with 0 by lia. by rewrite Z.div_small by lia.
  - pose proof (short_windows_in_range (py_len ids) W (stride W O)) as Hr.
    pose proof (short_windows_nonneg (py_len ids) W (stride W O)).
    rewrite <- (Z2Nat.id (_ `div` _)) by lia.
    rewrite chunk_loop_seqZ by lia. do 2 f_equal. lia.
Qed.

(** ** Properties of the closed form *)

Lemma windows_length ids W s :
  length (Spec.windows ids W s) = Z.to_nat (Spec.num_windows (py_len ids) W s).
Proof. unfold Spec.windows. by rewrite length_fmap, length_seqZ. Qed.

Lemma windows_lookup ids W s (i : nat) w :
  Spec.windows ids W s !! i = Some w ↔
  Z.of_nat i < Spec.num_windows (py_len ids) W s ∧
  w = Spec.window ids W s (Z.of_nat i).
Proof.
  unfold Spec.windows. rewrite list_lookup_fmap_Some.
  setoid_rewrite lookup_seqZ. split.
  - intros (? & -> & -> & ?). by rewrite Z.add_0_l.
  - intros [? ->]. eexists. by rewrite Z.add_0_l.
Qed.

Lemma num_windows_pos n W s :
  0 < s → 0 < n → Spec.num_windows n W s = Spec.short_windows n W s + 1.
Proof. intros. unfold Spec.num_windows. by destruct (Z.leb_spec n 0); [lia|]. Qed.

Lemma window_length ids W s i :
  0 ≤ W → 0 ≤ i → 0 ≤ s →
  py_len (Spec.window ids W s i) = Z.max 0 (Z.min W (py_len ids - i * s)).
Proof.
  intros. unfold Spec.window, py_len. rewrite length_take, length_drop. nia.
Qed.

Lemma window_full ids W s i :
  0 < s → 0 ≤ W → 0 ≤ i → i < Spec.short_windows (py_len ids) W s →
  py_len (Spec.window ids W s i) = W.
Proof.
  intros Hs HW Hi Hq. rewrite window_length by lia.
  apply short_windows_spec in Hq; lia.
Qed.

Lemma window_last ids W s :
  0 < s → s ≤ W → 0 < py_len ids →
  let q := Spec.short_windows (py_len ids) W s in
  py_len (Spec.window ids W s q) = py_len ids - q * s ∧
  0 < py_len ids - q * s ≤ W.
Proof.
  intros Hs HW Hn q. pose proof (short_windows_nonneg (py_len ids) W s Hs).
  rewrite window_length by lia.
  pose proof (short_windows_spec (py_len ids) W s q Hs ltac:(done)).
  pose proof (short_windows_in_range (py_len ids) W s Hs HW Hn) as Hr.
  pose proof (Z.mul_div_le (py_len ids - 0 + s - 1) s Hs).
  fold q in Hr. nia.
Qed.

Lemma window_overlap ids W O i :
  valid_params W O → 0 ≤ i →
  i < Spec.short_windows (py_len ids) W (W - O) →
  drop (Z.to_nat (W - O)) (Spec.window ids W (W - O) i) =
    take (Z.to_nat O) (Spec.window ids W (W - O) (i + 1)) ∧
  py_len (take (Z.to_nat O) (Spec.window ids W (W - O) (i + 1))) = O.
Proof.
  intros [HW HO] Hi Hq. apply short_windows_spec in Hq; [|lia..].
  unfold Spec.window, py_len. split.
  - rewrite take_take, skipn_firstn_comm, drop_drop.
    f_equal; [lia|]. f_equal. nia.
  - rewrite take_take, length_take, length_drop. unfold py_len in Hq. nia.
Qed.

Lemma window_zero ids W s : Spec.window ids W s 0 = take (Z.to_nat W) ids.
Proof. unfold Spec.window. by rewrite Z.mul_0_l. Qed.

Lemma window_drop_overlap ids W O (m : nat) :
  valid_params W O →
  drop (Z.to_nat O) (Spec.window ids W (W - O) (1 + Z.of_nat m)) =
  take (Z.to_nat (W - O)) (drop (Z.to_nat W + m * Z.to_nat (W - O)) ids).
Proof.
  intros [HW HO]. unfold Spec.window.
  rewrite skipn_firstn_comm, drop_drop. f_equal; [lia|]. f_equal. nia.
Qed.

Lemma windows_unchunk ids W O :
  valid_params W O → Spec.unchunk O (Spec.windows ids W (W - O)) = ids.
Proof.
  intros Hv. pose proof Hv as [HW HO]. unfold Spec.windows.
  destruct (decide (py_len ids = 0)) as [H0|H0].
  { destruct ids; [by rewrite H0|done]. }
  pose proof (py_len_nonneg ids).
  pose proof (short_windows_nonneg (py_len ids) W (W - O) ltac:(lia)) as Hq.
  rewrite num_windows_pos, seqZ_cons by lia. simpl.
  rewrite window_zero, <- list_fmap_compose. unfold seqZ at 1.
  rewrite <- list_fmap_compose.
  rewrite (list_fmap_ext _ (λ m : nat, take (Z.to_nat (W - O))
    (drop (Z.to_nat W + m * Z.to_nat (W - O)) ids)) (seq 0 _)).
  2:{ intros ? m _. simpl. rewrite <- (window_drop_overlap _ _ _ _ Hv).
      do 2 f_equal. lia. }
  rewrite join_strided_takes, (take_ge (drop _ _)), take_drop; [done|].
  rewrite length_drop.
  pose proof (short_windows_spec (py_len ids) W (W - O)
    (Spec.short_windows (py_len ids) W (W - O)) ltac:(lia) Hq).
  unfold py_len in *. nia.
Qed.

(** ** The properties of [chunk_text] *)

(** C1. For a positive window and an overlap below it, [chunk_text]
    returns the decoded windows of the closed form: window [i] holds the
    tokens from [i * stride] on, at most [chunk_size] of them, and there
    are [num_windows] windows. *)
Theorem chunk_text_refines (tk : tokenizer token) text W O :
  valid_params W O →
  chunk_text text tk W O =
  decode tk <$> Spec.windows (encode tk text) W (stride W O).
Proof. intros. unfold chunk_text. by rewrite chunk_windows_windows. Qed.

(** C22. Every window except the last holds exactly [chunk_size] tokens. *)
Theorem chunk_windows_full ids W O (i : nat) w :
  valid_params W O →
  chunk_windows ids W O !! i = Some w →
  (S i < length (chunk_windows ids W O))%nat →
  py_len w = W.
Proof.
  intros Hv Hw Hi. destruct (stride_valid W O Hv) as (Hs & ? & ?).
  rewrite chunk_windows_windows in Hw, Hi by done.
  rewrite windows_length in Hi. apply windows_lookup in Hw as [Hn ->].
  assert (0 < py_len ids) by (unfold Spec.num_windows in Hn; zbool; lia).
  rewrite num_windows_pos in Hi by lia. apply window_full; lia.
Qed.

(** C21. Consecutive windows share exactly [overlap] tokens: the tokens of
    a window past the stride are the first [overlap] tokens of the next. *)
Theorem chunk_windows_overlap ids W O (i : nat) w1 w2 :
  valid_params W O →
  chunk_windows ids W O !! i = Some w1 →
  chunk_windows ids W O !! S i = Some w2 →
  drop (Z.to_nat (W - O)) w1 = take (Z.to_nat O) w2 ∧
  py_len (take (Z.to_nat O) w2) = O.
Proof.
  intros Hv H1 H2. destruct (stride_valid W O Hv) as (Hs & ? & ?).
  rewrite chunk_windows_windows, Hs in H1, H2 by done.
  apply windows_lookup in H1 as [_ ->]. apply windows_lookup in H2 as [Hn ->].
  assert (0 < py_len ids) by (unfold Spec.num_windows in Hn; zbool; lia).
  rewrite num_windows_pos in Hn by lia.
  replace (Z.of_nat (S i)) with (Z.of_nat i + 1) by lia.
  apply window_overlap; [done|lia..].
Qed.

(** C7. The windows reconstruct the token stream: the first window followed
    by every later window without its first [overlap] tokens is the
    sequence that was cut, with no gap and no repetition. *)
Theorem chunk_windows_unchunk ids W O :
  valid_params W O → Spec.unchunk O (chunk_windows ids W O) = ids.
Proof.
  intros Hv. destruct (stride_valid W O Hv) as (Hs & _).
  rewrite chunk_windows_windows, Hs by done. by apply windows_unchunk.
Qed.

(** No window is empty, and the last one ends with the last token. *)
Theorem chunk_windows_nonempty ids W O w :
  valid_params W O → w ∈ chunk_windows ids W O → w ≠ [].
Proof.
  intros Hv [i Hw]%list_elem_of_lookup ->.
  destruct (stride_valid W O Hv) as (Hs & ? & ?).
  rewrite chunk_windows_windows in Hw by done.
  apply windows_lookup in Hw as [Hn Hw].
  assert (0 < py_len ids) by (unfold Spec.num_windows in Hn; zbool; lia).
  rewrite num_windows_pos in Hn by lia.
  apply (f_equal py_len) in Hw. rewrite window_length in Hw by lia.
  destruct (window_last ids W (stride W O)) as [_ ?]; [lia..|].
  assert (Z.of_nat i * stride W O ≤
    Spec.short_windows (py_len ids) W (stride W O) * stride W O) by nia.
  unfold py_len at 1 in Hw. simpl in Hw. lia.
Qed.

(** The loop stops: whatever the parameters, it produces at most one
    window per start of the range, hence at most [len(token_ids)]. *)
Theorem chunk_windows_bounded ids W O :
  py_len (chunk_windows ids W O) ≤ py_len ids.
Proof.
  unfold chunk_windows. pose proof (stride_pos W O) as Hs.
  etrans; [apply chunk_loop_length_le|].
  rewrite py_range_length by lia. pose proof (py_len_nonneg ids).
  apply Z.max_lub; [done|].
  destruct (decide (py_len ids = 0)) as [->|]; [by rewrite Z.div_small by lia|].
  apply Z.div_le_upper_bound; nia.
Qed.

(** An empty token sequence yields no chunk. *)
Lemma chunk_text_empty (tk : tokenizer token) text W O :
  encode tk text = [] → chunk_text text tk W O = [].
Proof.
  intros He. unfold chunk_text. rewrite He.
  pose proof (chunk_windows_bounded [] W O) as Hb.
  destruct (chunk_windows [] W O); [done|]. unfold py_len in Hb. simpl in Hb. lia.
Qed.

End chunker.

(** ** Concrete runs *)

Example chunk_windows_ex1 :
  chunk_windows [1; 2; 3; 4; 5; 6; 7; 8; 9; 10; 11] 4 1 =
  [[1; 2; 3; 4]; [4; 5; 6; 7]; [7; 8; 9; 10]; [10; 11]].
Proof. reflexivity. Qed.

(** A window that ends exactly at the last token is the last one. *)
Example chunk_windows_exact : chunk_windows [1; 2; 3; 4] 4 1 = [[1; 2; 3; 4]].
Proof. reflexivity. Qed.

(** With [overlap >= chunk_size] the stride is 1 and windows share
    [chunk_size - 1] tokens, not [overlap]. *)
Example chunk_windows_large_overlap :
  chunk_windows [1; 2; 3; 4; 5] 2 5 = [[1; 2]; [2; 3]; [3; 4]; [4; 5]].
Proof. reflexivity. Qed.

(** A negative overlap leaves gaps. *)
Example chunk_windows_negative_overlap :
  chunk_windows [1; 2; 3; 4; 5] 2 (-2) = [[1; 2]; [5]].
Proof. reflexivity. Qed.

Example stride_default : stride CHUNK_SIZE CHUNK_OVERLAP = 437.
Proof. reflexivity. Qed.

(** ** Witnesses *)

(** A tokenizer whose tokens are the characters. *)
Definition tk_chars : tokenizer Ascii.ascii :=
  Tokenizer String.list_ascii_of_string String.string_of_list_ascii.

Lemma valid_params_4_1 : valid_params 4 1.
Proof. unfold valid_params. lia. Defined.

Lemma chunk_text_refines_witness :
  chunk_text "abcdefghijk" tk_chars 4 1 =
  decode tk_chars <$> Spec.windows (encode tk_chars "abcdefghijk") 4 (stride 4 1).
Proof. apply chunk_text_refines, valid_params_4_1. Defined.

Lemma chunk_windows_full_witness : py_len [4; 5; 6; 7] = 4.
Proof.
  apply (chunk_windows_full [1; 2; 3; 4; 5; 6; 7; 8; 9; 10; 11] 4 1 1).
  - apply valid_params_4_1.
  - reflexivity.
  - vm_compute. lia.
Defined.

Lemma chunk_windows_overlap_witness :
  drop (Z.to_nat (4 - 1)) [1; 2; 3; 4] = take (Z.to_nat 1) [4; 5; 6; 7] ∧
  py_len (take (Z.to_nat 1) [4; 5; 6; 7]) = 1.
Proof.
  apply (chunk_windows_overlap [1; 2; 3; 4; 5; 6; 7; 8; 9; 10; 11] 4 1 0).
  - apply valid_params_4_1.
  - reflexivity.
  - reflexivity.
Defined.

Lemma chunk_windows_unchunk_witness :
  Spec.unchunk 1 (chunk_windows [1; 2; 3; 4; 5; 6; 7; 8; 9; 10; 11] 4 1) =
  [1; 2; 3; 4; 5; 6; 7; 8; 9; 10; 11].
Proof. apply chunk_windows_unchunk, valid_params_4_1. Defined.

Lemma chunk_windows_nonempty_witness : [10; 11] ≠ ([] : list Z).
Proof.
  apply (chunk_windows_nonempty [1; 2; 3; 4; 5; 6; 7; 8; 9; 10; 11] 4 1).
  - apply valid_params_4_1.
  - vm_compute. do 3 apply list_elem_of_further. apply list_elem_of_here.
Defined.
