(* ===== verification/VectorIndex.v ===== *)
(** * VectorIndex: the nearest-neighbour index

    [chat2.py] reads an index from disk and calls [INDEX.d] and
    [INDEX.search(q, k)]; [ingest2.py] builds a [faiss.IndexFlatIP],
    adds the embeddings and writes it.  FAISS is a library the sources
    only call, so this file is modelled from its documented contract:

    - [IndexSearch] is what [retrieve] calls, and [IndexSearchLaws] what
      its theorems assume of the answer: [k] labels and [k] distances,
      every label [-1] or a row number, the rows first and without
      repetition, then the padding;
    - [flat_index] is the exact inner-product index ingestion builds
      ([IndexFlatIP], [flat_add], [flat_search]); it satisfies the laws;
    - [kernel_index] is the same index with the routine that computes
      an inner product left open ([search_with]): a library is free to
      sum the products of two rows in the order its hardware favours.
      It satisfies the laws whatever the routine, so that every theorem
      on [retrieve] holds of it.

    The distance stored beside a padding label is immaterial (the caller
    skips [-1]); the model writes [s_zero] there. *)

From Stdlib Require Import QArith.
From stdpp Require Import sorting.
From S2P Require Import Prelude Score PySort.

Local Open Scope Z_scope.

(** ** The interface [retrieve] uses *)

(** [d] is [INDEX.d], [ntotal] the number of rows, [search idx q k] the
    pair [(D[0], I[0])] of [INDEX.search] for the single query row [q]. *)
Class IndexSearch (Sc Ix : Type) := {
  index_d : Ix → Z;
  index_ntotal : Ix → Z;
  index_search : Ix → list Sc → Z → list Sc * list Z;
}.

Class IndexSearchLaws (Sc Ix : Type) `{IndexSearch Sc Ix} := {
  index_ntotal_nonneg idx : 0 ≤ index_ntotal idx;
  search_lengths idx q k :
    0 < k →
    py_len (index_search idx q k).1 = k ∧ py_len (index_search idx q k).2 = k;
  search_rows idx q k :
    0 < k →
    Forall (λ l, 0 ≤ l < index_ntotal idx)
      (take (Z.to_nat (Z.min k (index_ntotal idx))) (index_search idx q k).2);
  search_padding idx q k :
    0 < k →
    Forall (λ l, l = -1)
      (drop (Z.to_nat (Z.min k (index_ntotal idx))) (index_search idx q k).2);
  search_nodup idx q k :
    0 < k →
    NoDup (take (Z.to_nat (Z.min k (index_ntotal idx))) (index_search idx q k).2);
}.

(** ** The flat inner-product index *)

Section flat.
Context `{ScoreOps Sc}.

(** The inner product of two rows. *)
Definition dot (u v : list Sc) : Sc :=
  foldr (λ p acc, s_add (s_mul p.1 p.2) acc) s_zero (zip u v).

(** An [IndexFlatIP]: its dimension and its rows, in insertion order. *)
Record flat_index := FlatIndex {
  flat_d : Z;
  flat_xb : list (list Sc);
}.

(** [faiss.IndexFlatIP(d)]. *)
Definition IndexFlatIP (d : Z) : flat_index := FlatIndex d [].

(** [index.add(rows)]: rows are appended; a row of another dimension is
    refused. *)
Definition flat_add (idx : flat_index) (rows : list (list Sc)) : result flat_index :=
  if forallb (λ r, py_len r =? flat_d idx) rows
  then Ok (FlatIndex (flat_d idx) (flat_xb idx ++ rows))
  else Raise (ValueError "dimension mismatch in add").

(** The rows with their positions and their inner products with [q],
    computed by the routine [ip]. *)
Definition scored_with (ip : list Sc → list Sc → Sc) (idx : flat_index)
    (q : list Sc) : list (Z * Sc) :=
  py_enumerate 0 (ip q <$> flat_xb idx).

(** The search with the routine [ip]: the [k] best rows by inner
    product, best first, padded with label [-1] when the index holds
    fewer than [k] rows. *)
Definition search_with (ip : list Sc → list Sc → Sc) (idx : flat_index)
    (q : list Sc) (k : Z) : list Sc * list Z :=
  let top := take (Z.to_nat k) (sort_desc s_leb snd (scored_with ip idx q)) in
  let pad := (Z.to_nat k - length top)%nat in
  (top.*2 ++ replicate pad s_zero, top.*1 ++ replicate pad (-1)).

(** The scores of the flat index. *)
Definition flat_scored (idx : flat_index) (q : list Sc) : list (Z * Sc) :=
  scored_with dot idx q.

(** [index.search(q, k)] of the flat index. *)
Definition flat_search (idx : flat_index) (q : list Sc) (k : Z) : list Sc * list Z :=
  search_with dot idx q k.

(** A flat index with its inner-product routine. *)
Record kernel_index := KernelIndex {
  kernel_ip : list Sc → list Sc → Sc;
  kernel_flat : flat_index;
}.

#[export] Instance flat_index_search : IndexSearch Sc flat_index := {|
  index_d := flat_d;
  index_ntotal idx := py_len (flat_xb idx);
  index_search := flat_search;
|}.

#[export] Instance kernel_index_search : IndexSearch Sc kernel_index := {|
  index_d idx := flat_d (kernel_flat idx);
  index_ntotal idx := py_len (flat_xb (kernel_flat idx));
  index_search idx := search_with (kernel_ip idx) (kernel_flat idx);
|}.

(** ** The search satisfies the laws, whatever the routine *)

Section routine.
Context (ip : list Sc → list Sc → Sc).

Lemma scored_with_labels idx q :
  (scored_with ip idx q).*1 = seqZ 0 (py_len (flat_xb idx)).
Proof.
  unfold scored_with. rewrite py_enumerate_fst. unfold py_len.
  by rewrite length_fmap.
Qed.

Lemma sorted_with_labels idx q :
  (sort_desc s_leb snd (scored_with ip idx q)).*1 ≡ₚ seqZ 0 (py_len (flat_xb idx)).
Proof. by rewrite sort_desc_perm, scored_with_labels. Qed.

Lemma top_with_length idx q k :
  0 < k →
  length (take (Z.to_nat k) (sort_desc s_leb snd (scored_with ip idx q))) =
  Z.to_nat (Z.min k (py_len (flat_xb idx))).
Proof.
  intros. rewrite length_take, sort_desc_length. unfold scored_with.
  rewrite py_enumerate_length, length_fmap. unfold py_len. lia.
Qed.

Lemma search_with_labels_take idx q k :
  0 < k →
  take (Z.to_nat (Z.min k (py_len (flat_xb idx)))) (search_with ip idx q k).2 =
  (take (Z.to_nat k) (sort_desc s_leb snd (scored_with ip idx q))).*1.
Proof.
  intros. unfold search_with. simpl.
  rewrite take_app_length'; [done|]. by rewrite length_fmap, top_with_length.
Qed.

Lemma search_with_labels_drop idx q k :
  0 < k →
  drop (Z.to_nat (Z.min k (py_len (flat_xb idx)))) (search_with ip idx q k).2 =
  replicate (Z.to_nat k - Z.to_nat (Z.min k (py_len (flat_xb idx)))) (-1).
Proof.
  intros. unfold search_with. simpl.
  rewrite drop_app_length'; [|by rewrite length_fmap, top_with_length].
  by rewrite top_with_length.
Qed.

Lemma search_with_lengths idx q k :
  0 < k → py_len (search_with ip idx q k).1 = k ∧ py_len (search_with ip idx q k).2 = k.
Proof.
  intros Hk. unfold search_with, py_len. simpl.
  rewrite !length_app, !length_fmap, !length_replicate.
  pose proof (top_with_length idx q k Hk). lia.
Qed.

Lemma search_with_rows idx q k :
  0 < k →
  Forall (λ l, 0 ≤ l < py_len (flat_xb idx))
    (take (Z.to_nat (Z.min k (py_len (flat_xb idx)))) (search_with ip idx q k).2).
Proof.
  intros Hk. rewrite search_with_labels_take by done.
  apply Forall_forall. intros l Hl.
  assert (l ∈ (sort_desc s_leb snd (scored_with ip idx q)).*1) as Hin.
  { eapply list_elem_of_fmap in Hl as (p & -> & Hp).
    apply list_elem_of_fmap. exists p. split; [done|].
    eapply elem_of_take in Hp as (i & ? & _). by eapply list_elem_of_lookup_2. }
  rewrite sorted_with_labels, elem_of_seqZ in Hin. lia.
Qed.

Lemma search_with_nodup idx q k :
  0 < k →
  NoDup (take (Z.to_nat (Z.min k (py_len (flat_xb idx)))) (search_with ip idx q k).2).
Proof.
  intros Hk. rewrite search_with_labels_take by done.
  rewrite fmap_take. eapply sublist_NoDup; [|apply sublist_take].
  rewrite sorted_with_labels. apply NoDup_seqZ.
Qed.

Lemma search_with_padding idx q k :
  0 < k →
  Forall (λ l, l = -1)
    (drop (Z.to_nat (Z.min k (py_len (flat_xb idx)))) (search_with ip idx q k).2).
Proof.
  intros Hk. rewrite search_with_labels_drop by done.
  apply Forall_forall. by intros l [-> _]%elem_of_replicate.
Qed.

(** The distances of the rows found are their inner products with the
    query, as the routine computes them. *)
Lemma search_with_distance idx q k (i : nat) l :
  (search_with ip idx q k).2 !! i = Some l → l ≠ -1 →
  ∃ row, flat_xb idx !! Z.to_nat l = Some row ∧
         (search_with ip idx q k).1 !! i = Some (ip q row).
Proof.
  unfold search_with. simpl. set (top := take _ _). intros Hl Hne.
  apply lookup_app_Some in Hl as [Hl|[_ Hl]].
  2:{ apply lookup_replicate in Hl as [-> _]. done. }
  apply list_lookup_fmap_Some in Hl as ([l' s] & -> & Hp). simpl in *.
  assert ((l', s) ∈ scored_with ip idx q) as Hin.
  { apply (sort_desc_elem s_leb snd). eapply list_elem_of_lookup_2.
    subst top. apply lookup_take_Some in Hp as [Hp _]. exact Hp. }
  apply list_elem_of_lookup in Hin as [j Hj]. unfold scored_with in Hj.
  unfold py_enumerate in Hj. apply lookup_zip_with_Some in Hj
    as (a & b & [= -> ->] & Ha & Hb).
  apply lookup_seqZ in Ha as [-> _].
  apply list_lookup_fmap_Some in Hb as (row & -> & Hrow).
  exists row. rewrite Z.add_0_l, Nat2Z.id. split; [done|].
  rewrite lookup_app_l by (rewrite length_fmap; by eapply lookup_lt_Some).
  by rewrite list_lookup_fmap, Hp.
Qed.

End routine.

#[export] Instance flat_index_laws : IndexSearchLaws Sc flat_index.
Proof.
  split.
  - intros idx. apply py_len_nonneg.
  - apply (search_with_lengths dot).
  - apply (search_with_rows dot).
  - apply (search_with_padding dot).
  - apply (search_with_nodup dot).
Qed.

#[export] Instance kernel_index_laws : IndexSearchLaws Sc kernel_index.
Proof.
  split.
  - intros idx. apply py_len_nonneg.
  - intros idx. apply search_with_lengths.
  - intros idx. apply search_with_rows.
  - intros idx. apply search_with_padding.
  - intros idx. apply search_with_nodup.
Qed.

(** The distances the flat index returns are the inner products. *)
Lemma flat_search_distance idx q k (i : nat) l :
  (flat_search idx q k).2 !! i = Some l → l ≠ -1 →
  ∃ row, flat_xb idx !! Z.to_nat l = Some row ∧
         (flat_search idx q k).1 !! i = Some (dot q row).
Proof. apply (search_with_distance dot). Qed.

(** Two routines that agree on the rows of the index give one search. *)
Lemma search_with_ext ip ip' idx q k :
  Forall (λ row, ip q row = ip' q row) (flat_xb idx) →
  search_with ip idx q k = search_with ip' idx q k.
Proof.
  intros Hrows. unfold search_with, scored_with.
  by rewrite (Forall_fmap_ext_1 (ip q) (ip' q) (flat_xb idx) Hrows).
Qed.

End flat.
Arguments kernel_index Sc : clear implicits.

(** The distances of the rows found are in descending order. *)
Lemma search_with_sorted `{ScoreLaws Sc} ip (idx : flat_index) q k :
  desc_sorted s_leb id
    (take (Z.to_nat (Z.min k (py_len (flat_xb idx)))) (search_with ip idx q k).1).
Proof.
  unfold search_with. simpl. set (top := take (Z.to_nat k) _).
  assert (desc_sorted s_leb snd top) as Hs.
  { eapply desc_sorted_prefix; [apply prefix_take|].
    apply sort_desc_sorted; [apply s_leb_total|apply s_leb_trans]. }
  rewrite take_app_length'.
  2:{ subst top. rewrite length_fmap, length_take, sort_desc_length.
      unfold scored_with. rewrite py_enumerate_length, length_fmap.
      unfold py_len. lia. }
  clear -Hs. induction Hs as [|p l _ IH Hp]; simpl; constructor; [done|].
  apply Forall_fmap. eapply Forall_impl; [done|]. by intros [].
Qed.

Lemma flat_search_sorted `{ScoreLaws Sc} (idx : flat_index) q k :
  desc_sorted s_leb id
    (take (Z.to_nat (Z.min k (py_len (flat_xb idx)))) (flat_search idx q k).1).
Proof. apply search_with_sorted. Qed.

(** ** Concrete runs *)

Local Open Scope Q_scope.

Example flat_search_ex :
  flat_search (FlatIndex 2 [[1; 0]; [0; 1]; [3 # 5; 4 # 5]]) [1; 0] 2 =
  ([1 * 1 + (0 * 0 + 0); 1 * (3 # 5) + (0 * (4 # 5) + 0)], [0; 2]%Z).
Proof. reflexivity. Qed.

(** Fewer rows than [k]: the labels are padded with [-1]. *)
Example flat_search_padded :
  (flat_search (FlatIndex 2 [[1; 0]]) [1; 0] 3).2 = [0; -1; -1]%Z.
Proof. reflexivity. Qed.
