(* ===== verification/Retriever.v ===== *)
(** * Retriever: [retrieve] of [chat2.py]

    The query is embedded and normalised, the index is searched for
    [max(50, k)] candidates, every candidate that names a chunk is scored
    with its inner product plus [keyword_boost] times the number of words
    it shares with the query, the candidates are sorted by that score
    (stably, best first) and the first [k] are returned with five of their
    fields.

    The embedding model, the index and the chunk list are the module's
    globals [MODEL], [INDEX] and [CHUNKS]; here they are the fields of a
    [store] passed to [retrieve].  The index is any instance of
    [IndexSearch]; the scores any instance of [ScoreOps]. *)

From Stdlib Require Import QArith.
From stdpp Require Import sorting.
From S2P Require Import Prelude PyData Score PySort VectorIndex.

Local Open Scope Z_scope.
Local Open Scope result_scope.

(** ** Data *)

(** The dictionary appended to [results] for one candidate. *)
Record scored_chunk (Sc : Type) := ScoredChunk {
  sc_score : Sc;
  sc_uid : pyval;
  sc_source : pyval;
  sc_page : pyval;
  sc_text : pyval;
  sc_semantic_score : Sc;
  sc_keyword_boost : Sc;
  sc_keyword_matches : list string;
}.
Arguments ScoredChunk {Sc} _ _ _ _ _ _ _ _.
Arguments sc_score {Sc} _.
Arguments sc_uid {Sc} _.
Arguments sc_source {Sc} _.
Arguments sc_page {Sc} _.
Arguments sc_text {Sc} _.
Arguments sc_semantic_score {Sc} _.
Arguments sc_keyword_boost {Sc} _.
Arguments sc_keyword_matches {Sc} _.

(** The dictionary returned for one chunk. *)
Record hit (Sc : Type) := Hit {
  hit_score : Sc;
  hit_uid : pyval;
  hit_source : pyval;
  hit_page : pyval;
  hit_text : pyval;
}.
Arguments Hit {Sc} _ _ _ _ _.
Arguments hit_score {Sc} _.
Arguments hit_uid {Sc} _.
Arguments hit_source {Sc} _.
Arguments hit_page {Sc} _.
Arguments hit_text {Sc} _.

(** The globals [retrieve] reads: [INDEX], [CHUNKS] and the encoder of
    [MODEL] applied to one query. *)
Record store (Sc Ix : Type) := Store {
  INDEX : Ix;
  CHUNKS : list pydict;
  MODEL_encode : string → list Sc;
}.
Arguments Store {Sc Ix} _ _ _.
Arguments INDEX {Sc Ix} _.
Arguments CHUNKS {Sc Ix} _.
Arguments MODEL_encode {Sc Ix} _ _.

(** The default of the parameter [k]. *)
Definition DEFAULT_K : Z := 7.

Section retriever.
Context {Sc Ix : Type} `{ScoreOps Sc} `{IndexSearch Sc Ix}.
Implicit Types (st : store Sc Ix) (query : string) (k : Z) (keyword_boost : Sc).

(** ** Operations *)

(** [np.linalg.norm(v)]. *)
Definition l2_norm (v : list Sc) : Sc := s_sqrt (dot v v).

(** [KEYWORD_BOOST = 0.2], the default of the parameter [keyword_boost]. *)
Definition KEYWORD_BOOST : Sc := s_div (s_of_Z 1) (s_of_Z 5).

(** [q_emb /= (norm(q_emb) + 1e-12)]. *)
Definition normalize_query (v : list Sc) : list Sc :=
  (λ x, s_div x (s_add (l2_norm v) s_eps)) <$> v.

(** [v.lower()] for the value read from a chunk: only a string has the
    method. *)
Definition py_lower (v : pyval) : result string :=
  match v with
  | PStr s => Ok (str_lower s)
  | _ => Raise (AttributeError "lower")
  end.

(** [set(re.findall(r'\w+', query.lower()))]. *)
Definition query_word_set (query : string) : gset string :=
  word_set (str_lower query).

(** The body of the loop for a candidate that names a chunk. *)
Definition score_chunk (query_words : gset string) keyword_boost
    (chunk : pydict) (score : Sc) : result (scored_chunk Sc) :=
  let! chunk_text := py_lower (dict_get_or chunk "text" (PStr "")) in
  let keyword_matches := query_words ∩ word_set chunk_text in
  let boost := s_mul keyword_boost (s_of_Z (Z.of_nat (size keyword_matches))) in
  let combined_score := s_add score boost in
  Ok (ScoredChunk combined_score (dict_get chunk "uid")
        (dict_get chunk "source") (dict_get chunk "page")
        (dict_get_or chunk "text" (PStr "")) score boost
        (elements keyword_matches)).

(** [for idx, score in zip(I[0], D[0])]: padding and labels past the
    chunk list are skipped. *)
Fixpoint retrieve_loop (chunks : list pydict) (query_words : gset string)
    keyword_boost (pairs : list (Z * Sc)) : result (list (scored_chunk Sc)) :=
  match pairs with
  | [] => Ok []
  | (idx, score) :: rest =>
      if (idx =? -1) || (idx >=? py_len chunks)
      then retrieve_loop chunks query_words keyword_boost rest
      else
        let! chunk := py_index chunks idx in
        let! r := score_chunk query_words keyword_boost chunk score in
        let! rs := retrieve_loop chunks query_words keyword_boost rest in
        Ok (r :: rs)
  end.

(** [results.sort(key=lambda x: x['score'], reverse=True)] and
    [results[:k]]. *)
Definition rerank (results : list (scored_chunk Sc)) k : list (scored_chunk Sc) :=
  py_prefix (sort_desc s_leb sc_score results) k.

(** The fields kept in the answer. *)
Definition public_hit (c : scored_chunk Sc) : hit Sc :=
  Hit (sc_score c) (sc_uid c) (sc_source c) (sc_page c) (sc_text c).

(** The candidates of a query: the pairs of [zip(I[0], D[0])]. *)
Definition candidates st query k : list (Z * Sc) :=
  let q_emb := normalize_query (MODEL_encode st query) in
  let DI := index_search (INDEX st) q_emb (Z.max 50 k) in
  zip DI.2 DI.1.

(** [retrieve(query, k, keyword_boost)]. *)
Definition retrieve st query k keyword_boost : result (list (hit Sc)) :=
  let q_emb := MODEL_encode st query in
  if negb (py_len q_emb =? index_d (INDEX st))
  then Raise (ValueError "Embedding dimension mismatch!")
  else
    let query_words := query_word_set query in
    let! results :=
      retrieve_loop (CHUNKS st) query_words keyword_boost (candidates st query k) in
    Ok (public_hit <$> rerank results k).

End retriever.

(** ** Lemmas on the loop *)

Section retriever_lemmas.
Context {Sc Ix : Type} `{ScoreOps Sc} `{IndexSearch Sc Ix}.
Implicit Types (st : store Sc Ix) (query : string) (k : Z) (keyword_boost : Sc).
Implicit Types (chunks : list pydict) (pairs : list (Z * Sc)).

(** The labels the loop does not skip. *)
Definition names_chunk chunks (idx : Z) : bool :=
  negb ((idx =? -1) || (idx >=? py_len chunks)).

(** What the loop appends for the pair [p]. *)
Definition scored_from chunks (qw : gset string) keyword_boost
    (p : Z * Sc) (r : scored_chunk Sc) : Prop :=
  ∃ chunk, py_index chunks p.1 = Ok chunk ∧
           score_chunk qw keyword_boost chunk p.2 = Ok r.

(** A chunk list whose [text] fields, where present, are strings. *)
Definition texts_are_strings chunks : Prop :=
  Forall (λ c : pydict, ∀ v, c !! "text" = Some v → ∃ s, v = PStr s) chunks.

Lemma retrieve_loop_Ok chunks qw keyword_boost pairs rs :
  retrieve_loop chunks qw keyword_boost pairs = Ok rs →
  Forall2 (scored_from chunks qw keyword_boost)
    (filter (λ p, names_chunk chunks p.1 = true) pairs) rs.
Proof.
  revert rs. induction pairs as [|[idx score] pairs IH]; intros rs; simpl.
  { intros [= <-]. constructor. }
  destruct ((idx =? -1) || (idx >=? py_len chunks)) eqn:E.
  - rewrite filter_cons_False; [by apply IH|].
    unfold names_chunk. simpl. by rewrite E.
  - rewrite filter_cons_True by (unfold names_chunk; simpl; by rewrite E).
    intros Hrs. inv_result. constructor; [|by apply IH]. eexists. eauto.
Qed.

Lemma score_chunk_Ok qw keyword_boost chunk score r :
  score_chunk qw keyword_boost chunk score = Ok r →
  ∃ text, dict_get_or chunk "text" (PStr "") = PStr text ∧
    r = ScoredChunk
          (s_add score (s_mul keyword_boost
             (s_of_Z (Z.of_nat (size (qw ∩ word_set (str_lower text)))))))
          (dict_get chunk "uid") (dict_get chunk "source")
          (dict_get chunk "page") (PStr text) score
          (s_mul keyword_boost
             (s_of_Z (Z.of_nat (size (qw ∩ word_set (str_lower text))))))
          (elements (qw ∩ word_set (str_lower text))).
Proof.
  unfold score_chunk. destruct (dict_get_or chunk "text" (PStr "")) eqn:E;
    simpl; try done.
  intros [= <-]. eauto.
Qed.

Lemma score_chunk_total qw keyword_boost chunk score :
  (∀ v, chunk !! "text" = Some v → ∃ s, v = PStr s) →
  ∃ r, score_chunk qw keyword_boost chunk score = Ok r.
Proof.
  intros Ht. unfold score_chunk, dict_get_or.
  destruct (chunk !! "text") as [v|] eqn:E; simpl; [|eauto].
  destruct (Ht v eq_refl) as [s ->]. simpl. eauto.
Qed.

(** With string texts, the loop raises on no label that is [-1] or a
    position of the chunk list. *)
Lemma retrieve_loop_total chunks qw keyword_boost pairs :
  texts_are_strings chunks →
  Forall (λ p, p.1 = -1 ∨ 0 ≤ p.1) pairs →
  ∃ rs, retrieve_loop chunks qw keyword_boost pairs = Ok rs.
Proof.
  intros Ht. induction 1 as [|[idx score] pairs Hidx _ [rs IH]]; simpl; [eauto|].
  destruct (Z.eqb_spec idx (-1)); simpl; [eauto|].
  rewrite Z.geb_leb. destruct (Z.leb_spec (py_len chunks) idx); simpl; [eauto|].
  simpl in Hidx. destruct Hidx as [?|Hidx]; [done|].
  destruct (chunks !! Z.to_nat idx) as [chunk|] eqn:E.
  2:{ apply lookup_ge_None in E. unfold py_len in *. lia. }
  rewrite (proj2 (py_index_Ok chunks idx chunk Hidx) E). simpl.
  destruct (score_chunk_total qw keyword_boost chunk score) as [r ->].
  { by apply (proj1 (Forall_forall _ _) Ht), list_elem_of_lookup_2 with (Z.to_nat idx). }
  simpl. rewrite IH. simpl. eauto.
Qed.

End retriever_lemmas.

(** ** Lemmas on the candidates and on [retrieve] *)

Section retrieve_lemmas.
Context {Sc Ix : Type} `{ScoreOps Sc} `{IndexSearch Sc Ix}.
Implicit Types (st : store Sc Ix) (query : string) (k : Z) (keyword_boost : Sc).

(** The store is a matched pair: one index row per chunk. *)
Definition matched_pair st : Prop := index_ntotal (INDEX st) = py_len (CHUNKS st).

Lemma retrieve_Ok st query k keyword_boost hits :
  retrieve st query k keyword_boost = Ok hits →
  py_len (MODEL_encode st query) = index_d (INDEX st) ∧
  ∃ results,
    retrieve_loop (CHUNKS st) (query_word_set query) keyword_boost
      (candidates st query k) = Ok results ∧
    hits = public_hit <$> rerank results k.
Proof.
  unfold retrieve. destruct (Z.eqb_spec (py_len (MODEL_encode st query))
    (index_d (INDEX st))); simpl; [|done].
  intros Hr. inv_result. eauto.
Qed.

Lemma names_chunk_spec (chunks : list pydict) idx :
  names_chunk chunks idx = true ↔ idx ≠ -1 ∧ idx < py_len chunks.
Proof.
  unfold names_chunk. rewrite negb_true_iff, orb_false_iff, Z.geb_leb.
  rewrite Z.eqb_neq, Z.leb_gt. done.
Qed.

Context `{!IndexSearchLaws Sc Ix}.

Lemma candidates_labels st query k :
  Forall (λ p : Z * Sc, p.1 = -1 ∨ 0 ≤ p.1) (candidates st query k).
Proof.
  unfold candidates. set (q := normalize_query _). set (k' := Z.max 50 k).
  assert (0 < k') as Hk by lia.
  pose proof (search_rows (INDEX st) q k' Hk) as Hr.
  pose proof (search_padding (INDEX st) q k' Hk) as Hp.
  apply Forall_forall. intros [idx s] Hin. simpl.
  apply elem_of_zip_l in Hin. simpl in Hin.
  rewrite <- (take_drop (Z.to_nat (Z.min k' (index_ntotal (INDEX st))))) in Hin.
  apply elem_of_app in Hin as [Hin|Hin].
  - right. by apply (proj1 (Forall_forall _ _) Hr) in Hin as [? _].
  - left. by apply (proj1 (Forall_forall _ _) Hp) in Hin.
Qed.

(** In a matched pair, exactly the labels that are not padding name a
    chunk: [min (max 50 k) n] of them. *)
Lemma valid_candidates_length st query k :
  matched_pair st →
  length (filter (λ p : Z * Sc, names_chunk (CHUNKS st) p.1 = true)
            (candidates st query k)) =
  Z.to_nat (Z.min (Z.max 50 k) (py_len (CHUNKS st))).
Proof.
  intros Hm. unfold candidates. cbv zeta. set (q := normalize_query _).
  set (k' := Z.max 50 k). assert (0 < k') as Hk by lia.
  destruct (search_lengths (INDEX st) q k' Hk) as [HD HI].
  pose proof (search_rows (INDEX st) q k' Hk) as Hr.
  pose proof (search_padding (INDEX st) q k' Hk) as Hp.
  rewrite Hm in Hr, Hp. unfold py_len in HD, HI.
  rewrite (filter_zip_fst_length (names_chunk (CHUNKS st))) by lia.
  rewrite <- (take_drop (Z.to_nat (Z.min k' (py_len (CHUNKS st))))
    (index_search (INDEX st) q k').2) at 1.
  rewrite filter_app, filter_Forall_id, filter_Forall_nil.
  - rewrite app_nil_r, length_take. unfold py_len. lia.
  - eapply Forall_impl; [exact Hp|]. intros idx -> [? _]%names_chunk_spec. done.
  - eapply Forall_impl; [exact Hr|]. intros idx Hidx. simpl in Hidx.
    apply names_chunk_spec. lia.
Qed.

End retrieve_lemmas.

(** ** The properties of [retrieve] *)

Section retrieve_properties.
Context {Sc Ix : Type} `{ScoreOps Sc} `{IndexSearch Sc Ix}.
Implicit Types (st : store Sc Ix) (query : string) (k : Z) (keyword_boost : Sc).
Implicit Types (hits : list (hit Sc)).

(** A query embedding whose dimension differs from the index's always
    raises the dimension-mismatch error: nothing is truncated or padded. *)
Theorem retrieve_dimension_mismatch st query k keyword_boost :
  py_len (MODEL_encode st query) ≠ index_d (INDEX st) →
  retrieve st query k keyword_boost =
  Raise (ValueError "Embedding dimension mismatch!").
Proof.
  intros Hne. unfold retrieve.
  by destruct (Z.eqb_spec (py_len (MODEL_encode st query)) (index_d (INDEX st))).
Qed.

(** Every hit comes from a candidate that names a chunk. *)
Lemma retrieve_hit_result st query k keyword_boost hits h :
  retrieve st query k keyword_boost = Ok hits → h ∈ hits →
  ∃ p r, p ∈ candidates st query k ∧ names_chunk (CHUNKS st) p.1 = true ∧
         scored_from (CHUNKS st) (query_word_set query) keyword_boost p r ∧
         h = public_hit r.
Proof.
  intros (_ & results & Hloop & ->)%retrieve_Ok (r & -> & Hr)%list_elem_of_fmap.
  assert (r ∈ results) as Hin.
  { apply (sort_desc_elem s_leb sc_score). unfold rerank in Hr.
    destruct (py_prefix_is_prefix (sort_desc s_leb sc_score results) k) as [t ->].
    apply elem_of_app. by left. }
  apply retrieve_loop_Ok in Hloop.
  apply list_elem_of_lookup in Hin as [i Hi].
  destruct (Forall2_lookup_r _ _ _ _ _ Hloop Hi) as (p & Hp & Hpr).
  apply list_elem_of_lookup_2, list_elem_of_filter in Hp as [? ?]. eauto 10.
Qed.

(** C8. The score of a hit is the inner product the index reported for
    its chunk plus [keyword_boost] times the number of distinct words the
    lower-cased query and the lower-cased chunk text share; its other
    fields are read from that chunk. *)
Theorem retrieve_hit_spec st query k keyword_boost hits h :
  retrieve st query k keyword_boost = Ok hits → h ∈ hits →
  ∃ idx score chunk text,
    (idx, score) ∈ candidates st query k ∧
    py_index (CHUNKS st) idx = Ok chunk ∧
    dict_get_or chunk "text" (PStr "") = PStr text ∧
    h = Hit (s_add score (s_mul keyword_boost (s_of_Z (Z.of_nat
               (size (query_word_set query ∩ word_set (str_lower text)))))))
          (dict_get chunk "uid") (dict_get chunk "source")
          (dict_get chunk "page") (PStr text).
Proof.
  intros Hr Hh.
  destruct (retrieve_hit_result _ _ _ _ _ _ Hr Hh)
    as ([idx score] & r & Hp & _ & (chunk & Hc & Hs) & ->).
  apply score_chunk_Ok in Hs as (text & Ht & ->). eauto 10.
Qed.

Context `{!ScoreLaws Sc}.

Lemma rerank_sorted (results : list (scored_chunk Sc)) k :
  desc_sorted s_leb sc_score (rerank results k).
Proof.
  eapply desc_sorted_prefix; [apply py_prefix_is_prefix|].
  apply sort_desc_sorted; [apply s_leb_total|apply s_leb_trans].
Qed.

(** C2. The hits are in descending order of combined score. *)
Theorem retrieve_sorted st query k keyword_boost hits :
  retrieve st query k keyword_boost = Ok hits →
  desc_sorted s_leb hit_score hits.
Proof.
  intros (_ & results & _ & ->)%retrieve_Ok.
  apply desc_sorted_fmap, rerank_sorted.
Qed.

(** C17. Ties are broken by the order of the semantic search, whatever
    stable sort runs: the hits are the first [k] elements of any
    arrangement of the scored candidates that is descending and keeps
    candidates of equal score in their order. *)
Theorem retrieve_stable st query k keyword_boost hits results sorted :
  retrieve st query k keyword_boost = Ok hits →
  retrieve_loop (CHUNKS st) (query_word_set query) keyword_boost
    (candidates st query k) = Ok results →
  desc_sorted s_leb sc_score sorted →
  stable_of s_leb sc_score results sorted →
  hits = public_hit <$> py_prefix sorted k.
Proof.
  intros (_ & results' & Hloop & ->)%retrieve_Ok Hres Hs Hst.
  rewrite Hloop in Hres. injection Hres as ->. unfold rerank.
  by rewrite (sort_desc_unique s_leb sc_score s_leb_total s_leb_trans
    results sorted).
Qed.


Context `{!IndexSearchLaws Sc Ix}.

(** With matching dimensions and string texts the loop ends without an
    exception and [retrieve] returns the re-ranked results. *)
Lemma retrieve_Ok_results st query k keyword_boost :
  texts_are_strings (CHUNKS st) →
  py_len (MODEL_encode st query) = index_d (INDEX st) →
  ∃ results,
    retrieve_loop (CHUNKS st) (query_word_set query) keyword_boost
      (candidates st query k) = Ok results ∧
    retrieve st query k keyword_boost = Ok (public_hit <$> rerank results k).
Proof.
  intros Ht Hd. unfold retrieve. rewrite Hd, Z.eqb_refl. simpl.
  destruct (retrieve_loop_total (CHUNKS st) (query_word_set query)
    keyword_boost (candidates st query k) Ht (candidates_labels st query k))
    as [rs ->].
  simpl. eauto.
Qed.

(** On a store whose text fields are strings, [retrieve] raises only
    for a dimension mismatch. *)
Theorem retrieve_total st query k keyword_boost :
  texts_are_strings (CHUNKS st) →
  py_len (MODEL_encode st query) = index_d (INDEX st) →
  ∃ hits, retrieve st query k keyword_boost = Ok hits.
Proof.
  intros Ht Hd.
  destruct (retrieve_Ok_results st query k keyword_boost Ht Hd) as (rs & _ & ->).
  eauto.
Qed.

Lemma retrieve_results_length st query k keyword_boost results :
  matched_pair st →
  retrieve_loop (CHUNKS st) (query_word_set query) keyword_boost
    (candidates st query k) = Ok results →
  py_len results = Z.min (Z.max 50 k) (py_len (CHUNKS st)).
Proof.
  intros Hm Hloop%retrieve_loop_Ok%Forall2_length.
  rewrite valid_candidates_length in Hloop by done.
  pose proof (py_len_nonneg (CHUNKS st)). unfold py_len in *. lia.
Qed.

(** C3. For [0 <= k] on a matched index and chunk list, [retrieve]
    returns [min k n] hits, [n] the size of the corpus. *)
Theorem retrieve_length st query k keyword_boost hits :
  matched_pair st → 0 ≤ k →
  retrieve st query k keyword_boost = Ok hits →
  py_len hits = Z.min k (py_len (CHUNKS st)).
Proof.
  intros Hm Hk (_ & results & Hloop & ->)%retrieve_Ok.
  pose proof (retrieve_results_length _ _ _ _ _ Hm Hloop) as Hlen.
  unfold rerank, py_len in *.
  rewrite length_fmap, py_prefix_length, sort_desc_length by done. lia.
Qed.

(** C33. For a negative [k] the slice [results[:k]] drops the last [-k]
    candidates instead of returning none: [retrieve] returns
    [max 0 (min 50 n + k)] hits. *)
Theorem retrieve_negative_k st query k keyword_boost hits :
  matched_pair st → k < 0 →
  retrieve st query k keyword_boost = Ok hits →
  py_len hits = Z.max 0 (Z.min 50 (py_len (CHUNKS st)) + k).
Proof.
  intros Hm Hk (_ & results & Hloop & ->)%retrieve_Ok.
  pose proof (retrieve_results_length _ _ _ _ _ Hm Hloop) as Hlen.
  unfold rerank, py_len in *.
  rewrite length_fmap, py_prefix_neg, length_take, sort_desc_length by done.
  lia.
Qed.

End retrieve_properties.

(** ** A two-chunk corpus: concrete runs and witnesses *)


(** A chunk record as ingestion writes it. *)
Definition chunk_record (uid : Z) (source : string) (page : Z) (text : string)
    : pydict :=
  <["uid" := PInt uid]> (<["source" := PStr source]> (<["page" := PInt page]>
    (<["text" := PStr text]> ∅))).

Definition chunk_A : pydict :=
  chunk_record 1 "doc.pdf" 1 "Visa application fee is 500 rupees".
Definition chunk_B : pydict :=
  chunk_record 2 "doc.pdf" 2 "Passport renewal takes 30 days".

(** The value of [KEYWORD_BOOST] on the rationals. *)
Definition boost_ex : Q := Eval vm_compute in KEYWORD_BOOST.

(** An index in which chunk B is semantically closer to every query than
    chunk A. *)
Definition store_ex : store Q flat_index :=
  Store (FlatIndex 2 [[3 # 5; 4 # 5]; [4 # 5; 3 # 5]]%Q) [chunk_A; chunk_B]
    (λ _, [1; 0]%Q).

(** The same chunks with equal semantic scores, B found first. *)
Definition store_tie : store Q flat_index :=
  Store (FlatIndex 2 [[1; 0]; [1; 0]]%Q) [chunk_B; chunk_A] (λ _, [1; 0]%Q).

(** A model whose output has three components, against an index of
    dimension two. *)
Definition store_skew : store Q flat_index :=
  Store (FlatIndex 2 [[3 # 5; 4 # 5]; [4 # 5; 3 # 5]]%Q) [chunk_A; chunk_B]
    (λ _, [1; 0; 0]%Q).

Definition hits_of (r : result (list (hit Q))) : list (hit Q) :=
  match r with Ok l => l | Raise _ => [] end.

Definition nth_hit (l : list (hit Q)) (n : nat) : hit Q :=
  nth n l (Hit 0%Q PNone PNone PNone PNone).

Definition hits_ex : list (hit Q) :=
  Eval vm_compute in hits_of (retrieve store_ex "visa fee" 2 boost_ex).

Definition hits_tie : list (hit Q) :=
  Eval vm_compute in hits_of (retrieve store_tie "visa fee" 2 boost_ex).

(** The keyword overlap on "visa" and "fee" ranks chunk A above chunk B
    although B has the larger inner product. *)
Example retrieve_visa_fee :
  hit_uid <$> hits_of (retrieve store_ex "visa fee" 2 boost_ex) =
  [PInt 1; PInt 2].
Proof. by vm_compute. Qed.

(** Without a shared word the semantic order stands. *)
Example retrieve_no_overlap :
  hit_uid <$> hits_of (retrieve store_ex "hello" 2 boost_ex) =
  [PInt 2; PInt 1].
Proof. by vm_compute. Qed.

Example retrieve_k_minus_one :
  hit_uid <$> hits_of (retrieve store_ex "visa fee" (-1) boost_ex) = [PInt 1].
Proof. by vm_compute. Qed.

Lemma store_ex_texts : texts_are_strings (CHUNKS store_ex).
Proof.
  repeat constructor; intros v Hv; vm_compute in Hv; injection Hv as <-; eauto.
Defined.

Lemma retrieve_dimension_mismatch_witness :
  retrieve store_skew "visa fee" 2 boost_ex =
  Raise (ValueError "Embedding dimension mismatch!").
Proof. apply retrieve_dimension_mismatch. by vm_compute. Defined.

Lemma retrieve_hit_spec_witness :
  ∃ idx score chunk text,
    (idx, score) ∈ candidates store_ex "visa fee" 2 ∧
    py_index (CHUNKS store_ex) idx = Ok chunk ∧
    dict_get_or chunk "text" (PStr "") = PStr text ∧
    nth_hit hits_ex 0 =
      Hit (s_add score (s_mul boost_ex (s_of_Z (Z.of_nat
             (size (query_word_set "visa fee" ∩ word_set (str_lower text)))))))
        (dict_get chunk "uid") (dict_get chunk "source")
        (dict_get chunk "page") (PStr text).
Proof.
  apply (retrieve_hit_spec store_ex "visa fee" 2 boost_ex hits_ex).
  - by vm_compute.
  - apply list_elem_of_here.
Defined.

Lemma retrieve_sorted_witness : desc_sorted s_leb hit_score hits_ex.
Proof. apply (retrieve_sorted store_ex "visa fee" 2 boost_ex). by vm_compute. Defined.

Definition results_tie : list (scored_chunk Q) :=
  Eval vm_compute in
    match retrieve_loop (CHUNKS store_tie) (query_word_set "visa fee")
            boost_ex (candidates store_tie "visa fee" 2) with
    | Ok l => l
    | Raise _ => []
    end.

Lemma retrieve_stable_witness :
  hits_tie = public_hit <$> py_prefix (sort_desc s_leb sc_score results_tie) 2.
Proof.
  apply (retrieve_stable store_tie "visa fee" 2 boost_ex hits_tie results_tie).
  - by vm_compute.
  - by vm_compute.
  - apply (sort_desc_sorted s_leb sc_score s_leb_total s_leb_trans).
  - apply (sort_desc_stable s_leb sc_score s_leb_trans).
Defined.



Lemma retrieve_total_witness :
  ∃ hits, retrieve store_ex "visa fee" 2 boost_ex = Ok hits.
Proof. apply retrieve_total; [apply store_ex_texts|by vm_compute]. Defined.

Lemma retrieve_length_witness : py_len hits_ex = Z.min 2 (py_len (CHUNKS store_ex)).
Proof.
  apply (retrieve_length store_ex "visa fee" 2 boost_ex).
  - reflexivity.
  - lia.
  - by vm_compute.
Defined.

Lemma retrieve_negative_k_witness :
  py_len (hits_of (retrieve store_ex "visa fee" (-1) boost_ex)) =
  Z.max 0 (Z.min 50 (py_len (CHUNKS store_ex)) + -1).
Proof.
  apply (retrieve_negative_k store_ex "visa fee" (-1) boost_ex).
  - reflexivity.
  - lia.
  - by vm_compute.
Defined.
