(* ===== verification/AnswerClient.v ===== *)
(** * AnswerClient: the key pool, [build_context] and [query_llm] of [chat2.py]

    The module keeps two globals: [current_key_index], the cursor into
    [GEMINI_API_KEYS], and [GEMINI_GENERATIVE_MODEL], the client configured
    with the key under the cursor.  They are the fields of [client_state],
    threaded through [_configure_gemini_client] and [_rotate_api_key].
    The language model is external: [generate] gives the outcome of
    [generate_content] for a key and a prompt, and every theorem holds
    for any [generate].

    The keys themselves are secrets of the deployment and are not
    reproduced: the pool is a field of the state. *)

From S2P Require Import Prelude PyData.

Local Open Scope Z_scope.
Local Open Scope result_scope.

(** ** The key pool *)

Record client_state := ClientState {
  GEMINI_API_KEYS : list string;
  current_key_index : Z;
  GEMINI_GENERATIVE_MODEL : option string;
}.

(** The placeholder the start-up check refuses. *)
Definition PLACEHOLDER_KEY : string := "YOUR_GEMINI_API_KEY_1".

(** The check at import: a pool that is empty or holds the placeholder is
    refused. *)
Definition check_keys (keys : list string) : result unit :=
  if bool_decide (keys = []) || existsb (String.eqb PLACEHOLDER_KEY) keys
  then Raise (ValueError
    "GEMINI_API_KEYS are not set or still contain placeholders. Please set your actual API keys.")
  else Ok ().

(** [_configure_gemini_client()]: the client is rebuilt with the key
    under the cursor. *)
Definition _configure_gemini_client (st : client_state) : result client_state :=
  if bool_decide (GEMINI_API_KEYS st = [])
  then Raise (ValueError "No Gemini API keys available in the pool.")
  else
    let! key := py_index (GEMINI_API_KEYS st) (current_key_index st) in
    Ok (ClientState (GEMINI_API_KEYS st) (current_key_index st) (Some key)).

(** [_rotate_api_key()]: the cursor advances modulo the size of the pool
    and the client is rebuilt. *)
Definition _rotate_api_key (st : client_state) : result client_state :=
  let n := py_len (GEMINI_API_KEYS st) in
  if n =? 0 then Raise ZeroDivisionError
  else
    let st' := ClientState (GEMINI_API_KEYS st)
                 ((current_key_index st + 1) `mod` n)
                 (GEMINI_GENERATIVE_MODEL st) in
    _configure_gemini_client st'.

(** The state after import: the check, the cursor at 0, no client, then
    the initial configuration. *)
Definition init_client (keys : list string) : result client_state :=
  let! _ := check_keys keys in
  _configure_gemini_client (ClientState keys 0 None).

(** [m] rotations in a row. *)
Fixpoint rotate_times (m : nat) (st : client_state) : result client_state :=
  match m with
  | O => Ok st
  | S m => let! st' := _rotate_api_key st in rotate_times m st'
  end.

(** ** [build_context] *)

Definition nl : string := String (Ascii.ascii_of_nat 10) "".
Definition dquote : string := String (Ascii.ascii_of_nat 34) "".

(** The two lines appended for one chunk. *)
Definition context_block (c : pydict) : string :=
  "According to " +:+ dquote +:+ py_str (dict_get_or c "source" (PStr "Unknown"))
    +:+ dquote +:+ " (Page " +:+ py_str (dict_get_or c "page" (PStr "?"))
    +:+ "):" +:+ nl +:+
  py_str (dict_get_or c "text" (PStr "")) +:+ nl +:+ nl.

(** [build_context(chunks)]: the loop appends to [context]. *)
Definition build_context (chunks : list pydict) : string :=
  foldl (λ context c, context +:+ context_block c) "" chunks.

(** ** [query_llm] *)

Definition REFUSAL : string :=
  "I apologize, but the information needed to answer this specific question is not available in the provided government documents.".

(** [prompt_parts]. *)
Definition prompt_parts (context user_query : string) : list string :=
  [ "You are an exceptionally accurate and helpful Government Helpdesk Assistant.";
    "";
    "**Instructions:**";
    "1.  **General Queries**: If the user's question is a general greeting or conversational statement, respond naturally.";
    "2.  **Specific Queries**: If the question asks for specific government info, use **only** the provided `Context`.";
    "    - If the answer is found, provide it.";
    "    - If not, respond: " +:+ dquote +:+ REFUSAL +:+ dquote;
    "";
    "Context:";
    context;
    "";
    "Question:";
    user_query;
    "";
    "Answer:" ].

(** [str(e)] for the exceptions of the model. *)
Definition exn_str (e : exn) : string :=
  match e with
  | ValueError msg | AttributeError msg | TypeError msg | OtherError msg => msg
  | FileNotFoundError path => path
  | IndexError => "list index out of range"
  | KeyError key => "'" +:+ key +:+ "'"
  | ZeroDivisionError => "integer modulo by zero"
  end.

Section llm.
(** [generate key prompt]: the text of the response of
    [generate_content], or the exception the call or the access to
    [response.text] raises. *)
Context (generate : string → list string → result string).

(** The call on the global client; without a client the attribute access
    raises. *)
Definition generate_content (st : client_state) (parts : list string)
    : result string :=
  match GEMINI_GENERATIVE_MODEL st with
  | Some key => generate key parts
  | None => Raise (AttributeError
      "'NoneType' object has no attribute 'generate_content'")
  end.

(** [query_llm(context, user_query)]: every exception becomes the text
    of the answer. *)
Definition query_llm (st : client_state) (context user_query : string) : string :=
  result_catch
    (result_map str_strip (generate_content st (prompt_parts context user_query)))
    (λ e, "Error querying Gemini LLM: " +:+ exn_str e).

End llm.

(** ** The invariant of the key pool *)

(** The cursor is inside a non-empty pool and the client holds the key
    under it. *)
Definition pool_ok (st : client_state) : Prop :=
  0 ≤ current_key_index st < py_len (GEMINI_API_KEYS st) ∧
  GEMINI_GENERATIVE_MODEL st =
    GEMINI_API_KEYS st !! Z.to_nat (current_key_index st).

#[export] Instance pool_ok_dec st : Decision (pool_ok st).
Proof. unfold pool_ok. apply _. Defined.

Lemma pool_ok_nonempty st : pool_ok st → GEMINI_API_KEYS st ≠ [].
Proof. intros [Hi _] E. rewrite E in Hi. unfold py_len in Hi. simpl in Hi. lia. Qed.

Lemma configure_Ok keys idx model :
  0 ≤ idx < py_len keys →
  _configure_gemini_client (ClientState keys idx model) =
  Ok (ClientState keys idx (keys !! Z.to_nat idx)).
Proof.
  intros Hi. unfold _configure_gemini_client. simpl.
  rewrite bool_decide_eq_false_2.
  2:{ intros ->. unfold py_len in Hi. simpl in Hi. lia. }
  destruct (keys !! Z.to_nat idx) as [key|] eqn:E.
  - by rewrite (proj2 (py_index_Ok keys idx key (proj1 Hi)) E).
  - apply lookup_ge_None in E. unfold py_len in Hi. lia.
Qed.

Lemma configure_pool_ok keys idx :
  0 ≤ idx < py_len keys → pool_ok (ClientState keys idx (keys !! Z.to_nat idx)).
Proof. by split. Qed.

(** One rotation on a non-empty pool: the cursor advances modulo the
    size of the pool and the client is rebuilt with the key under it. *)
Lemma rotate_Ok keys idx model :
  keys ≠ [] →
  _rotate_api_key (ClientState keys idx model) =
  Ok (ClientState keys ((idx + 1) `mod` py_len keys)
        (keys !! Z.to_nat ((idx + 1) `mod` py_len keys))).
Proof.
  intros Hne. unfold _rotate_api_key. simpl.
  assert (0 < py_len keys) as Hn.
  { destruct keys; [done|]. unfold py_len. simpl. lia. }
  destruct (Z.eqb_spec (py_len keys) 0); [lia|].
  apply configure_Ok. by apply Z.mod_pos_bound.
Qed.

Lemma rotate_times_Ok keys idx (m : nat) :
  0 ≤ idx < py_len keys →
  rotate_times m (ClientState keys idx (keys !! Z.to_nat idx)) =
  Ok (ClientState keys ((idx + Z.of_nat m) `mod` py_len keys)
        (keys !! Z.to_nat ((idx + Z.of_nat m) `mod` py_len keys))).
Proof.
  revert idx. induction m as [|m IH]; intros idx Hi.
  - simpl. by rewrite Z.add_0_r, Z.mod_small.
  - assert (keys ≠ []) as Hne.
    { intros ->. unfold py_len in Hi. simpl in Hi. lia. }
    cbn [rotate_times]. rewrite rotate_Ok by done. simpl.
    rewrite IH by (apply Z.mod_pos_bound; lia).
    rewrite Zplus_mod_idemp_l.
    by replace (idx + Z.of_nat (S m)) with (idx + 1 + Z.of_nat m) by lia.
Qed.

(** ** Properties of the key pool *)

(** A pool that passes the start-up check is configured with its
    first key, the cursor at 0; an empty pool or one holding the
    placeholder is refused. *)
Theorem init_client_spec keys :
  (keys ≠ [] ∧ PLACEHOLDER_KEY ∉ keys →
     init_client keys = Ok (ClientState keys 0 (head keys)) ∧
     pool_ok (ClientState keys 0 (head keys))) ∧
  (keys = [] ∨ PLACEHOLDER_KEY ∈ keys → ∃ msg, init_client keys = Raise (ValueError msg)).
Proof.
  unfold init_client, check_keys. split.
  - intros [Hne Hp]. rewrite bool_decide_eq_false_2 by done.
    assert (existsb (String.eqb PLACEHOLDER_KEY) keys = false) as ->.
    { apply not_true_is_false. intros (x & Hx & Heq%String.eqb_eq)%existsb_exists.
      subst x. by apply Hp, list_elem_of_In. }
    cbn [orb result_bind]. assert (0 ≤ 0 < py_len keys) as H0.
    { destruct keys; [done|]. unfold py_len. simpl. lia. }
    rewrite configure_Ok by done. rewrite <- head_lookup. split; [done|].
    split; [done|]. simpl. by rewrite head_lookup.
  - intros [->|Hin]; [simpl; eauto|].
    assert (existsb (String.eqb PLACEHOLDER_KEY) keys = true) as ->.
    { apply existsb_exists. exists PLACEHOLDER_KEY.
      split; [by apply list_elem_of_In|apply String.eqb_refl]. }
    rewrite orb_true_r. cbn [result_bind]. eauto.
Qed.

(** C9. A rotation keeps the invariant: the cursor stays inside the pool
    and the client holds the key under it. *)
Theorem rotate_preserves_pool_ok st :
  pool_ok st → ∃ st', _rotate_api_key st = Ok st' ∧ pool_ok st' ∧
    GEMINI_API_KEYS st' = GEMINI_API_KEYS st ∧
    current_key_index st' =
      (current_key_index st + 1) `mod` py_len (GEMINI_API_KEYS st).
Proof.
  intros Hok. pose proof (pool_ok_nonempty st Hok) as Hne.
  destruct st as [keys idx model]. simpl in *.
  rewrite rotate_Ok by done. eexists. split; [done|]. split_and!; [|done..].
  apply configure_pool_ok, Z.mod_pos_bound. destruct Hok as [? _]. simpl in *. lia.
Qed.

(** After as many rotations as the pool has keys the state is the
    one the rotations started from. *)
Theorem rotate_full_cycle st :
  pool_ok st → rotate_times (length (GEMINI_API_KEYS st)) st = Ok st.
Proof.
  destruct st as [keys idx model]. intros [Hi Hm]. simpl in *. subst model.
  rewrite rotate_times_Ok by done.
  replace (idx + Z.of_nat (length keys)) with (idx + 1 * py_len keys)
    by (unfold py_len; lia).
  by rewrite Z.mod_add, Z.mod_small by lia.
Qed.

(** C24. Rotation reaches every key of the pool in fewer rotations than
    the pool has keys. *)
Theorem rotate_reaches_every_key st (j : nat) key :
  pool_ok st → GEMINI_API_KEYS st !! j = Some key →
  ∃ (m : nat) st', (m < length (GEMINI_API_KEYS st))%nat ∧
    rotate_times m st = Ok st' ∧ GEMINI_GENERATIVE_MODEL st' = Some key ∧
    current_key_index st' = Z.of_nat j.
Proof.
  destruct st as [keys idx model]. intros [Hi Hm] Hj. simpl in *. subst model.
  apply lookup_lt_Some in Hj as Hlt. unfold py_len in Hi.
  exists (Z.to_nat ((Z.of_nat j - idx) `mod` Z.of_nat (length keys))).
  pose proof (Z.mod_pos_bound (Z.of_nat j - idx) (Z.of_nat (length keys))
    ltac:(lia)) as Hb.
  eexists. split; [lia|]. rewrite rotate_times_Ok by done. split; [done|].
  unfold py_len. rewrite Z2Nat.id by lia.
  rewrite Zplus_mod_idemp_r.
  replace (idx + (Z.of_nat j - idx)) with (Z.of_nat j) by lia.
  rewrite Z.mod_small by lia. simpl. by rewrite Nat2Z.id.
Qed.

(** ** Properties of [build_context] and [query_llm] *)

Lemma build_context_foldl (acc : string) (chunks : list pydict) :
  foldl (λ context c, context +:+ context_block c) acc chunks =
  acc +:+ str_concat (context_block <$> chunks).
Proof.
  revert acc. induction chunks as [|c chunks IH]; intros acc.
  - simpl. by rewrite str_app_nil_r.
  - cbn [foldl fmap list_fmap]. rewrite IH. unfold str_concat. cbn [foldr].
    by rewrite str_app_assoc.
Qed.

(** The context is the concatenation, in the order received, of one
    attributed block per chunk: nothing is reordered, merged or dropped,
    and a source that occurs twice is rendered twice. *)
Theorem build_context_blocks (chunks : list pydict) :
  build_context chunks = str_concat (context_block <$> chunks).
Proof. unfold build_context. by rewrite build_context_foldl. Qed.

Lemma build_context_app (l1 l2 : list pydict) :
  build_context (l1 ++ l2) = build_context l1 +:+ build_context l2.
Proof. by rewrite !build_context_blocks, fmap_app, str_concat_app. Qed.

Section llm_properties.
Context (generate : string → list string → result string).

(** In a state that satisfies the invariant, [query_llm] calls the
    model with the key under the cursor and the prompt built from the
    context and the question; it returns the stripped text of the
    response, or, if the call raises, the error text of the exception. *)
Theorem query_llm_uses_active_key st context user_query :
  pool_ok st →
  ∃ key,
    GEMINI_API_KEYS st !! Z.to_nat (current_key_index st) = Some key ∧
    query_llm generate st context user_query =
      match generate key (prompt_parts context user_query) with
      | Ok text => str_strip text
      | Raise e => "Error querying Gemini LLM: " +:+ exn_str e
      end.
Proof.
  intros [Hi Hm]. unfold query_llm, generate_content. rewrite Hm.
  destruct (GEMINI_API_KEYS st !! Z.to_nat (current_key_index st)) as [key|] eqn:E.
  - exists key. split; [done|]. by destruct (generate key _).
  - apply lookup_ge_None in E. unfold py_len in Hi. lia.
Qed.

End llm_properties.

(** ** Concrete runs and witnesses *)

Definition pool_ex : client_state := ClientState ["key-a"; "key-b"; "key-c"] 0 (Some "key-a").

(** The context of the single chunk of the specification's example. *)
Example build_context_ex :
  build_context [<["source" := PStr "doc.pdf"]> (<["page" := PInt 1]>
    (<["text" := PStr "Visa application fee is 500 rupees"]> ∅))] =
  "According to " +:+ dquote +:+ "doc.pdf" +:+ dquote +:+ " (Page 1):" +:+ nl +:+
  "Visa application fee is 500 rupees" +:+ nl +:+ nl.
Proof. by vm_compute. Qed.

(** The defaults of a dictionary without the three keys. *)
Example build_context_defaults :
  build_context [∅] =
  "According to " +:+ dquote +:+ "Unknown" +:+ dquote +:+ " (Page ?):" +:+ nl +:+ nl +:+ nl.
Proof. by vm_compute. Qed.

(** Context and question stand at fixed places of the prompt, which
    quotes the refusal sentence. *)
Example prompt_parts_ex :
  prompt_parts "CTX" "Q?" !! 9%nat = Some "CTX" ∧
  prompt_parts "CTX" "Q?" !! 12%nat = Some "Q?" ∧
  prompt_parts "CTX" "Q?" !! 6%nat =
    Some ("    - If not, respond: " +:+ dquote +:+ REFUSAL +:+ dquote) ∧
  length (prompt_parts "CTX" "Q?") = 15%nat.
Proof. done. Qed.

(** A quota failure becomes the answer; the state is not consulted
    again. *)
Example query_llm_quota :
  query_llm (λ _ _, Raise (OtherError "429 quota exceeded")) pool_ex "c" "q" =
  "Error querying Gemini LLM: 429 quota exceeded".
Proof. by vm_compute. Qed.

Example rotate_ex :
  _rotate_api_key pool_ex = Ok (ClientState ["key-a"; "key-b"; "key-c"] 1 (Some "key-b")).
Proof. by vm_compute. Qed.

Lemma pool_ex_ok : pool_ok pool_ex.
Proof. by vm_compute. Defined.

Lemma init_client_spec_witness :
  init_client ["key-a"; "key-b"; "key-c"] = Ok pool_ex ∧ pool_ok pool_ex.
Proof.
  apply (proj1 (init_client_spec ["key-a"; "key-b"; "key-c"])).
  split; [done|]. apply (bool_decide_unpack _). by vm_compute.
Defined.

Lemma rotate_preserves_pool_ok_witness :
  ∃ st', _rotate_api_key pool_ex = Ok st' ∧ pool_ok st' ∧
    GEMINI_API_KEYS st' = GEMINI_API_KEYS pool_ex ∧
    current_key_index st' =
      (current_key_index pool_ex + 1) `mod` py_len (GEMINI_API_KEYS pool_ex).
Proof. apply rotate_preserves_pool_ok, pool_ex_ok. Defined.

Lemma rotate_full_cycle_witness : rotate_times 3 pool_ex = Ok pool_ex.
Proof. apply (rotate_full_cycle pool_ex), pool_ex_ok. Defined.

Lemma rotate_reaches_every_key_witness :
  ∃ (m : nat) st', (m < 3)%nat ∧ rotate_times m pool_ex = Ok st' ∧
    GEMINI_GENERATIVE_MODEL st' = Some "key-c" ∧ current_key_index st' = 2.
Proof. apply (rotate_reaches_every_key pool_ex 2 "key-c"); [apply pool_ex_ok|done]. Defined.

Lemma query_llm_uses_active_key_witness :
  ∃ key,
    GEMINI_API_KEYS pool_ex !! Z.to_nat (current_key_index pool_ex) = Some key ∧
    query_llm (λ key _, Ok ("  answered with " +:+ key)) pool_ex "c" "q" =
      match (λ key _, Ok ("  answered with " +:+ key)) key (prompt_parts "c" "q") with
      | Ok text => str_strip text
      | Raise e => "Error querying Gemini LLM: " +:+ exn_str e
      end.
Proof. apply query_llm_uses_active_key, pool_ex_ok. Defined.
