(* ===== verification/Ingest.v ===== *)
(** * Ingest: [process_pdf_for_worker] and [main] of [ingest2.py]

    A worker opens one PDF, recognises the text of every page, cuts the
    text of each non-blank page into chunks and labels every chunk with
    the document's metadata; any exception makes it return no chunk.
    [main] lists the PDFs that exist, collects the workers' results in
    completion order, numbers the chunks, embeds and normalises their
    texts, builds the flat index and writes the index file and then the
    chunk file.  The script loads the tokenizer before [main] and exits
    with status 1 when it cannot ([ingest2]).

    The outside world is the record [ingest_env]: the metadata file, the
    PDFs on disk, what opening and recognising them yields, the order in
    which the pool delivers results, the embedding model and whether each
    write succeeds.  Every theorem holds for any such environment. *)

From Stdlib Require Import QArith.
From S2P Require Import Prelude PyData Score PySort Chunker VectorIndex.

Local Open Scope Z_scope.
Local Open Scope result_scope.

(** ** The worker *)

(** What [pdfplumber.open] and the OCR of each page yield for a path: an
    exception on opening, or, page by page, the recognised text or the
    exception raised while rendering or recognising it. *)
Definition pdf_reader := string → result (list (result string)).

(** The dictionary appended for one chunk of a page. *)
Definition chunk_with_meta (doc_meta : pydict) (page_num idx : Z) (chunk : string)
    : result pydict :=
  let! source := dict_item doc_meta "filename" in
  let! title := dict_item doc_meta "title" in
  let! date := dict_item doc_meta "date" in
  Ok (<["source" := source]> (<["title" := title]> (<["date" := date]>
     (<["page" := PInt page_num]> (<["chunk_index_on_page" := PInt idx]>
     (<["text" := PStr chunk]> ∅)))))).

(** [for idx, chunk in enumerate(text_chunks, start=1)]. *)
Fixpoint page_loop (doc_meta : pydict) (page_num : Z)
    (text_chunks : list (Z * string)) : result (list pydict) :=
  match text_chunks with
  | [] => Ok []
  | (idx, chunk) :: rest =>
      let! c := chunk_with_meta doc_meta page_num idx chunk in
      let! cs := page_loop doc_meta page_num rest in
      Ok (c :: cs)
  end.

Section worker.
Context {token : Type} (emb_tokenizer : tokenizer token).

(** [for page_num, page in enumerate(pdf.pages, start=1)]: a page whose
    text is blank is skipped. *)
Fixpoint pages_loop (doc_meta : pydict) (pages : list (Z * result string))
    : result (list pydict) :=
  match pages with
  | [] => Ok []
  | (page_num, page) :: rest =>
      let! text := page in
      if str_is_empty (str_strip text) then pages_loop doc_meta rest
      else
        let text_chunks := chunk_text text emb_tokenizer CHUNK_SIZE CHUNK_OVERLAP in
        let! cs := page_loop doc_meta page_num (py_enumerate 1 text_chunks) in
        let! rest' := pages_loop doc_meta rest in
        Ok (cs ++ rest')
  end.

(** [process_pdf_for_worker(task_data)]: whatever is raised, the worker
    returns the empty list. *)
Definition process_pdf_for_worker (open_pdf : pdf_reader)
    (task_data : string * pydict) : list pydict :=
  let '(pdf_path, doc_meta) := task_data in
  result_catch
    (let! pages := open_pdf pdf_path in
     pages_loop doc_meta (py_enumerate 1 pages))
    (λ _, []).

End worker.

(** ** Normalisation *)

Section normalize.
Context `{ScoreOps Sc}.

(** [np.maximum(a, b)]. *)
Definition s_max (a b : Sc) : Sc := if s_leb a b then b else a.

(** One row of [normalize_embeddings]: the row divided by its norm, the
    norm floored at [1e-12]. *)
Definition normalize_row (v : list Sc) : list Sc :=
  let norm := s_max (s_sqrt (dot v v)) s_eps in
  (λ x, s_div x norm) <$> v.

(** [normalize_embeddings(emb)]. *)
Definition normalize_embeddings (emb : list (list Sc)) : list (list Sc) :=
  normalize_row <$> emb.

End normalize.

(** ** The run *)

(** [DATA_DIR], as a prefix of the paths of the PDFs. *)
Definition DATA_DIR : string := "data2".

(** [METADATA_PATH]: the name of the metadata file, below the directory
    of the module. *)
Definition METADATA_PATH : string := "metadata2.json".

(** [os.path.join(DATA_DIR, filename)], with the separator of POSIX: a
    name that starts with the separator replaces the directory; only a
    string can be joined. *)
Definition pdf_path_of (filename : pyval) : result string :=
  match filename with
  | PStr name =>
      Ok (if str_startswith "/" name then name else DATA_DIR +:+ "/" +:+ name)
  | _ => Raise (TypeError "join() argument must be str")
  end.

(** The world [main] runs in. *)
Record ingest_env (Sc : Type) := IngestEnv {
  env_makedirs : result unit;
  env_metadata : file (list pydict);
  env_pdf_exists : string → bool;
  env_open_pdf : pdf_reader;
  env_pool : result (list (string * pydict) → list (string * pydict));
  env_model : result (list pyval → result (list (list Sc)));
  env_write_index : write_outcome;
  env_write_chunks : write_outcome;
}.
Arguments IngestEnv {Sc} _ _ _ _ _ _ _ _.
Arguments env_makedirs {Sc} _.
Arguments env_metadata {Sc} _.
Arguments env_pdf_exists {Sc} _ _.
Arguments env_open_pdf {Sc} _ _.
Arguments env_pool {Sc} _.
Arguments env_model {Sc} _.
Arguments env_write_index {Sc} _.
Arguments env_write_chunks {Sc} _.

(** [load_metadata()]: without the metadata file the process exits with
    status 1; a file that is not JSON makes [json.load] raise. *)
Definition load_metadata (metadata_file : file (list pydict))
    : exit_status + list pydict :=
  match metadata_file with
  | Missing => inl (Exit 1)
  | Torn => inl (Uncaught (ValueError "JSONDecodeError"))
  | Holds metadata => inr metadata
  end.

Section main.
Context {token : Type} (emb_tokenizer : tokenizer token).
Context `{ScoreOps Sc}.

(** The two files of [FAISS_DIR]: [index.faiss] and [chunks.json]. *)
Record out_files := OutFiles {
  index_faiss : file (@flat_index Sc);
  chunks_json : file (list pydict);
}.

(** The loop that fills [tasks_for_pool]: a document whose PDF is missing
    is skipped. *)
Fixpoint tasks_loop (exists_ : string → bool) (metadata : list pydict)
    : result (list (string * pydict)) :=
  match metadata with
  | [] => Ok []
  | doc_meta :: rest =>
      let! filename := dict_item doc_meta "filename" in
      let! pdf_path := pdf_path_of filename in
      let! tasks := tasks_loop exists_ rest in
      if exists_ pdf_path then Ok ((pdf_path, doc_meta) :: tasks) else Ok tasks
  end.

(** [chunk['uid'] = idx] over [enumerate(all_chunks_raw, start=1)]. *)
Definition assign_uids (all_chunks_raw : list pydict) : list pydict :=
  (λ p : Z * pydict, <["uid" := PInt p.1]> p.2) <$> py_enumerate 1 all_chunks_raw.

(** [faiss.IndexFlatIP(embeddings.shape[1])] and [index.add(embeddings)]. *)
Definition build_index (embeddings : list (list Sc)) : result (@flat_index Sc) :=
  match embeddings with
  | [] => Raise IndexError
  | row :: _ => flat_add (IndexFlatIP (py_len row)) embeddings
  end.

(** [main()], from the files [fs] present before the run. *)
Definition main (env : ingest_env Sc) (fs : out_files) : exit_status * out_files :=
  match env_makedirs env with
  | Raise _ => (Exit 1, fs)
  | Ok _ =>
  match load_metadata (env_metadata env) with
  | inl status => (status, fs)
  | inr metadata =>
  match tasks_loop (env_pdf_exists env) metadata with
  | Raise e => (Uncaught e, fs)
  | Ok tasks_for_pool =>
  if bool_decide (tasks_for_pool = []) then (Exit 0, fs) else
  match env_pool env with
  | Raise _ => (Exit 1, fs)
  | Ok deliver =>
  let all_chunks_raw :=
    mjoin (process_pdf_for_worker emb_tokenizer (env_open_pdf env)
             <$> deliver tasks_for_pool) in
  let all_chunks := assign_uids all_chunks_raw in
  if bool_decide (all_chunks = []) then (Exit 0, fs) else
  match env_model env with
  | Raise _ => (Exit 1, fs)
  | Ok encode =>
  match result_mapM (λ c, dict_item c "text") all_chunks with
  | Raise e => (Uncaught e, fs)
  | Ok texts =>
  match encode texts with
  | Raise _ => (Exit 1, fs)
  | Ok embeddings =>
  match build_index (normalize_embeddings embeddings) with
  | Raise _ => (Exit 1, fs)
  | Ok index =>
  let fs1 := OutFiles (write_file (env_write_index env) index (index_faiss fs))
                      (chunks_json fs) in
  match env_write_index env with
  | Refused | Interrupted => (Exit 1, fs1)
  | Written =>
  let fs2 := OutFiles (index_faiss fs1)
                      (write_file (env_write_chunks env) all_chunks (chunks_json fs1)) in
  match env_write_chunks env with
  | Refused | Interrupted => (Exit 1, fs2)
  | Written => (Completed, fs2)
  end end
  end end end end end end end end.

End main.

(** The script: the tokenizer is loaded when the module is imported, and
    the process exits with status 1 when the loading raises; otherwise
    [main()] runs with it. *)
Definition ingest2 {token : Type} `{ScoreOps Sc}
    (from_pretrained : result (tokenizer token))
    (env : ingest_env Sc) (fs : out_files) : exit_status * out_files :=
  match from_pretrained with
  | Raise _ => (Exit 1, fs)
  | Ok emb_tokenizer => main emb_tokenizer env fs
  end.

(** ** Lemmas on the worker *)

Section worker_lemmas.
Context {token : Type} (tk : tokenizer token).
Implicit Types (doc_meta : pydict) (pages : list (result string)).

(** A document record with the three keys the worker reads. *)
Definition has_meta doc_meta : Prop :=
  is_Some (doc_meta !! "filename") ∧ is_Some (doc_meta !! "title") ∧
  is_Some (doc_meta !! "date").

(** The chunks of one page, in closed form. *)
Definition page_chunks doc_meta (page_num : Z) (text : string) : list pydict :=
  if str_is_empty (str_strip text) then []
  else
    (λ p : Z * string,
       <["source" := dict_get doc_meta "filename"]>
       (<["title" := dict_get doc_meta "title"]>
       (<["date" := dict_get doc_meta "date"]>
       (<["page" := PInt page_num]> (<["chunk_index_on_page" := PInt p.1]>
       (<["text" := PStr p.2]> ∅))))))
    <$> py_enumerate 1 (chunk_text text tk CHUNK_SIZE CHUNK_OVERLAP).

Lemma chunk_with_meta_Ok doc_meta page_num idx chunk :
  has_meta doc_meta →
  chunk_with_meta doc_meta page_num idx chunk =
  Ok (<["source" := dict_get doc_meta "filename"]>
     (<["title" := dict_get doc_meta "title"]>
     (<["date" := dict_get doc_meta "date"]>
     (<["page" := PInt page_num]> (<["chunk_index_on_page" := PInt idx]>
     (<["text" := PStr chunk]> ∅)))))).
Proof.
  intros ([f Hf] & [t Ht] & [d Hd]).
  unfold chunk_with_meta, dict_item, dict_get. by rewrite Hf, Ht, Hd.
Qed.

Lemma page_loop_Ok doc_meta page_num (cs : list (Z * string)) :
  has_meta doc_meta →
  page_loop doc_meta page_num cs =
  Ok ((λ p : Z * string,
       <["source" := dict_get doc_meta "filename"]>
       (<["title" := dict_get doc_meta "title"]>
       (<["date" := dict_get doc_meta "date"]>
       (<["page" := PInt page_num]> (<["chunk_index_on_page" := PInt p.1]>
       (<["text" := PStr p.2]> ∅)))))) <$> cs).
Proof.
  intros Hm. induction cs as [|[idx chunk] cs IH]; [done|].
  cbn [page_loop]. rewrite chunk_with_meta_Ok by done. cbn [result_bind].
  by rewrite IH.
Qed.

Lemma pages_loop_Ok doc_meta (start : Z) (texts : list string) :
  has_meta doc_meta →
  pages_loop tk doc_meta (py_enumerate start (Ok <$> texts)) =
  Ok (mjoin ((λ p : Z * string, page_chunks doc_meta p.1 p.2)
               <$> py_enumerate start texts)).
Proof.
  intros Hm. revert start. induction texts as [|text texts IH]; intros start.
  { done. }
  rewrite fmap_cons, !py_enumerate_cons. cbn [pages_loop result_bind fmap list_fmap].
  rewrite IH. cbn [mjoin list_join fst snd].
  pose proof (eq_refl : page_chunks doc_meta start text = _) as Hpc.
  unfold page_chunks at 2 in Hpc. rewrite Hpc. clear Hpc.
  destruct (str_is_empty (str_strip text)); [done|].
  by rewrite page_loop_Ok.
Qed.

Lemma pages_loop_Raise doc_meta (start : Z) pages e :
  Raise e ∈ pages →
  ∃ e', pages_loop tk doc_meta (py_enumerate start pages) = Raise e'.
Proof.
  intros Hin. revert start. induction pages as [|page pages IH]; intros start.
  { by apply elem_of_nil in Hin. }
  rewrite py_enumerate_cons. cbn [pages_loop].
  destruct page as [text|e0]; [|by eexists].
  apply elem_of_cons in Hin as [?|Hin]; [done|].
  destruct (IH Hin (start + 1)) as [e' He']. cbn [result_bind].
  destruct (str_is_empty (str_strip text)); [by eexists|].
  destruct (page_loop _ _ _); cbn [result_bind]; [|by eexists].
  rewrite He'. by eexists.
Qed.

End worker_lemmas.

(** ** Properties of the worker *)

Section worker_properties.
Context {token : Type} (tk : tokenizer token).
Implicit Types (doc_meta : pydict) (open_pdf : pdf_reader).

(** C10. A PDF that cannot be opened, or one of whose pages cannot be
    rendered or recognised, contributes no chunk: the worker returns the
    empty list and raises nothing. *)
Theorem process_pdf_failure open_pdf pdf_path doc_meta :
  (∃ e, open_pdf pdf_path = Raise e) ∨
  (∃ pages e, open_pdf pdf_path = Ok pages ∧ Raise e ∈ pages) →
  process_pdf_for_worker tk open_pdf (pdf_path, doc_meta) = [].
Proof.
  unfold process_pdf_for_worker. intros [[e ->]|(pages & e & -> & Hin)]; [done|].
  cbn [result_bind]. by destruct (pages_loop_Raise tk doc_meta 1 pages e Hin) as [e' ->].
Qed.

(** C25. When every page is recognised, the worker returns, page after
    page from page 1, the chunks of the non-blank pages, each labelled
    with the file name, title and date of the document, its page number
    and its rank on the page from 1. *)
Theorem process_pdf_chunks open_pdf pdf_path doc_meta (texts : list string) :
  has_meta doc_meta → open_pdf pdf_path = Ok (Ok <$> texts) →
  process_pdf_for_worker tk open_pdf (pdf_path, doc_meta) =
  mjoin ((λ p : Z * string, page_chunks tk doc_meta p.1 p.2)
           <$> py_enumerate 1 texts).
Proof.
  intros Hm Ho. unfold process_pdf_for_worker. rewrite Ho. cbn [result_bind].
  by rewrite pages_loop_Ok.
Qed.

(** What every record the worker returns holds: a string text, a page
    number and a rank on the page, both from 1. *)
Definition chunk_wf (c : pydict) : Prop :=
  (∃ s, c !! "text" = Some (PStr s)) ∧
  (∃ p, c !! "page" = Some (PInt p) ∧ 1 ≤ p) ∧
  (∃ i, c !! "chunk_index_on_page" = Some (PInt i) ∧ 1 ≤ i).

Lemma chunk_with_meta_wf doc_meta page_num idx chunk c :
  1 ≤ page_num → 1 ≤ idx →
  chunk_with_meta doc_meta page_num idx chunk = Ok c → chunk_wf c.
Proof.
  intros Hp Hi Hc. unfold chunk_with_meta in Hc. inv_result.
  unfold chunk_wf. split_and!; [exists chunk|exists page_num|exists idx];
    by simplify_map_eq.
Qed.

Lemma py_enumerate_ge {A} (start : Z) (l : list A) :
  Forall (λ p, start ≤ p.1) (py_enumerate start l).
Proof.
  revert start. induction l as [|x l IH]; intros start; [constructor|].
  rewrite py_enumerate_cons. constructor; [simpl; lia|].
  eapply Forall_impl; [apply IH|]. simpl. intros; lia.
Qed.

(** A property of every record built for a document, with page numbers
    and ranks from 1, is a property of every record the worker returns
    for it. *)
Section worker_Forall.
Context (doc_meta : pydict) (P : pydict → Prop).
Hypothesis chunk_P : ∀ page_num idx chunk c,
  1 ≤ page_num → 1 ≤ idx →
  chunk_with_meta doc_meta page_num idx chunk = Ok c → P c.

Lemma page_loop_Forall page_num (cs : list (Z * string)) out :
  1 ≤ page_num → Forall (λ p, 1 ≤ p.1) cs →
  page_loop doc_meta page_num cs = Ok out → Forall P out.
Proof.
  intros Hp Hcs. revert out. induction Hcs as [|[idx chunk] cs Hi _ IH];
    intros out Hout; cbn [page_loop] in Hout; inv_result; [constructor|].
  constructor; [|by apply IH].
  by apply (chunk_P page_num idx chunk).
Qed.

Lemma pages_loop_Forall (pages : list (Z * result string)) out :
  Forall (λ p, 1 ≤ p.1) pages →
  pages_loop tk doc_meta pages = Ok out → Forall P out.
Proof.
  intros Hp. revert out. induction Hp as [|[n page] pages Hn _ IH];
    intros out Hout; cbn [pages_loop] in Hout; [inv_result; constructor|].
  destruct page as [text|]; [|done]. cbn [result_bind] in Hout.
  destruct (str_is_empty (str_strip text)); [by apply IH|].
  inv_result. apply Forall_app. split; [|by apply IH].
  eapply page_loop_Forall; [done|apply py_enumerate_ge|done].
Qed.

Lemma process_pdf_Forall open_pdf (pdf_path : string) :
  Forall P (process_pdf_for_worker tk open_pdf (pdf_path, doc_meta)).
Proof.
  unfold process_pdf_for_worker.
  destruct (open_pdf pdf_path) as [pages|]; [|constructor]. cbn [result_bind].
  destruct (pages_loop tk doc_meta (py_enumerate 1 pages)) as [out|] eqn:E;
    [|constructor].
  eapply pages_loop_Forall; [apply py_enumerate_ge|done].
Qed.

End worker_Forall.

(** A record carries the [filename], [title] and [date] of its
    document. *)
Lemma chunk_with_meta_fields doc_meta page_num idx chunk c :
  chunk_with_meta doc_meta page_num idx chunk = Ok c →
  c !! "source" = doc_meta !! "filename" ∧ c !! "title" = doc_meta !! "title" ∧
  c !! "date" = doc_meta !! "date".
Proof.
  unfold chunk_with_meta, dict_item. intros Hc.
  destruct (doc_meta !! "filename"), (doc_meta !! "title"), (doc_meta !! "date");
    cbn [result_bind] in Hc; simplify_eq. by simplify_map_eq.
Qed.

Lemma process_pdf_fields open_pdf pdf_path doc_meta :
  Forall (λ c, c !! "source" = doc_meta !! "filename" ∧
               c !! "title" = doc_meta !! "title" ∧ c !! "date" = doc_meta !! "date")
    (process_pdf_for_worker tk open_pdf (pdf_path, doc_meta)).
Proof.
  apply process_pdf_Forall. intros page_num idx chunk c _ _.
  apply chunk_with_meta_fields.
Qed.

(** A worker that returns a record has opened its PDF. *)
Lemma process_pdf_opened open_pdf pdf_path doc_meta c :
  c ∈ process_pdf_for_worker tk open_pdf (pdf_path, doc_meta) →
  ∃ pages, open_pdf pdf_path = Ok pages.
Proof.
  unfold process_pdf_for_worker. destruct (open_pdf pdf_path) as [pages|]; [by eauto|].
  by intros ?%elem_of_nil.
Qed.

(** Whatever the PDF and the metadata, every record the worker returns
    is well formed. *)
Lemma process_pdf_wf open_pdf (task_data : string * pydict) :
  Forall chunk_wf (process_pdf_for_worker tk open_pdf task_data).
Proof.
  destruct task_data as [pdf_path doc_meta]. apply process_pdf_Forall.
  apply chunk_with_meta_wf.
Qed.

End worker_properties.

(** ** Properties of the run *)

Section main_properties.
Context {token : Type} (tk : tokenizer token).
Context `{ScoreOps Sc}.
Implicit Types (env : ingest_env Sc) (fs : @out_files Sc).

Lemma assign_uids_length raw : length (assign_uids raw) = length raw.
Proof. unfold assign_uids. by rewrite length_fmap, py_enumerate_length. Qed.

Lemma assign_uids_lookup raw (i : nat) :
  assign_uids raw !! i = (λ c, <["uid" := PInt (Z.of_nat i + 1)]> c) <$> raw !! i.
Proof.
  unfold assign_uids. rewrite list_lookup_fmap.
  destruct (raw !! i) as [c|] eqn:E.
  - rewrite (py_enumerate_lookup 1 raw i c E). simpl. do 3 f_equal. lia.
  - rewrite (proj2 (lookup_ge_None _ _)); [done|].
    rewrite py_enumerate_length. by apply lookup_ge_None.
Qed.

Lemma assign_uids_nil raw : assign_uids raw = [] ↔ raw = [].
Proof.
  split; [|by intros ->]. intros E%(f_equal length).
  rewrite assign_uids_length in E. by destruct raw.
Qed.

Lemma chunk_wf_uid c (uid : Z) : chunk_wf c → chunk_wf (<["uid" := PInt uid]> c).
Proof.
  intros ((s & Hs) & (p & Hp & ?) & (i & Hi & ?)).
  split_and!; [exists s|exists p|exists i]; by simplify_map_eq.
Qed.

(** Numbering carries a property of the records over, when setting
    [uid] does. *)
Lemma assign_uids_Forall (P Q : pydict → Prop) raw :
  (∀ c uid, P c → Q (<["uid" := PInt uid]> c)) →
  Forall P raw → Forall Q (assign_uids raw).
Proof.
  intros HPQ Hraw. apply Forall_lookup. intros i c. rewrite assign_uids_lookup.
  intros (c' & Hc' & ->)%fmap_Some. apply HPQ.
  by eapply (proj1 (Forall_lookup _ _) Hraw).
Qed.

Lemma assign_uids_wf raw : Forall chunk_wf raw → Forall chunk_wf (assign_uids raw).
Proof. apply assign_uids_Forall. intros c uid. apply chunk_wf_uid. Qed.

(** A task is a document of the metadata whose [filename] is a string,
    with the path of its PDF, which exists. *)
Lemma tasks_loop_tasks (exists_ : string → bool) metadata tasks :
  tasks_loop exists_ metadata = Ok tasks →
  Forall (λ t : string * pydict,
            t.2 ∈ metadata ∧ exists_ t.1 = true ∧
            ∃ name, t.2 !! "filename" = Some (PStr name) ∧
                    pdf_path_of (PStr name) = Ok t.1) tasks.
Proof.
  revert tasks. induction metadata as [|doc_meta rest IH]; intros tasks Ht;
    cbn [tasks_loop] in Ht; [inv_result; constructor|].
  unfold dict_item in Ht. destruct (doc_meta !! "filename") as [filename|] eqn:Hf; [|done].
  cbn [result_bind] in Ht. destruct filename as [| |name]; try done.
  cbn [pdf_path_of result_bind] in Ht.
  destruct (tasks_loop exists_ rest) as [tasks'|]; [|done]. cbn [result_bind] in Ht.
  specialize (IH tasks' eq_refl).
  assert (Forall (λ t : string * pydict,
            t.2 ∈ doc_meta :: rest ∧ exists_ t.1 = true ∧
            ∃ name, t.2 !! "filename" = Some (PStr name) ∧
                    pdf_path_of (PStr name) = Ok t.1) tasks') as IH'.
  { eapply Forall_impl; [exact IH|]. intros t (? & ? & ?).
    split_and!; [by apply list_elem_of_further|done|done]. }
  destruct (exists_ _) eqn:Hex; injection Ht as <-; [|done].
  constructor; [|done]. cbn [fst snd].
  split_and!; [apply list_elem_of_here|done|by exists name].
Qed.

(** The chunks of a run: the results of the workers, in the order the
    pool delivers them, numbered from 1. *)
Definition run_chunks env (tasks : list (string * pydict))
    (deliver : list (string * pydict) → list (string * pydict)) : list pydict :=
  assign_uids (mjoin (process_pdf_for_worker tk (env_open_pdf env) <$> deliver tasks)).

(** A property of the records of every task delivered that numbering
    keeps is a property of the chunks of the run. *)
Lemma run_chunks_Forall (P Q : pydict → Prop) env tasks deliver :
  (∀ c uid, P c → Q (<["uid" := PInt uid]> c)) →
  Forall (λ t, Forall P (process_pdf_for_worker tk (env_open_pdf env) t)) (deliver tasks) →
  Forall Q (run_chunks env tasks deliver).
Proof.
  intros HPQ Ht. unfold run_chunks. apply (assign_uids_Forall P); [done|].
  by apply Forall_join, Forall_fmap.
Qed.

Lemma run_chunks_wf env tasks deliver : Forall chunk_wf (run_chunks env tasks deliver).
Proof.
  apply (run_chunks_Forall chunk_wf); [intros c uid; apply chunk_wf_uid|].
  apply Forall_true. intros t. apply process_pdf_wf.
Qed.

Lemma build_index_Ok (embeddings : list (list Sc)) index :
  build_index embeddings = Ok index →
  flat_xb index = embeddings ∧ Forall (λ r, py_len r = flat_d index) embeddings.
Proof.
  unfold build_index, flat_add, IndexFlatIP. destruct embeddings as [|row rest]; [done|].
  cbn [flat_d flat_xb]. destruct (forallb _ _) eqn:E; [|done]. intros [= <-].
  split; [done|]. apply Is_true_true, forallb_True in E.
  eapply Forall_impl; [exact E|]. intros r Hr. cbn [flat_d].
  by apply Z.eqb_eq, Is_true_true.
Qed.

(** What a completed run went through. *)
Lemma main_Completed env fs fs' :
  main tk env fs = (Completed, fs') →
  ∃ metadata tasks deliver encode texts embeddings index,
    env_makedirs env = Ok () ∧ env_metadata env = Holds metadata ∧
    tasks_loop (env_pdf_exists env) metadata = Ok tasks ∧ tasks ≠ [] ∧
    env_pool env = Ok deliver ∧ env_model env = Ok encode ∧
    run_chunks env tasks deliver ≠ [] ∧
    result_mapM (λ c, dict_item c "text") (run_chunks env tasks deliver) = Ok texts ∧
    encode texts = Ok embeddings ∧
    build_index (normalize_embeddings embeddings) = Ok index ∧
    fs' = OutFiles (Holds index) (Holds (run_chunks env tasks deliver)).
Proof.
  unfold main, run_chunks. intros Hm.
  destruct (env_makedirs env) as [[]|]; [|done].
  destruct (env_metadata env) as [|metadata|]; cbn [load_metadata] in Hm; [done| |done].
  repeat case_match; simplify_eq. cbn [write_file index_faiss].
  repeat match goal with
         | H : bool_decide _ = false |- _ => apply bool_decide_eq_false in H
         end.
  by repeat eexists.
Qed.

Lemma tasks_loop_none (exists_ : string → bool) metadata :
  Forall (λ d : pydict, ∃ name, d !! "filename" = Some (PStr name)) metadata →
  (∀ p, exists_ p = false) → tasks_loop exists_ metadata = Ok [].
Proof.
  intros Hmeta Hex. induction Hmeta as [|d metadata [name Hd] _ IH]; [done|].
  cbn [tasks_loop]. unfold dict_item. rewrite Hd. cbn [result_bind pdf_path_of].
  by rewrite IH, Hex.
Qed.

Lemma run_chunks_unreadable env tasks deliver :
  (∀ p, ∃ e, env_open_pdf env p = Raise e) → run_chunks env tasks deliver = [].
Proof.
  intros Hopen. unfold run_chunks. apply assign_uids_nil.
  induction (deliver tasks) as [|[p d] l IH]; [done|].
  destruct (Hopen p) as [e He].
  cbn [fmap list_fmap mjoin list_join process_pdf_for_worker]. rewrite He.
  exact IH.
Qed.

(** The environment [env] with the outcomes of its two writes replaced. *)
Definition with_writes env (wi wc : write_outcome) : ingest_env Sc :=
  IngestEnv (env_makedirs env) (env_metadata env) (env_pdf_exists env)
    (env_open_pdf env) (env_pool env) (env_model env) wi wc.

(** A run that completes leaves an index and the chunks of the run, as
    many rows as chunks, every row of the dimension of the index;
    provided the model returns one embedding per text. *)
Lemma main_Completed_rows env fs fs' :
  (∀ encode texts embs, env_model env = Ok encode → encode texts = Ok embs →
     length embs = length texts) →
  main tk env fs = (Completed, fs') →
  ∃ index tasks deliver,
    fs' = OutFiles (Holds index) (Holds (run_chunks env tasks deliver)) ∧
    run_chunks env tasks deliver ≠ [] ∧
    py_len (flat_xb index) = py_len (run_chunks env tasks deliver) ∧
    Forall (λ r, py_len r = flat_d index) (flat_xb index).
Proof.
  intros Henc (metadata & tasks & deliver & encode & texts & embs & index & _ & _
    & _ & _ & _ & Hmodel & Hne & Htexts & Hembs & Hidx & ->)%main_Completed.
  apply build_index_Ok in Hidx as [Hxb Hd]. apply result_mapM_Ok, Forall2_length in Htexts.
  exists index, tasks, deliver. split_and!; [done|done| |by rewrite Hxb].
  unfold py_len, normalize_embeddings in *. rewrite Hxb, length_fmap.
  by rewrite (Henc _ _ _ Hmodel Hembs), Htexts.
Qed.

(** C4. A run that completes leaves a matched pair: an index file and a
    chunk file with as many rows as chunks and at least one, every row of
    the dimension of the index, every chunk well formed and the chunk at
    position [i] numbered [i + 1]; provided the model returns one
    embedding per text. *)
Theorem main_completed_pair env fs fs' :
  (∀ encode texts embs, env_model env = Ok encode → encode texts = Ok embs →
     length embs = length texts) →
  main tk env fs = (Completed, fs') →
  ∃ index chunks,
    fs' = OutFiles (Holds index) (Holds chunks) ∧ chunks ≠ [] ∧
    py_len (flat_xb index) = py_len chunks ∧
    Forall (λ r, py_len r = flat_d index) (flat_xb index) ∧
    Forall chunk_wf chunks ∧
    ∀ (i : nat) c, chunks !! i = Some c → c !! "uid" = Some (PInt (Z.of_nat i + 1)).
Proof.
  intros Henc Hm.
  destruct (main_Completed_rows env fs fs' Henc Hm)
    as (index & tasks & deliver & -> & Hne & Hlen & Hd).
  exists index, (run_chunks env tasks deliver).
  split_and!; [done..|apply run_chunks_wf|].
  intros i c. unfold run_chunks. rewrite assign_uids_lookup.
  intros (c' & _ & ->)%fmap_Some. by rewrite lookup_insert_eq.
Qed.

(** When no PDF named by the metadata exists, the run ends by
    [sys.exit(0)] and leaves the files as they were. *)
Theorem main_no_pdf env fs metadata :
  env_makedirs env = Ok () → env_metadata env = Holds metadata →
  Forall (λ d : pydict, ∃ name, d !! "filename" = Some (PStr name)) metadata →
  (∀ p, env_pdf_exists env p = false) →
  main tk env fs = (Exit 0, fs).
Proof.
  intros Hmk Hmeta Hnames Hex. unfold main.
  rewrite Hmk, Hmeta. cbn [load_metadata].
  by rewrite (tasks_loop_none _ _ Hnames Hex).
Qed.

(** When no PDF can be opened, no chunk is extracted and the run ends
    by [sys.exit(0)] and leaves the files as they were. *)
Theorem main_no_chunks env fs metadata tasks deliver :
  env_makedirs env = Ok () → env_metadata env = Holds metadata →
  tasks_loop (env_pdf_exists env) metadata = Ok tasks →
  env_pool env = Ok deliver →
  (∀ p, ∃ e, env_open_pdf env p = Raise e) →
  main tk env fs = (Exit 0, fs).
Proof.
  intros Hmk Hmeta Htasks Hpool Hopen. unfold main.
  rewrite Hmk, Hmeta. cbn [load_metadata].
  rewrite Htasks, Hpool. fold (run_chunks env tasks deliver).
  rewrite (run_chunks_unreadable _ _ _ Hopen). by case_bool_decide.
Qed.

(** C16. What a run can do to the two files.  A completed run holds a new
    index and new chunks.  A run that ends by [sys.exit(0)] or by an
    uncaught exception touches nothing.  A run that ends by [sys.exit(1)]
    either touches nothing, or leaves an incomplete index beside the old
    chunks, or leaves a new index beside the old or incomplete chunks. *)
Theorem main_files env fs st fs' :
  main tk env fs = (st, fs') →
  match st with
  | Completed => ∃ index chunks, fs' = OutFiles (Holds index) (Holds chunks)
  | Exit 0 | Uncaught _ => fs' = fs
  | Exit _ =>
      fs' = fs ∨
      (index_faiss fs' = Torn ∧ chunks_json fs' = chunks_json fs) ∨
      (∃ index, index_faiss fs' = Holds index ∧
         (chunks_json fs' = chunks_json fs ∨ chunks_json fs' = Torn))
  end.
Proof.
  unfold main. intros Hm. destruct fs as [fi fc].
  destruct (env_metadata env); cbn [load_metadata] in Hm;
    repeat case_match; simplify_eq; cbn [write_file index_faiss chunks_json];
    eauto 8.
Qed.

(** In a world where the run would complete, the two files after the
    run under any outcome of the two writes: the index is written
    first, and the chunk file only after the index is written. *)
Lemma main_writes env fs index chunks (wi wc : write_outcome) :
  main tk (with_writes env Written Written) fs =
    (Completed, OutFiles (Holds index) (Holds chunks)) →
  main tk (with_writes env wi wc) fs =
    (if bool_decide (wi = Written ∧ wc = Written) then Completed else Exit 1,
     OutFiles (write_file wi index (index_faiss fs))
       (if bool_decide (wi = Written) then write_file wc chunks (chunks_json fs)
        else chunks_json fs)).
Proof.
  intros (metadata & tasks & deliver & encode & texts & embs & index' & Hmk & Hmeta
    & Htasks & Ht & Hpool & Hmodel & Hne & Htexts & Hembs & Hidx & [= -> ->])%main_Completed.
  revert Hmk Hmeta Htasks Hpool Hmodel Hne Htexts Hembs Hidx.
  unfold main, run_chunks, with_writes.
  cbn [env_makedirs env_metadata env_pdf_exists env_open_pdf env_pool env_model
       env_write_index env_write_chunks].
  intros -> -> Htasks -> -> Hne Htexts Hembs Hidx. cbn [load_metadata].
  rewrite Htasks, (bool_decide_eq_false_2 _ Ht). cbv beta iota zeta.
  rewrite (bool_decide_eq_false_2 _ Hne), Htexts, Hembs, Hidx.
  by destruct wi, wc.
Qed.

(** C31. Persistence is not atomic: in a world where the run would
    complete, refusing the write of the chunk file makes the run end by
    [sys.exit(1)] with the new index beside the chunks of before. *)
Theorem main_persist_not_atomic env fs index chunks :
  main tk (with_writes env Written Written) fs =
    (Completed, OutFiles (Holds index) (Holds chunks)) →
  main tk (with_writes env Written Refused) fs =
    (Exit 1, OutFiles (Holds index) (chunks_json fs)).
Proof. intros Hm. by rewrite (main_writes env fs index chunks Written Refused Hm). Qed.

(** The order in which the pool delivers the results changes the
    numbering only: without their [uid], the chunks of two runs over the
    same tasks are the same up to order. *)
Theorem run_chunks_pool_order env tasks deliver1 deliver2 :
  deliver1 tasks ≡ₚ deliver2 tasks →
  delete "uid" <$> run_chunks env tasks deliver1 ≡ₚ
  delete "uid" <$> run_chunks env tasks deliver2.
Proof.
  assert (∀ raw, delete "uid" <$> assign_uids raw = delete "uid" <$> raw) as Hdel.
  { intros raw. apply list_eq. intros i.
    rewrite !list_lookup_fmap, assign_uids_lookup. destruct (raw !! i); [|done].
    simpl. by rewrite delete_insert_eq. }
  intros Hperm. unfold run_chunks. by rewrite !Hdel, Hperm.
Qed.

End main_properties.

(** ** A three-document corpus: concrete runs and witnesses *)

Definition doc_record (filename title date : string) : pydict :=
  <["filename" := PStr filename]> (<["title" := PStr title]>
    (<["date" := PStr date]> ∅)).

Definition meta_a : pydict := doc_record "a.pdf" "Visa rules" "2023-01-05".
Definition meta_b : pydict := doc_record "b.pdf" "Passport rules" "2023-02-11".
Definition meta_c : pydict := doc_record "c.pdf" "Damaged scan" "2023-03-20".

(** [a.pdf] has a blank second page, [c.pdf] cannot be opened. *)
Definition open_ex : pdf_reader := λ path,
  if String.eqb path "data2/a.pdf" then Ok [Ok "Visa fee is 500"; Ok "  "; Ok "Pay online"]
  else if String.eqb path "data2/b.pdf" then Ok [Ok "Renewal takes 30 days"]
  else Raise (OtherError "not a PDF").

(** A model that embeds every text as the row [(3, 4)]. *)
Definition env_ex : ingest_env Q :=
  IngestEnv (Ok ()) (Holds [meta_a; meta_b; meta_c]) (λ _, true) open_ex
    (Ok id) (Ok (λ texts, Ok ((λ _, [3; 4]%Q) <$> texts))) Written Written.

Definition fs_empty : @out_files Q := OutFiles Missing Missing.

Definition chunks_ex : list pydict :=
  Eval vm_compute in
    match chunks_json (main tk_chars env_ex fs_empty).2 with
    | Holds chunks => chunks
    | _ => []
    end.

(** The run completes; the chunks are numbered in delivery order, the
    blank page and the damaged document give none. *)
Example main_ex :
  (main tk_chars env_ex fs_empty).1 = Completed ∧
  (λ c, (dict_get c "uid", dict_get c "source", dict_get c "page", dict_get c "text"))
    <$> chunks_ex =
  [(PInt 1, PStr "a.pdf", PInt 1, PStr "Visa fee is 500");
   (PInt 2, PStr "a.pdf", PInt 3, PStr "Pay online");
   (PInt 3, PStr "b.pdf", PInt 1, PStr "Renewal takes 30 days")].
Proof. by vm_compute. Qed.

(** A row [(3, 4)] is normalised to [(3/5, 4/5)]; a zero row stays zero. *)
Example normalize_embeddings_ex :
  Forall2 (Forall2 Qeq) (normalize_embeddings [[3; 4]; [0; 0]]%Q)
    [[3 # 5; 4 # 5]; [0; 0]]%Q.
Proof. repeat constructor. Qed.

(** A metadata record without a file name ends the run by an uncaught
    [KeyError]. *)
Example main_missing_filename :
  main tk_chars
    (IngestEnv (Ok ()) (Holds [meta_a; ∅]) (λ _, true) open_ex (Ok id)
       (env_model env_ex) Written Written) fs_empty =
  (Uncaught (KeyError "filename"), fs_empty).
Proof. by vm_compute. Qed.

(** Without the metadata file the run exits with status 1; a metadata
    file that cannot be parsed ends it by an uncaught exception. *)
Example main_metadata_file :
  main tk_chars (IngestEnv (Ok ()) Missing (λ _, true) open_ex (Ok id)
                   (env_model env_ex) Written Written) fs_empty = (Exit 1, fs_empty) ∧
  main tk_chars (IngestEnv (Ok ()) Torn (λ _, true) open_ex (Ok id)
                   (env_model env_ex) Written Written) fs_empty =
    (Uncaught (ValueError "JSONDecodeError"), fs_empty).
Proof. by vm_compute. Qed.

Lemma process_pdf_failure_witness :
  process_pdf_for_worker tk_chars open_ex ("data2/c.pdf", meta_c) = [].
Proof. apply process_pdf_failure. left. by eexists. Defined.

Lemma meta_a_has_meta : has_meta meta_a.
Proof. repeat split; by eexists. Defined.

Lemma process_pdf_chunks_witness :
  process_pdf_for_worker tk_chars open_ex ("data2/a.pdf", meta_a) =
  mjoin ((λ p : Z * string, page_chunks tk_chars meta_a p.1 p.2)
           <$> py_enumerate 1 ["Visa fee is 500"; "  "; "Pay online"]).
Proof. apply process_pdf_chunks; [apply meta_a_has_meta|reflexivity]. Defined.

Lemma main_completed_pair_witness :
  ∃ index chunks,
    (main tk_chars env_ex fs_empty).2 = OutFiles (Holds index) (Holds chunks) ∧
    chunks ≠ [] ∧ py_len (flat_xb index) = py_len chunks ∧
    Forall (λ r, py_len r = flat_d index) (flat_xb index) ∧
    Forall chunk_wf chunks ∧
    ∀ (i : nat) c, chunks !! i = Some c → c !! "uid" = Some (PInt (Z.of_nat i + 1)).
Proof.
  apply (main_completed_pair tk_chars env_ex fs_empty).
  - intros encode texts embs [= <-] [= <-]. by rewrite length_fmap.
  - by vm_compute.
Defined.

Lemma main_no_pdf_witness :
  main tk_chars (IngestEnv (Ok ()) (Holds [meta_a; meta_b]) (λ _, false) open_ex
                   (Ok id) (env_model env_ex) Written Written) fs_empty =
  (Exit 0, fs_empty).
Proof.
  apply (main_no_pdf tk_chars _ fs_empty [meta_a; meta_b]); [done|done| |done].
  repeat constructor; by eexists.
Defined.

Lemma main_no_chunks_witness :
  main tk_chars (IngestEnv (Ok ()) (Holds [meta_c]) (λ _, true)
                   (λ _, Raise (OtherError "not a PDF"))
                   (Ok id) (env_model env_ex) Written Written) fs_empty =
  (Exit 0, fs_empty).
Proof.
  apply (main_no_chunks tk_chars _ fs_empty [meta_c] [("data2/c.pdf", meta_c)] id);
    [done|done|by vm_compute|done|].
  intros p. by eexists.
Defined.

Lemma main_files_witness :
  ∃ index chunks,
    (main tk_chars env_ex fs_empty).2 = OutFiles (Holds index) (Holds chunks).
Proof. apply (main_files tk_chars env_ex fs_empty Completed). by vm_compute. Defined.

Lemma main_persist_not_atomic_witness :
  ∃ index,
    main tk_chars (with_writes env_ex Written Refused) fs_empty =
    (Exit 1, OutFiles (Holds index) Missing).
Proof.
  eexists. apply (main_persist_not_atomic tk_chars env_ex fs_empty _ chunks_ex).
  by vm_compute.
Defined.

Lemma run_chunks_pool_order_witness :
  delete "uid" <$> run_chunks tk_chars env_ex
    [("data2/a.pdf", meta_a); ("data2/b.pdf", meta_b)] id ≡ₚ
  delete "uid" <$> run_chunks tk_chars env_ex
    [("data2/a.pdf", meta_a); ("data2/b.pdf", meta_b)] reverse.
Proof. apply run_chunks_pool_order. by rewrite reverse_Permutation. Defined.
