(* ===== verification/Json.v ===== *)
(** * Json: the values of a request body, [int()] and [float()]

    The body of a question is what [request.json()] yields: any JSON
    value ([jval]), of which the handler reads three fields with
    [data.get] and converts two with [int()] and [float()].  This file
    holds those values and conversions: [obj_get] and [json_get] for the
    fields of an object, [py_int_of_str] for the decimal literals
    [int()] accepts, [py_int] and [py_float] for the conversions, with
    the exception each raises on a value it refuses.

    The numbers with a fraction are of the type [F] of the scores; what
    is needed of them beyond [ScoreOps] is the class [FloatConv]:
    truncation to an integer, the conversion of an integer and the
    reading of a literal ([decimal_of_unsigned]).  [Q] is the instance
    of the concrete runs. *)

From Stdlib Require Import QArith.
From S2P Require Import Prelude PyData Score.

Local Open Scope Z_scope.
Local Open Scope result_scope.

(** ** Values *)

(** A JSON value as [json.loads] returns it: [None], [bool], [int],
    [float], [str], [list] and [dict].  An object keeps its members in
    the order of the text.  No induction over values is needed, so no
    scheme is generated for this nested type. *)
#[local] Unset Elimination Schemes.
Inductive jval (F : Type) : Type :=
| JNull
| JBool (b : bool)
| JInt (z : Z)
| JFloat (x : F)
| JStr (s : string)
| JArr (items : list (jval F))
| JObj (members : list (string * jval F)).
#[local] Set Elimination Schemes.
Arguments JNull {F}.
Arguments JBool {F} b.
Arguments JInt {F} z.
Arguments JFloat {F} x.
Arguments JStr {F} s.
Arguments JArr {F} items.
Arguments JObj {F} members.

(** The value of a key in the members of an object: of two members with
    the same name [json.loads] keeps the later one. *)
Fixpoint obj_get {F} (members : list (string * jval F)) (key : string)
    : option (jval F) :=
  match members with
  | [] => None
  | (name, v) :: rest =>
      match obj_get rest key with
      | Some w => Some w
      | None => if String.eqb name key then Some v else None
      end
  end.

(** [data.get(key, default)]: only a [dict] has the method. *)
Definition json_get {F} (data : jval F) (key : string) (dflt : jval F)
    : result (jval F) :=
  match data with
  | JObj members => Ok (default dflt (obj_get members key))
  | _ => Raise (AttributeError "get")
  end.

(** ** Decimal literals *)

Definition digit_val (c : Ascii.ascii) : option N :=
  if is_digit c then Some (char_code c - 48)%N else None.

Definition underscore : Ascii.ascii := Ascii.ascii_of_nat 95.
Definition minus_sign : Ascii.ascii := Ascii.ascii_of_nat 45.
Definition plus_sign : Ascii.ascii := Ascii.ascii_of_nat 43.
Definition dot_char : Ascii.ascii := Ascii.ascii_of_nat 46.

(** The digits of a literal, read from the left: [acc] is the value so
    far, [prev] whether the last character was a digit.  An underscore
    is accepted between two digits only. *)
Fixpoint digits_go (acc : N) (prev : bool) (s : string) : option N :=
  match s with
  | EmptyString => if prev then Some acc else None
  | String c rest =>
      match digit_val c with
      | Some d => digits_go (acc * 10 + d) true rest
      | None =>
          if Ascii.eqb c underscore && prev then digits_go acc false rest else None
      end
  end.

(** [int(s)] for a string: surrounding white space is dropped, then an
    optional sign and the digits are read. *)
Definition py_int_of_str (s : string) : option Z :=
  match str_strip s with
  | EmptyString => None
  | String c rest =>
      if Ascii.eqb c minus_sign then Z.opp ∘ Z.of_N <$> digits_go 0 false rest
      else if Ascii.eqb c plus_sign then Z.of_N <$> digits_go 0 false rest
      else Z.of_N <$> digits_go 0 false (String c rest)
  end.

(** ** Conversions *)

(** What [int()] and [float()] need of the numbers with a fraction:
    [f_trunc x] is [int(x)], which raises on a NaN or an infinity,
    [f_of_int z] is [float(z)], which raises on an integer past the
    largest number, [f_of_str s] is [float(s)], [None] when [s] is no
    literal, and [f_json x] says whether [json.dumps] writes [x] when
    it is called with [allow_nan=False], as the responses of the
    framework call it: a NaN and an infinity are refused. *)
Class FloatConv (F : Type) := {
  f_trunc : F → result Z;
  f_of_int : Z → result F;
  f_of_str : string → option F;
  f_json : F → bool;
}.

Section conversions.
Context `{ScoreOps F} `{FloatConv F}.

(** [int(v)]. *)
Definition py_int (v : jval F) : result Z :=
  match v with
  | JInt z => Ok z
  | JBool b => Ok (if b then 1 else 0)
  | JFloat x => f_trunc x
  | JStr s =>
      match py_int_of_str s with
      | Some z => Ok z
      | None => Raise (ValueError "invalid literal for int() with base 10")
      end
  | JNull | JArr _ | JObj _ =>
      Raise (TypeError "int() argument must be a string, a bytes-like object or a real number")
  end.

(** [float(v)]. *)
Definition py_float (v : jval F) : result F :=
  match v with
  | JFloat x => Ok x
  | JInt z => f_of_int z
  | JBool b => Ok (s_of_Z (if b then 1 else 0))
  | JStr s =>
      match f_of_str s with
      | Some x => Ok x
      | None => Raise (ValueError "could not convert string to float")
      end
  | JNull | JArr _ | JObj _ =>
      Raise (TypeError "float() argument must be a string or a real number")
  end.

End conversions.

(** ** Literals with a fraction *)

(** The sign of a literal ([true] for a minus) and what follows it. *)
Definition split_sign (s : string) : bool * string :=
  match s with
  | String c rest =>
      if Ascii.eqb c minus_sign then (true, rest)
      else if Ascii.eqb c plus_sign then (false, rest)
      else (false, s)
  | EmptyString => (false, s)
  end.

(** The text before the first character that satisfies [p], and the
    text after it when there is one. *)
Fixpoint split_at (p : Ascii.ascii → bool) (s : string) : string * option string :=
  match s with
  | EmptyString => (EmptyString, None)
  | String c rest =>
      if p c then (EmptyString, Some rest)
      else let '(a, b) := split_at p rest in (String c a, b)
  end.

(** The letter that starts the exponent. *)
Definition is_exp_char (c : Ascii.ascii) : bool :=
  (char_code c =? 101)%N || (char_code c =? 69)%N.

(** The value of the digits of one part of a literal; the empty part
    counts as 0. *)
Definition plain_digits (s : string) : option N :=
  match s with
  | EmptyString => Some 0%N
  | _ => digits_go 0 false s
  end.

(** The number of digits of a part. *)
Fixpoint digit_count (s : string) : Z :=
  match s with
  | EmptyString => 0
  | String c rest => (if is_digit c then 1 else 0) + digit_count rest
  end.

(** The exponent of a literal: absent, or a sign and digits. *)
Definition exponent_of (t : option string) : option Z :=
  match t with
  | None => Some 0
  | Some t =>
      let '(neg, digits) := split_sign t in
      (λ n, if neg then - Z.of_N n else Z.of_N n) <$> digits_go 0 false digits
  end.

(** An unsigned literal [digits], [digits.digits], [digits.] or
    [.digits], with an exponent or without: the pair [(n, e)] stands for
    [n * 10 ^ e]. *)
Definition decimal_of_unsigned (s : string) : option (N * Z) :=
  let '(mantissa, exp) := split_at is_exp_char s in
  let '(a, b) := split_at (Ascii.eqb dot_char) mantissa in
  let frac := default EmptyString b in
  if str_is_empty a && str_is_empty frac then None
  else
    match plain_digits a, plain_digits frac, exponent_of exp with
    | Some n, Some m, Some e =>
        Some ((n * 10 ^ Z.to_N (digit_count frac) + m)%N, e - digit_count frac)
    | _, _, _ => None
    end.

(** ** The instance on [Q] *)

(** [n * 10 ^ e], exactly. *)
Definition Q_of_decimal (d : N * Z) : Q :=
  if 0 <=? d.2 then inject_Z (Z.of_N d.1 * 10 ^ d.2)
  else Qmake (Z.of_N d.1) (Z.to_pos (10 ^ (- d.2))).

(** [float(s)] for a decimal literal: surrounding white space is
    dropped, then a sign and the literal are read.  This instance has no
    number for [inf] and [nan], which it refuses. *)
Definition Q_of_str (s : string) : option Q :=
  let '(neg, t) := split_sign (str_strip s) in
  (λ d, if neg then Qopp (Q_of_decimal d) else Q_of_decimal d)
    <$> decimal_of_unsigned t.

#[export] Instance Q_conv : FloatConv Q := {|
  f_trunc q := Ok (Z.quot (Qnum q) (Z.pos (Qden q)));
  f_of_int z := Ok (inject_Z z);
  f_of_str := Q_of_str;
  f_json _ := true;
|}.

(** ** Objects *)

Lemma obj_get_app {F} (l1 l2 : list (string * jval F)) key :
  obj_get (l1 ++ l2) key =
  match obj_get l2 key with
  | Some w => Some w
  | None => obj_get l1 key
  end.
Proof.
  induction l1 as [|[name v] l1 IH]; cbn [obj_get app].
  - by destruct (obj_get l2 key).
  - rewrite IH. by destruct (obj_get l2 key).
Qed.

(** The member added last is the one that is read. *)
Lemma obj_get_last {F} (l : list (string * jval F)) key v :
  obj_get (l ++ [(key, v)]) key = Some v.
Proof. rewrite obj_get_app. cbn. by rewrite String.eqb_refl. Qed.

Lemma obj_get_not_elem {F} (l : list (string * jval F)) key :
  key ∉ l.*1 → obj_get l key = None.
Proof.
  induction l as [|[name v] l IH]; [done|]. cbn [fmap list_fmap fst obj_get].
  intros [Hne Hl]%not_elem_of_cons. rewrite (IH Hl).
  destruct (String.eqb_spec name key); congruence.
Qed.

Lemma obj_get_elem {F} (l : list (string * jval F)) key v :
  obj_get l key = Some v → (key, v) ∈ l.
Proof.
  induction l as [|[name w] l IH]; [done|]. cbn [obj_get].
  destruct (obj_get l key) as [u|].
  - intros [= ->]. by apply list_elem_of_further, IH.
  - destruct (String.eqb_spec name key) as [->|]; [|done].
    intros [= ->]. apply list_elem_of_here.
Qed.

Lemma json_get_obj {F} (members : list (string * jval F)) key dflt :
  json_get (JObj members) key dflt = Ok (default dflt (obj_get members key)).
Proof. done. Qed.

(** ** Decimal literals *)

Lemma digit_val_pretty (x : N) :
  (x < 10)%N → digit_val (pretty_N_char x) = Some x.
Proof.
  intros Hx.
  assert (x = 0 ∨ x = 1 ∨ x = 2 ∨ x = 3 ∨ x = 4 ∨ x = 5 ∨ x = 6 ∨ x = 7
          ∨ x = 8 ∨ x = 9)%N as Hc by lia.
  destruct_or! Hc; by subst.
Qed.

(** A character [digits_go] accepts is no white space. *)
Lemma digits_go_head acc prev c rest v :
  digits_go acc prev (String c rest) = Some v → is_space c = false.
Proof.
  cbn [digits_go]. unfold digit_val.
  destruct (is_digit c) eqn:Hd.
  - intros _. apply andb_true_iff in Hd as [Hlo%N.leb_le Hhi%N.leb_le].
    apply orb_false_iff; split; apply andb_false_iff; right; apply N.leb_gt; lia.
  - destruct (Ascii.eqb_spec c underscore) as [->|]; [done|done].
Qed.

(** A literal that is read ends with a digit. *)
Lemma digits_go_last acc prev s v :
  digits_go acc prev s = Some v →
  s = EmptyString ∨ ∃ x, is_space x = false ∧ str_endswith (String x "") s = true.
Proof.
  revert acc prev. induction s as [|c rest IH]; intros acc prev Hs; [by left|].
  right. pose proof (digits_go_head _ _ _ _ _ Hs) as Hc.
  assert (∃ acc' prev', digits_go acc' prev' rest = Some v) as (acc' & prev' & Hr).
  { cbn [digits_go] in Hs. destruct (digit_val c); [by eauto|].
    destruct (Ascii.eqb c underscore && prev); [by eauto|done]. }
  destruct (IH _ _ Hr) as [->|(x & Hx & Hend)].
  - exists c. split; [done|]. cbn [str_endswith]. by rewrite String.eqb_refl.
  - exists x. split; [done|]. cbn [str_endswith]. by rewrite Hend, orb_true_r.
Qed.

(** [strip] leaves a literal that is read as it is. *)
Lemma digits_go_strip acc prev s v :
  digits_go acc prev s = Some v → str_strip s = s.
Proof.
  intros Hs. destruct s as [|c rest]; [done|].
  pose proof (digits_go_head _ _ _ _ _ Hs) as Hc.
  destruct (digits_go_last _ _ _ _ Hs) as [?|(x & Hx & Hend)]; [done|].
  unfold str_strip. cbn [str_lstrip]. rewrite Hc. by apply (str_rstrip_id x).
Qed.

(** Reading what [pretty] prints: the digits of [x] before [s] leave the
    value [x] and the rest [s]. *)
Lemma digits_go_pretty (x : N) (s : string) :
  (0 < x)%N → digits_go 0 false (pretty_N_go x s) = digits_go x true s.
Proof.
  revert s. induction (N.lt_wf_0 x) as [x _ IH]. intros s Hx.
  rewrite pretty_N_go_step by done.
  destruct (N.eq_0_gt_0_cases (x `div` 10)) as [Hq|Hq].
  - rewrite Hq, pretty_N_go_0. cbn [digits_go].
    rewrite digit_val_pretty by by apply N.mod_lt.
    f_equal. pose proof (N.div_mod x 10). lia.
  - rewrite IH by (by apply N.div_lt || done). cbn [digits_go].
    rewrite digit_val_pretty by by apply N.mod_lt.
    f_equal. pose proof (N.div_mod x 10). lia.
Qed.

Lemma digits_go_pretty_pos (p : positive) :
  digits_go 0 false (pretty (N.pos p)) = Some (N.pos p).
Proof.
  unfold pretty, pretty_N. rewrite decide_False by done.
  by rewrite digits_go_pretty.
Qed.

(** [int(str(z)) = z]: the literal [str] prints for an integer is read
    back as that integer. *)
Lemma py_int_of_str_pretty (z : Z) : py_int_of_str (pretty z) = Some z.
Proof.
  unfold py_int_of_str. destruct z as [|p|p].
  - done.
  - change (pretty (Z.pos p)) with (pretty (N.pos p)).
    pose proof (digits_go_pretty_pos p) as Hp.
    rewrite (digits_go_strip _ _ _ _ Hp).
    destruct (pretty (N.pos p)) as [|c rest] eqn:E; [done|].
    pose proof Hp as Hc. cbn [digits_go] in Hc.
    destruct (Ascii.eqb_spec c minus_sign) as [->|]; [done|].
    destruct (Ascii.eqb_spec c plus_sign) as [->|]; [done|].
    by rewrite Hp.
  - change (pretty (Z.neg p)) with (String minus_sign (pretty (N.pos p))).
    pose proof (digits_go_pretty_pos p) as Hp.
    assert (str_strip (String minus_sign (pretty (N.pos p))) =
            String minus_sign (pretty (N.pos p))) as ->.
    { unfold str_strip. cbn [str_lstrip]. change (is_space minus_sign) with false.
      cbv iota. cbn [str_rstrip].
      pose proof (digits_go_strip _ _ _ _ Hp) as Hs.
      destruct (pretty (N.pos p)) as [|c rest] eqn:E; [done|].
      pose proof (digits_go_head _ _ _ _ _ Hp) as Hc.
      unfold str_strip in Hs. cbn [str_lstrip] in Hs. rewrite Hc in Hs.
      rewrite Hs. done. }
    cbn [Ascii.eqb]. rewrite Ascii.eqb_refl, Hp. done.
Qed.

(** ** Conversions *)

Section conversion_lemmas.
Context `{ScoreOps F} `{FloatConv F}.

(** [int()] of the printed form of an integer is that integer. *)
Lemma py_int_str (z : Z) : py_int (JStr (pretty z) : jval F) = Ok z.
Proof. unfold py_int. by rewrite py_int_of_str_pretty. Qed.

(** What [int()] accepts: it raises on [None], a list and an object. *)
Lemma py_int_Ok (v : jval F) z :
  py_int v = Ok z → v ≠ JNull ∧ (∀ l, v ≠ JArr l) ∧ (∀ m, v ≠ JObj m).
Proof. by destruct v. Qed.

Lemma py_float_Ok (v : jval F) x :
  py_float v = Ok x → v ≠ JNull ∧ (∀ l, v ≠ JArr l) ∧ (∀ m, v ≠ JObj m).
Proof. by destruct v. Qed.

End conversion_lemmas.

(** ** Concrete values *)

Example py_int_of_str_ex :
  py_int_of_str " 12 " = Some 12 ∧ py_int_of_str "-7" = Some (-7) ∧
  py_int_of_str "1_000" = Some 1000 ∧ py_int_of_str "+5" = Some 5 ∧
  py_int_of_str "1__0" = None ∧ py_int_of_str "_1" = None ∧
  py_int_of_str "1_" = None ∧ py_int_of_str "" = None ∧
  py_int_of_str "3.5" = None ∧ py_int_of_str "- 3" = None.
Proof. by vm_compute. Qed.

Example py_int_ex :
  py_int (JFloat (7 # 2) : jval Q) = Ok 3 ∧
  py_int (JFloat (- 7 # 2) : jval Q) = Ok (-3) ∧
  py_int (JBool true : jval Q) = Ok 1 ∧
  py_int (JStr "42" : jval Q) = Ok 42 ∧
  is_ok (py_int (JNull : jval Q)) = false.
Proof. by vm_compute. Qed.

Example py_float_ex :
  py_float (JStr "0.25" : jval Q) = Ok (25 # 100)%Q ∧
  py_float (JStr "-.5" : jval Q) = Ok (- (5 # 10))%Q ∧
  py_float (JStr " 1_0.5e-1 " : jval Q) = Ok (105 # 100)%Q ∧
  py_float (JStr "2E3" : jval Q) = Ok (inject_Z 2000) ∧
  py_float (JInt 2 : jval Q) = Ok (inject_Z 2) ∧
  is_ok (py_float (JStr "fast" : jval Q)) = false ∧
  is_ok (py_float (JStr "1e" : jval Q)) = false ∧
  is_ok (py_float (JStr "1_.5" : jval Q)) = false ∧
  is_ok (py_float (JStr "." : jval Q)) = false ∧
  is_ok (py_float (JStr "inf" : jval Q)) = false ∧
  is_ok (py_float (JArr [] : jval Q)) = false.
Proof. by vm_compute. Qed.

Example obj_get_duplicate :
  obj_get [("k", JInt 1 : jval Q); ("q", JNull); ("k", JInt 2)] "k" = Some (JInt 2).
Proof. reflexivity. Qed.
