(* ===== verification/Api.v ===== *)
(** * Api: the start-up of [chat2.py] and the endpoints of [api.py]

    Importing [chat2] checks the key pool, loads the index file and the
    chunk file and configures the client ([load], [startup]).  The server
    then answers three requests: the statistics of the chunk file
    ([get_stats]), a question ([chat_endpoint]: retrieval, context,
    answer) and a page of the chunk file ([get_chunks]).

    The body of a question is the JSON value [request.json()] yields,
    or the exception it raises on a body that is not JSON; the handler
    reads three fields of it ([chat_fields]) and answers
    ([chat_answer]).  The web framework is reduced to what the handlers
    rely on: it refuses a query parameter outside its declared bounds
    (status 422), renders the response of a question when the handler
    makes it and raises there on a score that is no JSON number
    ([json_response]), and turns an exception that leaves a handler
    into status 500. *)

From Stdlib Require Import QArith.
From S2P Require Import Prelude PyData Score PySort Chunker VectorIndex.
From S2P Require Import Retriever AnswerClient Ingest Json.

Local Open Scope Z_scope.
Local Open Scope result_scope.

(** ** Start-up *)

(** The paths of the two files, below the directory of the module. *)
Definition FAISS_DIR : string := "faiss_index2".
Definition CHUNKS_PATH : string := FAISS_DIR +:+ "/chunks.json".
Definition FAISS_INDEX_PATH : string := FAISS_DIR +:+ "/index.faiss".

Section startup.
Context `{ScoreOps Sc}.

(** The module-level loading of [chat2.py]: both files must exist, then
    the index, the chunks and the model are read in this order.  A file
    left incomplete cannot be parsed. *)
Definition load (fs : @out_files Sc) (MODEL : result (string → list Sc))
    : result (store Sc (@flat_index Sc)) :=
  match index_faiss fs, chunks_json fs with
  | Missing, _ => Raise (FileNotFoundError FAISS_INDEX_PATH)
  | _, Missing => Raise (FileNotFoundError CHUNKS_PATH)
  | Torn, _ => Raise (OtherError "Error in faiss::read_index")
  | Holds _, Torn => Raise (ValueError "JSONDecodeError")
  | Holds index, Holds chunks =>
      let! encode := MODEL in
      Ok (Store index chunks encode)
  end.

(** What the handlers read: the store and the client of [chat2]. *)
Record server_state := Server {
  srv_store : store Sc (@flat_index Sc);
  srv_client : client_state;
}.

(** The import of [chat2]: the check of the keys, the loading, the first
    configuration of the client. *)
Definition startup (keys : list string) (fs : @out_files Sc)
    (MODEL : result (string → list Sc)) : result server_state :=
  let! _ := check_keys keys in
  let! st := load fs MODEL in
  let! client := _configure_gemini_client (ClientState keys 0 None) in
  Ok (Server st client).

End startup.
Arguments server_state Sc : clear implicits.

(** ** [GET /api/stats] *)

Record stats := Stats {
  stats_documents : Z;
  stats_chunks : Z;
  stats_sources : Z;
}.

#[export] Instance stats_eq_dec : EqDecision stats.
Proof. solve_decision. Defined.

(** [set(c.get('source') for c in chunks)]. *)
Definition sources_of (chunks : list pydict) : gset pyval :=
  list_to_set ((λ c, dict_get c "source") <$> chunks).

(** [get_stats()]: the chunk file is read at every request. *)
Definition get_stats (chunks_file : file (list pydict)) : result stats :=
  match chunks_file with
  | Holds chunks =>
      let num_chunks := py_len chunks in
      let sources := sources_of chunks in
      Ok (Stats (Z.of_nat (size sources)) num_chunks (Z.of_nat (size sources)))
  | Torn => Raise (ValueError "JSONDecodeError")
  | Missing => Ok (Stats 0 0 0)
  end.

(** ** [GET /api/chunks] *)

(** The answer of the framework to a request. *)
Inductive response (A : Type) : Type :=
| Http200 (body : A)
| Http422
| Http500 (e : exn).
Arguments Http200 {A} body.
Arguments Http422 {A}.
Arguments Http500 {A} e.

(** An exception that leaves a handler becomes status 500. *)
Definition respond {A} (r : result A) : response A :=
  match r with
  | Ok body => Http200 body
  | Raise e => Http500 e
  end.

(** [Query(0, ge=0)] and [Query(50, ge=1, le=500)]: the defaults and the
    bounds of the two parameters. *)
Definition valid_page (offset limit : Z) : bool :=
  (0 <=? offset) && (1 <=? limit) && (limit <=? 500).

(** [get_chunks(offset, limit)]. *)
Definition get_chunks (chunks_file : file (list pydict)) (offset limit : option Z)
    : response (list pydict) :=
  let offset := default 0 offset in
  let limit := default 50 limit in
  if negb (valid_page offset limit) then Http422
  else
    match chunks_file with
    | Holds chunks => Http200 (py_slice chunks offset (offset + limit))
    | Torn => Http500 (ValueError "JSONDecodeError")
    | Missing => Http200 []
    end.

(** ** [POST /api/chat] *)

Section chat.
Context `{ScoreOps Sc} `{FloatConv Sc}.
Context (generate : string → list string → result string).

(** What [MODEL.encode] does with a query that is no string: the
    exception it raises, or the embedding it returns (a list of two
    strings is encoded as a pair of texts). *)
Context (encode_other : jval Sc → result (list Sc)).

(** The body of the answer. *)
Record chat_response := ChatResponse {
  resp_answer : string;
  resp_chunks : list (hit Sc);
  resp_context : string;
}.

(** The default [0.2] of [keyword_boost]. *)
Definition DEFAULT_KEYWORD_BOOST : Sc := s_div (s_of_Z 1) (s_of_Z 5).

(** The three fields read of the body: [data.get("query", "")],
    [int(data.get("k", 7))] and [float(data.get("keyword_boost", 0.2))],
    in this order. *)
Definition chat_fields (data : jval Sc) : result (jval Sc * Z * Sc) :=
  let! user_query := json_get data "query" (JStr "") in
  let! k_value := json_get data "k" (JInt 7) in
  let! k := py_int k_value in
  let! boost_value := json_get data "keyword_boost" (JFloat DEFAULT_KEYWORD_BOOST) in
  let! keyword_boost := py_float boost_value in
  Ok (user_query, k, keyword_boost).

(** The dictionary of a hit, as [build_context] reads it: the keys
    [source], [page] and [text] are always present. *)
Definition hit_dict (h : hit Sc) : pydict :=
  <["uid" := hit_uid h]> (<["source" := hit_source h]>
    (<["page" := hit_page h]> (<["text" := hit_text h]> ∅))).

(** [JSONResponse(...)]: the body is rendered when the response is
    made, and a score that [json.dumps] refuses raises there. *)
Definition json_response (resp : chat_response) : result chat_response :=
  if forallb (λ h, f_json (hit_score h)) (resp_chunks resp) then Ok resp
  else Raise (ValueError "Out of range float values are not JSON compliant").

(** The handler from the call of [retrieve] on, for a query that is a
    string. *)
Definition chat_answer (srv : server_state Sc) (user_query : string) (k : Z)
    (keyword_boost : Sc) : result chat_response :=
  let! retrieved_chunks := retrieve (srv_store srv) user_query k keyword_boost in
  let context := build_context (hit_dict <$> retrieved_chunks) in
  let answer := query_llm generate (srv_client srv) context user_query in
  json_response (ChatResponse answer retrieved_chunks context).

(** [retrieve] on a query that is no string: the encoder raises, or the
    dimension check does, or else [query.lower()] does, since only a
    string has the method. *)
Definition retrieve_other (srv : server_state Sc) (user_query : jval Sc)
    : result chat_response :=
  let! q_emb := encode_other user_query in
  if negb (py_len q_emb =? index_d (INDEX (srv_store srv)))
  then Raise (ValueError "Embedding dimension mismatch!")
  else Raise (AttributeError "lower").

(** [chat_endpoint(request)]. *)
Definition chat_endpoint (srv : server_state Sc) (body : result (jval Sc))
    : result chat_response :=
  let! data := body in
  let! fields := chat_fields data in
  let '(user_query, k, keyword_boost) := fields in
  match user_query with
  | JStr query => chat_answer srv query k keyword_boost
  | _ => retrieve_other srv user_query
  end.

(** ** The server *)

Inductive request : Type :=
| GetStats
| PostChat (body : result (jval Sc))
| GetChunks (offset limit : option Z).

Inductive reply : Type :=
| StatsReply (r : response stats)
| ChatReply (r : response chat_response)
| ChunksReply (r : response (list pydict)).

(** One request: the handlers read the globals of [chat2] and the chunk
    file, and assign none of them. *)
Definition handle (chunks_file : file (list pydict)) (srv : server_state Sc)
    (r : request) : server_state Sc * reply :=
  match r with
  | GetStats => (srv, StatsReply (respond (get_stats chunks_file)))
  | PostChat body => (srv, ChatReply (respond (chat_endpoint srv body)))
  | GetChunks offset limit => (srv, ChunksReply (get_chunks chunks_file offset limit))
  end.

(** The requests of a session, one after the other. *)
Fixpoint serve (chunks_file : file (list pydict)) (srv : server_state Sc)
    (rs : list request) : server_state Sc * list reply :=
  match rs with
  | [] => (srv, [])
  | r :: rs =>
      let '(srv1, a) := handle chunks_file srv r in
      let '(srv2, answers) := serve chunks_file srv1 rs in
      (srv2, a :: answers)
  end.

End chat.

Arguments chat_response Sc : clear implicits.
Arguments request Sc : clear implicits.
Arguments reply Sc : clear implicits.
Arguments ChatResponse {Sc} _ _ _.

(** ** Properties of the statistics and of the pages *)

Lemma sources_of_cons c chunks :
  sources_of (c :: chunks) = {[dict_get c "source"]} ∪ sources_of chunks.
Proof. done. Qed.

Lemma sources_of_size chunks :
  (size (sources_of chunks) ≤ length chunks)%nat ∧
  (chunks ≠ [] → 1 ≤ size (sources_of chunks))%nat.
Proof.
  induction chunks as [|c chunks [IH _]]; [done|].
  rewrite sources_of_cons, size_union_alt, size_singleton.
  assert (size (sources_of chunks ∖ {[dict_get c "source"]}) ≤ size (sources_of chunks))%nat
    as Hsub.
  { apply subseteq_size, subseteq_difference_l. done. }
  cbn [length]. split; [lia|intros _; lia].
Qed.

(** The statistics of a chunk file: the number of chunks, and as
    documents and as sources the number of distinct values of [source];
    that number is at most the number of chunks and at least 1 when there
    is a chunk. *)
Theorem get_stats_counts chunks :
  ∃ n, get_stats (Holds chunks) = Ok (Stats n (py_len chunks) n) ∧
       n = Z.of_nat (size (sources_of chunks)) ∧
       0 ≤ n ≤ py_len chunks ∧ (chunks ≠ [] → 1 ≤ n).
Proof.
  eexists. split; [done|]. split; [done|].
  destruct (sources_of_size chunks) as [Hle Hge]. unfold py_len.
  split; [lia|]. intros Hne. specialize (Hge Hne). lia.
Qed.

(** The body of a successful answer, the empty list otherwise. *)
Definition page_body (r : response (list pydict)) : list pydict :=
  match r with
  | Http200 body => body
  | _ => []
  end.

Lemma valid_page_spec offset limit :
  valid_page offset limit = true ↔ 0 ≤ offset ∧ 1 ≤ limit ≤ 500.
Proof. unfold valid_page. rewrite !andb_true_iff, !Z.leb_le. lia. Qed.

(** With valid parameters the page is the [limit] chunks from
    position [offset], fewer at the end of the list: at most 500. *)
Theorem get_chunks_page chunks offset limit :
  valid_page offset limit = true →
  get_chunks (Holds chunks) (Some offset) (Some limit) =
    Http200 (take (Z.to_nat limit) (drop (Z.to_nat offset) chunks)) ∧
  py_len (take (Z.to_nat limit) (drop (Z.to_nat offset) chunks)) =
    Z.max 0 (Z.min limit (py_len chunks - offset)) ∧
  py_len (take (Z.to_nat limit) (drop (Z.to_nat offset) chunks)) ≤ 500.
Proof.
  intros Hv. cbv beta iota zeta delta [get_chunks default from_option id]. rewrite Hv. cbn [negb].
  apply valid_page_spec in Hv. rewrite py_slice_nonneg by lia.
  replace (Z.to_nat (offset + limit) - Z.to_nat offset)%nat with (Z.to_nat limit) by lia.
  unfold py_len. rewrite length_take, length_drop. split_and!; [done|lia|lia].
Qed.

(** A parameter outside its bounds is refused, whatever the file. *)
Lemma get_chunks_invalid chunks_file offset limit :
  offset < 0 ∨ limit < 1 ∨ 500 < limit →
  get_chunks chunks_file (Some offset) (Some limit) = Http422.
Proof.
  intros Hv. cbv beta iota zeta delta [get_chunks default from_option id].
  destruct (valid_page offset limit) eqn:E; [|done].
  apply valid_page_spec in E. lia.
Qed.

(** The pages of [limit] chunks at the offsets [0], [limit],
    [2 * limit], ..., put end to end, are the chunk file. *)
Theorem get_chunks_cover chunks limit :
  1 ≤ limit ≤ 500 →
  mjoin ((λ i, page_body (get_chunks (Holds chunks) (Some (i * limit)) (Some limit)))
           <$> seqZ 0 ((py_len chunks + limit - 1) `div` limit)) = chunks.
Proof.
  intros Hl. set (K := (py_len chunks + limit - 1) `div` limit).
  assert (py_len chunks ≤ K * limit) as HK.
  { subst K. pose proof (Z.mul_div_le (py_len chunks + limit - 1) limit).
    pose proof (Z.mod_pos_bound (py_len chunks + limit - 1) limit).
    pose proof (Z.div_mod (py_len chunks + limit - 1) limit). lia. }
  assert (0 ≤ K) as HK0 by (apply Z.div_pos; pose proof (py_len_nonneg chunks); lia).
  unfold seqZ. rewrite <- list_fmap_compose.
  rewrite (list_fmap_ext _ (λ m : nat, take (Z.to_nat limit)
             (drop (0 + m * Z.to_nat limit) chunks)) (seq 0 (Z.to_nat K))).
  - rewrite join_strided_takes, drop_0. apply take_ge. unfold py_len in HK. nia.
  - intros _ m _. cbn [compose]. cbv beta iota zeta delta [get_chunks default from_option id].
    rewrite (proj2 (valid_page_spec _ _)) by nia. cbn [negb page_body].
    rewrite py_slice_nonneg by nia. f_equal; [nia|]. f_equal. nia.
Qed.

(** ** Properties of the start-up and of the questions *)

Section server_properties.
Context `{ScoreOps Sc} `{FloatConv Sc}.
Context (generate : string → list string → result string).
Context (encode_other : jval Sc → result (list Sc)).
Implicit Types (srv : server_state Sc) (data : jval Sc) (body : result (jval Sc)).

(** What the handlers rely on: the index and the chunk list are a
    matched pair, the texts are strings, and the key pool satisfies its
    invariant. *)
Definition server_ok srv : Prop :=
  matched_pair (srv_store srv) ∧ texts_are_strings (CHUNKS (srv_store srv)) ∧
  pool_ok (srv_client srv).

Lemma chunk_wf_texts chunks : Forall chunk_wf chunks → texts_are_strings chunks.
Proof.
  intros Hwf. eapply Forall_impl; [exact Hwf|].
  intros c [[s Hs] _] v Hv. exists s. congruence.
Qed.

Lemma check_keys_Ok keys : check_keys keys = Ok () → 0 ≤ 0 < py_len keys.
Proof.
  unfold check_keys. case_bool_decide as Hk; [done|]. intros _.
  destruct keys; [done|]. unfold py_len. simpl. lia.
Qed.

Lemma startup_Ok keys fs MODEL (st : store Sc (@flat_index Sc)) :
  check_keys keys = Ok () → load fs MODEL = Ok st →
  startup keys fs MODEL = Ok (Server st (ClientState keys 0 (head keys))) ∧
  pool_ok (ClientState keys 0 (head keys)).
Proof.
  intros Hk Hl. unfold startup. rewrite Hk, Hl. cbn [result_bind].
  rewrite configure_Ok by by apply check_keys_Ok. cbn [result_bind].
  rewrite head_lookup. split; [done|]. by apply configure_pool_ok, check_keys_Ok.
Qed.

(** A start-up that succeeds passed the check of the keys, loaded the
    store, and configured the client with the first key. *)
Lemma startup_Ok_inv keys fs MODEL srv :
  startup keys fs MODEL = Ok srv →
  ∃ st, check_keys keys = Ok () ∧ load fs MODEL = Ok st ∧
        srv = Server st (ClientState keys 0 (head keys)).
Proof.
  unfold startup. destruct (check_keys keys) as [[]|] eqn:Hk; [|done].
  destruct (load fs MODEL) as [st|] eqn:Hl; [|done]. cbn [result_bind].
  rewrite configure_Ok by by apply check_keys_Ok. cbn [result_bind].
  rewrite head_lookup. intros [= <-]. by exists st.
Qed.

(** C5. After a run of the ingestion that completes, the start-up
    succeeds on the files it wrote and gives a state the handlers can
    rely on, holding the chunks of the file; provided the embedding model
    returns one row per text and the key pool passes its check. *)
Theorem startup_after_ingest {token} (tk : tokenizer token) (env : ingest_env Sc)
    fs fs' keys encode :
  (∀ enc texts embs, env_model env = Ok enc → enc texts = Ok embs →
     length embs = length texts) →
  main tk env fs = (Completed, fs') →
  check_keys keys = Ok () →
  ∃ srv, startup keys fs' (Ok encode) = Ok srv ∧ server_ok srv ∧
         chunks_json fs' = Holds (CHUNKS (srv_store srv)) ∧
         index_faiss fs' = Holds (INDEX (srv_store srv)).
Proof.
  intros Henc Hm Hk.
  destruct (main_Completed_rows tk env fs fs' Henc Hm)
    as (index & tasks & deliver & -> & Hne & Hlen & Hd).
  destruct (startup_Ok keys (OutFiles (Holds index) (Holds (run_chunks tk env tasks deliver)))
    (Ok encode) (Store index (run_chunks tk env tasks deliver) encode) Hk eq_refl)
    as [-> Hpool].
  eexists. split; [done|]. split; [|done].
  split_and!; [exact Hlen| |exact Hpool].
  apply chunk_wf_texts, run_chunks_wf.
Qed.

(** A start-up that succeeds has read both files, complete: the
    store holds their contents, the cursor is at 0 and the key pool
    satisfies its invariant. *)
Theorem startup_needs_files keys (fs : @out_files Sc) MODEL srv :
  startup keys fs MODEL = Ok srv →
  index_faiss fs = Holds (INDEX (srv_store srv)) ∧
  chunks_json fs = Holds (CHUNKS (srv_store srv)) ∧
  pool_ok (srv_client srv) ∧ current_key_index (srv_client srv) = 0.
Proof.
  unfold startup. intros Hs.
  destruct (check_keys keys) as [[]|] eqn:Hk; [|done].
  destruct (load fs MODEL) as [st|] eqn:Hl; [|done].
  destruct (startup_Ok keys fs MODEL st Hk Hl) as [Hst Hpool].
  unfold startup in Hst. rewrite Hk, Hl in Hst. rewrite Hst in Hs.
  injection Hs as <-. cbn [srv_store srv_client current_key_index].
  unfold load in Hl. destruct (index_faiss fs), (chunks_json fs), MODEL;
    cbn [result_bind] in Hl; simplify_eq; by split_and!.
Qed.

(** A query that is no string is never answered. *)
Lemma retrieve_other_Raise srv (v : jval Sc) :
  ∃ e, retrieve_other encode_other srv v = Raise e.
Proof.
  unfold retrieve_other. destruct (encode_other v) as [q_emb|e]; cbn [result_bind].
  - case_match; eauto.
  - eauto.
Qed.

Lemma chat_fields_Ok data user_query k keyword_boost :
  chat_fields data = Ok (user_query, k, keyword_boost) →
  ∃ members,
    data = JObj members ∧
    user_query = default (JStr "") (obj_get members "query") ∧
    py_int (default (JInt 7) (obj_get members "k")) = Ok k ∧
    py_float (default (JFloat DEFAULT_KEYWORD_BOOST) (obj_get members "keyword_boost"))
      = Ok keyword_boost.
Proof.
  unfold chat_fields. destruct data as [| | | | | |members]; try done.
  rewrite !json_get_obj. cbn [result_bind]. intros Hf. inv_result.
  by exists members.
Qed.

(** The handler on a body whose fields are read and whose query is a
    string. *)
Lemma chat_endpoint_str srv data query k keyword_boost :
  chat_fields data = Ok (JStr query, k, keyword_boost) →
  chat_endpoint generate encode_other srv (Ok data) =
  chat_answer generate srv query k keyword_boost.
Proof. intros Hf. unfold chat_endpoint. cbn [result_bind]. by rewrite Hf. Qed.

(** An answer comes from [chat_answer] on fields that were read. *)
Lemma chat_endpoint_Ok srv body resp :
  chat_endpoint generate encode_other srv body = Ok resp →
  ∃ data query k keyword_boost,
    body = Ok data ∧ chat_fields data = Ok (JStr query, k, keyword_boost) ∧
    chat_answer generate srv query k keyword_boost = Ok resp.
Proof.
  unfold chat_endpoint. destruct body as [data|]; [|done]. cbn [result_bind].
  destruct (chat_fields data) as [[[user_query k] keyword_boost]|] eqn:Hf; [|done].
  cbn [result_bind]. intros Hr.
  destruct user_query as [| | | |query| |];
    try (match type of Hr with
         | retrieve_other _ _ ?v = _ =>
             destruct (retrieve_other_Raise srv v) as [e He]; by rewrite He in Hr
         end).
  by exists data, query, k, keyword_boost.
Qed.

(** A response is rendered exactly when [json.dumps] writes the score
    of each of its chunks. *)
Lemma json_response_Ok (resp resp' : chat_response Sc) :
  json_response resp = Ok resp' ↔
  resp' = resp ∧ Forall (λ h, f_json (hit_score h) = true) (resp_chunks resp).
Proof.
  unfold json_response. rewrite <- forallb_Forall.
  destruct (forallb _ _); split; [by intros [= <-]|by intros [-> _]|done|by intros [_ ?]].
Qed.

Lemma chat_answer_Ok srv query k keyword_boost resp :
  chat_answer generate srv query k keyword_boost = Ok resp →
  ∃ hits,
    retrieve (srv_store srv) query k keyword_boost = Ok hits ∧
    resp = ChatResponse
             (query_llm generate (srv_client srv) (build_context (hit_dict <$> hits)) query)
             hits (build_context (hit_dict <$> hits)).
Proof.
  unfold chat_answer. destruct (retrieve _ _ _ _) as [hits|]; [|done].
  cbn [result_bind]. intros [-> _]%json_response_Ok. by exists hits.
Qed.

(** The scores of an answer are numbers [json.dumps] writes. *)
Lemma chat_answer_json srv query k keyword_boost resp :
  chat_answer generate srv query k keyword_boost = Ok resp →
  Forall (λ h, f_json (hit_score h) = true) (resp_chunks resp).
Proof.
  unfold chat_answer. destruct (retrieve _ _ _ _) as [hits|]; [|done].
  cbn [result_bind]. by intros [-> ?]%json_response_Ok.
Qed.

(** C6. In a state the handlers can rely on, a question whose fields are
    read, whose query is a string and whose embedding has the dimension
    of the index is answered: the chunks are the hits of [retrieve],
    [min k n] of them for [0 <= k], the context is built from them and
    the answer is what [query_llm] returns on that context and that
    query; the response is this body as the framework renders it, which
    it does unless a score is a NaN or an infinity. *)
Theorem chat_endpoint_answers srv data query k keyword_boost :
  server_ok srv →
  chat_fields data = Ok (JStr query, k, keyword_boost) →
  py_len (MODEL_encode (srv_store srv) query) = index_d (INDEX (srv_store srv)) →
  ∃ hits,
    retrieve (srv_store srv) query k keyword_boost = Ok hits ∧
    chat_endpoint generate encode_other srv (Ok data) =
      json_response
        (ChatResponse
           (query_llm generate (srv_client srv)
              (build_context (hit_dict <$> hits)) query)
           hits (build_context (hit_dict <$> hits))) ∧
    (0 ≤ k → py_len hits = Z.min k (py_len (CHUNKS (srv_store srv)))).
Proof.
  intros (Hm & Ht & _) Hf Hd.
  destruct (retrieve_Ok_results (srv_store srv) query k keyword_boost Ht Hd)
    as (results & Hloop & Hr).
  eexists. rewrite (chat_endpoint_str _ _ _ _ _ Hf). unfold chat_answer. rewrite Hr.
  split; [done|]. split; [done|]. intros Hk.
  pose proof (retrieve_results_length _ _ _ _ _ Hm Hloop) as Hlen.
  unfold rerank, py_len in *.
  rewrite length_fmap, py_prefix_length, sort_desc_length by done. lia.
Qed.

(** C20. A question is answered only when its body is a JSON object,
    its query a string, [k] a value [int()] accepts, the boost a value
    [float()] accepts and the embedding of the query of the dimension of
    the index; every other request ends with an exception, which the
    framework turns into status 500. *)
Theorem chat_endpoint_accepts_only srv body resp :
  chat_endpoint generate encode_other srv body = Ok resp →
  ∃ members query k keyword_boost,
    body = Ok (JObj members) ∧
    default (JStr "") (obj_get members "query") = JStr query ∧
    py_int (default (JInt 7) (obj_get members "k")) = Ok k ∧
    py_float (default (JFloat DEFAULT_KEYWORD_BOOST) (obj_get members "keyword_boost"))
      = Ok keyword_boost ∧
    py_len (MODEL_encode (srv_store srv) query) = index_d (INDEX (srv_store srv)) ∧
    chat_answer generate srv query k keyword_boost = Ok resp.
Proof.
  intros (data & query & k & keyword_boost & -> & Hf & Ha)%chat_endpoint_Ok.
  destruct (chat_fields_Ok _ _ _ _ Hf) as (members & -> & Hq & Hk & Hb).
  exists members, query, k, keyword_boost. split_and!; try done.
  destruct (chat_answer_Ok _ _ _ _ _ Ha) as (hits & Hr & _).
  unfold retrieve in Hr. case_match eqn:Hd; [done|].
  by apply negb_false_iff, Z.eqb_eq in Hd.
Qed.

(** A body without the three fields is read as the empty query,
    [k = 7] and the boost [0.2]. *)
Theorem chat_fields_defaults (members : list (string * jval Sc)) :
  "query" ∉ members.*1 → "k" ∉ members.*1 → "keyword_boost" ∉ members.*1 →
  chat_fields (JObj members) = Ok (JStr "", 7, DEFAULT_KEYWORD_BOOST).
Proof.
  intros Hq Hk Hb. unfold chat_fields. rewrite !json_get_obj.
  by rewrite !obj_get_not_elem by done.
Qed.

(** A client that sends [k] as the decimal text of an integer gets
    the reply of the client that sends the integer. *)
Theorem chat_endpoint_k_text srv (members : list (string * jval Sc)) (k : Z) :
  chat_endpoint generate encode_other srv
    (Ok (JObj (members ++ [("k", JStr (pretty k))]))) =
  chat_endpoint generate encode_other srv (Ok (JObj (members ++ [("k", JInt k)]))).
Proof.
  unfold chat_endpoint, chat_fields. cbn [result_bind]. rewrite !json_get_obj.
  rewrite !obj_get_last, !obj_get_app. cbn [obj_get String.eqb Ascii.eqb Bool.eqb].
  cbn [result_bind default from_option id]. by rewrite py_int_str.
Qed.

(** A question whose embedding has another dimension than the index
    is answered by status 500. *)
Theorem chat_endpoint_mismatch chunks_file srv data query k keyword_boost :
  chat_fields data = Ok (JStr query, k, keyword_boost) →
  py_len (MODEL_encode (srv_store srv) query) ≠ index_d (INDEX (srv_store srv)) →
  handle generate encode_other chunks_file srv (PostChat (Ok data)) =
    (srv, ChatReply (Http500 (ValueError "Embedding dimension mismatch!"))).
Proof.
  intros Hf Hd. unfold handle. rewrite (chat_endpoint_str _ _ _ _ _ Hf).
  unfold chat_answer, retrieve. by rewrite (proj2 (Z.eqb_neq _ _) Hd).
Qed.

(** A session leaves the state as it was, and every reply is the reply
    the first state gives. *)
Lemma serve_replies chunks_file srv (rs : list (request Sc)) :
  serve generate encode_other chunks_file srv rs =
  (srv, (λ r, (handle generate encode_other chunks_file srv r).2) <$> rs).
Proof.
  induction rs as [|r rs IH]; [done|]. cbn [serve].
  assert ((handle generate encode_other chunks_file srv r).1 = srv) as Hst by by destruct r.
  destruct (handle generate encode_other chunks_file srv r) as [srv1 a] eqn:E.
  cbn [fst] in Hst. subst srv1. rewrite IH. cbn [fmap list_fmap]. by rewrite E.
Qed.

(** The handlers share no state they change: the replies to the
    requests of a session do not depend on the order in which the
    requests arrive. *)
Theorem serve_order_independent chunks_file srv (rs rs' : list (request Sc)) :
  rs ≡ₚ rs' →
  (serve generate encode_other chunks_file srv rs).1 = (serve generate encode_other chunks_file srv rs').1 ∧
  (serve generate encode_other chunks_file srv rs).2 ≡ₚ (serve generate encode_other chunks_file srv rs').2.
Proof. intros Hp. rewrite !serve_replies. cbn [fst snd]. by rewrite Hp. Qed.

(** C32. The key under the cursor is never changed by the handlers: when
    the model refuses that key, every question of a session that is
    answered carries the error text, whatever the other keys of the pool
    would give. *)
Theorem serve_never_rotates chunks_file srv (rs : list (request Sc)) key e resp :
  GEMINI_GENERATIVE_MODEL (srv_client srv) = Some key →
  (∀ parts, generate key parts = Raise e) →
  ChatReply (Http200 resp) ∈ (serve generate encode_other chunks_file srv rs).2 →
  resp_answer resp = "Error querying Gemini LLM: " +:+ exn_str e.
Proof.
  intros Hkey Hgen. rewrite serve_replies. cbn [snd].
  intros (r & Hr & _)%list_elem_of_fmap. destruct r as [|body|]; try done.
  cbn [handle snd] in Hr.
  destruct (chat_endpoint generate encode_other srv body) as [resp'|] eqn:Hc; [|done].
  injection Hr as ->.
  destruct (chat_endpoint_Ok _ _ _ Hc) as (data & query & k & kb & _ & _ & Ha).
  destruct (chat_answer_Ok _ _ _ _ _ Ha) as (hits & _ & ->). cbn [resp_answer].
  unfold query_llm, generate_content. by rewrite Hkey, Hgen.
Qed.

End server_properties.

(** ** Concrete runs and witnesses *)

(** The files the ingestion of the three-document corpus writes. *)
Definition fs_ex : @out_files Q :=
  Eval vm_compute in (main tk_chars env_ex fs_empty).2.

(** An encoder of questions that answers the row [(1, 0)]. *)
Definition encode_ex : string → list Q := λ _, [1; 0]%Q.

Definition srv_ex : server_state Q :=
  Eval vm_compute in
    match startup ["key-a"; "key-b"] fs_ex (Ok encode_ex) with
    | Ok srv => srv
    | Raise _ => Server (Store (FlatIndex 0 []) [] encode_ex) (ClientState [] 0 None)
    end.

(** A model that refuses the first key and answers with the second. *)
Definition generate_ex : string → list string → result string := λ key _,
  if String.eqb key "key-a" then Raise (OtherError "429 quota exceeded")
  else Ok " The fee is 500. ".

(** An encoder that refuses every query that is no string. *)
Definition other_ex : jval Q → result (list Q) := λ _,
  Raise (TypeError "'int' object is not subscriptable").

(** The body [{"query": query, "k": k}]. *)
Definition ask (query : string) (k : Z) : jval Q :=
  JObj [("query", JStr query); ("k", JInt k)].

(** Ten chunks from three sources. *)
Example get_stats_ex :
  get_stats (Holds ((λ name, {["source" := PStr name]}) <$>
    ["a"; "b"; "a"; "c"; "a"; "b"; "b"; "c"; "a"; "a"])) = Ok (Stats 3 10 3).
Proof. by vm_compute. Qed.

(** Without a chunk file the statistics are zero; chunks without a
    [source] count as one source, [None]. *)
Example get_stats_missing :
  get_stats Missing = Ok (Stats 0 0 0) ∧
  get_stats (Holds [∅; ∅]) = Ok (Stats 1 2 1).
Proof. by vm_compute. Qed.

(** The statistics read the file, the questions the store loaded at
    start-up: after a later ingestion they disagree. *)
Example get_stats_after_reingest :
  (handle generate_ex other_ex (Holds []) srv_ex GetStats).2 =
    StatsReply (Http200 (Stats 0 0 0)) ∧
  py_len (CHUNKS (srv_store srv_ex)) = 3.
Proof. by vm_compute. Qed.

Example get_chunks_defaults :
  get_chunks (Holds (replicate 60 ∅)) None None = Http200 (replicate 50 ∅) ∧
  get_chunks (Holds (replicate 60 ∅)) (Some 55) None = Http200 (replicate 5 ∅).
Proof. split; reflexivity. Qed.

(** On exact numbers every response is rendered. *)
Lemma json_response_exact (resp : chat_response Q) : json_response resp = Ok resp.
Proof.
  unfold json_response. by rewrite (proj2 (forallb_Forall _ _)) by by apply Forall_true.
Qed.

(** The question of the three-document corpus: the hits are the three
    chunks, the chunk that shares two words with the question first. *)
Example chat_endpoint_ex :
  result_map (λ r, hit_text <$> resp_chunks r)
    (chat_endpoint generate_ex other_ex srv_ex (Ok (ask "visa fee" 7))) =
  Ok [PStr "Visa fee is 500"; PStr "Pay online"; PStr "Renewal takes 30 days"].
Proof. by vm_compute. Qed.

(** Requests that end with status 500: a body that is no JSON, a body
    that is a list, [k] given as [null], [k] given as a word, and a
    query that is a number. *)
Example chat_endpoint_bad_requests :
  is_ok <$> [chat_endpoint generate_ex other_ex srv_ex (Raise (ValueError "JSONDecodeError"));
             chat_endpoint generate_ex other_ex srv_ex (Ok (JArr []));
             chat_endpoint generate_ex other_ex srv_ex (Ok (JObj [("k", JNull)]));
             chat_endpoint generate_ex other_ex srv_ex (Ok (JObj [("k", JStr "many")]));
             chat_endpoint generate_ex other_ex srv_ex (Ok (JObj [("query", JInt 5)]))]
  = [false; false; false; false; false].
Proof. by vm_compute. Qed.

(** The empty object is a question: the empty query, seven chunks asked
    for. *)
Example chat_endpoint_empty_object :
  result_map (λ r, py_len (resp_chunks r))
    (chat_endpoint generate_ex other_ex srv_ex (Ok (JObj []))) = Ok 3.
Proof. by vm_compute. Qed.

(** The start-up does not compare the two files: an index of one row
    beside three chunks is loaded. *)
Example startup_unmatched_pair :
  is_ok (startup ["key-a"]
    (OutFiles (Holds (FlatIndex 2 [[1; 0]]%Q)) (chunks_json fs_ex)) (Ok encode_ex)) = true.
Proof. by vm_compute. Qed.

Lemma get_chunks_page_witness :
  get_chunks (Holds (CHUNKS (srv_store srv_ex))) (Some 1) (Some 5) =
    Http200 (take (Z.to_nat 5) (drop (Z.to_nat 1) (CHUNKS (srv_store srv_ex)))) ∧
  py_len (take (Z.to_nat 5) (drop (Z.to_nat 1) (CHUNKS (srv_store srv_ex)))) =
    Z.max 0 (Z.min 5 (py_len (CHUNKS (srv_store srv_ex)) - 1)) ∧
  py_len (take (Z.to_nat 5) (drop (Z.to_nat 1) (CHUNKS (srv_store srv_ex)))) ≤ 500.
Proof. apply get_chunks_page. reflexivity. Defined.

Example get_chunks_limit_501 :
  get_chunks (Holds (CHUNKS (srv_store srv_ex))) (Some 0) (Some 501) = Http422.
Proof. apply get_chunks_invalid. lia. Qed.

Lemma get_chunks_cover_witness :
  mjoin ((λ i, page_body (get_chunks (Holds (CHUNKS (srv_store srv_ex)))
                            (Some (i * 2)) (Some 2)))
           <$> seqZ 0 ((py_len (CHUNKS (srv_store srv_ex)) + 2 - 1) `div` 2)) =
  CHUNKS (srv_store srv_ex).
Proof. apply get_chunks_cover. lia. Defined.

Lemma startup_after_ingest_witness :
  ∃ srv, startup ["key-a"; "key-b"] (main tk_chars env_ex fs_empty).2 (Ok encode_ex) = Ok srv ∧
         server_ok srv ∧
         chunks_json (main tk_chars env_ex fs_empty).2 = Holds (CHUNKS (srv_store srv)) ∧
         index_faiss (main tk_chars env_ex fs_empty).2 = Holds (INDEX (srv_store srv)).
Proof.
  apply (startup_after_ingest tk_chars env_ex fs_empty).
  - intros enc texts embs [= <-] [= <-]. by rewrite length_fmap.
  - by vm_compute.
  - reflexivity.
Defined.

Lemma startup_needs_files_witness :
  index_faiss fs_ex = Holds (INDEX (srv_store srv_ex)) ∧
  chunks_json fs_ex = Holds (CHUNKS (srv_store srv_ex)) ∧
  pool_ok (srv_client srv_ex) ∧ current_key_index (srv_client srv_ex) = 0.
Proof.
  apply (startup_needs_files ["key-a"; "key-b"] fs_ex (Ok encode_ex)). by vm_compute.
Defined.

Lemma srv_ex_ok : server_ok srv_ex.
Proof.
  split_and!; [reflexivity| |by vm_compute].
  repeat constructor; intros v Hv; vm_compute in Hv; injection Hv as <-; eauto.
Defined.

Lemma chat_endpoint_answers_witness :
  ∃ hits,
    retrieve (srv_store srv_ex) "visa fee" 2 DEFAULT_KEYWORD_BOOST = Ok hits ∧
    chat_endpoint generate_ex other_ex srv_ex (Ok (ask "visa fee" 2)) =
      json_response
        (ChatResponse
           (query_llm generate_ex (srv_client srv_ex)
              (build_context (hit_dict <$> hits)) "visa fee")
           hits (build_context (hit_dict <$> hits))) ∧
    (0 ≤ 2 → py_len hits = Z.min 2 (py_len (CHUNKS (srv_store srv_ex)))).
Proof.
  apply (chat_endpoint_answers generate_ex other_ex srv_ex (ask "visa fee" 2)
           "visa fee" 2 DEFAULT_KEYWORD_BOOST); [apply srv_ex_ok|reflexivity|reflexivity].
Defined.

Lemma chat_endpoint_mismatch_witness :
  handle generate_ex other_ex Missing
    (Server (Store (FlatIndex 3 []) [] encode_ex) (srv_client srv_ex))
    (PostChat (Ok (ask "visa fee" 2))) =
  (Server (Store (FlatIndex 3 []) [] encode_ex) (srv_client srv_ex),
   ChatReply (Http500 (ValueError "Embedding dimension mismatch!"))).
Proof.
  apply (chat_endpoint_mismatch generate_ex other_ex Missing _ (ask "visa fee" 2)
           "visa fee" 2 DEFAULT_KEYWORD_BOOST); [reflexivity|by vm_compute].
Defined.

Lemma serve_order_independent_witness :
  (serve generate_ex other_ex (chunks_json fs_ex) srv_ex
     [GetStats; PostChat (Ok (ask "visa fee" 2))]).1 =
  (serve generate_ex other_ex (chunks_json fs_ex) srv_ex
     [PostChat (Ok (ask "visa fee" 2)); GetStats]).1 ∧
  (serve generate_ex other_ex (chunks_json fs_ex) srv_ex
     [GetStats; PostChat (Ok (ask "visa fee" 2))]).2 ≡ₚ
  (serve generate_ex other_ex (chunks_json fs_ex) srv_ex
     [PostChat (Ok (ask "visa fee" 2)); GetStats]).2.
Proof. apply serve_order_independent. apply Permutation_swap. Defined.

Definition resp_ex : chat_response Q :=
  Eval vm_compute in
    match chat_endpoint generate_ex other_ex srv_ex (Ok (ask "visa fee" 2)) with
    | Ok r => r
    | Raise _ => ChatResponse "" [] ""
    end.

Lemma serve_never_rotates_witness :
  resp_answer resp_ex =
  "Error querying Gemini LLM: " +:+ exn_str (OtherError "429 quota exceeded").
Proof.
  apply (serve_never_rotates generate_ex other_ex (chunks_json fs_ex) srv_ex
           [PostChat (Ok (ask "pay"%string 1)); PostChat (Ok (ask "visa fee" 2))] "key-a").
  - reflexivity.
  - intros parts. reflexivity.
  - apply list_elem_of_further, list_elem_of_here.
Defined.

Lemma chat_endpoint_accepts_only_witness :
  ∃ members query k keyword_boost,
    Ok (ask "visa fee" 2) = Ok (JObj members) ∧
    default (JStr "") (obj_get members "query") = JStr query ∧
    py_int (default (JInt 7) (obj_get members "k")) = Ok k ∧
    py_float (default (JFloat DEFAULT_KEYWORD_BOOST) (obj_get members "keyword_boost"))
      = Ok keyword_boost ∧
    py_len (MODEL_encode (srv_store srv_ex) query) = index_d (INDEX (srv_store srv_ex)) ∧
    chat_answer generate_ex srv_ex query k keyword_boost = Ok resp_ex.
Proof.
  apply (chat_endpoint_accepts_only generate_ex other_ex srv_ex (Ok (ask "visa fee" 2))).
  reflexivity.
Defined.

Lemma chat_fields_defaults_witness :
  chat_fields (JObj [("user", JStr "a")]) = Ok (JStr "", 7, DEFAULT_KEYWORD_BOOST (Sc := Q)).
Proof.
  apply chat_fields_defaults; cbn [fmap list_fmap fst];
    by intros [[=]|[]%elem_of_nil]%elem_of_cons.
Defined.
