(* ===== verification/Ieee.v ===== *)
(** * Ieee: the scores as binary floating-point numbers

    [retrieve] of [chat2.py] adds and compares floating-point numbers:
    the inner products of the index, the boost [keyword_boost *
    len(matches)] and their sum, by which the candidates are sorted.
    This file gives [ScoreOps] and [FloatConv] their instance on the
    binary formats of IEEE 754, with the operations of the standard
    library's specification of them ([SpecFloat]: round to nearest,
    ties to even), for any precision and exponent range; [binary64] is
    the format of a Python [float].

    Of the laws of [ScoreLaws] the comparison keeps transitivity; it is
    total on the numbers that are no NaN only, and the sum of a large
    and a small number can be the large one again.  The theorems say
    which guarantees of the ranking survive: with finite inner products
    and a finite boost no score is a NaN and the hits are sorted (a
    count of matches below [2 ^ prec] converts exactly, so that a boost
    of zero gives a zero, [float_of_Z_exact]); a boost that is an infinity, which [float()] reads from
    a request, makes the score of a chunk without a match a NaN, and
    the response, which is rendered without NaNs and infinities, an
    error of status 500. *)

From Stdlib Require Import QArith.
From Stdlib Require Import Floats.SpecFloat.
From S2P Require Import Prelude PyData Score PySort VectorIndex Retriever.
From S2P Require Import AnswerClient Json Api.

Local Open Scope Z_scope.
Local Open Scope result_scope.

(** ** The numbers *)

#[export] Instance spec_float_eq_dec : EqDecision spec_float.
Proof. solve_decision. Defined.

Definition is_nan (x : spec_float) : bool :=
  match x with
  | S754_nan => true
  | _ => false
  end.

(** Zero or a number with a mantissa: no infinity and no NaN. *)
Definition is_finite (x : spec_float) : bool :=
  match x with
  | S754_zero _ | S754_finite _ _ _ => true
  | _ => false
  end.

Section format.
Context (prec emax : Z).

(** The number nearest to an integer. *)
Definition float_of_Z (z : Z) : spec_float := binary_normalize prec emax z 0 false.

(** The number nearest to the quotient of two positive integers, with
    the sign given. *)
Definition float_of_ratio (neg : bool) (p q : positive) : spec_float :=
  let '(mz, ez, lz) := SFdiv_core_binary prec emax (Z.pos p) 0 (Z.pos q) 0 in
  binary_round_aux prec emax neg mz ez lz.

(** The operations of the ranking code on the format: [1e-12] is the
    number nearest to it. *)
Definition ieee_score : ScoreOps spec_float := {|
  s_zero := S754_zero false;
  s_add := SFadd prec emax;
  s_mul := SFmul prec emax;
  s_div := SFdiv prec emax;
  s_sqrt := SFsqrt prec emax;
  s_of_Z := float_of_Z;
  s_eps := float_of_ratio false 1 (10 ^ 12);
  s_leb := SFleb;
|}.

(** [int(x)]: the integer part, towards zero; a NaN and an infinity
    have none. *)
Definition float_trunc (x : spec_float) : result Z :=
  match x with
  | S754_nan => Raise (ValueError "cannot convert float NaN to integer")
  | S754_infinity _ => Raise (OtherError "OverflowError")
  | S754_zero _ => Ok 0
  | S754_finite s m e =>
      let a := if 0 <=? e then Z.shiftl (Z.pos m) e else Z.shiftr (Z.pos m) (- e) in
      Ok (if s then - a else a)
  end.

(** [float(z)] for an integer: the nearest number, and an exception
    past the largest one. *)
Definition float_of_int (z : Z) : result spec_float :=
  let x := float_of_Z z in
  if is_finite x then Ok x else Raise (OtherError "OverflowError").

(** The number nearest to [n * 10 ^ e]. *)
Definition float_of_decimal (neg : bool) (d : N * Z) : spec_float :=
  match d.1 with
  | N0 => S754_zero neg
  | Npos n =>
      if 0 <=? d.2 then float_of_ratio neg (n * Z.to_pos (10 ^ d.2)) 1
      else float_of_ratio neg n (Z.to_pos (10 ^ (- d.2)))
  end.

(** An unsigned literal: [nan], [inf] or [infinity] in any case of the
    letters, or a decimal literal. *)
Definition float_of_unsigned (neg : bool) (s : string) : option spec_float :=
  let name := str_lower s in
  if String.eqb name "nan" then Some S754_nan
  else if String.eqb name "inf" || String.eqb name "infinity"
  then Some (S754_infinity neg)
  else float_of_decimal neg <$> decimal_of_unsigned s.

(** [float(s)] for a string. *)
Definition float_of_str (s : string) : option spec_float :=
  let '(neg, t) := split_sign (str_strip s) in float_of_unsigned neg t.

Definition ieee_conv : FloatConv spec_float := {|
  f_trunc := float_trunc;
  f_of_int := float_of_int;
  f_of_str := float_of_str;
  f_json := is_finite;
|}.

End format.

(** The format of a Python [float] and of a NumPy [float64]. *)
Definition binary64 : ScoreOps spec_float := ieee_score 53 1024.
Definition binary64_conv : FloatConv spec_float := ieee_conv 53 1024.

(** The format of a NumPy [float32], in which the index holds its
    vectors. *)
Definition binary32 : ScoreOps spec_float := ieee_score 24 128.

(** ** The order *)

(** A number as a triple ordered like the numbers: the class, then the
    exponent, then the mantissa, the last two reversed below zero. *)
Definition rank (x : spec_float) : Z * Z * Z :=
  match x with
  | S754_nan | S754_zero _ => (0, 0, 0)
  | S754_infinity s => (if s then -2 else 2, 0, 0)
  | S754_finite s m e => if s then (-1, - e, - Z.pos m) else (1, e, Z.pos m)
  end.

Definition lex_le (a b : Z * Z * Z) : Prop :=
  a.1.1 < b.1.1 ∨
  (a.1.1 = b.1.1 ∧ (a.1.2 < b.1.2 ∨ (a.1.2 = b.1.2 ∧ a.2 ≤ b.2))).

(** The comparison with every NaN put below the numbers: a total
    preorder that agrees with [SFleb] on the numbers. *)
Definition nan_low_leb (a b : spec_float) : bool :=
  if is_nan a then true else if is_nan b then false else SFleb a b.

(** ** Lemmas on the order *)

Lemma lex_le_total a b : lex_le a b ∨ lex_le b a.
Proof. unfold lex_le. lia. Qed.

Lemma lex_le_trans a b c : lex_le a b → lex_le b c → lex_le a c.
Proof. unfold lex_le. lia. Qed.

Lemma SFleb_rank a b :
  SFleb a b = true ↔ is_nan a = false ∧ is_nan b = false ∧ lex_le (rank a) (rank b).
Proof.
  unfold SFleb, SFcompare, lex_le.
  destruct a as [[]|[]| |[] m1 e1], b as [[]|[]| |[] m2 e2]; cbn;
    try (split; [intros _; split_and!; [done..|lia] | done]);
    try (split; [done | intros (_ & _ & ?); lia]);
    try (split; [done | by intros (? & ? & _)]);
    change (Pos.compare_cont Eq ?p ?q) with (p ?= q)%positive;
    destruct (Z.compare_spec e1 e2), (Pos.compare_spec m1 m2); cbn;
    (split; [intros ?; split_and!; (done || lia) | intros (_ & _ & ?); (done || lia)]).
Qed.

(** A NaN compares with nothing. *)
Lemma SFleb_nan_l b : SFleb S754_nan b = false.
Proof. done. Qed.

Lemma SFleb_nan_r a : SFleb a S754_nan = false.
Proof. by destruct a as [[]|[]| |[]]. Qed.

Lemma SFleb_not_nan a b : SFleb a b = true → is_nan a = false ∧ is_nan b = false.
Proof. intros (? & ? & _)%SFleb_rank. done. Qed.

(** The comparison is transitive on all numbers, the NaN included. *)
Lemma SFleb_trans a b c : SFleb a b = true → SFleb b c = true → SFleb a c = true.
Proof.
  rewrite !SFleb_rank. intros (? & ? & ?) (_ & ? & ?).
  eauto using lex_le_trans.
Qed.

(** It is total on the numbers that are no NaN. *)
Lemma SFleb_total a b :
  is_nan a = false → is_nan b = false → SFleb a b = true ∨ SFleb b a = true.
Proof.
  intros Ha Hb. rewrite !SFleb_rank.
  destruct (lex_le_total (rank a) (rank b)); auto.
Qed.

Lemma nan_low_leb_total a b : nan_low_leb a b = true ∨ nan_low_leb b a = true.
Proof.
  unfold nan_low_leb. destruct (is_nan a) eqn:Ha; [by left|].
  destruct (is_nan b) eqn:Hb; [by right|]. by apply SFleb_total.
Qed.

Lemma nan_low_leb_trans a b c :
  nan_low_leb a b = true → nan_low_leb b c = true → nan_low_leb a c = true.
Proof.
  unfold nan_low_leb. destruct (is_nan a); [done|].
  destruct (is_nan b); [done|]. destruct (is_nan c); [done|]. apply SFleb_trans.
Qed.

Lemma nan_low_leb_number a b :
  is_nan a = false → is_nan b = false → SFleb a b = nan_low_leb a b.
Proof. unfold nan_low_leb. by intros -> ->. Qed.

(** ** Rounding gives no NaN *)

(** A number with a mantissa: finite and not zero. *)
Definition is_nonzero (x : spec_float) : bool :=
  match x with
  | S754_finite _ _ _ => true
  | _ => false
  end.

Lemma iter_pos_invariant {A} (P : A → Prop) (f : A → A) :
  (∀ x, P x → P (f x)) → ∀ n x, P x → P (SpecFloat.iter_pos f n x).
Proof. intros Hf. induction n; intros x Hx; cbn; auto. Qed.

Lemma shr_1_nonneg mrs : 0 ≤ shr_m mrs → 0 ≤ shr_m (shr_1 mrs).
Proof. destruct mrs as [[|[]|[]] r s]; cbn; lia. Qed.

Lemma shr_nonneg mrs e n : 0 ≤ shr_m mrs → 0 ≤ shr_m (shr mrs e n).1.
Proof.
  destruct n; cbn; try done.
  apply (iter_pos_invariant (λ m, 0 ≤ shr_m m)), shr_1_nonneg.
Qed.

Lemma round_nearest_even_nonneg m l : 0 ≤ m → 0 ≤ round_nearest_even m l.
Proof. destruct l as [|[]]; cbn; try lia. destruct (Z.even m); lia. Qed.

(** The number of binary digits of a positive integer. *)
Lemma digits2_pos_iter_xO m n :
  Z.pos (digits2_pos (Pos.iter xO m n)) = Z.pos (digits2_pos m) + Z.pos n.
Proof.
  induction n as [|n IH] using Pos.peano_ind; [cbn; lia|].
  rewrite Pos.iter_succ. cbn [digits2_pos]. lia.
Qed.

Lemma digits2_pos_lower m : 2 ^ (Z.pos (digits2_pos m) - 1) ≤ Z.pos m.
Proof.
  induction m as [m IH|m IH|]; [| |done]; cbn [digits2_pos];
    replace (Z.pos (Pos.succ (digits2_pos m)) - 1)
      with (Z.succ (Z.pos (digits2_pos m) - 1)) by lia;
    rewrite Z.pow_succ_r by lia; lia.
Qed.

Lemma digits2_pos_bound m (p : Z) : Z.pos m < 2 ^ p → Z.pos (digits2_pos m) ≤ p.
Proof.
  intros Hm. pose proof (digits2_pos_lower m) as Hl.
  destruct (Z.le_gt_cases (Z.pos (digits2_pos m)) p) as [|Hgt]; [done|].
  assert (2 ^ p ≤ 2 ^ (Z.pos (digits2_pos m) - 1)); [|lia].
  destruct (Z.le_gt_cases 0 p); [apply Z.pow_le_mono_r; lia|].
  rewrite (Z.pow_neg_r 2 p) by lia. apply Z.pow_nonneg. lia.
Qed.

Section rounding.
Context (prec emax : Z).

(** A format with at least one digit whose exponent range holds its
    precision: every format of the standard is one. *)
Definition format_ok : Prop := 0 < prec ≤ emax ∧ 2 ≤ emax.

Lemma shr_fexp_nonneg m e l : 0 ≤ m → 0 ≤ shr_m (shr_fexp prec emax m e l).1.
Proof. intros Hm. apply shr_nonneg. by destruct l as [|[]]. Qed.

Lemma binary_round_aux_not_nan s m e l :
  0 ≤ m → is_nan (binary_round_aux prec emax s m e l) = false.
Proof.
  intros Hm. unfold binary_round_aux.
  pose proof (shr_fexp_nonneg m e l Hm) as H1.
  destruct (shr_fexp prec emax m e l) as [mrs' e']. cbn [fst] in H1.
  pose proof (shr_fexp_nonneg _ e' loc_Exact
    (round_nearest_even_nonneg _ (loc_of_shr_record mrs') H1)) as H2.
  destruct (shr_fexp prec emax _ e' loc_Exact) as [mrs'' e'']. cbn [fst] in H2.
  destruct (shr_m mrs''); [done| |lia]. by destruct (_ <=? _).
Qed.

Lemma binary_normalize_not_nan m e s :
  is_nan (binary_normalize prec emax m e s) = false.
Proof.
  destruct m; [done|..]; cbn; unfold binary_round;
    destruct (shl_align _ _ _); by apply binary_round_aux_not_nan.
Qed.

Lemma float_of_Z_not_nan z : is_nan (float_of_Z prec emax z) = false.
Proof. apply binary_normalize_not_nan. Qed.

Lemma float_of_ratio_not_nan neg p q : is_nan (float_of_ratio prec emax neg p q) = false.
Proof.
  unfold float_of_ratio, SFdiv_core_binary.
  set (m' := match _ with Z.pos _ => _ | _ => _ end).
  assert (0 ≤ m') as Hm.
  { subst m'. destruct (_ - _ - _); [done| |done]. by apply Z.shiftl_nonneg. }
  pose proof (Z.div_pos m' (Z.pos q) Hm eq_refl) as Hq. unfold Z.div in Hq.
  destruct (Z.div_eucl m' (Z.pos q)) as [qt r]. by apply binary_round_aux_not_nan.
Qed.

(** A mantissa that has the exponent of its size is kept as it is. *)
Lemma shr_fexp_canonical m e :
  fexp prec emax (Z.pos (digits2_pos m) + e) = e →
  shr_fexp prec emax (Z.pos m) e loc_Exact = (Build_shr_record (Z.pos m) false false, e).
Proof. intros He. unfold shr_fexp. cbn [Zdigits2]. by rewrite He, Z.sub_diag. Qed.

Lemma binary_round_aux_canonical s m e :
  fexp prec emax (Z.pos (digits2_pos m) + e) = e → e ≤ emax - prec →
  binary_round_aux prec emax s (Z.pos m) e loc_Exact = S754_finite s m e.
Proof.
  intros He Hle. unfold binary_round_aux. rewrite shr_fexp_canonical by done.
  cbn [shr_m loc_of_shr_record round_nearest_even].
  rewrite shr_fexp_canonical by done. cbn [shr_m].
  by rewrite (proj2 (Z.leb_le _ _) Hle).
Qed.

(** An integer of at most [prec] digits is a number of the format. *)
Lemma binary_round_exact s m :
  format_ok → Z.pos (digits2_pos m) ≤ prec →
  is_finite (binary_round prec emax s m 0) = true.
Proof.
  intros [Hp He] Hd. unfold binary_round, shl_align.
  rewrite Z.add_0_r, Z.sub_0_r.
  destruct (fexp prec emax (Z.pos (digits2_pos m))) as [|t|t] eqn:Ht.
  - rewrite binary_round_aux_canonical; [done| |lia]. by rewrite Z.add_0_r.
  - unfold fexp, SpecFloat.emin in Ht. lia.
  - rewrite binary_round_aux_canonical; [done| |unfold fexp, SpecFloat.emin in Ht; lia].
    rewrite digits2_pos_iter_xO. unfold fexp, SpecFloat.emin in *. lia.
Qed.

(** The conversion of a count below [2 ^ prec] is finite. *)
Lemma float_of_Z_exact z :
  format_ok → 0 ≤ z < 2 ^ prec → is_finite (float_of_Z prec emax z) = true.
Proof.
  intros Hf Hz. destruct z as [|m|m]; [done| |lia].
  apply binary_round_exact; [done|]. apply digits2_pos_bound. lia.
Qed.

(** The sum of a finite number and of a number is a number; only the
    two infinities add up to a NaN. *)
Lemma SFadd_not_nan x y :
  is_finite x = true → is_nan y = false → is_nan (SFadd prec emax x y) = false.
Proof.
  destruct x as [[]|[]| |sx mx ex], y as [[]|[]| |sy my ey]; try done.
  intros _ _. apply binary_normalize_not_nan.
Qed.

(** The product of a finite number other than zero and of a number is a
    number; zero times an infinity is a NaN. *)
Lemma SFmul_not_nan x y :
  is_nonzero x = true → is_nan y = false → is_nan (SFmul prec emax x y) = false.
Proof.
  destruct x as [[]|[]| |sx mx ex], y as [[]|[]| |sy my ey]; try done.
  intros _ _. by apply binary_round_aux_not_nan.
Qed.

(** The product of two finite numbers is a number. *)
Lemma SFmul_finite_not_nan x y :
  is_finite x = true → is_finite y = true → is_nan (SFmul prec emax x y) = false.
Proof.
  destruct x as [[]|[]| |sx mx ex], y as [[]|[]| |sy my ey]; try done.
  intros _ _. by apply binary_round_aux_not_nan.
Qed.

(** The combined score of a candidate with a finite inner product,
    under a finite boost other than zero, or under any finite boost
    when the count converts to a finite number. *)
Lemma combined_not_nan score keyword_boost (n : Z) :
  is_finite score = true →
  is_nonzero keyword_boost = true ∨
    (is_finite keyword_boost = true ∧ is_finite (float_of_Z prec emax n) = true) →
  is_nan (SFadd prec emax score
            (SFmul prec emax keyword_boost (float_of_Z prec emax n))) = false.
Proof.
  intros Hs Hb. apply SFadd_not_nan; [done|]. destruct Hb as [Hb|[Hb Hn]].
  - apply SFmul_not_nan; [done|apply float_of_Z_not_nan].
  - by apply SFmul_finite_not_nan.
Qed.

(** With a boost that is an infinity or a NaN the combined score is an
    infinity or a NaN, whatever the inner product and the count. *)
Lemma combined_not_finite score keyword_boost y :
  is_finite keyword_boost = false →
  is_finite (SFadd prec emax score (SFmul prec emax keyword_boost y)) = false.
Proof.
  destruct keyword_boost as [|sb| |]; try done; intros _.
  - destruct y as [|sy| |sy my ey], score as [|ss| |ss ms es]; try done;
      by destruct sb, sy; try destruct ss.
  - by destruct y, score.
Qed.

End rounding.

(** ** Sorting numbers *)

Section sorting.
Context {A : Type} (key : A → spec_float).
Implicit Types (x : A) (l : list A).

(** No key of [l] is a NaN. *)
Definition numbers (l : list A) : Prop := Forall (λ x, is_nan (key x) = false) l.

Lemma numbers_agree l : numbers l → agree_on SFleb nan_low_leb key l.
Proof.
  intros Hl x y Hx Hy.
  apply nan_low_leb_number; by apply (proj1 (Forall_forall _ _) Hl).
Qed.

(** On a list without a NaN the sort is the sort by a total preorder. *)
Lemma sort_numbers l :
  numbers l → sort_desc SFleb key l = sort_desc nan_low_leb key l.
Proof. intros Hl. by apply sort_desc_ext, numbers_agree. Qed.

Lemma sort_numbers_sorted l : numbers l → desc_sorted SFleb key (sort_desc SFleb key l).
Proof.
  intros Hl. apply (desc_sorted_ext SFleb nan_low_leb).
  - apply numbers_agree. unfold numbers. by rewrite sort_desc_perm.
  - rewrite sort_numbers by done.
    apply sort_desc_sorted; [apply nan_low_leb_total|apply nan_low_leb_trans].
Qed.

(** Elements that compare equal to [x]: the same under both comparisons
    when no key is a NaN. *)
Lemma filter_same_key_numbers l x :
  numbers l →
  filter (λ y, same_key SFleb key y x = true) l =
  filter (λ y, same_key nan_low_leb key y x = true) l.
Proof.
  intros Hl. destruct (is_nan (key x)) eqn:Hx.
  - rewrite !filter_Forall_nil; [done|..]; eapply Forall_impl; try exact Hl;
      intros y Hy; unfold same_key; cbn beta.
    + unfold nan_low_leb. by rewrite Hx, Hy.
    + destruct (key x); try done. by rewrite SFleb_nan_r.
  - apply filter_same_key_ext, numbers_agree. by constructor.
Qed.

Lemma sort_numbers_stable l : numbers l → stable_of SFleb key l (sort_desc SFleb key l).
Proof.
  intros Hl x. rewrite (filter_same_key_numbers l x Hl).
  rewrite (filter_same_key_numbers (sort_desc SFleb key l) x)
    by (unfold numbers; by rewrite sort_desc_perm).
  rewrite sort_numbers by done.
  apply (sort_desc_stable nan_low_leb key nan_low_leb_trans).
Qed.

(** Any stable descending arrangement of numbers is the one of the
    model: on a list without a NaN the model agrees with whichever
    stable sort the interpreter runs. *)
Lemma sort_numbers_unique l l' :
  numbers l → numbers l' →
  desc_sorted SFleb key l' → stable_of SFleb key l l' →
  l' = sort_desc SFleb key l.
Proof.
  intros Hl Hl' Hs Hst. rewrite sort_numbers by done.
  apply (sort_desc_unique nan_low_leb key nan_low_leb_total nan_low_leb_trans).
  - apply (desc_sorted_ext nan_low_leb SFleb); [|done].
    intros x y Hx Hy. symmetry. by apply (numbers_agree l' Hl').
  - intros x. rewrite <- !filter_same_key_numbers by done. apply Hst.
Qed.

End sorting.

(** ** The ranking on a format *)

Section ranking.
Context (prec emax : Z) {Ix : Type} `{IndexSearch spec_float Ix}.
Implicit Types (st : store spec_float Ix) (query : string) (k : Z).
Implicit Types (keyword_boost : spec_float).

#[local] Abbreviation fmt := (ieee_score prec emax).

(** The candidates that name a chunk have finite inner products. *)
Definition finite_candidates st query k : Prop :=
  ∀ p, p ∈ candidates (H := fmt) st query k →
       names_chunk (CHUNKS st) p.1 = true → is_finite p.2 = true.

(** The boost multiplies every count of matches of the query to a
    number: it is finite and other than zero, or it is finite (a zero)
    and the word set of the query has fewer than [2 ^ prec] words, so
    that the format holds every count exactly. *)
Definition defined_boost keyword_boost query : Prop :=
  is_nonzero keyword_boost = true ∨
  (is_finite keyword_boost = true ∧ format_ok prec emax ∧
   Z.of_nat (size (query_word_set query)) < 2 ^ prec).

Lemma retrieve_loop_numbers st query k keyword_boost results :
  finite_candidates st query k → defined_boost keyword_boost query →
  retrieve_loop (H := fmt) (CHUNKS st) (query_word_set query) keyword_boost
    (candidates (H := fmt) st query k) = Ok results →
  numbers sc_score results.
Proof.
  intros Hfin Hb Hloop%retrieve_loop_Ok. apply Forall_forall. intros r Hr.
  apply list_elem_of_lookup in Hr as [i Hi].
  destruct (Forall2_lookup_r _ _ _ _ _ Hloop Hi) as (p & Hp & chunk & _ & Hs).
  apply list_elem_of_lookup_2, list_elem_of_filter in Hp as [Hn Hp].
  apply score_chunk_Ok in Hs as (text & _ & ->). cbn [sc_score].
  apply combined_not_nan; [by apply Hfin|].
  destruct Hb as [Hb|(Hb & Hf & Hsize)]; [by left|right]. split; [done|].
  apply float_of_Z_exact; [done|]. split; [lia|].
  eapply Z.le_lt_trans; [|exact Hsize].
  apply Nat2Z.inj_le, subseteq_size, intersection_subseteq_l.
Qed.

Lemma rerank_numbers_sorted (results : list (scored_chunk spec_float)) k :
  numbers sc_score results →
  numbers sc_score (rerank (H := fmt) results k) ∧
  desc_sorted SFleb sc_score (rerank (H := fmt) results k).
Proof.
  intros Hn. unfold rerank.
  change (@s_leb _ fmt) with SFleb.
  destruct (py_prefix_is_prefix (sort_desc SFleb sc_score results) k) as [t Ht].
  assert (numbers sc_score (sort_desc SFleb sc_score results)) as Hs.
  { unfold numbers. by rewrite sort_desc_perm. }
  split.
  - unfold numbers in *. rewrite Ht in Hs. by apply Forall_app in Hs as [? _].
  - eapply desc_sorted_prefix; [by exists t|]. by apply sort_numbers_sorted.
Qed.

(** C37. With finite inner products and a finite boost, other than zero
    or with a query of fewer than [2 ^ prec] words, no score of a hit is
    a NaN and the hits are in descending order of combined score, in the
    arithmetic of the format. *)
Theorem retrieve_ieee_sorted st query k keyword_boost hits :
  finite_candidates st query k → defined_boost keyword_boost query →
  retrieve (H := fmt) st query k keyword_boost = Ok hits →
  numbers hit_score hits ∧ desc_sorted SFleb hit_score hits.
Proof.
  intros Hfin Hb (_ & results & Hloop & ->)%retrieve_Ok.
  destruct (rerank_numbers_sorted results k) as [Hn Hs];
    [by eapply retrieve_loop_numbers|].
  split; [|by apply desc_sorted_fmap].
  unfold numbers. by apply Forall_fmap.
Qed.

(** Under the same conditions the hits are the first [k] elements
    of any stable descending arrangement of the scored candidates:
    whichever stable sort the interpreter runs on the numbers of the
    format, the model returns its hits. *)
Theorem retrieve_ieee_stable st query k keyword_boost hits results sorted :
  finite_candidates st query k → defined_boost keyword_boost query →
  retrieve (H := fmt) st query k keyword_boost = Ok hits →
  retrieve_loop (H := fmt) (CHUNKS st) (query_word_set query) keyword_boost
    (candidates (H := fmt) st query k) = Ok results →
  sorted ≡ₚ results →
  desc_sorted SFleb sc_score sorted →
  stable_of SFleb sc_score results sorted →
  hits = public_hit <$> py_prefix sorted k.
Proof.
  intros Hfin Hb (_ & results' & Hloop & ->)%retrieve_Ok Hres Hp Hs Hst.
  rewrite Hloop in Hres. injection Hres as ->. unfold rerank.
  pose proof (retrieve_loop_numbers _ _ _ _ _ Hfin Hb Hloop) as Hn.
  f_equal. f_equal. symmetry. apply sort_numbers_unique; [done| |done..].
  unfold numbers. by rewrite Hp.
Qed.

(** A boost that is an infinity makes the score of every hit whose text
    shares no word with the query a NaN. *)
Lemma score_chunk_inf_boost qw chunk score r neg :
  score_chunk (H := fmt) qw (S754_infinity neg) chunk score = Ok r →
  ∃ text, sc_text r = PStr text ∧
    (qw ∩ word_set (str_lower text) = ∅ → sc_score r = S754_nan).
Proof.
  intros (text & _ & ->)%score_chunk_Ok. exists text. split; [done|].
  intros ->. cbn [sc_score]. rewrite size_empty.
  by destruct score as [[]|[]| |[]], neg.
Qed.

(** [float()] reads an infinity from a request; with it as boost,
    every hit whose text shares no word with the query has a NaN as
    score, whatever the inner product. *)
Theorem retrieve_inf_boost st query k neg hits h :
  retrieve (H := fmt) st query k (S754_infinity neg) = Ok hits → h ∈ hits →
  ∃ text, hit_text h = PStr text ∧
    (query_word_set query ∩ word_set (str_lower text) = ∅ →
     hit_score h = S754_nan).
Proof.
  intros Hr Hh.
  destruct (retrieve_hit_result _ _ _ _ _ _ Hr Hh)
    as (p & r & _ & _ & (chunk & _ & Hs) & ->).
  by apply score_chunk_inf_boost in Hs.
Qed.

End ranking.

(** ** The response on a format *)

Section response.
Context (prec emax : Z).
Context (generate : string → list string → result string).
Context (encode_other : jval spec_float → result (list spec_float)).

#[local] Hint Extern 0 (ScoreOps spec_float) =>
  exact (ieee_score prec emax) : typeclass_instances.
#[local] Hint Extern 0 (FloatConv spec_float) =>
  exact (ieee_conv prec emax) : typeclass_instances.

(** With a boost that is an infinity or a NaN no hit has a score that
    [json.dumps] writes. *)
Lemma retrieve_not_finite (srv : server_state spec_float) query k keyword_boost hits :
  is_finite keyword_boost = false →
  retrieve (srv_store srv) query k keyword_boost = Ok hits →
  Forall (λ h, is_finite (hit_score h) = false) hits.
Proof.
  intros Hb Hr. apply Forall_forall. intros h Hh.
  destruct (retrieve_hit_result _ _ _ _ _ _ Hr Hh)
    as (p & r & _ & _ & (chunk & _ & (text & _ & ->)%score_chunk_Ok) & ->).
  cbn [public_hit hit_score sc_score]. by apply combined_not_finite.
Qed.

(** C38. A question whose boost is an infinity or a NaN, which [float()]
    reads from the texts [inf] and [nan] of a request, is answered with
    status 500 as soon as [retrieve] returns a hit: the scores are
    infinities and NaNs, which the response refuses to render. *)
Theorem chat_endpoint_inf_boost (srv : server_state spec_float) data query k
    keyword_boost hits :
  chat_fields data = Ok (JStr query, k, keyword_boost) →
  is_finite keyword_boost = false →
  retrieve (srv_store srv) query k keyword_boost = Ok hits →
  hits ≠ [] →
  respond (chat_endpoint generate encode_other srv (Ok data)) =
  Http500 (ValueError "Out of range float values are not JSON compliant").
Proof.
  intros Hf Hb Hr Hne. rewrite (chat_endpoint_str _ _ _ _ _ _ _ Hf).
  unfold chat_answer. rewrite Hr. cbn [result_bind]. unfold json_response.
  cbn [resp_chunks]. destruct hits as [|h hits]; [done|].
  apply retrieve_not_finite in Hr; [|done]. apply Forall_cons in Hr as [Hh _].
  cbn [forallb f_json ieee_conv]. by rewrite Hh.
Qed.

End response.

(** ** The laws that fail *)

(** The comparison of a format is no total preorder: a NaN compares
    with nothing, itself included. *)
Theorem ieee_no_laws prec emax : ¬ ScoreLaws spec_float (H := ieee_score prec emax).
Proof. intros [Ht _ _ _]. by destruct (Ht S754_nan S754_nan). Qed.

(** The numbers one, and two to the power [e]. *)
Definition f64_one : spec_float := Eval vm_compute in float_of_Z 53 1024 1.
Definition f64_pow2 (e : Z) : spec_float := S754_finite false 4503599627370496 (e - 52).

(** Adding to one a number below half the distance to its neighbour
    gives one. *)
Lemma binary64_absorbs :
  SFadd 53 1024 f64_one (f64_pow2 (-60)) = f64_one.
Proof. by vm_compute. Qed.

(** Addition on [binary64] is not strictly monotone. *)
Theorem binary64_not_strict : ¬ ScoreStrict spec_float (H := binary64).
Proof.
  intros [Ha _].
  specialize (Ha f64_one (S754_zero false) (f64_pow2 (-60)) eq_refl).
  by vm_compute in Ha.
Qed.

(** ** Concrete runs on [binary64] *)

#[local] Existing Instance binary64.
#[local] Existing Instance binary64_conv.

(** The number a literal stands for. *)
Definition f64 (s : string) : spec_float :=
  default S754_nan (float_of_str 53 1024 s).

Example float_of_str_ex :
  float_of_str 53 1024 "0.2" = Some (S754_finite false 7205759403792794 (-55)) ∧
  float_of_str 53 1024 "2e-1" = float_of_str 53 1024 "0.2" ∧
  float_of_str 53 1024 " -Infinity " = Some (S754_infinity true) ∧
  float_of_str 53 1024 "NaN" = Some S754_nan ∧
  float_of_str 53 1024 "1e400" = Some (S754_infinity false) ∧
  float_of_str 53 1024 "-0" = Some (S754_zero true) ∧
  float_of_str 53 1024 "9007199254740993" = Some (f64_pow2 53) ∧
  float_of_str 53 1024 "0x10" = None.
Proof. by vm_compute. Qed.

Example float_of_int_ex :
  float_of_int 53 1024 (2 ^ 53 + 1) = Ok (f64_pow2 53) ∧
  float_of_int 53 1024 (2 ^ 1024) = Raise (OtherError "OverflowError") ∧
  float_trunc (f64 "-3.99") = Ok (-3) ∧
  float_trunc (f64 "inf") = Raise (OtherError "OverflowError") ∧
  is_ok (float_trunc (f64 "nan")) = false.
Proof. by vm_compute. Qed.

(** Two chunks with the same embedding; the second shares two words
    with the query [visa fee], the first one. *)
Definition chunk_C : pydict := chunk_record 1 "doc.pdf" 1 "Visa rules".
Definition chunk_D : pydict := chunk_record 2 "doc.pdf" 2 "Visa application fee".
Definition chunk_E : pydict := chunk_record 3 "doc.pdf" 3 "Passport renewal".

Definition store_f64 : store spec_float flat_index :=
  Store (FlatIndex 2 [[f64 "1"; f64 "0"]; [f64 "1"; f64 "0"]; [f64 "0.5"; f64 "0"]])
    [chunk_C; chunk_D; chunk_E] (λ _, [f64 "1"; f64 "0"]).

Definition run_f64 (keyword_boost : string) : list (hit spec_float) :=
  match retrieve store_f64 "visa fee" 3 (f64 keyword_boost) with
  | Ok hits => hits
  | Raise _ => []
  end.

(** With the default boost the chunk with two matches comes first. *)
Example retrieve_f64_default :
  hit_uid <$> run_f64 "0.2" = [PInt 2; PInt 1; PInt 3].
Proof. by vm_compute. Qed.

(** A boost below the rounding error of the inner products is absorbed:
    the first two chunks tie and stay in the order of the index, the
    one with fewer matches first. *)
Example retrieve_f64_absorbed :
  hit_uid <$> run_f64 "1e-17" = [PInt 1; PInt 2; PInt 3] ∧
  hit_score <$> run_f64 "1e-17" = hit_score <$> run_f64 "0".
Proof. by vm_compute. Qed.

(** With an infinity as boost the chunk without a match scores a NaN
    and the others an infinity. *)
Example retrieve_f64_infinity :
  S754_nan ∈ hit_score <$> run_f64 "inf" ∧
  Forall (λ x, is_finite x = false) (hit_score <$> run_f64 "inf").
Proof. split; apply (bool_decide_unpack _); by vm_compute. Qed.

(** The handler reads an infinity and a NaN from the text of a field,
    and refuses an infinity as [k]. *)
Example chat_fields_f64 :
  chat_fields (JObj [("query", JStr "visa fee"); ("keyword_boost", JStr "inf")])
    = Ok (JStr "visa fee", 7, S754_infinity false) ∧
  chat_fields (JObj [("keyword_boost", JStr "nan")]) = Ok (JStr "", 7, S754_nan) ∧
  chat_fields (JObj [("k", JFloat (f64 "2.9"))]) = Ok (JStr "", 2, f64 "0.2") ∧
  chat_fields (JObj [("k", JFloat (S754_infinity false))])
    = Raise (OtherError "OverflowError").
Proof. by vm_compute. Qed.

Definition hits_f64 : list (hit spec_float) := Eval vm_compute in run_f64 "0.2".
Definition hits_inf : list (hit spec_float) := Eval vm_compute in run_f64 "inf".
Definition hits_zero : list (hit spec_float) := Eval vm_compute in run_f64 "0".

Definition results_f64 : list (scored_chunk spec_float) :=
  Eval vm_compute in
    match retrieve_loop (CHUNKS store_f64) (query_word_set "visa fee")
            (f64 "0.2") (candidates store_f64 "visa fee" 3) with
    | Ok l => l
    | Raise _ => []
    end.

Lemma store_f64_finite : finite_candidates 53 1024 store_f64 "visa fee" 3.
Proof.
  intros p Hp _. revert p Hp. apply Forall_forall.
  apply (bool_decide_unpack _). by vm_compute.
Defined.

Lemma results_f64_numbers : numbers sc_score results_f64.
Proof. apply (bool_decide_unpack _). by vm_compute. Defined.

(** The word set of the question is far below the [2 ^ 53] integers
    that the format holds exactly. *)
Lemma zero_boost_defined : defined_boost 53 1024 (f64 "0") "visa fee".
Proof. right. split_and!; [done|unfold format_ok; lia|by vm_compute]. Defined.

Lemma retrieve_ieee_sorted_witness :
  (numbers hit_score hits_f64 ∧ desc_sorted SFleb hit_score hits_f64) ∧
  (numbers hit_score hits_zero ∧ desc_sorted SFleb hit_score hits_zero).
Proof.
  split.
  - apply (retrieve_ieee_sorted 53 1024 store_f64 "visa fee" 3 (f64 "0.2"));
      [apply store_f64_finite|by left|by vm_compute].
  - apply (retrieve_ieee_sorted 53 1024 store_f64 "visa fee" 3 (f64 "0"));
      [apply store_f64_finite|apply zero_boost_defined|by vm_compute].
Defined.

Lemma retrieve_ieee_stable_witness :
  hits_f64 = public_hit <$> py_prefix (sort_desc SFleb sc_score results_f64) 3.
Proof.
  apply (retrieve_ieee_stable 53 1024 store_f64 "visa fee" 3 (f64 "0.2")
           hits_f64 results_f64).
  - apply store_f64_finite.
  - by left.
  - by vm_compute.
  - by vm_compute.
  - apply sort_desc_perm.
  - apply sort_numbers_sorted, results_f64_numbers.
  - apply sort_numbers_stable, results_f64_numbers.
Defined.

Definition hit_E : hit spec_float :=
  Hit S754_nan (PInt 3) (PStr "doc.pdf") (PInt 3) (PStr "Passport renewal").

Lemma retrieve_inf_boost_witness :
  ∃ text, hit_text hit_E = PStr text ∧
    (query_word_set "visa fee" ∩ word_set (str_lower text) = ∅ →
     hit_score hit_E = S754_nan).
Proof.
  apply (retrieve_inf_boost 53 1024 store_f64 "visa fee" 3 false hits_inf).
  - by vm_compute.
  - apply list_elem_of_here.
Defined.

(** A server on the store of the examples, and a question whose boost is
    the text [inf]. *)
Definition srv_f64 : server_state spec_float :=
  Server store_f64 (ClientState ["key-a"; "key-b"] 1 (Some "key-b")).

Definition ask_f64 (keyword_boost : string) : jval spec_float :=
  JObj [("query", JStr "visa fee"); ("k", JInt 3); ("keyword_boost", JStr keyword_boost)].

Definition other_f64 : jval spec_float → result (list spec_float) := λ _,
  Raise (TypeError "'int' object is not subscriptable").

(** The same question is answered with the default boost and refused
    with an infinity or a NaN. *)
Example chat_endpoint_f64 :
  is_ok (chat_endpoint generate_ex other_f64 srv_f64 (Ok (ask_f64 "0.2"))) = true ∧
  chat_endpoint generate_ex other_f64 srv_f64 (Ok (ask_f64 "nan")) =
    Raise (ValueError "Out of range float values are not JSON compliant").
Proof. split; by vm_compute. Qed.

Lemma chat_endpoint_inf_boost_witness :
  respond (chat_endpoint generate_ex other_f64 srv_f64 (Ok (ask_f64 "inf"))) =
  Http500 (ValueError "Out of range float values are not JSON compliant").
Proof.
  apply (chat_endpoint_inf_boost 53 1024 generate_ex other_f64 srv_f64 (ask_f64 "inf")
           "visa fee" 3 (S754_infinity false) hits_inf).
  - by vm_compute.
  - reflexivity.
  - by vm_compute.
  - done.
Defined.
