(* ===== verification/Live.v ===== *)
(** * Live: the server while the chunk file changes

    The handlers of [api.py] do not read the same things: a question is
    answered from the globals [chat2] loaded at start-up, the statistics
    and the pages of chunks from the chunk file as it is at the time of
    the request.  [ingest2.py] can run again while the server runs and
    rewrite the file.

    A session is a sequence of events: a request, or a change of the
    chunk file by another process.  [serve_live] answers it.  The
    replies to questions are the ones of the state of the start-up,
    whatever happens to the file; the statistics and the pages follow
    the file, through the moments it is incomplete.

    A server can also start while ingestion writes.  [persist_states]
    lists what it can find of the two files: [main] writes the index
    first and the chunk file after it, so between the two writes the
    index is the new one and the chunks are the old ones, and the
    start-up, which does not compare them, succeeds on that pair
    ([restart_during_ingest]). *)

From Stdlib Require Import QArith.
From S2P Require Import Prelude PyData Score PySort Chunker VectorIndex.
From S2P Require Import Retriever AnswerClient Ingest Json Api.

Local Open Scope Z_scope.

Section live.
Context `{ScoreOps Sc} `{FloatConv Sc}.
Context (generate : string → list string → result string).
Context (encode_other : jval Sc → result (list Sc)).
Implicit Types (srv : server_state Sc) (chunks_file : file (list pydict)).

(** ** Sessions *)

Inductive event : Type :=
| Request (r : request Sc)
| Rewrite (f : file (list pydict)).

(** The requests of a session with their replies, in order. *)
Fixpoint serve_live chunks_file srv (events : list event)
    : list (request Sc * reply Sc) :=
  match events with
  | [] => []
  | Request r :: rest =>
      let '(srv1, a) := handle generate encode_other chunks_file srv r in
      (r, a) :: serve_live chunks_file srv1 rest
  | Rewrite f :: rest => serve_live f srv rest
  end.

(** The states of the chunk file a session passes through, the first
    one included. *)
Fixpoint files_of chunks_file (events : list event) : list (file (list pydict)) :=
  match events with
  | [] => [chunks_file]
  | Request _ :: rest => files_of chunks_file rest
  | Rewrite f :: rest => chunks_file :: files_of f rest
  end.

(** What a reader finds while an ingestion writes the chunk file. *)
Definition reingest (o : write_outcome) (all_chunks : list pydict) : list event :=
  Rewrite <$> write_states o all_chunks.

(** The events [evs] with requests put between them. *)
Inductive interleaved : list event → list event → Prop :=
| InterNil : interleaved [] []
| InterRequest r evs session :
    interleaved evs session → interleaved evs (Request r :: session)
| InterRewrite f evs session :
    interleaved evs session → interleaved (Rewrite f :: evs) (Rewrite f :: session).

(** ** Lemmas *)

Lemma handle_state chunks_file srv r :
  (handle generate encode_other chunks_file srv r).1 = srv.
Proof. by destruct r. Qed.

Lemma files_of_head chunks_file (events : list event) :
  chunks_file ∈ files_of chunks_file events.
Proof.
  revert chunks_file. induction events as [|[r|f] events IH]; intros chunks_file;
    cbn [files_of]; [apply list_elem_of_here|apply IH|apply list_elem_of_here].
Qed.

(** Every reply is the reply of the state of the start-up on one of the
    states of the file. *)
Lemma serve_live_elem chunks_file srv events r a :
  (r, a) ∈ serve_live chunks_file srv events →
  ∃ f, f ∈ files_of chunks_file events ∧
       a = (handle generate encode_other f srv r).2.
Proof.
  revert chunks_file. induction events as [|[r'|f'] events IH]; intros chunks_file.
  - by intros ?%elem_of_nil.
  - cbn [serve_live files_of]. pose proof (handle_state chunks_file srv r') as Hst.
    destruct (handle generate encode_other chunks_file srv r') as [srv1 a'] eqn:E.
    cbn [fst] in Hst. subst srv1.
    intros [[= -> ->]|Hin]%elem_of_cons; [|by apply IH].
    exists chunks_file. rewrite E. split; [apply files_of_head|done].
  - cbn [serve_live files_of]. intros (f & Hf & ->)%IH.
    exists f. split; [by apply list_elem_of_further|done].
Qed.

Lemma files_of_interleaved chunks_file evs session f :
  interleaved evs session → f ∈ files_of chunks_file session →
  f ∈ files_of chunks_file evs.
Proof.
  intros Hi. revert chunks_file. induction Hi as [|r evs session _ IH|f' evs session _ IH];
    intros chunks_file; cbn [files_of]; [done|apply IH|].
  intros [->|Hin]%elem_of_cons; [apply list_elem_of_here|].
  by apply list_elem_of_further, IH.
Qed.

Lemma files_of_rewrites chunks_file (l : list (file (list pydict))) :
  files_of chunks_file (Rewrite <$> l) = chunks_file :: l.
Proof.
  revert chunks_file. induction l as [|f l IH]; intros chunks_file; [done|].
  cbn [fmap list_fmap files_of]. by rewrite IH.
Qed.

(** ** Properties *)

(** A question is answered from what was loaded at start-up:
    whatever happens to the chunk file during the session, the reply is
    the one of the state of the start-up. *)
Theorem live_chat_stable chunks_file srv (events : list event) body a :
  (PostChat body, a) ∈ serve_live chunks_file srv events →
  a = ChatReply (respond (chat_endpoint generate encode_other srv body)).
Proof. by intros (f & _ & ->)%serve_live_elem. Qed.

(** C39. While a second ingestion that completes rewrites the chunk
    file, the server started on the files of the first answers every
    question as before; the statistics and the pages are those of the
    old chunks, of the new chunks, or status 500 for a request that
    finds the file being written. *)
Theorem live_reingest {token} (tk : tokenizer token) (env : ingest_env Sc)
    keys (fs fs2 : @out_files Sc) MODEL srv (session : list event) r a :
  startup keys fs MODEL = Ok srv →
  main tk env fs = (Completed, fs2) →
  interleaved (Rewrite <$> [Torn; chunks_json fs2]) session →
  (r, a) ∈ serve_live (chunks_json fs) srv session →
  ∃ new, chunks_json fs2 = Holds new ∧ new ≠ [] ∧
    match r with
    | PostChat body =>
        a = ChatReply (respond (chat_endpoint generate encode_other srv body))
    | GetStats =>
        a = StatsReply (respond (get_stats (Holds (CHUNKS (srv_store srv))))) ∨
        a = StatsReply (Http500 (ValueError "JSONDecodeError")) ∨
        a = StatsReply (respond (get_stats (Holds new)))
    | GetChunks offset limit =>
        a = ChunksReply (get_chunks (Holds (CHUNKS (srv_store srv))) offset limit) ∨
        a = ChunksReply (get_chunks Torn offset limit) ∨
        a = ChunksReply (get_chunks (Holds new) offset limit)
    end.
Proof.
  intros (_ & Hold & _)%startup_needs_files Hmain Hi (f & Hf & ->)%serve_live_elem.
  apply main_Completed in Hmain
    as (? & tasks & deliver & ? & ? & ? & ? & _ & _ & _ & _ & _ & _ & Hne & _ & _ & _ & ->).
  exists (run_chunks tk env tasks deliver). split_and!; [done..|].
  apply (files_of_interleaved _ _ _ _ Hi) in Hf.
  rewrite files_of_rewrites, Hold in Hf. cbn [chunks_json] in Hf.
  destruct r as [|body|offset limit]; [|done|]; cbn [handle snd];
    apply elem_of_cons in Hf as [->|Hf]; [by left| |by left|];
    apply elem_of_cons in Hf as [->|Hf]; [by right; left| |by right; left|];
    apply elem_of_cons in Hf as [->|[]%elem_of_nil]; by right; right.
Qed.

End live.

(** ** Start-up while ingestion writes *)

Section restart.
Context `{ScoreOps Sc}.
Implicit Types (fs f : @out_files Sc) (index : @flat_index Sc) (chunks : list pydict).

(** The states of the two files a process can find while a run of
    [main] that completes writes them, in order: the files of before;
    the index being written and then written, beside the chunks of
    before; the chunk file being written and then written, beside the
    new index. *)
Definition persist_states index chunks fs : list (@out_files Sc) :=
  ((λ i, OutFiles i (chunks_json fs)) <$> (index_faiss fs :: write_states Written index)) ++
  ((λ c, OutFiles (Holds index) c) <$> write_states Written chunks).

(** Each of these states is where [main] leaves the files when it ends
    there. *)
Lemma persist_states_main {token} (tk : tokenizer token) (env : ingest_env Sc)
    fs index chunks f :
  main tk (with_writes env Written Written) fs =
    (Completed, OutFiles (Holds index) (Holds chunks)) →
  f ∈ persist_states index chunks fs →
  ∃ wi wc, (main tk (with_writes env wi wc) fs).2 = f.
Proof.
  intros Hm Hf. unfold persist_states in Hf.
  cbn [write_states fmap list_fmap app] in Hf.
  repeat (apply elem_of_cons in Hf as [->|Hf]); [..|by apply elem_of_nil in Hf].
  - exists Refused, Refused. rewrite (main_writes tk env fs index chunks _ _ Hm).
    by destruct fs.
  - exists Interrupted, Refused. by rewrite (main_writes tk env fs index chunks _ _ Hm).
  - exists Written, Refused. by rewrite (main_writes tk env fs index chunks _ _ Hm).
  - exists Written, Interrupted. by rewrite (main_writes tk env fs index chunks _ _ Hm).
  - exists Written, Written. by rewrite Hm.
Qed.

(** What [load] finds in each of the states. *)
Lemma load_persist_states index chunks fs MODEL old f st :
  load fs MODEL = Ok old → f ∈ persist_states index chunks fs →
  load f MODEL = Ok st →
  MODEL_encode st = MODEL_encode old ∧
  (st = old ∨ (INDEX st = index ∧ CHUNKS st = CHUNKS old) ∨
   (INDEX st = index ∧ CHUNKS st = chunks)).
Proof.
  unfold load, persist_states. destruct fs as [[|oi|] [|oc|]]; try done.
  destruct MODEL as [encode|]; [|done]. cbn [result_bind]. intros [= <-] Hf.
  cbn [write_states fmap list_fmap app index_faiss chunks_json] in Hf.
  repeat (apply elem_of_cons in Hf as [->|Hf]); [..|by apply elem_of_nil in Hf];
    cbn [index_faiss chunks_json]; try done; intros [= <-]; cbn; auto.
Qed.

(** C34. A server that starts while a run of ingestion that completes
    writes its two files either fails to start, or starts on the files
    of before, or on the new files, or on the new index beside the
    chunks of before; and the last case occurs: between the two writes
    the start-up succeeds on an index and a chunk list that do not
    belong together. *)
Theorem restart_during_ingest {token} (tk : tokenizer token) (env : ingest_env Sc)
    keys fs index chunks MODEL srv :
  startup keys fs MODEL = Ok srv →
  main tk (with_writes env Written Written) fs =
    (Completed, OutFiles (Holds index) (Holds chunks)) →
  (∀ f srv', f ∈ persist_states index chunks fs → startup keys f MODEL = Ok srv' →
     srv_client srv' = srv_client srv ∧
     MODEL_encode (srv_store srv') = MODEL_encode (srv_store srv) ∧
     (srv_store srv' = srv_store srv ∨
      (INDEX (srv_store srv') = index ∧ CHUNKS (srv_store srv') = CHUNKS (srv_store srv)) ∨
      (INDEX (srv_store srv') = index ∧ CHUNKS (srv_store srv') = chunks))) ∧
  ∃ f srv', f ∈ persist_states index chunks fs ∧ startup keys f MODEL = Ok srv' ∧
    INDEX (srv_store srv') = index ∧ CHUNKS (srv_store srv') = CHUNKS (srv_store srv).
Proof.
  intros Hstart Hm.
  destruct (startup_Ok_inv keys fs MODEL srv Hstart) as (old & Hk & Hl & ->).
  split.
  - intros f srv' Hf (st & _ & Hl' & ->)%startup_Ok_inv. cbn [srv_client srv_store].
    split; [done|]. by apply (load_persist_states index chunks fs MODEL old f).
  - destruct fs as [fi fc]. unfold load in Hl. cbn [index_faiss chunks_json] in Hl.
    destruct fi as [|oi|], fc as [|oc|]; try done.
    destruct MODEL as [encode|]; [|done]. injection Hl as <-.
    exists (OutFiles (Holds index) (Holds oc)), (Server (Store index oc encode)
                                                   (ClientState keys 0 (head keys))).
    split_and!; [|by apply startup_Ok|done..].
    unfold persist_states. cbn. do 2 apply list_elem_of_further. apply list_elem_of_here.
Qed.

End restart.

Arguments event Sc : clear implicits.
Arguments Request {Sc} r.
Arguments Rewrite {Sc} f.

(** ** Concrete runs and witnesses *)

(** A second ingestion, of a list that holds the second document only. *)
Definition env_second : ingest_env Q :=
  IngestEnv (Ok ()) (Holds [meta_b]) (λ _, true) open_ex
    (Ok id) (Ok (λ texts, Ok ((λ _, [3; 4]%Q) <$> texts))) Written Written.

Definition fs_second : @out_files Q :=
  Eval vm_compute in (main tk_chars env_second fs_ex).2.

(** Requests before, during and after the rewriting of the chunk file. *)
Definition session_ex : list (event Q) :=
  [Request GetStats; Rewrite Torn; Request GetStats;
   Request (PostChat (Ok (ask "visa fee" 1)));
   Rewrite (chunks_json fs_second);
   Request GetStats; Request (GetChunks None None);
   Request (PostChat (Ok (ask "visa fee" 1)))].

Definition replies_ex : list (request Q * reply Q) :=
  serve_live generate_ex other_ex (chunks_json fs_ex) srv_ex session_ex.

(** The statistics go from three chunks over status 500 to one chunk;
    the question is answered with the chunk numbered 1 of [a.pdf] before
    and after, a document the chunk file no longer holds. *)
Example serve_live_ex :
  omap (λ p, match p.2 with
             | StatsReply (Http200 st) => Some (Some (stats_chunks st))
             | StatsReply _ => Some None
             | _ => None
             end) replies_ex = [Some 3; None; Some 1] ∧
  omap (λ p, match p.2 with
             | ChatReply (Http200 resp) => Some (hit_source <$> resp_chunks resp)
             | _ => None
             end) replies_ex = [[PStr "a.pdf"]; [PStr "a.pdf"]] ∧
  omap (λ p, match p.2 with
             | ChunksReply (Http200 chunks) => Some ((λ c, dict_get c "source") <$> chunks)
             | _ => None
             end) replies_ex = [[PStr "b.pdf"]].
Proof. by vm_compute. Qed.

Lemma session_ex_interleaved :
  interleaved (Rewrite <$> [Torn; chunks_json fs_second]) session_ex.
Proof. repeat constructor. Defined.

Lemma live_chat_stable_witness :
  (nth 2 replies_ex (GetStats, StatsReply Http422)).2 =
  ChatReply (respond (chat_endpoint generate_ex other_ex srv_ex (Ok (ask "visa fee" 1)))).
Proof.
  apply (live_chat_stable generate_ex other_ex (chunks_json fs_ex) srv_ex session_ex).
  unfold replies_ex. vm_compute. do 2 apply list_elem_of_further. apply list_elem_of_here.
Defined.

Lemma live_reingest_witness :
  ∃ new, chunks_json fs_second = Holds new ∧ new ≠ [] ∧
    ((nth 1 replies_ex (GetStats, StatsReply Http422)).2 =
       StatsReply (respond (get_stats (Holds (CHUNKS (srv_store srv_ex))))) ∨
     (nth 1 replies_ex (GetStats, StatsReply Http422)).2 =
       StatsReply (Http500 (ValueError "JSONDecodeError")) ∨
     (nth 1 replies_ex (GetStats, StatsReply Http422)).2 =
       StatsReply (respond (get_stats (Holds new)))).
Proof.
  apply (live_reingest generate_ex other_ex tk_chars env_second ["key-a"; "key-b"]
           fs_ex fs_second (Ok encode_ex) srv_ex session_ex GetStats).
  - by vm_compute.
  - by vm_compute.
  - apply session_ex_interleaved.
  - vm_compute. apply list_elem_of_further, list_elem_of_here.
Defined.

(** The index and the chunks of the second ingestion. *)
Definition index_second : @flat_index Q :=
  Eval vm_compute in
    match index_faiss fs_second with Holds index => index | _ => FlatIndex 0 [] end.

Definition chunks_second : list pydict :=
  Eval vm_compute in
    match chunks_json fs_second with Holds chunks => chunks | _ => [] end.

(** The server started between the two writes of the second ingestion:
    the index of the second corpus beside the chunks of the first. *)
Definition srv_between : server_state Q :=
  Eval vm_compute in
    match startup ["key-a"; "key-b"]
            (OutFiles (Holds index_second) (chunks_json fs_ex)) (Ok encode_ex) with
    | Ok srv => srv
    | Raise _ => srv_ex
    end.

(** That server holds one row and three chunks, and answers a question
    with the first chunk of the first corpus, which the row does not
    stand for: the row is the embedding of a chunk of [b.pdf]. *)
Example restart_between_ex :
  index_ntotal (INDEX (srv_store srv_between)) = 1 ∧
  py_len (CHUNKS (srv_store srv_between)) = 3 ∧
  (λ c, dict_get c "source") <$> chunks_second = [PStr "b.pdf"] ∧
  result_map (λ r, hit_source <$> resp_chunks r)
    (chat_endpoint generate_ex other_ex srv_between (Ok (ask "renewal" 1))) =
  Ok [PStr "a.pdf"].
Proof. by vm_compute. Qed.

Lemma restart_during_ingest_witness :
  (∀ f srv', f ∈ persist_states index_second chunks_second fs_ex →
     startup ["key-a"; "key-b"] f (Ok encode_ex) = Ok srv' →
     srv_client srv' = srv_client srv_ex ∧
     MODEL_encode (srv_store srv') = MODEL_encode (srv_store srv_ex) ∧
     (srv_store srv' = srv_store srv_ex ∨
      (INDEX (srv_store srv') = index_second ∧
       CHUNKS (srv_store srv') = CHUNKS (srv_store srv_ex)) ∨
      (INDEX (srv_store srv') = index_second ∧ CHUNKS (srv_store srv') = chunks_second))) ∧
  ∃ f srv', f ∈ persist_states index_second chunks_second fs_ex ∧
    startup ["key-a"; "key-b"] f (Ok encode_ex) = Ok srv' ∧
    INDEX (srv_store srv') = index_second ∧
    CHUNKS (srv_store srv') = CHUNKS (srv_store srv_ex).
Proof.
  apply (restart_during_ingest tk_chars env_second ["key-a"; "key-b"] fs_ex
           index_second chunks_second (Ok encode_ex) srv_ex).
  - by vm_compute.
  - by vm_compute.
Defined.
