(* ===== verification/Typing.v ===== *)
(** * Typing: the schema of the chunk records and its preservation

    A chunk record is a dictionary read back from JSON, so nothing in
    the program states what it holds.  This file states it as a schema
    ([chunk_schema]: which keys are present and of which type their
    values are) and shows that the schema is what ingestion writes
    ([main_chunks_typed]) and that it is enough for the reader:
    on a store whose chunks conform, [retrieve] raises only for a
    dimension mismatch and every hit carries values of the types the
    context builder prints ([typed_store_safe]), so the defaults of
    [build_context] are never used ([context_block_typed]). *)

From S2P Require Import Prelude PyData Score PySort Chunker VectorIndex.
From S2P Require Import Retriever AnswerClient Ingest Json Api.

Local Open Scope Z_scope.
Local Open Scope result_scope.

(** ** Types and schemas *)

(** The type of a value of a record: [NoneType], [int] or [str]. *)
Inductive pytype : Type :=
| TNone
| TInt
| TStr.

#[export] Instance pytype_eq_dec : EqDecision pytype.
Proof. solve_decision. Defined.

(** [type(v)]. *)
Definition type_of (v : pyval) : pytype :=
  match v with
  | PNone => TNone
  | PInt _ => TInt
  | PStr _ => TStr
  end.

(** What a schema asks of a field: a value of one type, or any value. *)
Inductive ftype : Type :=
| Exactly (t : pytype)
| Any.

Definition has_ftype (ft : ftype) (v : pyval) : bool :=
  match ft with
  | Exactly t => bool_decide (type_of v = t)
  | Any => true
  end.

(** A schema names the keys a record must hold and the type of each. *)
Abbreviation schema := (gmap string ftype).

Definition field_ok (d : pydict) (k : string) (ft : ftype) : Prop :=
  match d !! k with
  | Some v => has_ftype ft v = true
  | None => False
  end.

#[export] Instance field_ok_dec d k ft : Decision (field_ok d k ft).
Proof. unfold field_ok. destruct (d !! k); apply _. Defined.

(** [d] holds every key of [sch] with a value of its type; it may hold
    other keys. *)
Definition conforms (sch : schema) (d : pydict) : Prop :=
  map_Forall (field_ok d) sch.

#[export] Instance conforms_dec sch d : Decision (conforms sch d).
Proof. unfold conforms. apply _. Defined.

(** A document of the metadata file, as the worker needs it. *)
Definition meta_schema : schema :=
  <["filename" := Exactly TStr]> (<["title" := Any]> (<["date" := Any]> ∅)).

(** A record the worker returns. *)
Definition raw_schema : schema :=
  <["source" := Exactly TStr]> (<["title" := Any]> (<["date" := Any]>
  (<["page" := Exactly TInt]> (<["chunk_index_on_page" := Exactly TInt]>
  (<["text" := Exactly TStr]> ∅))))).

(** A record of [chunks.json]. *)
Definition chunk_schema : schema := <["uid" := Exactly TInt]> raw_schema.

(** A hit whose fields have the types of the schema. *)
Definition hit_typed {Sc} (h : hit Sc) : Prop :=
  ∃ uid source page text,
    hit_uid h = PInt uid ∧ hit_source h = PStr source ∧
    hit_page h = PInt page ∧ hit_text h = PStr text.

(** ** Lemmas on schemas *)

Lemma conforms_empty d : conforms ∅ d.
Proof. apply map_Forall_empty. Qed.

(** Setting a key to a value of its type keeps a record in the schema
    extended by that key. *)
Lemma conforms_insert sch d k ft v :
  has_ftype ft v = true → conforms sch d → conforms (<[k := ft]> sch) (<[k := v]> d).
Proof.
  intros Hv Hd k' ft' Hk. unfold field_ok.
  destruct (decide (k' = k)) as [->|Hne]; simplify_map_eq; [done|].
  by apply Hd in Hk.
Qed.

(** Setting a key the schema does not name keeps a record in it. *)
Lemma conforms_insert_other sch d k v :
  sch !! k = None → conforms sch d → conforms sch (<[k := v]> d).
Proof.
  intros Hk Hd k' ft' Hk'. unfold field_ok.
  destruct (decide (k' = k)) as [->|Hne]; simplify_map_eq.
  by apply Hd in Hk'.
Qed.

Lemma conforms_subseteq sch sch' d : sch' ⊆ sch → conforms sch d → conforms sch' d.
Proof.
  intros Hsub Hd k ft Hk. apply Hd. by eapply lookup_weaken.
Qed.

Lemma conforms_lookup sch d k ft :
  conforms sch d → sch !! k = Some ft → ∃ v, d !! k = Some v ∧ has_ftype ft v = true.
Proof.
  intros Hd Hk. apply Hd in Hk. unfold field_ok in Hk.
  destruct (d !! k) as [v|]; [by exists v|done].
Qed.

Lemma conforms_int sch d k :
  conforms sch d → sch !! k = Some (Exactly TInt) → ∃ z, d !! k = Some (PInt z).
Proof.
  intros Hd Hk. destruct (conforms_lookup _ _ _ _ Hd Hk) as ([] & Hv & Ht); by eauto.
Qed.

Lemma conforms_str sch d k :
  conforms sch d → sch !! k = Some (Exactly TStr) → ∃ s, d !! k = Some (PStr s).
Proof.
  intros Hd Hk. destruct (conforms_lookup _ _ _ _ Hd Hk) as ([] & Hv & Ht); by eauto.
Qed.

(** ** The worker and the run *)

Section ingest_typing.
Context {token : Type} (tk : tokenizer token).
Context `{ScoreOps Sc}.
Implicit Types (env : ingest_env Sc) (doc_meta : pydict).

(** The record built for a chunk of a document whose [filename] is a
    string is in the schema of the worker. *)
Lemma chunk_with_meta_typed doc_meta name page_num idx chunk c :
  doc_meta !! "filename" = Some (PStr name) →
  chunk_with_meta doc_meta page_num idx chunk = Ok c → conforms raw_schema c.
Proof.
  intros Hf Hc. unfold chunk_with_meta, dict_item in Hc. rewrite Hf in Hc.
  cbn [result_bind] in Hc. inv_result.
  repeat (apply conforms_insert; [done|]). apply conforms_empty.
Qed.

Lemma process_pdf_typed open_pdf pdf_path doc_meta name :
  doc_meta !! "filename" = Some (PStr name) →
  Forall (conforms raw_schema)
    (process_pdf_for_worker tk open_pdf (pdf_path, doc_meta)).
Proof.
  intros Hf. apply process_pdf_Forall. intros page_num idx chunk c _ _.
  by apply chunk_with_meta_typed with name.
Qed.

(** The chunks of a run over tasks whose documents name their file by a
    string are in the schema of [chunks.json]. *)
Lemma run_chunks_typed env tasks deliver :
  Forall (λ t : string * pydict, ∃ name, t.2 !! "filename" = Some (PStr name))
    (deliver tasks) →
  Forall (conforms chunk_schema) (run_chunks tk env tasks deliver).
Proof.
  intros Ht. apply (run_chunks_Forall tk (conforms raw_schema)).
  { intros c uid Hc. by apply conforms_insert. }
  eapply Forall_impl; [exact Ht|].
  intros [pdf_path doc_meta] [name Hname]. by apply process_pdf_typed with name.
Qed.

(** C15. Every record of the chunk file a completed run writes is in the
    schema: a string [source] and [text], an integer [page],
    [chunk_index_on_page] and [uid], and a [title] and a [date];
    provided the pool delivers results of the tasks it was given. *)
Theorem main_chunks_typed env fs fs' :
  (∀ deliver tasks, env_pool env = Ok deliver → deliver tasks ⊆ tasks) →
  main tk env fs = (Completed, fs') →
  ∃ chunks, chunks_json fs' = Holds chunks ∧ chunks ≠ [] ∧
            Forall (conforms chunk_schema) chunks.
Proof.
  intros Hpool Hm.
  destruct (main_Completed tk env fs fs' Hm)
    as (metadata & tasks & deliver & encode & texts & embs & index &
        _ & _ & Htasks & _ & Hdeliver & _ & Hne & _ & _ & _ & ->).
  eexists. split; [done|]. split; [done|]. apply run_chunks_typed.
  apply Forall_forall. intros t Ht%(Hpool deliver tasks Hdeliver).
  pose proof (tasks_loop_tasks _ _ _ Htasks) as Hall.
  destruct (proj1 (Forall_forall _ _) Hall t Ht) as (_ & _ & name & Hname & _).
  by exists name.
Qed.

End ingest_typing.

(** ** The reader *)

Section retrieve_typing.
Context {Sc Ix : Type} `{ScoreOps Sc} `{IndexSearch Sc Ix}.
Context `{!IndexSearchLaws Sc Ix}.
Implicit Types (st : store Sc Ix).

Lemma conforms_texts chunks :
  Forall (conforms chunk_schema) chunks → texts_are_strings chunks.
Proof.
  intros Hc. eapply Forall_impl; [exact Hc|]. intros c Hcc v Hv.
  destruct (conforms_str _ _ "text" Hcc eq_refl) as [s Hs]. exists s. congruence.
Qed.

(** A hit made from a record of the schema is typed. *)
Lemma score_chunk_typed qw keyword_boost chunk (score : Sc) r :
  conforms chunk_schema chunk →
  score_chunk qw keyword_boost chunk score = Ok r → hit_typed (public_hit r).
Proof.
  intros Hc (text & Ht & ->)%score_chunk_Ok.
  destruct (conforms_int _ _ "uid" Hc eq_refl) as [uid Huid].
  destruct (conforms_str _ _ "source" Hc eq_refl) as [source Hsource].
  destruct (conforms_int _ _ "page" Hc eq_refl) as [page Hpage].
  exists uid, source, page, text. unfold dict_get. cbn [public_hit hit_uid hit_source
    hit_page hit_text sc_uid sc_source sc_page sc_text].
  by rewrite Huid, Hsource, Hpage.
Qed.

Lemma retrieve_hits_typed st query k keyword_boost hits :
  Forall (conforms chunk_schema) (CHUNKS st) →
  retrieve st query k keyword_boost = Ok hits → Forall hit_typed hits.
Proof.
  intros Hc Hr. apply Forall_forall. intros h Hh.
  destruct (retrieve_hit_result st query k keyword_boost hits h Hr Hh)
    as (p & r & _ & _ & (chunk & Hidx & Hscore) & ->).
  eapply (score_chunk_typed _ _ chunk p.2 r); [|done].
  apply (proj1 (Forall_forall _ _) Hc). by eapply py_index_elem.
Qed.

(** C14. A store whose chunks are in the schema is safe to read: a query
    whose embedding has the dimension of the index is answered without
    an exception, and every hit carries an integer [uid] and [page] and
    a string [source] and [text]. *)
Theorem typed_store_safe st query k keyword_boost :
  Forall (conforms chunk_schema) (CHUNKS st) →
  py_len (MODEL_encode st query) = index_d (INDEX st) →
  ∃ hits, retrieve st query k keyword_boost = Ok hits ∧ Forall hit_typed hits.
Proof.
  intros Hc Hd.
  destruct (retrieve_Ok_results st query k keyword_boost (conforms_texts _ Hc) Hd)
    as (results & _ & Hr).
  eexists. split; [exact Hr|]. by eapply retrieve_hits_typed.
Qed.

End retrieve_typing.

(** ** The context *)

(** The block of a typed hit names its source and its page: the
    defaults ["Unknown"] and ["?"] of [build_context] are not used. *)
Lemma context_block_typed {Sc} `{ScoreOps Sc} (h : hit Sc) uid source page text :
  hit_uid h = PInt uid → hit_source h = PStr source →
  hit_page h = PInt page → hit_text h = PStr text →
  context_block (hit_dict h) =
  "According to " +:+ dquote +:+ source +:+ dquote +:+ " (Page " +:+ pretty page
    +:+ "):" +:+ nl +:+ text +:+ nl +:+ nl.
Proof.
  intros Hu Hs Hp Ht. unfold context_block, hit_dict, dict_get_or.
  simplify_map_eq. by rewrite Hs, Hp, Ht.
Qed.

(** ** Concrete records *)

Example conforms_ex :
  bool_decide (conforms chunk_schema (chunk_record 1 "a.pdf" 2 "Visa fee")) = false ∧
  bool_decide (conforms chunk_schema
    (<["title" := PNone]> (<["date" := PStr "2023"]> (<["chunk_index_on_page" := PInt 1]>
       (chunk_record 1 "a.pdf" 2 "Visa fee"))))) = true ∧
  bool_decide (conforms chunk_schema
    (<["page" := PStr "2"]> (<["title" := PNone]> (<["date" := PNone]>
       (<["chunk_index_on_page" := PInt 1]> (chunk_record 1 "a.pdf" 2 "Visa fee")))))) = false.
Proof. by vm_compute. Qed.

(** ** Witnesses *)

Lemma main_chunks_typed_witness :
  ∃ chunks, chunks_json (main tk_chars env_ex fs_empty).2 = Holds chunks ∧ chunks ≠ [] ∧
            Forall (conforms chunk_schema) chunks.
Proof.
  apply (main_chunks_typed tk_chars env_ex fs_empty).
  - intros deliver tasks [= <-]. done.
  - by vm_compute.
Defined.

Lemma srv_ex_typed : Forall (conforms chunk_schema) (CHUNKS (srv_store srv_ex)).
Proof. apply (bool_decide_unpack _). by vm_compute. Defined.

Lemma typed_store_safe_witness :
  ∃ hits, retrieve (srv_store srv_ex) "visa fee" 2 boost_ex = Ok hits ∧
          Forall hit_typed hits.
Proof. apply typed_store_safe; [apply srv_ex_typed|reflexivity]. Defined.
