(* ===== verification/Debug.v ===== *)
(** * Debug: [debug_retrieval] of [chat2.py]

    The helper calls [retrieve] with the default boost, prints a header,
    two lines per hit (its score and provenance, then a preview of its
    text) and a footer, and returns the hits.  What is printed is the
    list of the strings given to [print], in order; an exception ends
    the printing and is what the helper raises.

    The format [:.4f] of the score is a parameter ([fmt4]): only the
    number of lines and the shape of the preview are claimed. *)

From Stdlib Require Import QArith.
From S2P Require Import Prelude PyData Score PySort VectorIndex Retriever AnswerClient.

Local Open Scope Z_scope.
Local Open Scope result_scope.

(** ** The helper *)

(** The default of [preview_chars]. *)
Definition PREVIEW_CHARS : Z := 300.

(** [r['text'][:preview_chars].replace('\n', ' ').strip()] and the dots
    appended when the text is longer than [preview_chars]; only a string
    can be sliced and stripped. *)
Definition text_preview (text : pyval) (preview_chars : Z) : result string :=
  match text with
  | PStr s =>
      let preview :=
        str_strip (str_replace (Ascii.ascii_of_nat 10) (Ascii.ascii_of_nat 32)
                     (str_prefix s preview_chars)) in
      Ok (preview +:+ (if preview_chars <? str_len s then "..." else ""))
  | PInt _ => Raise (TypeError "'int' object is not subscriptable")
  | PNone => Raise (TypeError "'NoneType' object is not subscriptable")
  end.

Section debug.
Context {Sc Ix : Type} `{ScoreOps Sc} `{IndexSearch Sc Ix}.

(** The rendering of a score by the format [:.4f]. *)
Context (fmt4 : Sc → string).

(** The first line printed for a hit. *)
Definition hit_header (i : Z) (r : hit Sc) : string :=
  nl +:+ "[" +:+ pretty i +:+ "] score=" +:+ fmt4 (hit_score r)
    +:+ " uid=" +:+ py_str (hit_uid r) +:+ " source=" +:+ py_str (hit_source r)
    +:+ " page=" +:+ py_str (hit_page r).

(** [for i, r in enumerate(retrieved, start=1)]: what is printed, and
    the exception that ended the loop if one did. *)
Fixpoint debug_loop (retrieved : list (Z * hit Sc)) (preview_chars : Z)
    : list string * result unit :=
  match retrieved with
  | [] => ([], Ok ())
  | (i, r) :: rest =>
      match text_preview (hit_text r) preview_chars with
      | Raise e => ([hit_header i r], Raise e)
      | Ok line =>
          let '(printed, end_) := debug_loop rest preview_chars in
          (hit_header i r :: line :: printed, end_)
      end
  end.

(** [debug_retrieval(query, k, preview_chars)]: what is printed and what
    is returned or raised. *)
Definition debug_retrieval (st : store Sc Ix) (query : string) (k preview_chars : Z)
    : list string * result (list (hit Sc)) :=
  match retrieve st query k KEYWORD_BOOST with
  | Raise e => ([], Raise e)
  | Ok retrieved =>
      let '(printed, end_) := debug_loop (py_enumerate 1 retrieved) preview_chars in
      ([nl +:+ "--- Retrieval Debug ---"; "Query: " +:+ query] ++ printed ++
       match end_ with
       | Ok _ => ["--- End of Retrieval ---" +:+ nl]
       | Raise _ => []
       end,
       let! _ := end_ in Ok retrieved)
  end.

(** ** Properties *)

(** The preview of a text: at most [preview_chars] characters of it and
    three dots. *)
Lemma text_preview_length (s : string) (preview_chars : Z) line :
  0 ≤ preview_chars →
  text_preview (PStr s) preview_chars = Ok line →
  str_len line ≤ preview_chars + 3 ∧
  (str_len s ≤ preview_chars → str_len line ≤ str_len s).
Proof.
  intros Hn [= <-].
  pose proof (str_strip_length (str_replace (Ascii.ascii_of_nat 10)
    (Ascii.ascii_of_nat 32) (str_prefix s preview_chars))) as Hs.
  rewrite str_replace_length in Hs.
  pose proof (str_prefix_length s preview_chars Hn) as Hp.
  unfold str_len in *. rewrite str_app_length.
  destruct (Z.ltb_spec preview_chars (Z.of_nat (String.length s)));
    cbn [String.length]; lia.
Qed.

(** On hits whose texts are strings the loop prints two lines per hit
    and raises nothing. *)
Lemma debug_loop_Ok (retrieved : list (Z * hit Sc)) (preview_chars : Z) :
  Forall (λ p, ∃ s, hit_text p.2 = PStr s) retrieved →
  ∃ printed, debug_loop retrieved preview_chars = (printed, Ok ()) ∧
             length printed = (2 * length retrieved)%nat.
Proof.
  induction 1 as [|[i r] rest [s Hs] _ (printed & IH & Hlen)]; [by exists []|].
  cbn [debug_loop]. cbn [snd] in Hs. rewrite Hs. cbn [text_preview]. rewrite IH.
  eexists. split; [done|]. cbn [length]. lia.
Qed.

(** The text of a hit of [retrieve] is a string. *)
Lemma retrieve_texts st query k keyword_boost hits :
  retrieve st query k keyword_boost = Ok hits →
  Forall (λ h, ∃ s, hit_text h = PStr s) hits.
Proof.
  intros Hr. apply Forall_forall. intros h Hh.
  destruct (retrieve_hit_result st query k keyword_boost hits h Hr Hh)
    as (p & r & _ & _ & (chunk & _ & (text & _ & ->)%score_chunk_Ok) & ->).
  by exists text.
Qed.

(** The helper returns what [retrieve] returns with the default
    boost and raises what it raises; when [retrieve] raises nothing is
    printed, and otherwise a header of two lines, two lines per hit and
    a footer. *)
Theorem debug_retrieval_spec (st : store Sc Ix) query k preview_chars :
  (debug_retrieval st query k preview_chars).2 = retrieve st query k KEYWORD_BOOST ∧
  length (debug_retrieval st query k preview_chars).1 =
    match retrieve st query k KEYWORD_BOOST with
    | Ok hits => (3 + 2 * length hits)%nat
    | Raise _ => 0%nat
    end.
Proof.
  unfold debug_retrieval.
  destruct (retrieve st query k KEYWORD_BOOST) as [hits|e] eqn:Hr; [|done].
  destruct (debug_loop_Ok (py_enumerate 1 hits) preview_chars) as (printed & -> & Hlen).
  { apply Forall_forall. intros [i h] Hin.
    apply (proj1 (Forall_forall _ _) (retrieve_texts _ _ _ _ _ Hr)).
    rewrite <- (py_enumerate_snd 1 hits). apply list_elem_of_fmap. by exists (i, h). }
  split; [done|]. cbn [fst]. rewrite !length_app, Hlen, py_enumerate_length.
  cbn [length]. lia.
Qed.

End debug.

(** ** Concrete runs *)

(** A rendering that prints every score as [s]. *)
Definition fmt_ex : Q → string := λ _, "s".

(** Two hits with a preview of six characters. *)
Example debug_retrieval_ex :
  (debug_retrieval fmt_ex store_ex "visa fee" 2 6).1 =
  [nl +:+ "--- Retrieval Debug ---"; "Query: visa fee";
   nl +:+ "[1] score=s uid=1 source=doc.pdf page=1"; "Visa a...";
   nl +:+ "[2] score=s uid=2 source=doc.pdf page=2"; "Passpo...";
   "--- End of Retrieval ---" +:+ nl].
Proof. by vm_compute. Qed.

(** When [retrieve] raises, nothing is printed. *)
Example debug_retrieval_mismatch :
  debug_retrieval fmt_ex (Store (FlatIndex 3 []) [] (λ _, [1; 0]%Q)) "visa fee" 2 300 =
  ([], Raise (ValueError "Embedding dimension mismatch!")).
Proof. by vm_compute. Qed.

(** A negative [preview_chars] cuts the text from its end, and the dots
    are always appended; line breaks become spaces. *)
Example text_preview_ex :
  text_preview (PStr "abc") (-1) = Ok "ab..." ∧
  text_preview (PStr ("a" +:+ nl +:+ "b ")) 300 = Ok "a b" ∧
  text_preview (PStr "abc") 3 = Ok "abc".
Proof. by vm_compute. Qed.

Lemma text_preview_length_witness :
  str_len "ab..." ≤ 2 + 3 ∧ (str_len "abc" ≤ 2 → str_len "ab..." ≤ str_len "abc").
Proof. by apply (text_preview_length "abc" 2 "ab..."). Defined.
