(* ===== verification/Norm.v ===== *)
(** * Norm: the normalisation of embeddings, over the real numbers

    [ingest2.py] divides every embedding by its norm floored at [1e-12]
    ([normalize_embeddings]); [chat2.py] divides the query embedding by
    its norm plus [1e-12] ([normalize_query]).  Over the reals, which are
    an instance of [ScoreOps] with the true square root, a stored row has
    norm 1 unless its norm is below the floor, a query has norm
    [n / (n + 1e-12)], strictly below 1, and the semantic score of a
    candidate is a cosine up to that factor: it lies between -1 and 1.
    Rounding is not modelled: these are statements about the exact
    values the floating-point computation approximates. *)

From Stdlib Require Import Reals Lra Psatz.
From S2P Require Import Prelude PyData Score PySort VectorIndex Retriever Ingest.

Local Open Scope R_scope.

(** ** The reals as scores *)

Definition R_leb (a b : R) : bool := if Rle_dec a b then true else false.

#[export] Instance R_score : ScoreOps R := {|
  s_zero := 0;
  s_add := Rplus;
  s_mul := Rmult;
  s_div := Rdiv;
  s_sqrt := sqrt;
  s_of_Z := IZR;
  s_eps := / 10 ^ 12;
  s_leb := R_leb;
|}.

Lemma R_leb_le a b : R_leb a b = true ↔ a <= b.
Proof. unfold R_leb. by destruct (Rle_dec a b). Qed.

Lemma R_leb_gt a b : R_leb a b = false ↔ b < a.
Proof. unfold R_leb. destruct (Rle_dec a b); split; try done; lra. Qed.

#[export] Instance R_score_laws : ScoreLaws R.
Proof.
  split; cbn [s_leb s_add s_mul s_zero s_of_Z R_score]; intros *;
    rewrite ?R_leb_le.
  - destruct (Rle_dec a b); [by left|right; lra].
  - lra.
  - lra.
  - intros Hk Hnm%IZR_le. by apply Rmult_le_compat_l.
Qed.

Lemma eps_pos : 0 < s_eps.
Proof. cbn [s_eps R_score]. apply Rinv_0_lt_compat, pow_lt. lra. Qed.

(** ** Inner products and norms *)

Lemma dot_cons (a b : R) u v : dot (a :: u) (b :: v) = a * b + dot u v.
Proof. reflexivity. Qed.

Lemma dot_nil_r (u : list R) : dot u [] = 0.
Proof. by destruct u. Qed.

Lemma dot_self_nonneg (v : list R) : 0 <= dot v v.
Proof.
  induction v as [|a v IH]; [apply Rle_refl|]. rewrite dot_cons. nra.
Qed.

Lemma dot_scale (c d : R) u v :
  dot ((λ x, x / c) <$> u) ((λ x, x / d) <$> v) = dot u v * (/ c * / d).
Proof.
  revert v. induction u as [|a u IH]; intros [|b v]; cbn [fmap list_fmap];
    rewrite ?dot_nil_r; try (unfold dot; simpl; lra).
  rewrite !dot_cons, IH. unfold Rdiv. ring.
Qed.

(** Cauchy and Schwarz, on the common prefix of the two rows. *)
Lemma dot_cauchy_schwarz (u v : list R) :
  dot u v * dot u v <= dot u u * dot v v.
Proof.
  revert v. induction u as [|a u IH]; intros [|b v];
    rewrite ?dot_nil_r; try (unfold dot; simpl; lra).
  rewrite !dot_cons. specialize (IH v).
  pose proof (dot_self_nonneg u) as HA. pose proof (dot_self_nonneg v) as HB.
  set (S := dot u v) in *. set (A := dot u u) in *. set (B := dot v v) in *.
  assert (2 * a * b * S <= a * a * B + b * b * A) as Hmix.
  { assert ((2 * a * b * S) * (2 * a * b * S) <=
            (a * a * B + b * b * A) * (a * a * B + b * b * A)) as Hsq.
    { assert (4 * (a * a) * (b * b) * (S * S) <= 4 * (a * a) * (b * b) * (A * B))
        by (apply Rmult_le_compat_l; nra).
      pose proof (Rle_0_sqr (a * a * B - b * b * A)) as Hd. unfold Rsqr in Hd.
      lra. }
    assert (0 <= a * a * B + b * b * A) as HX by nra.
    destruct (Rle_dec (2 * a * b * S) (a * a * B + b * b * A)); [done|].
    exfalso. nra. }
  nra.
Qed.

(** [l2_norm] on the reals: the square root of the inner product. *)
Local Abbreviation norm := (l2_norm (Sc := R)).

Lemma norm_sqrt (v : list R) : norm v = sqrt (dot v v).
Proof. reflexivity. Qed.

Lemma norm_nonneg v : 0 <= norm v.
Proof. rewrite norm_sqrt. apply sqrt_pos. Qed.

Lemma norm_scale c v : 0 < c → norm ((λ x, x / c) <$> v) = norm v / c.
Proof.
  intros Hc. rewrite !norm_sqrt, dot_scale.
  assert (0 < / c) by by apply Rinv_0_lt_compat.
  rewrite sqrt_mult by (apply dot_self_nonneg || nra).
  rewrite sqrt_square by lra. reflexivity.
Qed.

Lemma dot_le_norms u v : Rabs (dot u v) <= norm u * norm v.
Proof.
  rewrite !norm_sqrt, <- sqrt_mult by apply dot_self_nonneg.
  rewrite <- sqrt_Rsqr_abs. apply sqrt_le_1_alt. unfold Rsqr.
  apply dot_cauchy_schwarz.
Qed.

(** ** Normalisation *)

Lemma div_bounds (a c : R) :
  0 < c → (0 <= a → 0 <= a / c) ∧ (a <= c → a / c <= 1) ∧ (a < c → a / c < 1).
Proof.
  intros Hc. assert (0 < / c) by by apply Rinv_0_lt_compat.
  assert (c * / c = 1) by (apply Rinv_r; lra). unfold Rdiv.
  split_and!; intros; nra.
Qed.

Lemma s_max_Rmax (a b : R) : s_max a b = Rmax a b.
Proof.
  unfold s_max. cbn [s_leb R_score]. unfold Rmax, R_leb.
  by destruct (Rle_dec a b).
Qed.

Lemma normalize_row_norm (v : list R) :
  norm (normalize_row v) = norm v / Rmax (norm v) s_eps.
Proof.
  unfold normalize_row. rewrite s_max_Rmax. cbn [s_div R_score].
  apply norm_scale. pose proof eps_pos. pose proof (Rmax_r (norm v) s_eps). lra.
Qed.

Lemma normalize_row_le_1 (v : list R) : norm (normalize_row v) <= 1.
Proof.
  rewrite normalize_row_norm. pose proof eps_pos.
  pose proof (Rmax_l (norm v) s_eps). pose proof (Rmax_r (norm v) s_eps).
  apply div_bounds; lra.
Qed.

(** Every embedding whose norm reaches the floor [1e-12] is stored
    with norm 1. *)
Theorem normalize_embeddings_unit (emb : list (list R)) :
  Forall (λ v, s_eps <= norm v) emb →
  Forall (λ r, norm r = 1) (normalize_embeddings (H := R_score) emb).
Proof.
  intros Hemb. unfold normalize_embeddings. apply Forall_fmap.
  eapply Forall_impl; [exact Hemb|]. intros v Hv. cbn [compose].
  rewrite normalize_row_norm, Rmax_left by done. pose proof eps_pos.
  unfold Rdiv. apply Rinv_r. lra.
Qed.

Lemma normalize_query_norm_lt (q : list R) :
  0 <= norm (normalize_query q) <= 1.
Proof.
  pose proof eps_pos. pose proof (norm_nonneg q).
  unfold normalize_query. cbn [s_div s_add R_score]. rewrite norm_scale by lra.
  split; apply div_bounds; lra.
Qed.

(** The query is divided by its norm plus [1e-12], not by the
    floored norm: its norm after normalisation is [n / (n + 1e-12)],
    always below 1. *)
Theorem normalize_query_norm (q : list R) :
  norm (normalize_query (H := R_score) q) = norm q / (norm q + s_eps) ∧
  0 <= norm (normalize_query q) < 1.
Proof.
  pose proof eps_pos. pose proof (norm_nonneg q).
  assert (norm (normalize_query q) = norm q / (norm q + s_eps)) as ->.
  { unfold normalize_query. cbn [s_div s_add R_score]. apply norm_scale. lra. }
  split; [done|]. split; apply div_bounds; lra.
Qed.

Lemma dot_normalized_bounded (q v : list R) :
  -1 <= dot (normalize_query q) (normalize_row v) <= 1.
Proof.
  pose proof (dot_le_norms (normalize_query q) (normalize_row v)) as Hd.
  pose proof (normalize_query_norm_lt q) as Hq.
  pose proof (normalize_row_le_1 v) as Hv.
  pose proof (norm_nonneg (normalize_row v)).
  assert (norm (normalize_query q) * norm (normalize_row v) <= 1) by nra.
  revert Hd. unfold Rabs. destruct (Rcase_abs _); lra.
Qed.

(** On an index whose rows were written by [normalize_embeddings],
    the semantic score of every candidate that names a row lies between
    -1 and 1. *)
Theorem candidates_score_bounded (st : store R flat_index) query k idx score emb :
  flat_xb (INDEX st) = normalize_embeddings (H := R_score) emb →
  (idx, score) ∈ candidates st query k → idx ≠ (-1)%Z →
  -1 <= score <= 1.
Proof.
  intros Hxb [i Hi]%list_elem_of_lookup Hne. unfold candidates in Hi.
  apply lookup_zip_with_Some in Hi as (l & d & [= -> ->] & Hl & Hd).
  destruct (flat_search_distance _ _ _ i l Hl Hne) as (row & Hrow & Hdist).
  cbn [index_search flat_index_search] in Hd. rewrite Hd in Hdist.
  injection Hdist as ->. rewrite Hxb in Hrow.
  apply list_lookup_fmap_Some in Hrow as (v & -> & _).
  apply dot_normalized_bounded.
Qed.

(** ** Concrete rows and witnesses *)

Lemma norm_unit_row : norm [1; 0] = 1.
Proof.
  rewrite norm_sqrt. unfold dot. cbn [zip zip_with foldr fst snd s_add s_mul s_zero R_score].
  replace (1 * 1 + (0 * 0 + 0)) with 1 by lra. apply sqrt_1.
Qed.

Lemma eps_le_1 : s_eps <= 1.
Proof.
  cbn [s_eps R_score]. assert (1 <= 10 ^ 12) as Hp by (simpl; lra).
  rewrite <- Rinv_1. apply Rinv_le_contravar; [lra|exact Hp].
Qed.

Lemma normalize_embeddings_unit_witness :
  Forall (λ r, norm r = 1) (normalize_embeddings [[1; 0]]).
Proof.
  apply normalize_embeddings_unit. constructor; [|constructor].
  rewrite norm_unit_row. apply eps_le_1.
Defined.

(** A store of one normalised row. *)
Definition store_unit : store R flat_index :=
  Store (FlatIndex 2 (normalize_embeddings [[1; 0]])) [∅] (λ _, [1; 0]).

Lemma candidates_score_bounded_witness :
  -1 <= dot (normalize_query [1; 0]) (normalize_row [1; 0]) <= 1.
Proof.
  apply (candidates_score_bounded store_unit "visa" 1 0 _ [[1; 0]]);
    [reflexivity|apply list_elem_of_here|lia].
Defined.
