(* ===== verification/Downloader.v ===== *)
(** * Downloader: [download_pdfs.py]

    [main] reads the list the scraper wrote and starts one coroutine
    [download_pdf] per entry; [asyncio.gather] runs them interleaved: a
    coroutine gives way at every [await].  A coroutine returns at once
    when its file exists; otherwise it requests the URL and, on status
    200, opens the file for writing, reads the body and writes it.  An
    exception inside the [try] is printed and the coroutine returns.

    The data folder is a map from file names to contents; two names are
    taken to name two files, which holds of names without a separator.
    The network is a function from the value given to [session.get] to
    the exception of the request, or the status with the body or the
    exception of reading it.  A coroutine is a state machine
    ([task_step]) with one step per stretch between two [await]s that
    touch the folder; [gather_step] lets any unfinished coroutine take
    its next step.  An entry of the list is a dictionary: [entry_task]
    reads its two keys, [main_run] is [main] from the list file to its
    end, and [download_script] the script from the making of the folder.

    The disk is a function from the name of a file to what happens when
    a coroutine stores it: the file is opened and the body written,
    opening it raises, or the write raises after some bytes of the body
    have reached the file.  Both exceptions are caught by the [try] of
    the coroutine. *)

From S2P Require Import Prelude PyData.

Local Open Scope Z_scope.

(** ** Data *)

(** What [download_pdf] reads of an entry: the value of [url], which is
    given to [session.get] as it is, and the value of [filename], a
    string once it is joined to the folder. *)
Record pdf_info := PdfInfo {
  info_url : pyval;
  info_filename : string;
}.

#[export] Instance pdf_info_eq_dec : EqDecision pdf_info.
Proof. solve_decision. Defined.

(** [DATA_FOLDER]: the contents of the files, by name. *)
Abbreviation folder := (gmap string string).

(** [session.get(url)] and [response.read()]. *)
Definition network := pyval → result (Z * result string).

(** What the disk does with the file a coroutine stores: it is opened
    and the body written to it; [aiofiles.open] raises; or [f.write] or
    [f.close] raises after [written] bytes of the body have reached the
    file. *)
Inductive disk_fate : Type :=
| Stored
| OpenFails
| WriteFails (written : nat).

#[export] Instance disk_fate_eq_dec : EqDecision disk_fate.
Proof. solve_decision. Defined.

(** The disk: the fate of each file of the folder, by name. *)
Definition storage := string → disk_fate.

(** The bytes of a body that reach the file. *)
Definition stored (fate : disk_fate) (content : string) : string :=
  match fate with
  | WriteFails written => String.substring 0 written content
  | Stored | OpenFails => content
  end.

(** The bytes [content] written from the start of a file that holds
    [old]: what [old] holds past them stays.  A file just opened with
    mode ['wb'] is empty, so the file then holds [content]. *)
Definition write_over (content old : string) : string :=
  content +:+ String.string_of_list_ascii
                (drop (String.length content) (String.list_ascii_of_string old)).

(** The lines of [download_pdf] before the test of existence: both keys
    are read, and the file name is joined to the folder, which only a
    string can be. *)
Definition entry_task (entry : pydict) : result pdf_info :=
  match dict_item entry "url", dict_item entry "filename" with
  | Raise e, _ => Raise e
  | Ok _, Raise e => Raise e
  | Ok url, Ok (PStr filename) => Ok (PdfInfo url filename)
  | Ok _, Ok _ => Raise (TypeError "unsupported operand type(s) for /")
  end.

(** [DATA_FOLDER]: the folder of the files, a path of the machine the
    script was written on. *)
Definition DATA_FOLDER : string :=
  "C:\Users\Aman\OneDrive\Desktop\MHA Chatbot\mha_chatbot\data2".

(** [JSON_FILE]: the name under which the list of the scraper is read,
    relative to the working directory; the separator is the one of
    Windows, so elsewhere the whole of it is one file name. *)
Definition JSON_FILE : string := "mha_chatbot\mha_whats_new.json".

(** [CONCURRENT_DOWNLOADS]: the limit of the connector. *)
Definition CONCURRENT_DOWNLOADS : Z := 10.

(** ** One coroutine, run without interruption *)

(** [download_pdf(session, pdf_info)].  The file opened with mode ['wb']
    is empty until the body is written: it stays empty when reading the
    body raises, and holds the bytes that were written when the write
    raises.  No file appears when opening it raises. *)
Definition download_pdf (net : network) (disk : storage) (fs : folder)
    (pdf : pdf_info) : folder :=
  let url := info_url pdf in
  let filename := info_filename pdf in
  if bool_decide (is_Some (fs !! filename)) then fs
  else
    match net url with
    | Ok (status, body) =>
        if status =? 200 then
          match disk filename with
          | OpenFails => fs
          | fate =>
              match body with
              | Ok content => <[filename := stored fate content]> (<[filename := ""]> fs)
              | Raise _ => <[filename := ""]> fs
              end
          end
        else fs
    | Raise _ => fs
    end.

(** The coroutines of [main], each run to its end before the next
    starts: one of the schedules of [asyncio.gather]. *)
Definition main_sequential (net : network) (disk : storage) (fs : folder)
    (pdf_list : list pdf_info) : folder :=
  foldl (download_pdf net disk) fs pdf_list.

(** ** The coroutine as a state machine *)

(** Where a coroutine stands: not started; past the test of existence,
    waiting for the response; with the file open, waiting for the body;
    returned. *)
Inductive task_state : Type :=
| Start
| Requested
| Opened (body : result string)
| Finished.

#[export] Instance task_state_eq_dec : EqDecision task_state.
Proof. solve_decision. Defined.

(** The stretch of [download_pdf] from one state to the next [await]
    that matters. *)
Definition task_step (net : network) (disk : storage) (fs : folder)
    (pdf : pdf_info) (st : task_state) : folder * task_state :=
  let filename := info_filename pdf in
  match st with
  | Start =>
      if bool_decide (is_Some (fs !! filename)) then (fs, Finished)
      else (fs, Requested)
  | Requested =>
      match net (info_url pdf) with
      | Ok (status, body) =>
          if status =? 200 then
            match disk filename with
            | OpenFails => (fs, Finished)
            | Stored | WriteFails _ => (<[filename := ""]> fs, Opened body)
            end
          else (fs, Finished)
      | Raise _ => (fs, Finished)
      end
  | Opened body =>
      match body with
      | Ok content =>
          (<[filename := write_over (stored (disk filename) content)
                                    (default "" (fs !! filename))]> fs,
           Finished)
      | Raise _ => (fs, Finished)
      end
  | Finished => (fs, Finished)
  end.

(** [asyncio.gather] over the coroutines: any coroutine that has not returned takes
    its next step. *)
Inductive gather_step (net : network) (disk : storage) (tasks : list pdf_info)
    : folder * list task_state → folder * list task_state → Prop :=
| GatherStep fs sts (i : nat) pdf st fs' st' :
    tasks !! i = Some pdf → sts !! i = Some st → st ≠ Finished →
    task_step net disk fs pdf st = (fs', st') →
    gather_step net disk tasks (fs, sts) (fs', <[i := st']> sts).

(** A run of [main]: from every coroutine at its start to every
    coroutine returned. *)
Definition gather_run (net : network) (disk : storage) (tasks : list pdf_info)
    (fs fs' : folder) : Prop :=
  ∃ sts, rtc (gather_step net disk tasks) (fs, replicate (length tasks) Start) (fs', sts) ∧
         Forall (λ st, st = Finished) sts.

(** The entries of the list whose coroutine gets past its first lines. *)
Definition good_tasks (pdf_list : list pydict) : list pdf_info :=
  omap (λ entry, match entry_task entry with
                 | Ok pdf => Some pdf
                 | Raise _ => None
                 end) pdf_list.

(** [main()] under [asyncio.run], from the list file and the folder to
    the end of the script and the folder then.  Without a list that can
    be read the script ends before any coroutine starts.  When every
    entry can be read, the script ends when every coroutine has
    returned.  Otherwise [asyncio.gather] raises the exception of the
    first entry that cannot be read, and the other coroutines are
    cancelled where they stand: the relation admits every place a
    schedule can bring them to, which covers the order in which the
    event loop runs them. *)
Inductive main_run (net : network) (disk : storage) (list_file : file (list pydict))
    (fs : folder) : exit_status → folder → Prop :=
| MainNoList :
    list_file = Missing →
    main_run net disk list_file fs (Uncaught (FileNotFoundError JSON_FILE)) fs
| MainBadList :
    list_file = Torn →
    main_run net disk list_file fs (Uncaught (ValueError "JSONDecodeError")) fs
| MainCompleted pdf_list tasks fs' :
    list_file = Holds pdf_list → result_mapM entry_task pdf_list = Ok tasks →
    gather_run net disk tasks fs fs' →
    main_run net disk list_file fs Completed fs'
| MainRaised pdf_list e c :
    list_file = Holds pdf_list → result_mapM entry_task pdf_list = Raise e →
    rtc (gather_step net disk (good_tasks pdf_list))
      (fs, replicate (length (good_tasks pdf_list)) Start) c →
    main_run net disk list_file fs (Uncaught e) c.1.

(** The script: the folder is made, which raises when its parent is
    missing or when a file stands in its place, and then [main] runs. *)
Inductive download_script (mkdir : result unit) (net : network) (disk : storage)
    (list_file : file (list pydict)) (fs : folder) : exit_status → folder → Prop :=
| ScriptNoFolder e :
    mkdir = Raise e → download_script mkdir net disk list_file fs (Uncaught e) fs
| ScriptMain status fs' :
    mkdir = Ok () → main_run net disk list_file fs status fs' →
    download_script mkdir net disk list_file fs status fs'.

(** The steps a coroutine has left. *)
Definition steps_left (st : task_state) : nat :=
  match st with
  | Start => 3
  | Requested => 2
  | Opened _ => 1
  | Finished => 0
  end.

(** An executable scheduler: the coroutine [i] takes its next step, if
    there is such a coroutine. *)
Definition sched_step (net : network) (disk : storage) (tasks : list pdf_info)
    (c : folder * list task_state) (i : nat) : folder * list task_state :=
  match tasks !! i, c.2 !! i with
  | Some pdf, Some st =>
      let '(fs', st') := task_step net disk c.1 pdf st in (fs', <[i := st']> c.2)
  | _, _ => c
  end.

(** The steps of a schedule, given as the coroutine that runs at each
    turn. *)
Definition run_schedule (net : network) (disk : storage) (tasks : list pdf_info)
    (c : folder * list task_state) (schedule : list nat) : folder * list task_state :=
  foldl (sched_step net disk tasks) c schedule.

(** ** The file of one coroutine *)

(** The content of the file of [pdf] after its coroutine, from the
    content [old] before it. *)
Definition outcome (net : network) (disk : storage) (old : option string)
    (pdf : pdf_info) : option string :=
  match old with
  | Some _ => old
  | None =>
      match net (info_url pdf) with
      | Ok (status, body) =>
          if status =? 200 then
            match disk (info_filename pdf) with
            | OpenFails => None
            | fate =>
                Some (match body with
                      | Ok content => stored fate content
                      | Raise _ => ""
                      end)
            end
          else None
      | Raise _ => None
      end
  end.

Lemma write_over_empty content : write_over content "" = content.
Proof. unfold write_over. cbn. rewrite drop_nil. apply str_app_nil_r. Qed.

(** A file that exists is left as it is, whatever the network and the
    disk. *)
Lemma download_pdf_exists (net : network) (disk : storage) (fs : folder) pdf :
  is_Some (fs !! info_filename pdf) → download_pdf net disk fs pdf = fs.
Proof. intros Hf. unfold download_pdf. by rewrite bool_decide_eq_true_2. Qed.

Section downloader.
Context (net : network) (disk : storage).
Implicit Types (fs : folder) (pdf : pdf_info) (st : task_state) (k : string).
Implicit Types (tasks : list pdf_info) (sts : list task_state).

(** A coroutine changes its own file only, and what it leaves there
    depends on what it found there only. *)
Lemma download_pdf_lookup fs pdf k :
  download_pdf net disk fs pdf !! k =
  if decide (k = info_filename pdf) then outcome net disk (fs !! k) pdf else fs !! k.
Proof.
  unfold download_pdf, outcome. case_decide as Hk; [subst k|].
  - case_bool_decide as He; [by destruct He as [b ->]|].
    apply eq_None_not_Some in He. rewrite He.
    destruct (net _) as [[status [content|e]]|]; [| |done];
      destruct (status =? 200), (disk (info_filename pdf)); by simplify_map_eq.
  - case_bool_decide; [done|].
    destruct (net _) as [[status [content|e]]|]; [| |done];
      destruct (status =? 200), (disk (info_filename pdf)); by simplify_map_eq.
Qed.

Lemma task_step_lookup fs pdf st fs' st' k :
  task_step net disk fs pdf st = (fs', st') → k ≠ info_filename pdf → fs' !! k = fs !! k.
Proof.
  unfold task_step. intros Hs Hk.
  repeat case_match; simplify_eq; by simplify_map_eq.
Qed.

(** What a folder holds for the tasks run from [fs]: for the file of a
    task its outcome, for any other file what [fs] held. *)
Definition final_of (fs : folder) tasks (fs' : folder) : Prop :=
  (∀ pdf, pdf ∈ tasks →
     fs' !! info_filename pdf = outcome net disk (fs !! info_filename pdf) pdf) ∧
  (∀ k, k ∉ info_filename <$> tasks → fs' !! k = fs !! k).

Lemma final_of_unique fs tasks fs1 fs2 :
  final_of fs tasks fs1 → final_of fs tasks fs2 → fs1 = fs2.
Proof.
  intros [Ha1 Hb1] [Ha2 Hb2]. apply map_eq. intros k.
  destruct (decide (k ∈ info_filename <$> tasks)) as [Hin|Hout].
  - apply list_elem_of_fmap in Hin as (pdf & -> & Hpdf).
    by rewrite (Ha1 _ Hpdf), (Ha2 _ Hpdf).
  - by rewrite (Hb1 _ Hout), (Hb2 _ Hout).
Qed.

Lemma main_sequential_final fs tasks :
  NoDup (info_filename <$> tasks) →
  final_of fs tasks (main_sequential net disk fs tasks).
Proof.
  revert fs. induction tasks as [|p rest IH]; intros fs Hnd.
  { split; [by intros ? ?%elem_of_nil|done]. }
  apply NoDup_cons in Hnd as [Hp Hnd].
  destruct (IH (download_pdf net disk fs p) Hnd) as [Ha Hb].
  cbn [main_sequential foldl]. fold (main_sequential net disk (download_pdf net disk fs p) rest).
  split.
  - intros pdf [->|Hin]%elem_of_cons.
    + by rewrite (Hb _ Hp), download_pdf_lookup, decide_True.
    + rewrite (Ha _ Hin), download_pdf_lookup, decide_False; [done|].
      intros E. apply Hp. rewrite <- E. by apply list_elem_of_fmap_2.
  - intros k Hk. rewrite fmap_cons, not_elem_of_cons in Hk. destruct Hk as [Hk1 Hk2].
    by rewrite (Hb _ Hk2), download_pdf_lookup, decide_False.
Qed.

End downloader.

(** ** Interleaved runs *)

Section gather.
Context (net : network) (disk : storage).
Implicit Types (fs : folder) (pdf : pdf_info) (st : task_state) (k : string).
Implicit Types (tasks : list pdf_info) (sts : list task_state).
Implicit Types (c : folder * list task_state).

(** What the file of a coroutine holds while the coroutine is in state
    [st], in a run from [fs0]. *)
Definition task_inv (fs0 fs : folder) pdf st : Prop :=
  match st with
  | Start => fs !! info_filename pdf = fs0 !! info_filename pdf
  | Requested => fs0 !! info_filename pdf = None ∧ fs !! info_filename pdf = None
  | Opened body =>
      fs0 !! info_filename pdf = None ∧ fs !! info_filename pdf = Some "" ∧
      net (info_url pdf) = Ok (200, body) ∧ disk (info_filename pdf) ≠ OpenFails
  | Finished =>
      fs !! info_filename pdf = outcome net disk (fs0 !! info_filename pdf) pdf
  end.

(** The invariant of a run from [fs0] when no two tasks share a file. *)
Definition gather_inv (fs0 : folder) tasks c : Prop :=
  length c.2 = length tasks ∧
  (∀ (i : nat) pdf st, tasks !! i = Some pdf → c.2 !! i = Some st →
     task_inv fs0 c.1 pdf st) ∧
  (∀ k, k ∉ info_filename <$> tasks → c.1 !! k = fs0 !! k).

Lemma task_step_inv fs0 fs pdf st fs' st' :
  task_inv fs0 fs pdf st → task_step net disk fs pdf st = (fs', st') →
  task_inv fs0 fs' pdf st'.
Proof.
  unfold task_step, task_inv, outcome. intros Hinv Hs.
  destruct st as [| |[content|e]|].
  - case_bool_decide as He; simplify_eq; cbn.
    + destruct He as [b Hb]. rewrite Hb in Hinv. by rewrite <- Hinv.
    + apply eq_None_not_Some in He. split; congruence.
  - destruct Hinv as [H0 Hf]. rewrite H0.
    destruct (net _) as [[status body]|] eqn:En; [|by simplify_eq].
    destruct (Z.eqb_spec status 200) as [->|]; simplify_eq; [|done].
    destruct (disk _) eqn:Ed; simplify_eq; by rewrite ?lookup_insert_eq.
  - destruct Hinv as (H0 & Hf & Hn & Hd). simplify_eq. rewrite H0, Hn, Hf. cbn.
    rewrite lookup_insert_eq, write_over_empty. by destruct (disk _).
  - destruct Hinv as (H0 & Hf & Hn & Hd). simplify_eq. rewrite H0, Hn. cbn.
    by destruct (disk _).
  - by simplify_eq.
Qed.

(** The invariant of a coroutine speaks of its own file only. *)
Lemma task_inv_lookup fs0 fs fs' pdf st :
  fs' !! info_filename pdf = fs !! info_filename pdf →
  task_inv fs0 fs pdf st → task_inv fs0 fs' pdf st.
Proof. unfold task_inv. intros ->. done. Qed.

Lemma gather_inv_init fs0 tasks :
  gather_inv fs0 tasks (fs0, replicate (length tasks) Start).
Proof.
  unfold gather_inv. cbn [fst snd].
  split_and!; [by rewrite length_replicate| |done].
  by intros i pdf st _ [-> _]%lookup_replicate.
Qed.

Lemma gather_step_inv fs0 tasks c c' :
  NoDup (info_filename <$> tasks) →
  gather_inv fs0 tasks c → gather_step net disk tasks c c' → gather_inv fs0 tasks c'.
Proof.
  intros Hnd (Hlen & Htasks & Hrest) Hstep.
  destruct Hstep as [fs sts i pdf st fs' st' Hi Hst Hne Hs].
  unfold gather_inv. cbn [fst snd] in *. split_and!.
  - by rewrite length_insert.
  - intros j pdf' stj Hj Hstj. destruct (decide (i = j)) as [<-|Hij].
    + rewrite list_lookup_insert_eq in Hstj by by eapply lookup_lt_Some.
      simplify_eq. by eapply task_step_inv; [apply (Htasks i)|].
    + rewrite list_lookup_insert_ne in Hstj by done.
      eapply task_inv_lookup; [|by apply (Htasks j)].
      eapply task_step_lookup; [done|]. intros E. apply Hij.
      eapply (NoDup_lookup _ i j); [done| |];
        rewrite list_lookup_fmap; [by rewrite Hi|rewrite Hj; simpl; by rewrite E].
  - intros k Hk. rewrite <- (Hrest k Hk). eapply task_step_lookup; [done|].
    intros ->. apply Hk, list_elem_of_fmap. exists pdf. split; [done|].
    by eapply list_elem_of_lookup_2.
Qed.

Lemma gather_steps_inv fs0 tasks c :
  NoDup (info_filename <$> tasks) →
  rtc (gather_step net disk tasks) (fs0, replicate (length tasks) Start) c →
  gather_inv fs0 tasks c.
Proof.
  intros Hnd Hrtc. eapply (rtc_ind_r (λ c, gather_inv fs0 tasks c)); [|clear c Hrtc|done].
  - apply gather_inv_init.
  - intros c c' _ Hstep Hinv. by eapply gather_step_inv.
Qed.

Lemma gather_run_final fs tasks fs' :
  NoDup (info_filename <$> tasks) → gather_run net disk tasks fs fs' →
  final_of net disk fs tasks fs'.
Proof.
  intros Hnd (sts & Hrtc & Hfin).
  destruct (gather_steps_inv fs tasks _ Hnd Hrtc) as (Hlen & Htasks & Hrest).
  cbn [fst snd] in *. split; [|done].
  intros pdf [i Hi]%list_elem_of_lookup.
  destruct (lookup_lt_is_Some_2 sts i) as [st Hst].
  { rewrite Hlen. by eapply lookup_lt_Some. }
  pose proof (proj1 (Forall_lookup _ _) Hfin i st Hst) as ->.
  apply (Htasks i pdf Finished Hi Hst).
Qed.

(** ** The sequential schedule is a run *)

Lemma sched_step_rtc tasks c (i : nat) :
  rtc (gather_step net disk tasks) c (sched_step net disk tasks c i).
Proof.
  destruct c as [fs sts]. unfold sched_step. cbn [fst snd].
  destruct (tasks !! i) as [pdf|] eqn:Hi; [|done].
  destruct (sts !! i) as [st|] eqn:Hst; [|done].
  destruct (task_step net disk fs pdf st) as [fs' st'] eqn:Hs.
  destruct (decide (st = Finished)) as [->|Hne].
  - cbn in Hs. simplify_eq. by rewrite list_insert_id.
  - apply rtc_once. by econstructor.
Qed.

Lemma run_schedule_rtc tasks c (schedule : list nat) :
  rtc (gather_step net disk tasks) c (run_schedule net disk tasks c schedule).
Proof.
  revert c. induction schedule as [|i schedule IH]; intros c; [done|].
  cbn [run_schedule foldl]. etrans; [apply sched_step_rtc|apply IH].
Qed.

(** Three turns bring a coroutine from its start to its end, and the
    folder where [download_pdf] brings it. *)
Lemma task_step_thrice fs pdf :
  let c1 := task_step net disk fs pdf Start in
  let c2 := task_step net disk c1.1 pdf c1.2 in
  task_step net disk c2.1 pdf c2.2 = (download_pdf net disk fs pdf, Finished).
Proof.
  unfold task_step, download_pdf. case_bool_decide; [done|]. cbn [fst snd].
  destruct (net _) as [[status [content|e]]|]; [| |done];
    destruct (status =? 200), (disk (info_filename pdf)); cbn [fst snd]; try done;
    by rewrite lookup_insert_eq, write_over_empty.
Qed.

Lemma sched_step_thrice tasks fs sts (i : nat) pdf :
  tasks !! i = Some pdf → sts !! i = Some Start →
  run_schedule net disk tasks (fs, sts) [i; i; i] =
  (download_pdf net disk fs pdf, <[i := Finished]> sts).
Proof.
  intros Hi Hst. pose proof (task_step_thrice fs pdf) as H3. cbv zeta in H3.
  assert (i < length sts)%nat as Hlt by by eapply lookup_lt_Some.
  cbn [run_schedule foldl]. unfold sched_step at 3. cbn [fst snd]. rewrite Hi, Hst.
  destruct (task_step net disk fs pdf Start) as [fs1 s1]. cbn [fst snd] in H3.
  unfold sched_step at 2. cbn [fst snd]. rewrite Hi, list_lookup_insert_eq by done.
  destruct (task_step net disk fs1 pdf s1) as [fs2 s2]. cbn [fst snd] in H3.
  unfold sched_step. cbn [fst snd].
  rewrite Hi, list_lookup_insert_eq by by rewrite length_insert.
  by rewrite H3, !list_insert_insert_eq.
Qed.

Lemma sequential_rtc tasks (done_ rest : list pdf_info) fs :
  tasks = done_ ++ rest →
  rtc (gather_step net disk tasks)
    (fs, replicate (length done_) Finished ++ replicate (length rest) Start)
    (main_sequential net disk fs rest, replicate (length tasks) Finished).
Proof.
  revert done_ fs. induction rest as [|p rest IH]; intros done_ fs Htasks.
  { subst tasks. by rewrite !app_nil_r. }
  etrans.
  { apply (run_schedule_rtc tasks _ [length done_; length done_; length done_]). }
  rewrite (sched_step_thrice tasks fs _ (length done_) p).
  - rewrite <- (Nat.add_0_r (length done_)) at 1.
    rewrite <- (length_replicate (length done_) Finished) at 1.
    rewrite insert_app_r. cbn [replicate length list_insert].
    specialize (IH (done_ ++ [p]) (download_pdf net disk fs p)).
    rewrite length_app, replicate_add, <- !app_assoc in IH. apply IH.
    exact Htasks.
  - subst tasks. by rewrite lookup_app_r, Nat.sub_diag.
  - rewrite lookup_app_r by by rewrite length_replicate.
    by rewrite length_replicate, Nat.sub_diag.
Qed.

(** The coroutines run one after the other are a run. *)
Lemma sequential_run fs tasks : gather_run net disk tasks fs (main_sequential net disk fs tasks).
Proof.
  exists (replicate (length tasks) Finished).
  split; [apply (sequential_rtc tasks [] tasks fs eq_refl)|].
  by apply Forall_replicate.
Qed.

End gather.

(** ** Termination and safety of every schedule *)

(** The steps the coroutines have left. *)
Definition work_left (sts : list task_state) : nat := sum_list (steps_left <$> sts).

Lemma work_left_insert sts (i : nat) st st' :
  sts !! i = Some st → (steps_left st' < steps_left st)%nat →
  (work_left (<[i := st']> sts) < work_left sts)%nat.
Proof.
  unfold work_left. revert i. induction sts as [|s sts IH]; intros [|i] Hi Hlt;
    try done.
  - injection Hi as ->. simpl in *. lia.
  - specialize (IH i Hi Hlt). simpl. apply Nat.add_lt_mono_l. exact IH.
Qed.

Lemma work_left_replicate (n : nat) : work_left (replicate n Start) = (3 * n)%nat.
Proof. unfold work_left. rewrite fmap_replicate, sum_list_replicate. simpl. lia. Qed.

Section schedules.
Context (net : network) (disk : storage).
Implicit Types (fs : folder) (pdf : pdf_info) (st : task_state) (k : string).
Implicit Types (tasks : list pdf_info) (c : folder * list task_state).

Lemma task_step_steps_left fs pdf st fs' st' :
  st ≠ Finished → task_step net disk fs pdf st = (fs', st') →
  (steps_left st' < steps_left st)%nat.
Proof.
  unfold task_step. intros Hne Hs.
  repeat case_match; simplify_eq; cbn; lia.
Qed.

Lemma gather_step_work tasks c c' :
  gather_step net disk tasks c c' →
  length c'.2 = length c.2 ∧ (work_left c'.2 < work_left c.2)%nat.
Proof.
  intros Hstep. destruct Hstep as [fs sts i pdf st fs' st' Hi Hst Hne Hs]. cbn [snd].
  split; [by rewrite length_insert|].
  eapply work_left_insert; [done|by eapply task_step_steps_left].
Qed.

Lemma gather_nsteps_work tasks c c' (m : nat) :
  nsteps (gather_step net disk tasks) m c c' →
  length c'.2 = length c.2 ∧ (m + work_left c'.2 ≤ work_left c.2)%nat.
Proof.
  induction 1 as [|m c1 c2 c3 Hstep _ [IHl IHw]]; [by split|].
  destruct (gather_step_work _ _ _ Hstep) as [Hl Hw]. split; [congruence|lia].
Qed.

(** What a run from [fs0] keeps, whatever the tasks: the files of [fs0]
    are as they were, and a coroutine past its test found no file of
    [fs0] under its name. *)
Definition keep_inv (fs0 : folder) tasks c : Prop :=
  (∀ k content, fs0 !! k = Some content → c.1 !! k = Some content) ∧
  (∀ (i : nat) pdf st, tasks !! i = Some pdf → c.2 !! i = Some st →
     st ≠ Start → st ≠ Finished → fs0 !! info_filename pdf = None).

Lemma task_step_keeps (fs0 fs : folder) pdf st fs' st' :
  (∀ k content, fs0 !! k = Some content → fs !! k = Some content) →
  (st ≠ Start → st ≠ Finished → fs0 !! info_filename pdf = None) →
  task_step net disk fs pdf st = (fs', st') →
  (∀ k content, fs0 !! k = Some content → fs' !! k = Some content) ∧
  (st' ≠ Start → st' ≠ Finished → fs0 !! info_filename pdf = None).
Proof.
  unfold task_step. intros Hkeep Hst Hs.
  assert (∀ v, fs0 !! info_filename pdf = None →
    ∀ k content, fs0 !! k = Some content →
      <[info_filename pdf := v]> fs !! k = Some content) as Hins.
  { intros v Hnone k content Hk. rewrite lookup_insert_ne by congruence. auto. }
  destruct st as [| |[content|e]|]; repeat case_match; simplify_eq;
    try (split; [by auto|done]);
    try (assert (fs0 !! info_filename pdf = None) as Hn by (by apply Hst);
         split; [by apply Hins|done]).
  split; [done|]. intros _ _.
  destruct (fs0 !! info_filename pdf) as [b|] eqn:E; [|done].
  apply Hkeep in E. match goal with
                    | H : bool_decide _ = false |- _ =>
                        apply bool_decide_eq_false in H; by destruct H
                    end.
Qed.

Lemma gather_step_keeps fs0 tasks c c' :
  keep_inv fs0 tasks c → gather_step net disk tasks c c' → keep_inv fs0 tasks c'.
Proof.
  intros Hinv Hstep. destruct Hstep as [fs sts i pdf st fs' st' Hi Hst Hne Hs].
  destruct Hinv as [Hkeep Hpast]. cbn [fst snd] in *.
  destruct (task_step_keeps fs0 fs pdf st fs' st' Hkeep (Hpast i pdf st Hi Hst) Hs)
    as [Hkeep' Hpast'].
  split; [done|]. cbn [snd]. intros j pdf' stj Hj Hstj.
  destruct (decide (i = j)) as [<-|Hij].
  - rewrite list_lookup_insert_eq in Hstj by by eapply lookup_lt_Some. by simplify_eq.
  - rewrite list_lookup_insert_ne in Hstj by done. by apply (Hpast j).
Qed.

(** No run changes a file that existed before it. *)
Lemma gather_steps_keep fs tasks c k content :
  rtc (gather_step net disk tasks) (fs, replicate (length tasks) Start) c →
  fs !! k = Some content → c.1 !! k = Some content.
Proof.
  intros Hrtc. cut (keep_inv fs tasks c); [intros [Hkeep _]; apply Hkeep|].
  eapply (rtc_ind_r (λ c, keep_inv fs tasks c)); [|clear c Hrtc|done].
  - split; [done|]. cbn [snd]. by intros i pdf st _ [-> _]%lookup_replicate.
  - intros c c' _ Hstep Hinv. by eapply gather_step_keeps.
Qed.

End schedules.

(** ** The entries *)

Lemma entry_task_Ok entry pdf :
  entry_task entry = Ok pdf ↔
  ∃ url, entry !! "url" = Some url ∧
         entry !! "filename" = Some (PStr (info_filename pdf)) ∧ info_url pdf = url.
Proof.
  unfold entry_task, dict_item. destruct pdf as [u f]. cbn [info_url info_filename].
  destruct (entry !! "url") as [url|], (entry !! "filename") as [[| |name]|];
    split; try done; try (by intros (? & ? & ? & ?)).
  - intros [= -> ->]. by eexists.
  - intros (? & [= ->] & [= ->] & ->). done.
Qed.

Lemma good_tasks_all pdf_list tasks :
  result_mapM entry_task pdf_list = Ok tasks → good_tasks pdf_list = tasks.
Proof.
  intros Hall%result_mapM_Ok. unfold good_tasks.
  induction Hall as [|entry pdf pdf_list tasks Hpdf _ IH]; [done|].
  cbn [omap list_omap]. by rewrite Hpdf, IH.
Qed.

(** ** Properties *)

Section downloader_properties.
Context (net : network) (disk : storage).
Implicit Types (fs : folder) (pdf : pdf_info) (k : string).
Implicit Types (tasks : list pdf_info) (c : folder * list task_state).

(** C27. When no two entries name the same file, every interleaving of
    the coroutines leaves the folder the sequential run leaves. *)
Theorem gather_run_sequential fs tasks fs' :
  NoDup (info_filename <$> tasks) → gather_run net disk tasks fs fs' →
  fs' = main_sequential net disk fs tasks.
Proof.
  intros Hnd Hrun. eapply (final_of_unique net disk);
    [by apply gather_run_final|by apply main_sequential_final].
Qed.

(** Every schedule stops: from the start a run takes at most three
    steps per entry, the sequential run is one of the runs, and as long
    as a coroutine has not returned a step is possible. *)
Theorem gather_terminates fs tasks c (m : nat) :
  nsteps (gather_step net disk tasks) m (fs, replicate (length tasks) Start) c →
  (m ≤ 3 * length tasks)%nat ∧
  gather_run net disk tasks fs (main_sequential net disk fs tasks) ∧
  (Exists (λ st, st ≠ Finished) c.2 → ∃ c', gather_step net disk tasks c c').
Proof.
  intros [Hlen Hwork]%gather_nsteps_work. cbn [snd] in *.
  rewrite work_left_replicate in Hwork. rewrite length_replicate in Hlen.
  split_and!; [lia|apply sequential_run|].
  - intros (st & [i Hst]%list_elem_of_lookup & Hne)%Exists_exists.
    destruct c as [fs' sts]. cbn [snd] in *.
    destruct (lookup_lt_is_Some_2 tasks i) as [pdf Hi].
    { rewrite <- Hlen. by eapply lookup_lt_Some. }
    destruct (task_step net disk fs' pdf st) as [fs'' st'] eqn:Hs.
    eexists. by econstructor.
Qed.

(** No schedule changes a file that existed before the run. *)
Theorem gather_keeps_existing fs tasks c k content :
  rtc (gather_step net disk tasks) (fs, replicate (length tasks) Start) c →
  fs !! k = Some content → c.1 !! k = Some content.
Proof. apply gather_steps_keep. Qed.

(** No end of [main] changes a file that existed before it. *)
Lemma main_run_keeps list_file fs status fs' :
  main_run net disk list_file fs status fs' →
  ∀ k content, fs !! k = Some content → fs' !! k = Some content.
Proof.
  intros [->| ->|pdf_list tasks fs'' -> Htasks (sts & Hrtc & _)
         |pdf_list e c -> Htasks Hrtc] k content; [done|done|..].
  - apply (gather_steps_keep net disk fs tasks (fs'', sts) k content Hrtc).
  - apply (gather_steps_keep net disk fs _ c k content Hrtc).
Qed.

(** C29. However the script ends, the files that existed before it are
    as they were; it completes exactly when the list can be read and
    every entry holds a [url] and a string [filename], and then, when no
    two entries name the same file, the folder is the one the sequential
    run leaves. *)
Theorem main_run_ends list_file fs status fs' :
  main_run net disk list_file fs status fs' →
  (∀ k content, fs !! k = Some content → fs' !! k = Some content) ∧
  (status = Completed ↔
   ∃ pdf_list tasks, list_file = Holds pdf_list ∧
                     result_mapM entry_task pdf_list = Ok tasks) ∧
  (∀ pdf_list tasks,
     list_file = Holds pdf_list → result_mapM entry_task pdf_list = Ok tasks →
     NoDup (info_filename <$> tasks) → fs' = main_sequential net disk fs tasks).
Proof.
  intros Hrun. split; [by eapply main_run_keeps|].
  destruct Hrun as [->| ->|pdf_list tasks fs' -> Htasks Hrun
                   |pdf_list e c -> Htasks Hrtc].
  - split; [split; [done|by intros (? & ? & ? & _)]|done].
  - split; [split; [done|by intros (? & ? & ? & _)]|done].
  - split; [split; [by eauto|done]|].
    intros ? tasks' [= <-] Htasks' Hnd. rewrite Htasks in Htasks'.
    injection Htasks' as <-. eapply (final_of_unique net disk);
      [by apply gather_run_final|by apply main_sequential_final].
  - split.
    + split; [done|]. intros (? & tasks & [= <-] & Htasks'). congruence.
    + intros ? tasks [= <-] Htasks'. congruence.
Qed.

(** The script has an end on every input: the sequential run is one. *)
Lemma main_run_exists list_file fs : ∃ status fs', main_run net disk list_file fs status fs'.
Proof.
  destruct list_file as [|pdf_list|].
  - eexists _, _. by apply MainNoList.
  - destruct (result_mapM entry_task pdf_list) as [tasks|e] eqn:Htasks.
    + eexists _, _. eapply MainCompleted; [done|done|apply sequential_run].
    + eexists _, _. by eapply (MainRaised _ _ _ _ pdf_list e (fs, _)).
  - eexists _, _. by apply MainBadList.
Qed.

(** When reading the body raises after the file was opened, the
    file is left empty, and no later run replaces it, whatever the
    network answers then. *)
Theorem download_pdf_failed_read fs pdf status e (net' : network) (disk' : storage) :
  fs !! info_filename pdf = None →
  net (info_url pdf) = Ok (status, Raise e) → status = 200 →
  disk (info_filename pdf) ≠ OpenFails →
  download_pdf net disk fs pdf !! info_filename pdf = Some "" ∧
  download_pdf net' disk' (download_pdf net disk fs pdf) pdf = download_pdf net disk fs pdf.
Proof.
  intros Hf Hn -> Hd.
  assert (download_pdf net disk fs pdf !! info_filename pdf = Some "") as Hnew.
  { rewrite download_pdf_lookup, decide_True by done. unfold outcome.
    rewrite Hf, Hn. cbn. by destruct (disk _). }
  split; [done|]. apply download_pdf_exists. by rewrite Hnew.
Qed.

(** When the write raises after [written] bytes, the file holds these
    bytes of the body, the coroutine returns as after any failure, and
    no later run replaces the file, whatever the network and the disk
    do then. *)
Theorem download_pdf_failed_write fs pdf content (written : nat)
    (net' : network) (disk' : storage) :
  fs !! info_filename pdf = None →
  net (info_url pdf) = Ok (200, Ok content) →
  disk (info_filename pdf) = WriteFails written →
  download_pdf net disk fs pdf !! info_filename pdf =
    Some (String.substring 0 written content) ∧
  download_pdf net' disk' (download_pdf net disk fs pdf) pdf = download_pdf net disk fs pdf.
Proof.
  intros Hf Hn Hd.
  assert (download_pdf net disk fs pdf !! info_filename pdf =
          Some (String.substring 0 written content)) as Hnew.
  { rewrite download_pdf_lookup, decide_True by done. unfold outcome.
    by rewrite Hf, Hn, Hd. }
  split; [done|]. apply download_pdf_exists. by rewrite Hnew.
Qed.

(** When the file cannot be opened the folder stays as it was: a later
    run requests the body again. *)
Lemma download_pdf_failed_open fs pdf :
  disk (info_filename pdf) = OpenFails → download_pdf net disk fs pdf = fs.
Proof.
  intros Hd. unfold download_pdf. rewrite Hd.
  case_bool_decide; [done|]. destruct (net _) as [[status body]|]; [|done].
  by destruct (status =? 200).
Qed.

(** The script keeps the files that existed before it, and without the
    folder it ends before the list is read. *)
Lemma download_script_ends (mkdir : result unit) list_file fs status fs' :
  download_script mkdir net disk list_file fs status fs' →
  (∀ k content, fs !! k = Some content → fs' !! k = Some content) ∧
  (∀ e, mkdir = Raise e → status = Uncaught e ∧ fs' = fs).
Proof.
  intros [e ->|status' fs'' -> Hrun].
  - split; [done|]. by intros ? [= ->].
  - split; [|done]. by apply (main_run_keeps list_file fs status').
Qed.

End downloader_properties.

(** ** Concrete runs and witnesses *)

Definition pdf_a : pdf_info := PdfInfo (PStr "https://site/a.pdf") "a.pdf".
Definition pdf_b : pdf_info := PdfInfo (PStr "https://site/b.pdf") "b.pdf".
Definition pdf_b2 : pdf_info := PdfInfo (PStr "https://mirror/b.pdf") "b.pdf".
Definition pdf_c : pdf_info := PdfInfo (PStr "https://site/c.pdf") "c.pdf".
Definition pdf_d : pdf_info := PdfInfo (PStr "https://site/d.pdf") "d.pdf".
Definition pdf_e : pdf_info := PdfInfo (PStr "https://site/e.pdf") "e.pdf".

(** [a.pdf], [b.pdf], [d.pdf] and [e.pdf] are served, the mirror serves
    another [b.pdf], the body of [c.pdf] cannot be read, anything else
    is not found. *)
Definition net_ex : network := λ url,
  match url with
  | PStr url =>
      if String.eqb url "https://site/a.pdf" then Ok (200, Ok "AAAA")
      else if String.eqb url "https://site/b.pdf" then Ok (200, Ok "BBBB")
      else if String.eqb url "https://mirror/b.pdf" then Ok (200, Ok "bb")
      else if String.eqb url "https://site/c.pdf" then Ok (200, Raise (OtherError "reset"))
      else if String.eqb url "https://site/d.pdf" then Ok (200, Ok "DDDD")
      else if String.eqb url "https://site/e.pdf" then Ok (200, Ok "EEEE")
      else Ok (404, Ok "")
  | _ => Raise (TypeError "Constructor parameter should be str")
  end.

(** [d.pdf] cannot be opened, the write of [e.pdf] fails after two
    bytes, every other file is stored. *)
Definition disk_ex : storage := λ name,
  if String.eqb name "d.pdf" then OpenFails
  else if String.eqb name "e.pdf" then WriteFails 2
  else Stored.

Definition start_of (tasks : list pdf_info) (fs : folder) : folder * list task_state :=
  (fs, replicate (length tasks) Start).

(** An existing file is kept, a served one written, an unreadable one
    left empty, one that cannot be opened is missing, and one whose
    write fails holds the bytes written. *)
Example main_sequential_ex :
  main_sequential net_ex disk_ex {["a.pdf" := "old"]} [pdf_a; pdf_b; pdf_c; pdf_d; pdf_e] =
  {["a.pdf" := "old"; "b.pdf" := "BBBB"; "c.pdf" := ""; "e.pdf" := "EE"]}.
Proof. repeat split; vm_compute; reflexivity. Qed.

(** Two entries with the same file name: run one after the other the
    first wins; when the second tests for the file before the first has
    opened it, both write, and where the second opens the file before
    the first has written, the file ends as a mix of the two bodies. *)
Example gather_duplicate_names :
  (run_schedule net_ex disk_ex [pdf_b; pdf_b2] (start_of [pdf_b; pdf_b2] ∅) [0; 0; 0; 1; 1; 1]%nat).1 =
    {["b.pdf" := "BBBB"]} ∧
  (run_schedule net_ex disk_ex [pdf_b; pdf_b2] (start_of [pdf_b; pdf_b2] ∅) [0; 1; 0; 0; 1; 1]%nat).1 =
    {["b.pdf" := "bb"]} ∧
  (run_schedule net_ex disk_ex [pdf_b; pdf_b2] (start_of [pdf_b; pdf_b2] ∅) [0; 1; 0; 1; 0; 1]%nat).1 =
    {["b.pdf" := "bbBB"]}.
Proof. repeat split; vm_compute; reflexivity. Qed.

Lemma gather_run_sequential_witness :
  (run_schedule net_ex disk_ex [pdf_a; pdf_b] (start_of [pdf_a; pdf_b] ∅) [0; 1; 1; 0; 1; 0]%nat).1 =
  main_sequential net_ex disk_ex ∅ [pdf_a; pdf_b].
Proof.
  apply gather_run_sequential.
  - by apply (bool_decide_unpack _).
  - exists (run_schedule net_ex disk_ex [pdf_a; pdf_b] (start_of [pdf_a; pdf_b] ∅)
              [0; 1; 1; 0; 1; 0]%nat).2.
    split; [|vm_compute; by repeat constructor].
    rewrite <- surjective_pairing. apply run_schedule_rtc.
Defined.

Lemma gather_terminates_witness :
  (2 ≤ 3 * length [pdf_a; pdf_b])%nat ∧
  gather_run net_ex disk_ex [pdf_a; pdf_b] ∅ (main_sequential net_ex disk_ex ∅ [pdf_a; pdf_b]) ∧
  (Exists (λ st, st ≠ Finished)
     (run_schedule net_ex disk_ex [pdf_a; pdf_b] (start_of [pdf_a; pdf_b] ∅) [0; 1]%nat).2 →
   ∃ c', gather_step net_ex disk_ex [pdf_a; pdf_b]
           (run_schedule net_ex disk_ex [pdf_a; pdf_b] (start_of [pdf_a; pdf_b] ∅) [0; 1]%nat) c').
Proof.
  apply (gather_terminates net_ex disk_ex ∅ [pdf_a; pdf_b] _ 2).
  eapply nsteps_l; [|eapply nsteps_once].
  - by apply (GatherStep net_ex disk_ex _ _ _ 0 pdf_a Start ∅ Requested).
  - by apply (GatherStep net_ex disk_ex _ _ _ 1 pdf_b Start ∅ Requested).
Defined.

Lemma gather_keeps_existing_witness :
  (run_schedule net_ex disk_ex [pdf_a; pdf_b] (start_of [pdf_a; pdf_b] {["a.pdf" := "old"]})
     [1; 0; 1; 1]%nat).1 !! "a.pdf" = Some "old".
Proof.
  apply (gather_keeps_existing net_ex disk_ex {["a.pdf" := "old"]} [pdf_a; pdf_b]);
    [apply run_schedule_rtc|reflexivity].
Defined.

Lemma download_pdf_failed_read_witness :
  download_pdf net_ex disk_ex ∅ pdf_c !! info_filename pdf_c = Some "" ∧
  download_pdf (λ _, Ok (200, Ok "CCCC")) (λ _, Stored) (download_pdf net_ex disk_ex ∅ pdf_c) pdf_c =
    download_pdf net_ex disk_ex ∅ pdf_c.
Proof.
  by apply (download_pdf_failed_read net_ex disk_ex ∅ pdf_c 200 (OtherError "reset")).
Defined.

Lemma download_pdf_failed_write_witness :
  download_pdf net_ex disk_ex ∅ pdf_e !! info_filename pdf_e =
    Some (String.substring 0 2 "EEEE") ∧
  download_pdf net_ex (λ _, Stored) (download_pdf net_ex disk_ex ∅ pdf_e) pdf_e =
    download_pdf net_ex disk_ex ∅ pdf_e.
Proof. by apply (download_pdf_failed_write net_ex disk_ex ∅ pdf_e "EEEE" 2). Defined.

(** Without the folder the script ends before the list is read. *)
Example download_script_ex :
  download_script (Raise (FileNotFoundError DATA_FOLDER)) net_ex disk_ex
    (Holds []) ∅ (Uncaught (FileNotFoundError DATA_FOLDER)) ∅.
Proof. by constructor. Qed.

(** An entry without [url] among two entries that can be read. *)
Definition list_ex : list pydict :=
  [{["url" := PStr "https://site/a.pdf"; "filename" := PStr "a.pdf"]};
   {["filename" := PStr "x.pdf"]};
   {["url" := PStr "https://site/b.pdf"; "filename" := PStr "b.pdf"]}].

Example entry_task_ex :
  entry_task <$> list_ex = [Ok pdf_a; Raise (KeyError "url"); Ok pdf_b] ∧
  entry_task {["url" := PInt 5; "filename" := PStr "n.pdf"]} = Ok (PdfInfo (PInt 5) "n.pdf") ∧
  entry_task {["url" := PStr "u"; "filename" := PInt 7]} =
    Raise (TypeError "unsupported operand type(s) for /").
Proof. by vm_compute. Qed.

(** The script on that list ends with the [KeyError]; one of the ends
    the relation admits has the first coroutine cancelled after it
    opened its file and before it wrote. *)
Example main_run_raised :
  main_run net_ex disk_ex (Holds list_ex) ∅ (Uncaught (KeyError "url")) {["a.pdf" := ""]}.
Proof.
  assert (({["a.pdf" := ""]} : folder) =
          (run_schedule net_ex disk_ex [pdf_a; pdf_b] (start_of [pdf_a; pdf_b] ∅) [0; 0]%nat).1)
    as -> by by vm_compute.
  apply (MainRaised net_ex disk_ex _ _ list_ex (KeyError "url")
           (run_schedule net_ex disk_ex [pdf_a; pdf_b] (start_of [pdf_a; pdf_b] ∅) [0; 0]%nat));
    [done|done|]. apply (run_schedule_rtc net_ex disk_ex [pdf_a; pdf_b]).
Qed.

Lemma main_run_ends_witness :
  (∀ k content, (∅ : folder) !! k = Some content →
                ({["a.pdf" := ""]} : folder) !! k = Some content) ∧
  (Uncaught (KeyError "url") = Completed ↔
   ∃ pdf_list tasks, Holds list_ex = Holds pdf_list ∧
                     result_mapM entry_task pdf_list = Ok tasks) ∧
  (∀ pdf_list tasks,
     Holds list_ex = Holds pdf_list → result_mapM entry_task pdf_list = Ok tasks →
     NoDup (info_filename <$> tasks) →
     {["a.pdf" := ""]} = main_sequential net_ex disk_ex ∅ tasks).
Proof. apply (main_run_ends net_ex disk_ex (Holds list_ex)). apply main_run_raised. Defined.
