(* ===== verification/Connector.v ===== *)
(** * Connector: the connection limit of [download_pdfs.py]

    [main] gives the session a connector with [limit=CONCURRENT_DOWNLOADS]:
    of the coroutines that [asyncio.gather] runs, at most ten hold a
    connection at a time; a coroutine that reaches [session.get] while
    ten are held waits until one is released.

    The limit restricts the schedules of [gather_step]: a configuration
    carries, beside the folder and the states of the coroutines, the
    set of the coroutines that hold a connection.  A coroutine runs its
    first lines without a connection, acquires one when fewer than
    [limit] are held, receives its response with it, and releases it
    when the body is read or when the [async with] is left.
    [limited_step] is that machine; it refines [gather_step], holds at
    most [limit] connections, cannot block while a coroutine has not
    returned, and ends where every schedule ends.  [main_limited] is
    [main] with the limit of the script; every end of it is an end of
    [main_run].

    A limit of [0] means no limit to the connector; the machine is the
    one of a limit above zero. *)

From stdpp Require Import gmap.
From S2P Require Import Prelude PyData Downloader.

Local Open Scope Z_scope.

(** ** The machine *)

(** The folder, where each coroutine stands, and the coroutines that
    hold a connection. *)
Record conf := Conf {
  c_fs : folder;
  c_sts : list task_state;
  c_conns : gset nat;
}.

(** What [gather_step] sees of a configuration. *)
Definition unlimited (c : conf) : folder * list task_state := (c_fs c, c_sts c).

(** The connections held after coroutine [i] has taken a step to [st]:
    a coroutine that has returned holds none. *)
Definition release (i : nat) (st : task_state) (conns : gset nat) : gset nat :=
  if decide (st = Finished) then conns ∖ {[i]} else conns.

(** The sum of a weight over the positions of a list is monotone in the
    weight. *)
Lemma sum_imap_le {A} (f g : nat → A → nat) (l : list A) :
  (∀ j z, l !! j = Some z → g j z ≤ f j z)%nat →
  (sum_list (imap g l) ≤ sum_list (imap f l))%nat.
Proof.
  revert f g. induction l as [|z l IH]; intros f g Hle; [done|].
  rewrite !imap_cons. cbn [sum_list_with id]. pose proof (Hle 0%nat z eq_refl).
  pose proof (IH (f ∘ S) (g ∘ S) (λ j w Hj, Hle (S j) w Hj)). lia.
Qed.

(** The sum after one element has changed and the weight with it, the
    weight of the others no larger. *)
Lemma sum_imap_insert {A} (f g : nat → A → nat) (l : list A) (i : nat) x y :
  l !! i = Some x →
  (∀ j z, j ≠ i → l !! j = Some z → g j z ≤ f j z)%nat →
  (g i y < f i x)%nat →
  (sum_list (imap g (<[i := y]> l)) < sum_list (imap f l))%nat.
Proof.
  revert f g i. induction l as [|z l IH]; intros f g [|i] Hi Hle Hlt; try done.
  - injection Hi as ->. cbn [insert list_insert]. rewrite !imap_cons. cbn [sum_list_with id].
    apply Nat.add_lt_le_mono; [done|].
    apply sum_imap_le. intros j w Hj. by apply Hle.
  - cbn [insert list_insert]. rewrite !imap_cons. cbn [sum_list_with id].
    apply Nat.add_le_lt_mono; [by apply Hle|].
    apply (IH _ _ i); [done| |done]. intros j w ? ?. apply Hle; [lia|done].
Qed.

Lemma sum_imap_replicate {A} (f : nat → A → nat) (n k : nat) (x : A) :
  (∀ j, f j x = k) → sum_list (imap f (replicate n x)) = (k * n)%nat.
Proof.
  revert f. induction n as [|n IH]; intros f Hf; [cbn; lia|].
  cbn [replicate]. rewrite imap_cons. cbn [sum_list_with id].
  rewrite Hf, (IH (f ∘ S)) by (intros j; apply Hf). lia.
Qed.

Section connector.
Context (net : network) (disk : storage) (limit : nat).
Implicit Types (tasks : list pdf_info) (c : conf) (i : nat).

(** One step under the limit. *)
Inductive limited_step tasks : conf → conf → Prop :=
| LimTest fs sts conns i pdf fs' st' :
    tasks !! i = Some pdf → sts !! i = Some Start →
    task_step net disk fs pdf Start = (fs', st') →
    limited_step tasks (Conf fs sts conns) (Conf fs' (<[i := st']> sts) conns)
| LimAcquire fs sts conns i :
    sts !! i = Some Requested → i ∉ conns → (size conns < limit)%nat →
    limited_step tasks (Conf fs sts conns) (Conf fs sts ({[i]} ∪ conns))
| LimResponse fs sts conns i pdf fs' st' :
    tasks !! i = Some pdf → sts !! i = Some Requested → i ∈ conns →
    task_step net disk fs pdf Requested = (fs', st') →
    limited_step tasks (Conf fs sts conns)
      (Conf fs' (<[i := st']> sts) (release i st' conns))
| LimBody fs sts conns i pdf body fs' st' :
    tasks !! i = Some pdf → sts !! i = Some (Opened body) → i ∈ conns →
    task_step net disk fs pdf (Opened body) = (fs', st') →
    limited_step tasks (Conf fs sts conns)
      (Conf fs' (<[i := st']> sts) (release i st' conns)).

(** The start of [main]: no coroutine has run, no connection is held. *)
Definition conf_init (fs : folder) tasks : conf :=
  Conf fs (replicate (length tasks) Start) ∅.

(** A run of [main] under the limit. *)
Definition limited_run tasks (fs fs' : folder) : Prop :=
  ∃ c, rtc (limited_step tasks) (conf_init fs tasks) c ∧
       c_fs c = fs' ∧ Forall (λ st, st = Finished) (c_sts c).

(** A coroutine in state [st] may hold a connection. *)
Definition may_hold (st : task_state) : Prop :=
  st = Requested ∨ ∃ body, st = Opened body.

(** The invariant: at most [limit] connections are held, each by a
    coroutine between its request and the end of its body, and a
    coroutine that waits for its body holds one. *)
Definition conn_inv c : Prop :=
  (size (c_conns c) ≤ limit)%nat ∧
  (∀ i, i ∈ c_conns c → ∃ st, c_sts c !! i = Some st ∧ may_hold st) ∧
  (∀ i body, c_sts c !! i = Some (Opened body) → i ∈ c_conns c).

(** The steps coroutine [i] has left: a coroutine at its request has
    one more to take while it holds no connection. *)
Definition limited_left (conns : gset nat) (i : nat) (st : task_state) : nat :=
  match st with
  | Start => 4
  | Requested => if decide (i ∈ conns) then 2 else 3
  | Opened _ => 1
  | Finished => 0
  end.

Definition limited_work c : nat := sum_list (imap (limited_left (c_conns c)) (c_sts c)).

(** ** The steps of a coroutine *)

Lemma task_step_Start fs pdf fs' st' :
  task_step net disk fs pdf Start = (fs', st') →
  fs' = fs ∧ (st' = Finished ∨ st' = Requested).
Proof. cbn. case_bool_decide; intros [= <- <-]; auto. Qed.

Lemma task_step_Requested fs pdf fs' st' :
  task_step net disk fs pdf Requested = (fs', st') →
  st' = Finished ∨ ∃ body, st' = Opened body.
Proof. cbn. repeat case_match; intros [= <- <-]; eauto. Qed.

Lemma task_step_Opened fs pdf body fs' st' :
  task_step net disk fs pdf (Opened body) = (fs', st') → st' = Finished.
Proof. cbn. by case_match; intros [= <- <-]. Qed.

(** ** The invariant *)

Lemma conn_inv_init fs tasks : conn_inv (conf_init fs tasks).
Proof.
  split_and!; cbn.
  - rewrite size_empty. lia.
  - set_solver.
  - by intros i body [? _]%lookup_replicate.
Qed.

(** A step of coroutine [i] to [st'], with the connections [conns']
    after it. *)
Lemma conn_inv_insert fs fs' sts conns conns' i st st' :
  conn_inv (Conf fs sts conns) → sts !! i = Some st →
  (size conns' ≤ limit)%nat →
  (∀ j, j ∈ conns' → j ∈ conns ∨ j = i) →
  (∀ j, j ≠ i → j ∈ conns → j ∈ conns') →
  (i ∈ conns' ↔ may_hold st' ∧ (i ∈ conns ∨ st = Requested)) →
  (∀ body, st' = Opened body → i ∈ conns') →
  conn_inv (Conf fs' (<[i := st']> sts) conns').
Proof.
  intros (_ & Hheld & Hopened) Hi Hsize Hsub Hkeep Hmem Hop.
  assert (i < length sts)%nat by by eapply lookup_lt_Some.
  split_and!; cbn [c_conns c_sts] in *; [done|..].
  - intros j Hj. destruct (decide (j = i)) as [->|Hne].
    + exists st'. rewrite list_lookup_insert_eq by done. split; [done|].
      by apply Hmem.
    + rewrite list_lookup_insert_ne by done. apply Hheld.
      by destruct (Hsub j Hj).
  - intros j body. destruct (decide (j = i)) as [->|Hne].
    + rewrite list_lookup_insert_eq by done. intros [= ->]. by eapply Hop.
    + rewrite list_lookup_insert_ne by done. intros Hj. eauto.
Qed.

(** A coroutine that returns gives its connection back. *)
Lemma conn_inv_finish fs fs' sts conns i st :
  conn_inv (Conf fs sts conns) → sts !! i = Some st →
  conn_inv (Conf fs' (<[i := Finished]> sts) (conns ∖ {[i]})).
Proof.
  intros Hinv Hst. pose proof Hinv as (Hsize & _).
  eapply conn_inv_insert; [done|done|..].
  - etrans; [apply subseteq_size, subseteq_difference_l|]; done.
  - intros j [? _]%elem_of_difference. by left.
  - intros j Hne Hj. apply elem_of_difference. split; [done|].
    by intros ->%elem_of_singleton.
  - split; [intros [_ []]%elem_of_difference; by apply elem_of_singleton|].
    by intros [[?|[? ?]] _].
  - done.
Qed.

Lemma limited_step_inv tasks c c' :
  conn_inv c → limited_step tasks c c' → conn_inv c'.
Proof.
  intros Hinv Hstep. pose proof Hinv as (Hsize & Hheld & Hopened).
  destruct Hstep as [fs sts conns i pdf fs' st' Hi Hst Hs
                    |fs sts conns i Hst Hi Hlt
                    |fs sts conns i pdf fs' st' Hi Hst Hc Hs
                    |fs sts conns i pdf body fs' st' Hi Hst Hc Hs];
    cbn [c_conns c_sts] in *.
  - apply task_step_Start in Hs as [-> Hs].
    assert (i ∉ conns) as Hni.
    { intros (st & Hst' & [?|[? ?]])%Hheld; congruence. }
    eapply conn_inv_insert; [done|done|done|auto|auto|..].
    + split; [done|]. intros [_ [?|?]]; done.
    + by destruct Hs as [-> | ->].
  - rewrite <- (list_insert_id sts i Requested Hst).
    eapply conn_inv_insert; [done|done|..].
    + rewrite size_union, size_singleton by by apply disjoint_singleton_l. lia.
    + intros j [->%elem_of_singleton|?]%elem_of_union; auto.
    + intros j _ Hj. apply elem_of_union. by right.
    + split; [intros _; split; [by left|by right]|].
      intros _. apply elem_of_union. left. by apply elem_of_singleton.
    + done.
  - apply task_step_Requested in Hs. unfold release.
    destruct Hs as [->|[body ->]]; rewrite ?decide_True, ?decide_False by done.
    + by eapply conn_inv_finish.
    + eapply conn_inv_insert; [done|done|done|auto|auto|..].
      * split; [intros _; split; [right; eauto|by left]|done].
      * done.
  - apply task_step_Opened in Hs as ->. unfold release. rewrite decide_True by done.
    by eapply conn_inv_finish.
Qed.

Lemma limited_steps_inv tasks c c' :
  conn_inv c → rtc (limited_step tasks) c c' → conn_inv c'.
Proof. intros Hinv Hrtc. induction Hrtc; eauto using limited_step_inv. Qed.

(** ** Refinement: a run under the limit is a run *)

Lemma limited_step_gather tasks c c' :
  limited_step tasks c c' → rtc (gather_step net disk tasks) (unlimited c) (unlimited c').
Proof.
  intros Hstep. destruct Hstep; unfold unlimited; cbn [c_fs c_sts];
    try (apply rtc_once; by econstructor).
  done.
Qed.

Lemma limited_steps_gather tasks c c' :
  rtc (limited_step tasks) c c' →
  rtc (gather_step net disk tasks) (unlimited c) (unlimited c').
Proof.
  induction 1 as [|c1 c2 c3 Hstep _ IH]; [done|].
  etrans; [by apply limited_step_gather|done].
Qed.

(** ** Progress and termination *)

Lemma limited_step_length tasks c c' :
  limited_step tasks c c' → length (c_sts c') = length (c_sts c).
Proof. intros Hstep. destruct Hstep; cbn; by rewrite ?length_insert. Qed.

Lemma limited_steps_length tasks c c' :
  rtc (limited_step tasks) c c' → length (c_sts c') = length (c_sts c).
Proof.
  induction 1 as [|c1 c2 c3 Hstep _ IH]; [done|].
  by rewrite IH, (limited_step_length _ _ _ Hstep).
Qed.

(** Every step uses up work. *)
Lemma limited_step_work tasks c c' :
  conn_inv c → limited_step tasks c c' → (limited_work c' < limited_work c)%nat.
Proof.
  intros (_ & Hheld & _) Hstep. unfold limited_work.
  destruct Hstep as [fs sts conns i pdf fs' st' Hi Hst Hs
                    |fs sts conns i Hst Hi Hlt
                    |fs sts conns i pdf fs' st' Hi Hst Hc Hs
                    |fs sts conns i pdf body fs' st' Hi Hst Hc Hs];
    cbn [c_conns c_sts] in *.
  - apply task_step_Start in Hs as [_ Hs].
    eapply sum_imap_insert; [done|done|].
    destruct Hs as [-> | ->]; cbn; [lia|case_decide; lia].
  - rewrite <- (list_insert_id sts i Requested Hst) at 1.
    eapply sum_imap_insert; [done| |].
    + intros j [] Hne _; cbn; try done.
      destruct (decide (j ∈ conns)) as [Hj|Hj].
      * rewrite decide_True; [done|]. apply elem_of_union. by right.
      * case_decide; lia.
    + cbn. rewrite decide_True, decide_False; [lia|done|].
      apply elem_of_union. left. by apply elem_of_singleton.
  - apply task_step_Requested in Hs. unfold release.
    eapply sum_imap_insert; [done| |].
    + intros j [] Hne _; cbn; try done.
      destruct Hs as [->|[body ->]]; rewrite ?decide_True, ?decide_False by done;
        [|done].
      destruct (decide (j ∈ conns)) as [Hj|Hj].
      * rewrite decide_True; [done|]. apply elem_of_difference. split; [done|].
        by intros ?%elem_of_singleton.
      * case_decide; lia.
    + cbn. rewrite (decide_True _ _ Hc). destruct Hs as [->|[body ->]]; cbn; lia.
  - apply task_step_Opened in Hs as ->. unfold release. rewrite decide_True by done.
    eapply sum_imap_insert; [done| |cbn; lia].
    intros j [] Hne _; cbn; try done.
    destruct (decide (j ∈ conns)) as [Hj|Hj].
    + rewrite decide_True; [done|]. apply elem_of_difference. split; [done|].
      by intros ?%elem_of_singleton.
    + case_decide; lia.
Qed.

Lemma limited_nsteps_work tasks c c' (m : nat) :
  conn_inv c → nsteps (limited_step tasks) m c c' →
  (m + limited_work c' ≤ limited_work c)%nat.
Proof.
  intros Hinv Hn. induction Hn as [|m c1 c2 c3 Hstep _ IH]; [done|].
  pose proof (limited_step_work _ _ _ Hinv Hstep).
  specialize (IH (limited_step_inv _ _ _ Hinv Hstep)). lia.
Qed.

Lemma limited_work_init fs tasks :
  limited_work (conf_init fs tasks) = (4 * length tasks)%nat.
Proof.
  unfold limited_work, conf_init. cbn [c_conns c_sts]. by apply sum_imap_replicate.
Qed.

(** With a limit above zero a coroutine can take a step as long as one
    has not returned: the limit never blocks the run. *)
Lemma limited_progress tasks c :
  (0 < limit)%nat → conn_inv c → length (c_sts c) = length tasks →
  Exists (λ st, st ≠ Finished) (c_sts c) → ∃ c', limited_step tasks c c'.
Proof.
  intros Hlimit (Hsize & Hheld & Hopened) Hlen
    (st & [i Hst]%list_elem_of_lookup & Hne)%Exists_exists.
  destruct c as [fs sts conns]. cbn [c_fs c_sts c_conns] in *.
  assert (∀ j st, sts !! j = Some st → ∃ pdf, tasks !! j = Some pdf) as Htask.
  { intros j s Hj. apply lookup_lt_is_Some_2. rewrite <- Hlen.
    by eapply lookup_lt_Some. }
  assert (∀ j, j ∈ conns → ∃ c', limited_step tasks (Conf fs sts conns) c') as Hgo.
  { intros j Hj. destruct (Hheld j Hj) as (s & Hs & Hhold).
    destruct (Htask j s Hs) as [pdf Hpdf].
    destruct Hhold as [->|[body ->]].
    - destruct (task_step net disk fs pdf Requested) as [fs' st'] eqn:E.
      eexists. by eapply LimResponse.
    - destruct (task_step net disk fs pdf (Opened body)) as [fs' st'] eqn:E.
      eexists. by eapply LimBody. }
  destruct (Htask i st Hst) as [pdf Hpdf]. destruct st as [| |body|]; [| | |done].
  - destruct (task_step net disk fs pdf Start) as [fs' st'] eqn:E.
    eexists. by eapply LimTest.
  - destruct (decide (i ∈ conns)) as [Hi|Hi]; [by apply (Hgo i)|].
    destruct (decide (size conns < limit)%nat) as [Hlt|Hge].
    + eexists. by eapply LimAcquire.
    + destruct (size_pos_elem_of conns) as [j Hj]; [lia|]. by apply (Hgo j).
  - apply (Hgo i). by eapply Hopened.
Qed.

(** From every configuration the invariant holds of, a run under the
    limit reaches the end of all coroutines. *)
Lemma limited_completes tasks c :
  (0 < limit)%nat → conn_inv c → length (c_sts c) = length tasks →
  ∃ c', rtc (limited_step tasks) c c' ∧ Forall (λ st, st = Finished) (c_sts c').
Proof.
  intros Hlimit. remember (limited_work c) as w eqn:Hw. revert c Hw.
  induction (lt_wf w) as [w _ IH]. intros c -> Hinv Hlen.
  destruct (decide (Forall (λ st, st = Finished) (c_sts c))) as [Hall|Hnot].
  { by exists c. }
  apply not_Forall_Exists in Hnot; [|apply _].
  destruct (limited_progress tasks c Hlimit Hinv Hlen Hnot) as [c1 Hstep].
  destruct (IH (limited_work c1) (limited_step_work _ _ _ Hinv Hstep) c1 eq_refl)
    as (c' & Hrtc & Hfin).
  - by eapply limited_step_inv.
  - by rewrite (limited_step_length _ _ _ Hstep).
  - exists c'. split; [by eapply rtc_l|done].
Qed.

End connector.

(** ** An executable scheduler *)

Section scheduler.
Context (net : network) (disk : storage) (limit : nat).
Implicit Types (tasks : list pdf_info) (c : conf) (i : nat).

(** Coroutine [i] takes the step it can take; it stays where it is when
    it has returned or has to wait for a connection. *)
Definition limited_sched tasks c (i : nat) : conf :=
  match tasks !! i, c_sts c !! i with
  | Some pdf, Some st =>
      let moved :=
        let '(fs', st') := task_step net disk (c_fs c) pdf st in
        Conf fs' (<[i := st']> (c_sts c)) (release i st' (c_conns c)) in
      match st with
      | Start =>
          let '(fs', st') := task_step net disk (c_fs c) pdf st in
          Conf fs' (<[i := st']> (c_sts c)) (c_conns c)
      | Requested =>
          if decide (i ∈ c_conns c) then moved
          else if decide (size (c_conns c) < limit)%nat
               then Conf (c_fs c) (c_sts c) ({[i]} ∪ c_conns c)
               else c
      | Opened _ => if decide (i ∈ c_conns c) then moved else c
      | Finished => c
      end
  | _, _ => c
  end.

(** The turns of a schedule, one coroutine per turn. *)
Definition limited_schedule tasks c (schedule : list nat) : conf :=
  foldl (limited_sched tasks) c schedule.

Lemma limited_sched_rtc tasks c i :
  rtc (limited_step net disk limit tasks) c (limited_sched tasks c i).
Proof.
  destruct c as [fs sts conns]. unfold limited_sched. cbn [c_fs c_sts c_conns].
  destruct (tasks !! i) as [pdf|] eqn:Hi; [|done].
  destruct (sts !! i) as [st|] eqn:Hst; [|done].
  destruct st as [| |body|]; [| | |done].
  - destruct (task_step net disk fs pdf Start) as [fs' st'] eqn:Hs.
    apply rtc_once. by eapply LimTest.
  - case_decide.
    + destruct (task_step net disk fs pdf Requested) as [fs' st'] eqn:Hs.
      apply rtc_once. by eapply LimResponse.
    + case_decide; [|done]. apply rtc_once. by eapply LimAcquire.
  - case_decide; [|done].
    destruct (task_step net disk fs pdf (Opened body)) as [fs' st'] eqn:Hs.
    apply rtc_once. by eapply LimBody.
Qed.

Lemma limited_schedule_rtc tasks c (schedule : list nat) :
  rtc (limited_step net disk limit tasks) c (limited_schedule tasks c schedule).
Proof.
  revert c. induction schedule as [|i schedule IH]; intros c; [done|].
  cbn [limited_schedule foldl]. etrans; [apply limited_sched_rtc|apply IH].
Qed.

End scheduler.

(** ** Properties *)

Section connector_properties.
Context (net : network) (disk : storage) (limit : nat).
Implicit Types (tasks : list pdf_info) (c : conf) (fs : folder).

Lemma limited_run_final tasks fs fs' :
  NoDup (info_filename <$> tasks) → limited_run net disk limit tasks fs fs' →
  fs' = main_sequential net disk fs tasks.
Proof.
  intros Hnd (c & Hrtc%limited_steps_gather & <- & Hfin).
  eapply (final_of_unique net disk); [|by apply main_sequential_final].
  apply gather_run_final; [done|]. by exists (c_sts c).
Qed.

Lemma limited_run_exists tasks fs :
  (0 < limit)%nat → ∃ fs', limited_run net disk limit tasks fs fs'.
Proof.
  intros Hlimit.
  destruct (limited_completes net disk limit tasks (conf_init fs tasks) Hlimit)
    as (c & Hrtc & Hfin); [apply conn_inv_init|apply length_replicate|].
  exists (c_fs c), c. done.
Qed.

(** A run under the limit is a run of [asyncio.gather]: the limit
    only takes schedules away. *)
Theorem limited_run_gather tasks fs fs' :
  limited_run net disk limit tasks fs fs' → gather_run net disk tasks fs fs'.
Proof.
  intros (c & Hrtc%limited_steps_gather & <- & Hfin). by exists (c_sts c).
Qed.

(** C35. At every moment of a run at most [limit] connections are held,
    each by a coroutine between its request and the end of its body,
    and every coroutine that reads its body holds one. *)
Theorem limited_conns_bounded tasks fs c :
  rtc (limited_step net disk limit tasks) (conf_init fs tasks) c →
  (size (c_conns c) ≤ limit)%nat ∧
  (∀ i, i ∈ c_conns c → ∃ st, c_sts c !! i = Some st ∧ may_hold st) ∧
  (∀ i body, c_sts c !! i = Some (Opened body) → i ∈ c_conns c).
Proof. intros Hrtc. eapply limited_steps_inv; [apply conn_inv_init|done]. Qed.

(** C36. With a limit above zero the limit never blocks the run: a run
    takes at most four steps per entry, a step is possible as long as a
    coroutine has not returned, and from every moment of a run the end
    of all coroutines can be reached. *)
Theorem limited_terminates tasks fs c (m : nat) :
  (0 < limit)%nat →
  nsteps (limited_step net disk limit tasks) m (conf_init fs tasks) c →
  (m ≤ 4 * length tasks)%nat ∧
  (Exists (λ st, st ≠ Finished) (c_sts c) → ∃ c', limited_step net disk limit tasks c c') ∧
  ∃ c', rtc (limited_step net disk limit tasks) c c' ∧
        Forall (λ st, st = Finished) (c_sts c').
Proof.
  intros Hlimit Hn.
  pose proof (limited_nsteps_work net disk limit tasks _ _ m (conn_inv_init limit fs tasks) Hn)
    as Hw. rewrite limited_work_init in Hw.
  assert (rtc (limited_step net disk limit tasks) (conf_init fs tasks) c) as Hrtc.
  { apply rtc_nsteps. eauto. }
  pose proof (limited_steps_inv net disk limit tasks _ _ (conn_inv_init limit fs tasks) Hrtc)
    as Hinv.
  assert (length (c_sts c) = length tasks) as Hlen.
  { rewrite (limited_steps_length net disk limit tasks _ _ Hrtc). apply length_replicate. }
  split_and!; [lia|by apply limited_progress|by apply limited_completes].
Qed.

(** When no two entries name the same file, the runs under a limit
    above zero end in the folder the sequential run leaves, and there
    is such a run. *)
Theorem limited_run_sequential tasks fs fs' :
  (0 < limit)%nat → NoDup (info_filename <$> tasks) →
  limited_run net disk limit tasks fs fs' ↔ fs' = main_sequential net disk fs tasks.
Proof.
  intros Hlimit Hnd. split; [by apply limited_run_final|intros ->].
  destruct (limited_run_exists tasks fs Hlimit) as [fs' Hrun].
  by rewrite <- (limited_run_final tasks fs fs' Hnd Hrun).
Qed.

End connector_properties.

(** ** [main] under its connector *)

Section main_limited.
Context (net : network) (disk : storage).

(** [main()] as it is written, on a list every entry of which can be
    read: the coroutines run under a connector whose limit is
    [CONCURRENT_DOWNLOADS]. *)
Definition main_limited (pdf_list : list pydict) (fs fs' : folder) : Prop :=
  ∃ tasks, result_mapM entry_task pdf_list = Ok tasks ∧
           limited_run net disk (Z.to_nat CONCURRENT_DOWNLOADS) tasks fs fs'.

(** What holds of every end of [main_run] holds of [main] under its
    connector. *)
Lemma main_limited_run pdf_list fs fs' :
  main_limited pdf_list fs fs' → main_run net disk (Holds pdf_list) fs Completed fs'.
Proof.
  intros (tasks & Htasks & c & Hrtc%limited_steps_gather & <- & Hfin).
  eapply MainCompleted; [done|done|]. by exists (c_sts c).
Qed.

(** With ten connections [main] ends, and without two entries of the
    same file name it ends in the folder of the sequential run. *)
Lemma main_limited_sequential pdf_list tasks fs fs' :
  result_mapM entry_task pdf_list = Ok tasks → NoDup (info_filename <$> tasks) →
  main_limited pdf_list fs fs' ↔ fs' = main_sequential net disk fs tasks.
Proof.
  intros Htasks Hnd. split.
  - intros (tasks' & Htasks' & Hrun). rewrite Htasks in Htasks'. injection Htasks' as <-.
    by eapply limited_run_final.
  - intros ->. exists tasks. split; [done|].
    destruct (limited_run_exists net disk (Z.to_nat CONCURRENT_DOWNLOADS) tasks fs)
      as [fs' Hrun]; [unfold CONCURRENT_DOWNLOADS; lia|].
    by rewrite <- (limited_run_final _ _ _ tasks fs fs' Hnd Hrun).
Qed.

End main_limited.

(** ** Concrete runs and witnesses *)

(** Two coroutines under a limit of one connection: the second waits at
    its request until the first has read its body. *)
Definition turns_ex : list nat := [0; 1; 0; 1; 0; 1; 0; 1; 1; 1]%nat.

Definition conf_ex (schedule : list nat) : conf :=
  limited_schedule net_ex disk_ex 1 [pdf_a; pdf_b] (conf_init ∅ [pdf_a; pdf_b]) schedule.

Example limited_schedule_ex :
  c_sts (conf_ex [0; 1; 0]%nat) = [Requested; Requested] ∧
  c_conns (conf_ex [0; 1; 0]%nat) = {[0%nat]} ∧
  conf_ex [0; 1; 0; 1]%nat = conf_ex [0; 1; 0]%nat ∧
  c_sts (conf_ex [0; 1; 0; 1; 0; 1]%nat) = [Opened (Ok "AAAA"); Requested] ∧
  c_conns (conf_ex [0; 1; 0; 1; 0; 1; 0; 1]%nat) = {[1%nat]} ∧
  c_sts (conf_ex turns_ex) = [Finished; Finished] ∧
  c_conns (conf_ex turns_ex) = ∅ ∧
  c_fs (conf_ex turns_ex) = {["a.pdf" := "AAAA"; "b.pdf" := "BBBB"]}.
Proof. repeat split; vm_compute; reflexivity. Qed.

(** With ten connections no coroutine of the two waits. *)
Example limited_schedule_ten :
  c_conns (limited_schedule net_ex disk_ex (Z.to_nat CONCURRENT_DOWNLOADS) [pdf_a; pdf_b]
             (conf_init ∅ [pdf_a; pdf_b]) [0; 1; 0; 1]%nat) = {[0%nat; 1%nat]}.
Proof. vm_compute. reflexivity. Qed.

Lemma limited_run_ex : limited_run net_ex disk_ex 1 [pdf_a; pdf_b] ∅ (c_fs (conf_ex turns_ex)).
Proof.
  exists (conf_ex turns_ex). split_and!; [apply limited_schedule_rtc|done|].
  vm_compute. by repeat constructor.
Defined.

Lemma limited_run_gather_witness :
  gather_run net_ex disk_ex [pdf_a; pdf_b] ∅ (c_fs (conf_ex turns_ex)).
Proof. apply (limited_run_gather net_ex disk_ex 1), limited_run_ex. Defined.

Lemma limited_conns_bounded_witness :
  (size (c_conns (conf_ex [0; 1; 0; 1; 0]%nat)) ≤ 1)%nat ∧
  (∀ i, i ∈ c_conns (conf_ex [0; 1; 0; 1; 0]%nat) →
     ∃ st, c_sts (conf_ex [0; 1; 0; 1; 0]%nat) !! i = Some st ∧ may_hold st) ∧
  (∀ i body, c_sts (conf_ex [0; 1; 0; 1; 0]%nat) !! i = Some (Opened body) →
     i ∈ c_conns (conf_ex [0; 1; 0; 1; 0]%nat)).
Proof.
  apply (limited_conns_bounded net_ex disk_ex 1 [pdf_a; pdf_b] ∅), limited_schedule_rtc.
Defined.

Lemma limited_terminates_witness :
  (2 ≤ 4 * length [pdf_a; pdf_b])%nat ∧
  (Exists (λ st, st ≠ Finished) (c_sts (conf_ex [0; 1]%nat)) →
   ∃ c', limited_step net_ex disk_ex 1 [pdf_a; pdf_b] (conf_ex [0; 1]%nat) c') ∧
  ∃ c', rtc (limited_step net_ex disk_ex 1 [pdf_a; pdf_b]) (conf_ex [0; 1]%nat) c' ∧
        Forall (λ st, st = Finished) (c_sts c').
Proof.
  apply (limited_terminates net_ex disk_ex 1 [pdf_a; pdf_b] ∅ _ 2); [lia|].
  eapply nsteps_l; [|eapply nsteps_once].
  - by apply (LimTest net_ex disk_ex 1 _ _ _ _ 0 pdf_a ∅ Requested).
  - by apply (LimTest net_ex disk_ex 1 _ _ _ _ 1 pdf_b ∅ Requested).
Defined.

Lemma limited_run_sequential_witness :
  limited_run net_ex disk_ex 1 [pdf_a; pdf_b] ∅ {["a.pdf" := "AAAA"; "b.pdf" := "BBBB"]} ↔
  ({["a.pdf" := "AAAA"; "b.pdf" := "BBBB"]} : folder) =
    main_sequential net_ex disk_ex ∅ [pdf_a; pdf_b].
Proof.
  apply (limited_run_sequential net_ex disk_ex 1 [pdf_a; pdf_b] ∅); [lia|].
  by apply (bool_decide_unpack _).
Defined.
