(* ===== verification/Scraper.v ===== *)
(** * Scraper: [Scrapper_mha.py]

    [scrape_mha_whats_new] visits the pages of the archive one after the
    other.  On each page it reads the rows of the table; a row with a
    link to a PDF gives an entry (file name, title, date, URL).  It stops
    when 648 entries are collected, when a page shows no table or when a
    table has no row, and writes the entries.

    The browser is reduced to what the loop reads: a function from the
    address of a page to the exception raised while the page is opened
    or read, or to the rows shown there, [None] when no table appears
    within the timeout; the loop asks for the addresses [page_url 0],
    [page_url 1], ..., which are pairwise different, so that what it
    sees is a function of the page number ([site_of]).  A row carries
    the number of its cells and the texts and the link the loop asks
    for.  An exception of the
    browser outside the wait for the table is not caught: it ends the
    script before the list is written.  The loop over the pages need
    not stop on a site that never runs out of rows without PDFs, so it
    takes fuel: one unit per page visited.  [scrape_spec] shows that a
    site of [n] pages needs [n + 1] units. *)

From S2P Require Import Prelude PyData.

Local Open Scope Z_scope.

(** ** Data *)

(** What the loop reads of a table row: [len(tds)], the text of the link
    of the second cell and the text of that cell, the [href] of the link
    of the third cell, the text of the [time] element of the fourth cell
    and the text of that cell. *)
Record row := Row {
  row_tds : Z;
  row_title_link : option string;
  row_title_text : string;
  row_href : option string;
  row_time : option string;
  row_date_text : string;
}.

(** The dictionary appended to [all_data]. *)
Record entry := Entry {
  entry_filename : string;
  entry_title : string;
  entry_date : string;
  entry_url : string;
}.

#[export] Instance entry_eq_dec : EqDecision entry.
Proof. solve_decision. Defined.

(** A page: the exception [page.goto] or a query of the page raises, or
    the rows, [None] when [wait_for_selector] raises. *)
Definition page_view := result (option (list row)).

(** The pages of the archive by their number. *)
Definition site := Z → page_view.

(** The browser: what the page at an address shows. *)
Definition browser := string → page_view.

(** [BASE_URL_TEMPLATE], as a function of what fills its place for the
    page number. *)
Definition BASE_URL_TEMPLATE (page_num : string) : string :=
  "https://www.mha.gov.in/en/media/whats-new/whats-new-archive?page=" +:+ page_num.

(** [BASE_URL_TEMPLATE.format(page_num)]. *)
Definition page_url (page_num : Z) : string := BASE_URL_TEMPLATE (pretty page_num).

(** The pages the loop visits in a browser. *)
Definition site_of (pages : browser) : site := λ page_num, pages (page_url page_num).

Definition TARGET_PDF_COUNT : Z := 648.

(** The prefix of a relative link. *)
Definition MHA_ORIGIN : string := "https://www.mha.gov.in".

(** ** Operations *)

(** The title: the text of the link, or else the stripped text of the
    cell. *)
Definition row_title (r : row) : string :=
  match row_title_link r with
  | Some title => title
  | None => str_strip (row_title_text r)
  end.

(** The date: the text of the [time] element, or else the stripped text
    of the cell. *)
Definition row_date (r : row) : string :=
  match row_time r with
  | Some date => date
  | None => str_strip (row_date_text r)
  end.

(** The entry of a row: only a link that ends with [.pdf] gives one; the
    link is stripped and made absolute, the file name is its last
    segment. *)
Definition row_entry (r : row) : option entry :=
  let title := row_title r in
  match row_href r with
  | Some pdf_url =>
      if negb (str_is_empty pdf_url) && str_endswith ".pdf" pdf_url then
        let pdf_url := str_strip pdf_url in
        let pdf_url :=
          if str_startswith "/" pdf_url then MHA_ORIGIN +:+ pdf_url else pdf_url in
        let filename := str_last_segment slash pdf_url in
        let date := row_date r in
        Some (Entry filename title date pdf_url)
      else None
  | None => None
  end.

(** [for row in rows]: a row of fewer than four cells is skipped; the
    loop breaks once the target is reached. *)
Fixpoint rows_loop (target : Z) (rows : list row) (all_data : list entry)
    : list entry :=
  match rows with
  | [] => all_data
  | r :: rest =>
      if row_tds r <? 4 then rows_loop target rest all_data
      else
        let all_data :=
          match row_entry r with
          | Some e => all_data ++ [e]
          | None => all_data
          end in
        if py_len all_data >=? target then all_data
        else rows_loop target rest all_data
  end.

(** [while len(all_data) < TARGET_PDF_COUNT], one unit of fuel per page
    visited; [None] when the fuel runs out. *)
Fixpoint scrape_loop (fuel : nat) (target : Z) (web : site) (page_num : Z)
    (all_data : list entry) : option (result (list entry)) :=
  if negb (py_len all_data <? target) then Some (Ok all_data)
  else
    match fuel with
    | O => None
    | S fuel =>
        match web page_num with
        | Raise e => Some (Raise e)
        | Ok None => Some (Ok all_data)
        | Ok (Some []) => Some (Ok all_data)
        | Ok (Some rows) =>
            scrape_loop fuel target web (page_num + 1)
              (rows_loop target rows all_data)
        end
    end.

(** [scrape_mha_whats_new()] up to the end of its loop: the entries
    collected, or the exception that leaves the loop. *)
Definition scrape_mha_whats_new (fuel : nat) (pages : browser)
    : option (result (list entry)) :=
  scrape_loop fuel TARGET_PDF_COUNT (site_of pages) 0 [].

(** [OUTPUT_FILE]: the name under which the list is written, relative to
    the working directory. *)
Definition OUTPUT_FILE : string := "mha_whats_new.json".

(** An entry as the dictionary [json.dumps] writes. *)
Definition entry_dict (e : entry) : pydict :=
  <["filename" := PStr (entry_filename e)]> (<["title" := PStr (entry_title e)]>
  (<["date" := PStr (entry_date e)]> (<["url" := PStr (entry_url e)]> ∅))).

(** [OUTPUT_FILE.write_text(json.dumps(all_data, indent=2))]: the list
    file after the write, and how the script ends; an exception of the
    write is not caught. *)
Definition save_entries (all_data : list entry) (o : write_outcome)
    (output : file (list pydict)) : exit_status * file (list pydict) :=
  (match o with
   | Written => Completed
   | Refused | Interrupted => Uncaught (OtherError "OSError")
   end,
   write_file o (entry_dict <$> all_data) output).

(** The script: the browser is launched and a page opened, which gives
    the site or raises; then the loop, then the write, then the browser
    is closed.  An exception before the write leaves the list file as it
    was; an exception of the closing comes after the list is written. *)
Definition scraper_script (fuel : nat) (launch : result browser) (o : write_outcome)
    (close : result unit) (output : file (list pydict))
    : option (exit_status * file (list pydict)) :=
  match launch with
  | Raise e => Some (Uncaught e, output)
  | Ok pages =>
      match scrape_mha_whats_new fuel pages with
      | None => None
      | Some (Raise e) => Some (Uncaught e, output)
      | Some (Ok all_data) =>
          let '(status, output) := save_entries all_data o output in
          Some (match status, close with
                | Completed, Raise e => Uncaught e
                | _, _ => status
                end, output)
      end
  end.

(** ** The specification: the entries of a site, in order *)

(** The entries of the rows of a page. *)
Definition page_entries (rows : list row) : list entry :=
  omap row_entry (filter (λ r, 4 ≤ row_tds r) rows).

(** The rows a page shows, none when it shows no table or raises. *)
Definition page_rows (web : site) (k : Z) : list row :=
  match web k with
  | Ok (Some rows) => rows
  | _ => []
  end.

(** The entries of the [n] pages from [page_num]. *)
Definition web_entries (web : site) (page_num : Z) (n : nat) : list entry :=
  mjoin ((λ k, page_entries (page_rows web k)) <$> seqZ page_num (Z.of_nat n)).

(** A well-formed entry: a link that ends with [.pdf] and does not
    start with [/], and as file name what follows its last [/]. *)
Definition entry_wf (e : entry) : Prop :=
  str_endswith ".pdf" (entry_url e) = true ∧
  str_startswith "/" (entry_url e) = false ∧
  str_contains slash (entry_filename e) = false ∧
  ∃ p, entry_url e = p +:+ entry_filename e.

(** ** Lemmas *)

Lemma entry_dict_inj : Inj (=) (=) entry_dict.
Proof.
  intros [f1 t1 d1 u1] [f2 t2 d2 u2] Heq. unfold entry_dict in Heq.
  cbn [entry_filename entry_title entry_date entry_url] in Heq.
  pose proof (f_equal (.!! "filename") Heq) as Hf.
  pose proof (f_equal (.!! "title") Heq) as Ht.
  pose proof (f_equal (.!! "date") Heq) as Hd.
  pose proof (f_equal (.!! "url") Heq) as Hu.
  by simplify_map_eq.
Qed.

(** A file name without a separator does not start with one. *)
Lemma str_contains_startswith c s :
  str_contains c s = false → str_startswith (String c "") s = false.
Proof.
  destruct s as [|x s]; [done|]. cbn [str_contains].
  intros [Hx _]%orb_false_iff. unfold str_startswith. cbn [String.prefix].
  destruct (Ascii.ascii_dec c x) as [->|]; [|done].
  by rewrite Ascii.eqb_refl in Hx.
Qed.

Lemma page_entries_cons r rows :
  page_entries (r :: rows) =
  (if row_tds r <? 4 then []
   else match row_entry r with Some e => [e] | None => [] end) ++ page_entries rows.
Proof.
  unfold page_entries. rewrite filter_cons.
  destruct (Z.ltb_spec (row_tds r) 4); [by rewrite decide_False by lia|].
  rewrite decide_True by lia. cbn [omap list_omap].
  by destruct (row_entry r).
Qed.

(** The loop over the rows appends the entries of the page, as many as
    the target leaves room for. *)
Lemma rows_loop_spec target rows all_data :
  py_len all_data < target →
  rows_loop target rows all_data =
  all_data ++ take (Z.to_nat (target - py_len all_data)) (page_entries rows).
Proof.
  revert all_data. induction rows as [|r rows IH]; intros all_data Hlen.
  { cbn. by rewrite take_nil, app_nil_r. }
  cbn [rows_loop]. rewrite page_entries_cons.
  destruct (row_tds r <? 4); [by apply IH|].
  destruct (row_entry r) as [e|]; cbn [app].
  - assert (py_len (all_data ++ [e]) = py_len all_data + 1) as Hl.
    { unfold py_len. rewrite length_app. simpl. lia. }
    replace (Z.to_nat (target - py_len all_data))
      with (S (Z.to_nat (target - py_len (all_data ++ [e])))) by lia.
    cbn [take].
    transitivity ((all_data ++ [e]) ++
      take (Z.to_nat (target - py_len (all_data ++ [e]))) (page_entries rows));
      [|by rewrite <- app_assoc].
    destruct (Z.geb_spec (py_len (all_data ++ [e])) target) as [Hge|Hlt].
    + replace (Z.to_nat (target - py_len (all_data ++ [e]))) with 0%nat by lia.
      by rewrite take_0, app_nil_r.
    + by apply IH.
  - destruct (Z.geb_spec (py_len all_data) target); [lia|by apply IH].
Qed.

Lemma web_entries_S web page_num (n : nat) :
  web_entries web page_num (S n) =
  page_entries (page_rows web page_num) ++ web_entries web (page_num + 1) n.
Proof.
  unfold web_entries. rewrite (seqZ_cons page_num (Z.of_nat (S n))) by lia.
  cbn [fmap list_fmap mjoin list_join].
  by replace (Z.pred (Z.of_nat (S n))) with (Z.of_nat n) by lia.
Qed.

(** The [n] pages from [page_num] show a table with a row. *)
Definition shows_rows (web : site) (page_num : Z) (n : nat) : Prop :=
  ∀ k, page_num ≤ k < page_num + Z.of_nat n → ∃ r rows, web k = Ok (Some (r :: rows)).

Lemma shows_rows_S web page_num n :
  shows_rows web page_num (S n) →
  (∃ r rows, web page_num = Ok (Some (r :: rows))) ∧ shows_rows web (page_num + 1) n.
Proof.
  intros Hp. split; [apply Hp; lia|]. intros k Hk. apply Hp. lia.
Qed.

(** The loop over the pages, on a site whose [n] pages from [page_num]
    show rows and whose next page shows none. *)
Lemma scrape_loop_spec (fuel : nat) target web page_num (n : nat) all_data :
  shows_rows web page_num n →
  web (page_num + Z.of_nat n) = Ok None ∨ web (page_num + Z.of_nat n) = Ok (Some []) →
  (n < fuel)%nat →
  scrape_loop fuel target web page_num all_data =
  Some (Ok (all_data ++ take (Z.to_nat (target - py_len all_data))
                          (web_entries web page_num n))).
Proof.
  revert fuel page_num all_data. induction n as [|n IH];
    intros fuel page_num all_data Hpages Hend Hfuel;
    (destruct fuel as [|fuel]; [lia|]); cbn [scrape_loop];
    destruct (Z.ltb_spec (py_len all_data) target) as [Hlt|Hge]; cbn [negb];
    try (replace (Z.to_nat (target - py_len all_data)) with 0%nat by lia;
         by rewrite take_0, app_nil_r).
  - rewrite Z.add_0_r in Hend. unfold web_entries. rewrite seqZ_nil by done.
    cbn [fmap list_fmap mjoin list_join]. rewrite take_nil, app_nil_r.
    by destruct Hend as [-> | ->].
  - destruct (Hpages page_num) as (r & rows & Hweb); [lia|]. rewrite Hweb.
    rewrite (IH fuel (page_num + 1)); [|intros k Hk; apply Hpages; lia| |lia].
    2:{ by replace (page_num + 1 + Z.of_nat n) with (page_num + Z.of_nat (S n)) by lia. }
    rewrite web_entries_S. unfold page_rows at 1. rewrite Hweb. do 2 f_equal.
    rewrite rows_loop_spec by done. rewrite <- app_assoc. f_equal.
    rewrite take_app. f_equal. f_equal.
    unfold py_len. rewrite length_app, length_take. lia.
Qed.

(** Before the target is reached, a page that raises ends the loop
    with its exception. *)
Lemma scrape_loop_raise (fuel : nat) target web page_num (n : nat) all_data e :
  shows_rows web page_num n → web (page_num + Z.of_nat n) = Raise e →
  py_len all_data + py_len (web_entries web page_num n) < target →
  (n < fuel)%nat →
  scrape_loop fuel target web page_num all_data = Some (Raise e).
Proof.
  revert fuel page_num all_data. induction n as [|n IH];
    intros fuel page_num all_data Hpages Hend Hlen Hfuel;
    (destruct fuel as [|fuel]; [lia|]); cbn [scrape_loop];
    match type of Hlen with _ + py_len ?l < _ => pose proof (py_len_nonneg l) end;
    (destruct (Z.ltb_spec (py_len all_data) target); [|lia]); cbn [negb].
  - rewrite Z.add_0_r in Hend. by rewrite Hend.
  - apply shows_rows_S in Hpages as [(r & rows & Hweb) Hpages]. rewrite Hweb.
    rewrite web_entries_S in Hlen. unfold page_rows in Hlen at 1.
    rewrite Hweb in Hlen. unfold py_len in Hlen. rewrite length_app in Hlen.
    apply IH; [done| |  |lia].
    + by replace (page_num + 1 + Z.of_nat n) with (page_num + Z.of_nat (S n)) by lia.
    + rewrite rows_loop_spec by done. unfold py_len.
      rewrite length_app, length_take. lia.
Qed.

(** The loop over the rows never passes the target. *)
Lemma rows_loop_bounded target rows all_data :
  py_len all_data < target → py_len (rows_loop target rows all_data) ≤ target.
Proof.
  intros Hlen. rewrite rows_loop_spec by done. unfold py_len in *.
  rewrite length_app, length_take. lia.
Qed.

Lemma scrape_loop_bounded (fuel : nat) target web page_num all_data result :
  py_len all_data ≤ Z.max 0 target →
  scrape_loop fuel target web page_num all_data = Some (Ok result) →
  py_len result ≤ Z.max 0 target.
Proof.
  revert page_num all_data. induction fuel as [|fuel IH];
    intros page_num all_data Hlen; cbn [scrape_loop];
    destruct (Z.ltb_spec (py_len all_data) target) as [Hlt|Hge]; cbn [negb];
    try by intros [= <-].
  destruct (web page_num) as [[[|r rows]|]|]; try by intros [= <-].
  apply IH. pose proof (rows_loop_bounded target (r :: rows) all_data Hlt). lia.
Qed.

(** The loop over the rows appends entries of the rows only. *)
Lemma rows_loop_entries target rows all_data e :
  py_len all_data < target →
  e ∈ rows_loop target rows all_data →
  e ∈ all_data ∨ ∃ r, r ∈ rows ∧ row_entry r = Some e.
Proof.
  intros Hlen. rewrite rows_loop_spec by done.
  intros [?|Hin%elem_of_take]%elem_of_app; [by left|right].
  destruct Hin as (i & Hi & _). apply list_elem_of_lookup_2 in Hi.
  unfold page_entries in Hi. apply list_elem_of_omap in Hi as (r & Hr & He).
  apply list_elem_of_filter in Hr as [_ Hr]. eauto.
Qed.

Lemma scrape_loop_entries (fuel : nat) target web page_num all_data result e :
  scrape_loop fuel target web page_num all_data = Some (Ok result) → e ∈ result →
  e ∈ all_data ∨ ∃ k rows r, web k = Ok (Some rows) ∧ r ∈ rows ∧ row_entry r = Some e.
Proof.
  revert page_num all_data. induction fuel as [|fuel IH];
    intros page_num all_data; cbn [scrape_loop];
    destruct (Z.ltb_spec (py_len all_data) target) as [Hlt|Hge]; cbn [negb];
    try done; try (intros [= <-]; by left).
  destruct (web page_num) as [[[|r rows]|]|] eqn:Hweb;
    try done; try (intros [= <-]; by left).
  intros Hs He. destruct (IH _ _ Hs He) as [Hin|?]; [|by right].
  apply rows_loop_entries in Hin as [?|(r' & Hr' & Hent)]; [by left| |done].
  right. by exists page_num, (r :: rows), r'.
Qed.

(** A row gives well-formed entries only. *)
Lemma row_entry_wf r e : row_entry r = Some e → entry_wf e.
Proof.
  unfold row_entry. destruct (row_href r) as [pdf_url|]; [|done].
  destruct (negb _ && _) eqn:Hc; [|done]. apply andb_true_iff in Hc as [_ Hpdf].
  intros [= <-]. unfold entry_wf. cbn [entry_url entry_filename].
  assert (str_endswith ".pdf" (str_strip pdf_url) = true) as Hs.
  { by apply (str_endswith_strip _ _ (Ascii.ascii_of_nat 102)). }
  destruct (str_last_segment_spec slash
    (if str_startswith "/" (str_strip pdf_url)
     then MHA_ORIGIN +:+ str_strip pdf_url else str_strip pdf_url))
    as (Hslash & p & Hp & _).
  split_and!; [| |done|by exists p].
  - destruct (str_startswith _ _); [by apply str_endswith_app|done].
  - by destruct (str_startswith "/" (str_strip pdf_url)) eqn:E.
Qed.

(** ** Properties *)

(** C28. On a site whose first [n] pages show rows and whose next page
    shows none, [n + 1] units of fuel are enough, and the result is the
    first 648 entries of the site, in the order of the pages and of the
    rows. *)
Theorem scrape_spec (fuel n : nat) (pages : browser) :
  (∀ k, 0 ≤ k < Z.of_nat n → ∃ r rows, site_of pages k = Ok (Some (r :: rows))) →
  site_of pages (Z.of_nat n) = Ok None ∨ site_of pages (Z.of_nat n) = Ok (Some []) →
  (n < fuel)%nat →
  scrape_mha_whats_new fuel pages =
    Some (Ok (take 648 (web_entries (site_of pages) 0 n))).
Proof.
  intros Hpages Hend Hfuel. unfold scrape_mha_whats_new.
  by rewrite (scrape_loop_spec fuel _ (site_of pages) 0 n []).
Qed.

(** The script completes exactly when the browser starts, the loop ends
    without an exception, the list is written and the browser closes;
    the list file then holds the entries collected. *)
Lemma scraper_script_Completed (fuel : nat) launch o close output output' :
  scraper_script fuel launch o close output = Some (Completed, output') ↔
  ∃ pages all_data, launch = Ok pages ∧
    scrape_mha_whats_new fuel pages = Some (Ok all_data) ∧
    o = Written ∧ close = Ok () ∧ output' = Holds (entry_dict <$> all_data).
Proof.
  unfold scraper_script, save_entries. split.
  - destruct launch as [pages|]; [|done].
    destruct (scrape_mha_whats_new fuel pages) as [[found|err]|] eqn:E; [|done..].
    destruct o, close as [[]|]; try done. intros [= <-]. by eexists _, _.
  - by intros (pages & all_data & -> & -> & -> & -> & ->).
Qed.

(** C40. When a page cannot be opened or read before 648 entries are
    collected, the exception ends the script and the list file is left
    as it was: the entries of the pages before are not written. *)
Theorem scrape_navigation_failure (fuel n : nat) (pages : browser) e o close output :
  shows_rows (site_of pages) 0 n → site_of pages (Z.of_nat n) = Raise e →
  py_len (web_entries (site_of pages) 0 n) < 648 →
  (n < fuel)%nat →
  scraper_script fuel (Ok pages) o close output = Some (Uncaught e, output).
Proof.
  intros Hpages Hend Hlen Hfuel. unfold scraper_script, scrape_mha_whats_new.
  by rewrite (scrape_loop_raise fuel _ (site_of pages) 0 n [] e).
Qed.

(** Every entry collected is well formed, whatever the site. *)
Lemma scrape_wf (fuel : nat) (pages : browser) result :
  scrape_mha_whats_new fuel pages = Some (Ok result) → Forall entry_wf result.
Proof.
  intros Hs. apply Forall_forall. intros e He.
  destruct (scrape_loop_entries _ _ _ _ _ _ e Hs He)
    as [[]%elem_of_nil|(k & rows & r & _ & _ & Hr)].
  by eapply row_entry_wf.
Qed.

(** Whatever the site, the result holds at most 648 entries, each
    with a link that ends with [.pdf] and does not start with a slash,
    and with the last segment of the link as file name. *)
Theorem scrape_entries (fuel : nat) (pages : browser) result :
  scrape_mha_whats_new fuel pages = Some (Ok result) →
  py_len result ≤ 648 ∧ Forall entry_wf result.
Proof.
  intros Hs. split; [|by eapply scrape_wf].
  by apply (scrape_loop_bounded fuel TARGET_PDF_COUNT (site_of pages) 0 [] result).
Qed.

(** Two pages have two addresses: what a browser shows in the loop is a
    function of the page number. *)
Lemma page_url_inj : Inj (=) (=) page_url.
Proof.
  intros j k Heq. unfold page_url, BASE_URL_TEMPLATE in Heq.
  by apply (inj (String.append _)), (inj pretty) in Heq.
Qed.

(** ** Concrete runs and witnesses *)

Definition pdf_row (title href date : string) : row :=
  Row 4 (Some title) "" (Some href) (Some date) "".

(** A site of two pages: a relative link, a link that is no PDF, a row
    of three cells; then an absolute link with leading spaces and a
    link with a trailing space. *)
Definition web_ex : site := λ k,
  if k =? 0 then
    Ok (Some [pdf_row "Order 12" "/sites/default/files/order12.pdf" "01/02/2023";
          pdf_row "Notice" "/notice.html" "02/02/2023";
          Row 3 None "short" (Some "/x.pdf") None ""])
  else if k =? 1 then
    Ok (Some [pdf_row "Circular" "  https://cdn.example/docs/circular.pdf" "03/02/2023";
              pdf_row "Spaced" "/spaced.pdf " "04/02/2023"])
  else Ok None.

(** A browser that shows the pages of a site below page [n] at their
    addresses, and fails on every other address. *)
Definition serve_pages (web : site) (n : nat) : browser := λ url,
  match find (λ k, String.eqb url (page_url k)) (seqZ 0 (Z.of_nat n)) with
  | Some k => web k
  | None => Raise (OtherError "net::ERR_NAME_NOT_RESOLVED")
  end.

Definition pages_ex : browser := serve_pages web_ex 3.

Example page_url_ex :
  page_url 12 = "https://www.mha.gov.in/en/media/whats-new/whats-new-archive?page=12" ∧
  site_of pages_ex <$> [0; 1; 2] = web_ex <$> [0; 1; 2].
Proof. split; reflexivity. Qed.

Example scrape_ex :
  scrape_mha_whats_new 3 pages_ex =
  Some (Ok [Entry "order12.pdf" "Order 12" "01/02/2023"
              "https://www.mha.gov.in/sites/default/files/order12.pdf";
            Entry "circular.pdf" "Circular" "03/02/2023"
              "https://cdn.example/docs/circular.pdf"]).
Proof. reflexivity. Qed.

(** Without fuel for the last page the loop has not stopped. *)
Example scrape_out_of_fuel : scrape_mha_whats_new 2 pages_ex = None.
Proof. reflexivity. Qed.

(** Two links with the same last segment give two entries with the same
    file name. *)
Example row_entry_same_filename :
  entry_filename <$> row_entry (pdf_row "A" "/2022/report.pdf" "") =
  entry_filename <$> row_entry (pdf_row "B" "/2023/report.pdf" "").
Proof. reflexivity. Qed.

Lemma scrape_spec_witness :
  scrape_mha_whats_new 3 pages_ex =
  Some (Ok (take 648 (web_entries (site_of pages_ex) 0 2))).
Proof.
  apply (scrape_spec 3 2 pages_ex); [|by left|lia].
  intros k Hk. assert (k = 0 ∨ k = 1) as [-> | ->] by lia; by eexists _, _.
Defined.

Lemma scrape_entries_witness :
  py_len (take 648 (web_entries (site_of pages_ex) 0 2)) ≤ 648 ∧
  Forall entry_wf (take 648 (web_entries (site_of pages_ex) 0 2)).
Proof. by apply (scrape_entries 3 pages_ex). Defined.

(** The site of [web_ex] whose third page cannot be opened. *)
Definition web_down : site := λ k,
  if k =? 2 then Raise (OtherError "TimeoutError") else web_ex k.

Definition pages_down : browser := serve_pages web_down 3.

Lemma scrape_navigation_failure_witness :
  scraper_script 3 (Ok pages_down) Written (Ok ()) (Holds []) =
  Some (Uncaught (OtherError "TimeoutError"), Holds []).
Proof.
  apply (scrape_navigation_failure 3 2 pages_down).
  - intros k Hk. assert (k = 0 ∨ k = 1) as [-> | ->] by lia; by eexists _, _.
  - reflexivity.
  - by vm_compute.
  - lia.
Defined.

(** The same site with its third page empty: the list is written, also
    when closing the browser raises afterwards; without a browser
    nothing is written. *)
Example scraper_script_ex :
  scraper_script 3 (Ok pages_ex) Written (Ok ()) Missing =
  Some (Completed, Holds (entry_dict <$> take 648 (web_entries web_ex 0 2))) ∧
  scraper_script 3 (Ok pages_ex) Written (Raise (OtherError "TargetClosedError")) Missing =
  Some (Uncaught (OtherError "TargetClosedError"),
        Holds (entry_dict <$> take 648 (web_entries web_ex 0 2))) ∧
  scraper_script 3 (Raise (OtherError "Executable doesn't exist")) Written (Ok ()) Missing =
  Some (Uncaught (OtherError "Executable doesn't exist"), Missing).
Proof. repeat split; reflexivity. Qed.
