(* ===== verification/Pipeline.v ===== *)
(** * Pipeline: from the archive to the chunk file

    The three scripts hand their results to one another through files:
    the scraper writes the list of entries, the downloader reads the
    list and fills the data folder, ingestion reads a metadata file and
    the data folder and writes the index and the chunk file.  This file
    composes their models: the list the downloader reads and the
    metadata ingestion reads are the list the scraper wrote, and the
    PDFs ingestion finds are the files of the downloader's folder.

    What the PDF library and the recognition make of the bytes of a file
    is a parameter ([read_pdf]); a file without bytes is taken to be no
    PDF.  Under these assumptions every chunk of the chunk file comes
    from an entry of the scraper whose body was fetched with status 200
    and read to its end, and of which the bytes the disk kept are a PDF
    ([pipeline_sources]), and so does every chunk an answer of the
    server cites ([pipeline_answers]); an entry whose body could not be
    read stays in the folder as an empty file, gives no chunk, and is
    not fetched again ([pipeline_lost_document]). *)

From Stdlib Require Import QArith.
From S2P Require Import Prelude PyData Score PySort Chunker VectorIndex Ingest.
From S2P Require Import Retriever AnswerClient Json Api Downloader Scraper.

Local Open Scope Z_scope.
Local Open Scope result_scope.

(** ** The hand-over between the scripts *)

(** What [download_pdf] reads of an entry the scraper wrote. *)
Definition task_of (e : entry) : pdf_info :=
  PdfInfo (PStr (entry_url e)) (entry_filename e).

(** The rest of [s] after the prefix [p], when [s] starts with [p]. *)
Fixpoint str_strip_prefix (p s : string) : option string :=
  match p, s with
  | EmptyString, _ => Some s
  | String a p', String b s' => if Ascii.eqb a b then str_strip_prefix p' s' else None
  | String _ _, EmptyString => None
  end.

(** The name in the data folder of the file at [path]. *)
Definition data_name (path : string) : option string :=
  str_strip_prefix (DATA_DIR +:+ "/") path.

Section pipeline.
Context {token : Type} (tk : tokenizer token).
Context `{ScoreOps Sc}.
Context (net : network) (disk : storage).

(** What [pdfplumber] and the recognition make of the bytes of a file:
    the exception of opening it, or its pages. *)
Context (read_pdf : string → result (list (result string))).

(** [os.path.exists] on the downloader's folder. *)
Definition folder_exists (fs : folder) (path : string) : bool :=
  match data_name path with
  | Some name => bool_decide (is_Some (fs !! name))
  | None => false
  end.

(** [pdfplumber.open] on the downloader's folder. *)
Definition folder_open (fs : folder) : pdf_reader := λ path,
  match data_name path with
  | Some name =>
      match fs !! name with
      | Some content => read_pdf content
      | None => Raise (FileNotFoundError path)
      end
  | None => Raise (FileNotFoundError path)
  end.

(** The world of ingestion after the two other scripts: the metadata are
    the list file, the PDFs the files of the folder; the pool, the model
    and the writes are those of [env]. *)
Definition pipeline_env (list_file : file (list pydict)) (fs : folder)
    (env : ingest_env Sc) : ingest_env Sc :=
  IngestEnv (env_makedirs env) list_file (folder_exists fs) (folder_open fs)
    (env_pool env) (env_model env) (env_write_index env) (env_write_chunks env).

(** ** Lemmas on the hand-over *)

(** The scraper and the downloader name the list file differently: run
    from one working directory, the second does not read what the first
    wrote.  The pipeline below is the one in which the file has been
    handed over. *)
Lemma list_file_names_differ : OUTPUT_FILE ≠ JSON_FILE.
Proof. done. Qed.

(** Ingestion reads its metadata under a third name, which neither of
    the other scripts writes. *)
Lemma metadata_name_differs : METADATA_PATH ≠ OUTPUT_FILE ∧ METADATA_PATH ≠ JSON_FILE.
Proof. done. Qed.

Lemma str_strip_prefix_app p s : str_strip_prefix p (p +:+ s) = Some s.
Proof.
  induction p as [|a p IH]; [by destruct s|].
  rewrite str_app_cons. cbn [str_strip_prefix]. by rewrite Ascii.eqb_refl.
Qed.

Lemma no_slash_relative name :
  str_contains slash name = false → str_startswith "/" name = false.
Proof. apply (str_contains_startswith slash). Qed.

(** The path ingestion builds for a file name without a separator names
    that file of the folder. *)
Lemma data_name_path name path :
  str_contains slash name = false → pdf_path_of (PStr name) = Ok path →
  data_name path = Some name.
Proof.
  intros Hname. cbn [pdf_path_of].
  rewrite (no_slash_relative name Hname). intros [= <-].
  unfold data_name. rewrite <- str_app_assoc. apply str_strip_prefix_app.
Qed.

Lemma entry_task_dict (e : entry) : entry_task (entry_dict e) = Ok (task_of e).
Proof. done. Qed.

Lemma entry_tasks_dicts (entries : list entry) :
  result_mapM entry_task (entry_dict <$> entries) = Ok (task_of <$> entries).
Proof.
  apply result_mapM_Ok. apply Forall2_fmap. apply Forall_Forall2_diag.
  apply Forall_true. intros e. apply entry_task_dict.
Qed.

(** What the folder holds for an entry after a run from the empty
    folder, when no two entries name the same file. *)
Lemma download_entry (entries : list entry) fs (e : entry) :
  NoDup (entry_filename <$> entries) →
  gather_run net disk (task_of <$> entries) ∅ fs → e ∈ entries →
  fs !! entry_filename e = outcome net disk None (task_of e).
Proof.
  intros Hnd Hrun He.
  destruct (gather_run_final net disk ∅ (task_of <$> entries) fs) as [Hfinal _].
  { by rewrite <- list_fmap_compose. }
  { done. }
  pose proof (Hfinal (task_of e) (list_elem_of_fmap_2 task_of _ _ He)) as Hf.
  rewrite lookup_empty in Hf. exact Hf.
Qed.

(** A file that is a PDF holds what the disk kept of a body that was
    fetched with status 200 and read to its end. *)
Lemma outcome_readable (pdf : pdf_info) content pages :
  (∃ e, read_pdf "" = Raise e) →
  outcome net disk None pdf = Some content → read_pdf content = Ok pages →
  ∃ body, net (info_url pdf) = Ok (200, Ok body) ∧
          content = stored (disk (info_filename pdf)) body.
Proof.
  intros [e He]. unfold outcome.
  destruct (net (info_url pdf)) as [[status [body|e']]|]; [| |done];
    destruct (Z.eqb_spec status 200) as [->|]; try done;
    destruct (disk (info_filename pdf)); try done; intros [= <-];
    solve [by eexists | congruence].
Qed.

(** ** The composition *)

(** What a chunk says of its origin: it carries the file name, the title
    and the date of an entry whose body was fetched and read, and of
    which the disk kept a PDF. *)
Definition from_entry (entries : list entry) (c : pydict) : Prop :=
  ∃ e content pages,
    e ∈ entries ∧
    c !! "source" = Some (PStr (entry_filename e)) ∧
    c !! "title" = Some (PStr (entry_title e)) ∧
    c !! "date" = Some (PStr (entry_date e)) ∧
    net (PStr (entry_url e)) = Ok (200, Ok content) ∧
    read_pdf (stored (disk (entry_filename e)) content) = Ok pages.

Lemma from_entry_uid entries c (uid : Z) :
  from_entry entries c → from_entry entries (<["uid" := PInt uid]> c).
Proof.
  intros (e & content & pages & He & Hs & Ht & Hd & Hn & Hr).
  exists e, content, pages. by simplify_map_eq.
Qed.

(** The records of the worker of a task of the pipeline come from an
    entry. *)
Lemma pipeline_worker (entries : list entry) fs (t : string * pydict) :
  Forall entry_wf entries → NoDup (entry_filename <$> entries) →
  gather_run net disk (task_of <$> entries) ∅ fs →
  (∃ e, read_pdf "" = Raise e) →
  t.2 ∈ entry_dict <$> entries →
  (∃ name, t.2 !! "filename" = Some (PStr name) ∧ pdf_path_of (PStr name) = Ok t.1) →
  Forall (from_entry entries) (process_pdf_for_worker tk (folder_open fs) t).
Proof.
  intros Hwf Hnd Hrun Hempty (e & Ht & He)%list_elem_of_fmap (name & Hname & Hpath).
  destruct t as [path doc_meta]. cbn [fst snd] in *. subst doc_meta.
  assert (name = entry_filename e) as -> by (unfold entry_dict in Hname; by simplify_map_eq).
  destruct (proj1 (Forall_forall _ _) Hwf e He) as (_ & _ & Hslash & _).
  pose proof (data_name_path _ _ Hslash Hpath) as Hdn.
  apply Forall_forall. intros c Hc.
  destruct (process_pdf_opened tk _ _ _ _ Hc) as [pages Hopen].
  unfold folder_open in Hopen. rewrite Hdn in Hopen.
  destruct (fs !! entry_filename e) as [content|] eqn:Hfs; [|done].
  rewrite (download_entry entries fs e Hnd Hrun He) in Hfs.
  destruct (outcome_readable (task_of e) content pages Hempty Hfs Hopen)
    as (body & Hnet & ->).
  destruct (proj1 (Forall_forall _ _)
    (process_pdf_fields tk (folder_open fs) path (entry_dict e)) c Hc) as (Hs & Ht & Hd).
  exists e, body, pages. unfold entry_dict in Hs, Ht, Hd.
  split_and!; try done; by simplify_map_eq.
Qed.

(** The chunks of a completed ingestion over the list of the scraper and
    the folder of the downloader. *)
Lemma pipeline_chunks (fuel : nat) (web : browser) entries fs env fsout fsout' :
  scrape_mha_whats_new fuel web = Some (Ok entries) →
  NoDup (entry_filename <$> entries) →
  main_run net disk (Holds (entry_dict <$> entries)) ∅ Completed fs →
  (∃ e, read_pdf "" = Raise e) →
  (∀ deliver tasks, env_pool env = Ok deliver → deliver tasks ⊆ tasks) →
  main tk (pipeline_env (Holds (entry_dict <$> entries)) fs env) fsout
    = (Completed, fsout') →
  ∃ chunks, chunks_json fsout' = Holds chunks ∧ chunks ≠ [] ∧
            Forall (from_entry entries) chunks.
Proof.
  intros Hscrape Hnd Hdown Hempty Hpool Hmain.
  pose proof (scrape_wf _ _ _ Hscrape) as Hwf.
  assert (gather_run net disk (task_of <$> entries) ∅ fs) as Hrun.
  { inversion Hdown as [| |pdf_list tasks fs' [= <-] Htasks Hrun|]; subst.
    rewrite entry_tasks_dicts in Htasks. by injection Htasks as <-. }
  destruct (main_Completed tk _ fsout fsout' Hmain)
    as (metadata & tasks & deliver & encode & texts & embs & index &
        _ & [= <-] & Htasks & _ & Hdeliver & _ & Hne & _ & _ & _ & ->).
  eexists. split; [done|]. split; [done|].
  apply (run_chunks_Forall tk (from_entry entries)); [apply from_entry_uid|].
  apply Forall_forall. intros t Ht%(Hpool deliver tasks Hdeliver).
  destruct (proj1 (Forall_forall _ _) (tasks_loop_tasks _ _ _ Htasks) t Ht)
    as (Hmeta & _ & Hname).
  by apply (pipeline_worker entries fs t).
Qed.

(** Every chunk of a completed ingestion over the list of the
    scraper and the folder of the downloader comes from an entry of the
    scraper whose body the downloader fetched with status 200 and read
    to its end; provided no two entries name the same file, a file
    without bytes is no PDF, and the pool delivers results of the tasks
    it was given. *)
Theorem pipeline_sources (fuel : nat) (web : browser) entries fs env fsout fsout' :
  scrape_mha_whats_new fuel web = Some (Ok entries) →
  NoDup (entry_filename <$> entries) →
  main_run net disk (Holds (entry_dict <$> entries)) ∅ Completed fs →
  (∃ e, read_pdf "" = Raise e) →
  (∀ deliver tasks, env_pool env = Ok deliver → deliver tasks ⊆ tasks) →
  main tk (pipeline_env (Holds (entry_dict <$> entries)) fs env) fsout
    = (Completed, fsout') →
  ∃ chunks, chunks_json fsout' = Holds chunks ∧ chunks ≠ [] ∧
            Forall (from_entry entries) chunks.
Proof. apply pipeline_chunks. Qed.

(** A hit of a store whose chunks come from entries cites an entry. *)
Lemma hit_from_entry (st : store Sc (@flat_index Sc)) entries query k keyword_boost
    hits (h : hit Sc) :
  Forall (from_entry entries) (CHUNKS st) →
  retrieve st query k keyword_boost = Ok hits → h ∈ hits →
  ∃ e content,
    e ∈ entries ∧ hit_source h = PStr (entry_filename e) ∧
    net (PStr (entry_url e)) = Ok (200, Ok content).
Proof.
  intros Hfrom Hr Hh.
  destruct (retrieve_hit_result _ _ _ _ _ h Hr Hh)
    as (p & r & _ & _ & (chunk & Hidx & (text & _ & ->)%score_chunk_Ok) & ->).
  destruct (proj1 (Forall_forall _ _) Hfrom chunk (py_index_elem _ _ _ Hidx))
    as (e & content & pages & He & Hs & _ & _ & Hn & _).
  exists e, content. split_and!; [done| |done].
  cbn [public_hit hit_source sc_source]. unfold dict_get. by rewrite Hs.
Qed.

Section answers.
Context `{FloatConv Sc}.
Context (generate : string → list string → result string).
Context (encode_other : jval Sc → result (list Sc)).

(** C12. Every chunk an answer cites comes from an entry of the scraper
    whose body was fetched and read: after the three scripts and the
    start-up of the server on the files ingestion wrote, the source of
    every hit of every answered question is the file name of such an
    entry. *)
Theorem pipeline_answers (fuel : nat) (web : browser) entries fs env fsout fsout'
    keys encode srv body resp (h : hit Sc) :
  scrape_mha_whats_new fuel web = Some (Ok entries) →
  NoDup (entry_filename <$> entries) →
  main_run net disk (Holds (entry_dict <$> entries)) ∅ Completed fs →
  (∃ e, read_pdf "" = Raise e) →
  (∀ deliver tasks, env_pool env = Ok deliver → deliver tasks ⊆ tasks) →
  main tk (pipeline_env (Holds (entry_dict <$> entries)) fs env) fsout
    = (Completed, fsout') →
  startup keys fsout' (Ok encode) = Ok srv →
  chat_endpoint generate encode_other srv body = Ok resp →
  h ∈ resp_chunks resp →
  ∃ e content,
    e ∈ entries ∧ hit_source h = PStr (entry_filename e) ∧
    net (PStr (entry_url e)) = Ok (200, Ok content).
Proof.
  intros Hscrape Hnd Hdown Hempty Hpool Hmain Hstart Hchat Hh.
  destruct (pipeline_chunks fuel web entries fs env fsout fsout'
    Hscrape Hnd Hdown Hempty Hpool Hmain) as (chunks & Hfile & _ & Hfrom).
  destruct (startup_needs_files keys fsout' (Ok encode) srv Hstart) as (_ & Hchunks & _).
  rewrite Hfile in Hchunks. injection Hchunks as ->.
  destruct (chat_endpoint_Ok generate encode_other srv body resp Hchat)
    as (data & query & k & kb & _ & _ & Ha).
  destruct (chat_answer_Ok generate srv query k kb resp Ha) as (hits & Hr & ->).
  cbn [resp_chunks] in Hh. by eapply hit_from_entry.
Qed.

End answers.

(** C30. An entry whose body could not be read after the file was opened
    is lost without a trace: the folder holds an empty file under its
    name, ingestion takes the file for a document and gets no chunk from
    it, and every later run of the downloader leaves the file as it is,
    whatever the network answers and the disk does then. *)
Theorem pipeline_lost_document (entries : list entry) fs (e : entry) err doc_meta :
  Forall entry_wf entries → NoDup (entry_filename <$> entries) →
  gather_run net disk (task_of <$> entries) ∅ fs → e ∈ entries →
  net (PStr (entry_url e)) = Ok (200, Raise err) →
  disk (entry_filename e) ≠ OpenFails →
  (∃ e, read_pdf "" = Raise e) →
  fs !! entry_filename e = Some "" ∧
  folder_exists fs (DATA_DIR +:+ "/" +:+ entry_filename e) = true ∧
  process_pdf_for_worker tk (folder_open fs)
    (DATA_DIR +:+ "/" +:+ entry_filename e, doc_meta) = [] ∧
  ∀ (net' : network) (disk' : storage) fs',
    gather_run net' disk' (task_of <$> entries) fs fs' →
    fs' !! entry_filename e = Some "".
Proof.
  intros Hwf Hnd Hrun He Hnet Hdisk [e' Hempty].
  destruct (proj1 (Forall_forall _ _) Hwf e He) as (_ & _ & Hslash & _).
  assert (fs !! entry_filename e = Some "") as Hfs.
  { rewrite (download_entry entries fs e Hnd Hrun He). unfold outcome.
    cbn [task_of info_url info_filename]. rewrite Hnet. cbn.
    by destruct (disk _). }
  assert (data_name (DATA_DIR +:+ "/" +:+ entry_filename e) = Some (entry_filename e))
    as Hdn.
  { apply data_name_path; [done|]. cbn [pdf_path_of].
    by rewrite (no_slash_relative _ Hslash). }
  split_and!; [done| | |].
  - unfold folder_exists. rewrite Hdn, Hfs. by apply bool_decide_eq_true_2.
  - unfold process_pdf_for_worker, folder_open. by rewrite Hdn, Hfs, Hempty.
  - intros net' disk' fs' (sts & Hrtc & _).
    apply (gather_steps_keep net' disk' fs _ (fs', sts) _ _ Hrtc Hfs).
Qed.

End pipeline.

(** ** A concrete pipeline *)

(** The two entries of the site of [pages_ex]. *)
Definition entries_ex : list entry :=
  Eval vm_compute in
    match scrape_mha_whats_new 3 pages_ex with
    | Some (Ok entries) => entries
    | _ => []
    end.

(** The first document is served; reading the body of the second fails. *)
Definition net_pipe : network := λ url,
  match url with
  | PStr url =>
      if String.eqb url "https://www.mha.gov.in/sites/default/files/order12.pdf"
      then Ok (200, Ok "Order twelve")
      else Ok (200, Raise (OtherError "reset"))
  | _ => Raise (TypeError "Constructor parameter should be str")
  end.

(** A disk that stores every file. *)
Definition disk_pipe : storage := λ _, Stored.

(** A reader that takes the bytes of a file for the text of its one
    page, and a file without bytes for no PDF. *)
Definition read_ex : string → result (list (result string)) := λ content,
  if str_is_empty content then Raise (OtherError "No /Root object") else Ok [Ok content].

Definition folder_ex : folder :=
  Eval vm_compute in main_sequential net_pipe disk_pipe ∅ (task_of <$> entries_ex).

Definition pipe_env : ingest_env Q :=
  pipeline_env read_ex (Holds (entry_dict <$> entries_ex)) folder_ex env_ex.

(** The folder holds the first document and an empty file for the
    second; ingestion completes with the chunks of the first. *)
Example pipeline_ex :
  folder_ex = {["order12.pdf" := "Order twelve"; "circular.pdf" := ""]} ∧
  (main tk_chars pipe_env fs_empty).1 = Completed ∧
  (λ c, dict_get c "source") <$>
    match chunks_json (main tk_chars pipe_env fs_empty).2 with
    | Holds chunks => chunks
    | _ => []
    end = [PStr "order12.pdf"].
Proof. repeat split; vm_compute; reflexivity. Qed.

Lemma entries_ex_nodup : NoDup (entry_filename <$> entries_ex).
Proof. by apply (bool_decide_unpack _). Defined.

Lemma pipeline_sources_witness :
  ∃ chunks, chunks_json (main tk_chars pipe_env fs_empty).2 = Holds chunks ∧ chunks ≠ [] ∧
            Forall (from_entry net_pipe disk_pipe read_ex entries_ex) chunks.
Proof.
  apply (pipeline_sources tk_chars net_pipe disk_pipe read_ex 3 pages_ex entries_ex folder_ex
           env_ex fs_empty).
  - reflexivity.
  - apply entries_ex_nodup.
  - eapply MainCompleted; [done|apply entry_tasks_dicts|apply sequential_run].
  - by eexists.
  - intros deliver tasks [= <-]. done.
  - by vm_compute.
Defined.

Lemma pipeline_lost_document_witness :
  folder_ex !! "circular.pdf" = Some "" ∧
  folder_exists folder_ex (DATA_DIR +:+ "/" +:+ "circular.pdf") = true ∧
  process_pdf_for_worker tk_chars (folder_open read_ex folder_ex)
    (DATA_DIR +:+ "/" +:+ "circular.pdf", ∅) = [] ∧
  ∀ (net' : network) (disk' : storage) fs',
    gather_run net' disk' (task_of <$> entries_ex) folder_ex fs' →
    fs' !! "circular.pdf" = Some "".
Proof.
  apply (pipeline_lost_document tk_chars net_pipe disk_pipe read_ex entries_ex folder_ex
           (Entry "circular.pdf" "Circular" "03/02/2023"
              "https://cdn.example/docs/circular.pdf") (OtherError "reset") ∅).
  - apply (scrape_wf 3 pages_ex). reflexivity.
  - apply entries_ex_nodup.
  - apply sequential_run.
  - apply list_elem_of_further, list_elem_of_here.
  - reflexivity.
  - done.
  - by eexists.
Defined.

(** On a disk that fails after five bytes the folder holds the first
    five bytes of the document, and ingestion takes them for the
    document. *)
Example pipeline_truncated_ex :
  let fs := main_sequential net_pipe (λ _, WriteFails 5) ∅ (task_of <$> entries_ex) in
  let env := pipeline_env read_ex (Holds (entry_dict <$> entries_ex)) fs env_ex in
  fs = {["order12.pdf" := "Order"; "circular.pdf" := ""]} ∧
  (λ c, dict_get c "text") <$>
    match chunks_json (main tk_chars env fs_empty).2 with
    | Holds chunks => chunks
    | _ => []
    end = [PStr "Order"].
Proof. repeat split; vm_compute; reflexivity. Qed.

(** The server on the files of that ingestion, and the answer to a
    question. *)
Definition pipe_srv : server_state Q :=
  Eval vm_compute in
    match startup ["key-a"; "key-b"] (main tk_chars pipe_env fs_empty).2 (Ok encode_ex) with
    | Ok srv => srv
    | Raise _ => Server (Store (FlatIndex 0 []) [] encode_ex) (ClientState [] 0 None)
    end.

Definition pipe_resp : chat_response Q :=
  Eval vm_compute in
    match chat_endpoint generate_ex other_ex pipe_srv (Ok (ask "order" 1)) with
    | Ok r => r
    | Raise _ => ChatResponse "" [] ""
    end.

Definition pipe_hit : hit Q :=
  Eval vm_compute in default (Hit 0%Q PNone PNone PNone PNone) (head (resp_chunks pipe_resp)).

Lemma pipeline_answers_witness :
  ∃ e content,
    e ∈ entries_ex ∧ hit_source pipe_hit = PStr (entry_filename e) ∧
    net_pipe (PStr (entry_url e)) = Ok (200, Ok content).
Proof.
  apply (pipeline_answers tk_chars net_pipe disk_pipe read_ex generate_ex other_ex 3 pages_ex
           entries_ex folder_ex env_ex fs_empty (main tk_chars pipe_env fs_empty).2
           ["key-a"; "key-b"] encode_ex pipe_srv (Ok (ask "order" 1)) pipe_resp).
  - reflexivity.
  - apply entries_ex_nodup.
  - eapply MainCompleted; [done|apply entry_tasks_dicts|apply sequential_run].
  - by eexists.
  - intros deliver tasks [= <-]. done.
  - by vm_compute.
  - by vm_compute.
  - by vm_compute.
  - apply list_elem_of_here.
Defined.
