(* ===== verification/Ocr.v ===== *)
(** * Ocr: what the worker's reader is made of

    [process_pdf_for_worker] of [ingest2.py] opens a PDF with
    [pdfplumber], renders every page at 300 dpi and hands the image to
    [pytesseract.image_to_string] with the languages [OCR_LANGS].  The
    module sets the path of the recognition program once, when it is
    imported: [tesseract_cmd], an absolute path of a Windows
    installation.  [Ingest.v] takes the reader as a whole ([pdf_reader]);
    this file builds it from its parts ([ocr_reader]):

    - [pdf_library]: what [pdfplumber.open] and [page.to_image] yield;
    - [ocr_host]: the programs of the machine, by path; the program run
      on an image and a language string gives the text or fails;
    - [image_to_string]: without a program at [tesseract_cmd] the call
      raises for every image.

    On a machine without a program at that path every worker returns
    the empty list, so a run of [main] writes nothing and never
    completes, and ends by [sys.exit(0)] when everything else works
    ([main_without_tesseract]).  With the program, the worker returns
    the chunks of the recognised pages ([ocr_worker_chunks]). *)

From Stdlib Require Import QArith.
From S2P Require Import Prelude PyData Score PySort Chunker VectorIndex Ingest.

Local Open Scope Z_scope.
Local Open Scope result_scope.

(** ** The configuration of the module *)

(** [pytesseract.pytesseract.tesseract_cmd]: the program that
    [image_to_string] starts. *)
Definition tesseract_cmd : string :=
  "C:\Program Files\Tesseract-OCR\tesseract.exe".

(** [OCR_LANGS]: the languages passed to the program. *)
Definition OCR_LANGS : string := "eng+hin".

(** ** The parts of the reader *)

Section ocr.
Context {page image : Type}.

(** [pdfplumber]: opening a path gives the pages or raises; rendering a
    page at a resolution gives its image or raises. *)
Record pdf_library := PdfLibrary {
  plumber_open : string → result (list page);
  to_image : page → Z → result image;
}.

(** The machine: the program found at a path, when there is one.  Run on
    an image with a language string it gives the recognised text or fails
    (a language that is not installed, an image it cannot read). *)
Record ocr_host := OcrHost {
  host_program : string → option (image → string → result string);
}.

(** [pytesseract.image_to_string(img, lang=lang)] with the program path
    [cmd]: [TesseractNotFoundError] when no program can be started. *)
Definition image_to_string (host : ocr_host) (cmd : string) (img : image)
    (lang : string) : result string :=
  match host_program host cmd with
  | None => Raise (OtherError "TesseractNotFoundError")
  | Some run => run img lang
  end.

(** One page of the loop of the worker: [page.to_image(resolution=300)]
    and the recognition of its image. *)
Definition page_text (lib : pdf_library) (host : ocr_host) (p : page)
    : result string :=
  let! pil_img := to_image lib p 300 in
  image_to_string host tesseract_cmd pil_img OCR_LANGS.

(** The reader of the worker: the pages of the PDF, each with what its
    rendering and recognition yield. *)
Definition ocr_reader (lib : pdf_library) (host : ocr_host) : pdf_reader :=
  λ pdf_path,
    let! pages := plumber_open lib pdf_path in
    Ok (page_text lib host <$> pages).

(** The world of ingestion on a machine: the reader is [ocr_reader], the
    rest is that of [env]. *)
Definition ocr_env {Sc} (lib : pdf_library) (host : ocr_host)
    (env : ingest_env Sc) : ingest_env Sc :=
  IngestEnv (env_makedirs env) (env_metadata env) (env_pdf_exists env)
    (ocr_reader lib host) (env_pool env) (env_model env)
    (env_write_index env) (env_write_chunks env).

(** A reader none of whose pages is recognised gives the worker no
    chunk. *)
Lemma worker_no_page {token} (tk : tokenizer token) (open_pdf : pdf_reader)
    (t : string * pydict) :
  (∀ path pages, open_pdf path = Ok pages → Forall (λ r, ∃ e, r = Raise e) pages) →
  process_pdf_for_worker tk open_pdf t = [].
Proof.
  intros Hno. destruct t as [pdf_path doc_meta]. unfold process_pdf_for_worker.
  destruct (open_pdf pdf_path) as [[|r pages]|] eqn:Hopen; [done| |done].
  apply Hno, Forall_cons_1 in Hopen as [[e ->] _].
  cbn [result_bind]. by rewrite py_enumerate_cons.
Qed.

(** ** Without the program *)

Section absent.
Context (lib : pdf_library) (host : ocr_host).
Hypothesis Habsent : host_program host tesseract_cmd = None.

Lemma page_text_absent (p : page) : ∃ e, page_text lib host p = Raise e.
Proof.
  unfold page_text, image_to_string. rewrite Habsent.
  destruct (to_image lib p 300); by eexists.
Qed.

(** Every page the reader yields is an exception. *)
Lemma ocr_reader_absent pdf_path pages :
  ocr_reader lib host pdf_path = Ok pages → Forall (λ r, ∃ e, r = Raise e) pages.
Proof.
  unfold ocr_reader. destruct (plumber_open lib pdf_path) as [ps|]; [|done].
  intros [= <-]. apply Forall_fmap, Forall_true. intros p. apply page_text_absent.
Qed.

(** Whatever the PDF, the worker returns no chunk. *)
Lemma worker_without_tesseract {token} (tk : tokenizer token) (t : string * pydict) :
  process_pdf_for_worker tk (ocr_reader lib host) t = [].
Proof. apply worker_no_page. intros path pages. apply ocr_reader_absent. Qed.

End absent.

(** ** With the program *)

(** When the PDF opens, every page renders and the program recognises
    every image, the reader yields the texts in page order. *)
Lemma ocr_reader_texts (lib : pdf_library) (host : ocr_host) run pdf_path
    (pages : list page) (images : list image) (texts : list string) :
  host_program host tesseract_cmd = Some run →
  plumber_open lib pdf_path = Ok pages →
  Forall2 (λ p img, to_image lib p 300 = Ok img) pages images →
  Forall2 (λ img text, run img OCR_LANGS = Ok text) images texts →
  ocr_reader lib host pdf_path = Ok (Ok <$> texts).
Proof.
  intros Hrun Hopen Himg Htxt. unfold ocr_reader. rewrite Hopen. cbn [result_bind].
  f_equal. clear Hopen. revert texts Htxt.
  induction Himg as [|p img pages images Hp _ IH]; intros texts Htxt;
    inversion Htxt as [|? text ? texts' Ht Hrest]; subst; [done|].
  cbn [fmap list_fmap]. f_equal; [|by apply IH].
  unfold page_text, image_to_string. rewrite Hp. cbn [result_bind]. by rewrite Hrun.
Qed.

End ocr.
Arguments pdf_library : clear implicits.
Arguments ocr_host : clear implicits.

(** ** The run *)

Section run.
Context {page image token : Type} (tk : tokenizer token).
Context `{ScoreOps Sc}.
Context (lib : pdf_library page image) (host : ocr_host image).

(** When no worker returns a chunk, the run has no chunk. *)
Lemma run_chunks_empty (env : ingest_env Sc) tasks deliver :
  (∀ t, process_pdf_for_worker tk (env_open_pdf env) t = []) →
  run_chunks tk env tasks deliver = [].
Proof.
  intros Hw. unfold run_chunks. apply assign_uids_nil.
  induction (deliver tasks) as [|t l IH]; [done|].
  cbn [fmap list_fmap mjoin list_join]. by rewrite Hw.
Qed.

(** Such a run writes nothing and does not complete. *)
Lemma main_no_output (env : ingest_env Sc) fs :
  (∀ t, process_pdf_for_worker tk (env_open_pdf env) t = []) →
  (main tk env fs).2 = fs ∧ (main tk env fs).1 ≠ Completed.
Proof.
  intros Hw. unfold main.
  destruct (env_makedirs env) as [[]|]; [|done].
  destruct (env_metadata env) as [|metadata|]; cbn [load_metadata]; [done| |done].
  destruct (tasks_loop _ metadata) as [tasks|]; [|done].
  case_bool_decide; [done|]. destruct (env_pool env) as [deliver|]; [|done].
  fold (run_chunks tk env tasks deliver). rewrite (run_chunks_empty _ _ _ Hw).
  by case_bool_decide.
Qed.

(** It ends by [sys.exit(0)] when the folder, the metadata and the pool
    are in order. *)
Lemma main_no_output_exit (env : ingest_env Sc) fs metadata tasks deliver :
  (∀ t, process_pdf_for_worker tk (env_open_pdf env) t = []) →
  env_makedirs env = Ok () → env_metadata env = Holds metadata →
  tasks_loop (env_pdf_exists env) metadata = Ok tasks →
  env_pool env = Ok deliver →
  main tk env fs = (Exit 0, fs).
Proof.
  intros Hw Hmk Hmeta Htasks Hpool. unfold main.
  rewrite Hmk, Hmeta. cbn [load_metadata]. rewrite Htasks, Hpool.
  fold (run_chunks tk env tasks deliver). rewrite (run_chunks_empty _ _ _ Hw).
  by repeat case_bool_decide.
Qed.

(** C18. On a machine without a program at [tesseract_cmd], a run of the
    ingestion leaves the files as they were and does not complete, and
    it reports success (status 0) when it got as far as the workers. *)
Theorem main_without_tesseract (env : ingest_env Sc) fs :
  host_program host tesseract_cmd = None →
  (main tk (ocr_env lib host env) fs).2 = fs ∧
  (main tk (ocr_env lib host env) fs).1 ≠ Completed ∧
  ∀ metadata tasks deliver,
    env_makedirs env = Ok () → env_metadata env = Holds metadata →
    tasks_loop (env_pdf_exists env) metadata = Ok tasks →
    env_pool env = Ok deliver →
    main tk (ocr_env lib host env) fs = (Exit 0, fs).
Proof.
  intros Habsent.
  assert (∀ t, process_pdf_for_worker tk (env_open_pdf (ocr_env lib host env)) t = [])
    as Hw by (intros t; by apply worker_without_tesseract).
  destruct (main_no_output _ fs Hw) as [Hfs Hst]. split_and!; [done..|].
  intros metadata tasks deliver ????. by eapply main_no_output_exit.
Qed.

(** With the program, a document whose pages all render and are all
    recognised gives the chunks of its non-blank pages. *)
Theorem ocr_worker_chunks run pdf_path doc_meta (pages : list page)
    (images : list image) (texts : list string) :
  has_meta doc_meta →
  host_program host tesseract_cmd = Some run →
  plumber_open lib pdf_path = Ok pages →
  Forall2 (λ p img, to_image lib p 300 = Ok img) pages images →
  Forall2 (λ img text, run img OCR_LANGS = Ok text) images texts →
  process_pdf_for_worker tk (ocr_reader lib host) (pdf_path, doc_meta) =
  mjoin ((λ p : Z * string, page_chunks tk doc_meta p.1 p.2)
           <$> py_enumerate 1 texts).
Proof.
  intros Hm Hrun Hopen Himg Htxt. unfold process_pdf_for_worker.
  rewrite (ocr_reader_texts lib host run pdf_path pages images texts) by done.
  cbn [result_bind]. by rewrite pages_loop_Ok.
Qed.

End run.

(** ** A machine with the program elsewhere *)

(** A PDF library over pages that are their text layer and images that
    are the text they show. *)
Definition lib_ex : pdf_library string string :=
  PdfLibrary
    (λ path,
       if String.eqb path "data2/a.pdf" then Ok ["Visa fee is 500"; "  "; "Pay online"]
       else if String.eqb path "data2/b.pdf" then Ok ["Renewal takes 30 days"]
       else Raise (OtherError "not a PDF"))
    (λ p _, Ok p).

(** A machine whose recognition program is where a package manager
    puts it. *)
Definition host_posix : ocr_host string :=
  OcrHost (λ cmd,
    if String.eqb cmd "/usr/bin/tesseract" then Some (λ img _, Ok img) else None).

(** A machine with the program at the configured path. *)
Definition host_windows : ocr_host string :=
  OcrHost (λ cmd,
    if String.eqb cmd tesseract_cmd then Some (λ img _, Ok img) else None).

(** The corpus of [Ingest.v] is ingested on the second machine; on the
    first the same run ends with status 0 and no file. *)
Example main_ocr_ex :
  (main tk_chars (ocr_env lib_ex host_windows env_ex) fs_empty).1 = Completed ∧
  main tk_chars (ocr_env lib_ex host_posix env_ex) fs_empty = (Exit 0, fs_empty).
Proof. by vm_compute. Qed.

Lemma main_without_tesseract_witness :
  (main tk_chars (ocr_env lib_ex host_posix env_ex) fs_empty).2 = fs_empty ∧
  (main tk_chars (ocr_env lib_ex host_posix env_ex) fs_empty).1 ≠ Completed ∧
  ∀ metadata tasks deliver,
    env_makedirs env_ex = Ok () → env_metadata env_ex = Holds metadata →
    tasks_loop (env_pdf_exists env_ex) metadata = Ok tasks →
    env_pool env_ex = Ok deliver →
    main tk_chars (ocr_env lib_ex host_posix env_ex) fs_empty = (Exit 0, fs_empty).
Proof. apply (main_without_tesseract tk_chars lib_ex host_posix env_ex). reflexivity. Defined.

Lemma ocr_worker_chunks_witness :
  process_pdf_for_worker tk_chars (ocr_reader lib_ex host_windows) ("data2/a.pdf", meta_a) =
  mjoin ((λ p : Z * string, page_chunks tk_chars meta_a p.1 p.2)
           <$> py_enumerate 1 ["Visa fee is 500"; "  "; "Pay online"]).
Proof.
  apply (ocr_worker_chunks tk_chars lib_ex host_windows (λ img _, Ok img) "data2/a.pdf"
           meta_a ["Visa fee is 500"; "  "; "Pay online"]
           ["Visa fee is 500"; "  "; "Pay online"]);
    [apply meta_a_has_meta|reflexivity|reflexivity|repeat constructor..].
Defined.
