(* ===== verification/Hub.v ===== *)
(** * Hub: the embedding model both scripts load by name

    [ingest2.py] loads the tokenizer and the sentence model of the
    repository named [EMBED_MODEL] (lines 25, 31 and 142); [chat2.py]
    loads the model of its own constant [EMBED_MODEL] on the CPU (lines
    20 and 76), with the comment that it must match ingestion.  The two
    constants are two definitions here ([INGEST_EMBED_MODEL] for
    [ingest2.py], [EMBED_MODEL] for [chat2.py]) and the repositories a
    function of the name ([hub]).  A model has a dimension, the batch
    call of ingestion and the call on one query of the server;
    [HubLaws] says that every row has the dimension of the model and
    that a name has one dimension on every device.

    Since the two names are equal, a server started on the files of a
    completed ingestion never raises the dimension mismatch: it answers
    every question with hits ([hub_retrieve_total]).  A server that
    loads a model of another dimension refuses every question
    ([hub_other_model]); one that loads another model of the same
    dimension answers, with the scores of vectors that were not made
    to be compared ([hub_same_dimension]). *)

From Stdlib Require Import QArith.
From S2P Require Import Prelude PyData Score PySort Chunker VectorIndex Ingest.
From S2P Require Import Retriever AnswerClient Json Api.

Local Open Scope Z_scope.
Local Open Scope result_scope.

(** ** The names *)

(** [EMBED_MODEL] of [ingest2.py]. *)
Definition INGEST_EMBED_MODEL : string := "intfloat/e5-large-v2".

(** [EMBED_MODEL] of [chat2.py]. *)
Definition EMBED_MODEL : string := "intfloat/e5-large-v2".

(** Where a model computes: the choice of the library
    ([SentenceTransformer(name)]) or the CPU ([device='cpu']). *)
Inductive device : Type := AutoDevice | Cpu.

#[export] Instance device_eq_dec : EqDecision device.
Proof. solve_decision. Defined.

(** ** The hub *)

Section hub.
Context {token Sc : Type}.

(** A loaded [SentenceTransformer]: its embedding dimension,
    [model.encode(texts)] on a list and on the one-element list of a
    query (its only row). *)
Record sentence_model := SentenceModel {
  sm_dim : Z;
  sm_encode : list pyval → result (list (list Sc));
  sm_encode_query : string → list Sc;
}.

(** The repositories by name: [AutoTokenizer.from_pretrained(name)] and
    [SentenceTransformer(name, device=...)]. *)
Record hub := Hub {
  hub_tokenizer : string → result (tokenizer token);
  hub_model : string → device → result sentence_model;
}.

(** What the models of a hub promise. *)
Class HubLaws (h : hub) : Prop := {
  encode_rows name dev m texts embs :
    hub_model h name dev = Ok m → sm_encode m texts = Ok embs →
    length embs = length texts ∧ Forall (λ r, py_len r = sm_dim m) embs;
  encode_query_row name dev m query :
    hub_model h name dev = Ok m → py_len (sm_encode_query m query) = sm_dim m;
  model_dim_device name dev dev' m m' :
    hub_model h name dev = Ok m → hub_model h name dev' = Ok m' →
    sm_dim m = sm_dim m';
}.

Context `{ScoreOps Sc}.

(** The world of ingestion with the model of line 142. *)
Definition hub_env (h : hub) (env : ingest_env Sc) : ingest_env Sc :=
  IngestEnv (env_makedirs env) (env_metadata env) (env_pdf_exists env)
    (env_open_pdf env) (env_pool env)
    (result_map sm_encode (hub_model h INGEST_EMBED_MODEL AutoDevice))
    (env_write_index env) (env_write_chunks env).

(** The script [ingest2.py] with the tokenizer of line 31. *)
Definition ingest2_hub (h : hub) (env : ingest_env Sc) (fs : out_files)
    : exit_status * out_files :=
  ingest2 (hub_tokenizer h INGEST_EMBED_MODEL) (hub_env h env) fs.

(** [MODEL] of [chat2.py] (line 76). *)
Definition MODEL (h : hub) : result (string → list Sc) :=
  result_map sm_encode_query (hub_model h EMBED_MODEL Cpu).

(** The start-up of the server with that model. *)
Definition hub_startup (h : hub) (keys : list string) (fs : out_files)
    : result (server_state Sc) :=
  startup keys fs (MODEL h).

(** The start-up of a server that names another repository. *)
Definition startup_named (h : hub) (name : string) (keys : list string)
    (fs : out_files) : result (server_state Sc) :=
  startup keys fs (result_map sm_encode_query (hub_model h name Cpu)).

(** ** Lemmas *)

Lemma normalize_embeddings_dim (embs : list (list Sc)) (d : Z) :
  Forall (λ r, py_len r = d) embs →
  Forall (λ r, py_len r = d) (normalize_embeddings embs).
Proof.
  intros Hd. unfold normalize_embeddings. apply Forall_fmap.
  eapply Forall_impl; [exact Hd|]. intros r Hr. cbn.
  unfold normalize_row, py_len in *. by rewrite length_fmap.
Qed.

(** The dimension of an index built from rows of one dimension. *)
Lemma build_index_dim (embs : list (list Sc)) (d : Z) index :
  Forall (λ r, py_len r = d) embs → build_index embs = Ok index →
  flat_d index = d.
Proof.
  intros Hd Hb. destruct embs as [|row rest]; [done|].
  apply build_index_Ok in Hb as [_ Hrows].
  apply Forall_cons_1 in Hd as [Hd _]. apply Forall_cons_1 in Hrows as [Hr _].
  congruence.
Qed.

Section laws.
Context (h : hub) `{!HubLaws h}.

(** A completed ingestion loaded the model, and wrote an index of the
    dimension of the model beside the chunks of the run. *)
Lemma ingest2_hub_Completed env fs fs' :
  ingest2_hub h env fs = (Completed, fs') →
  ∃ tk m index tasks deliver,
    hub_tokenizer h INGEST_EMBED_MODEL = Ok tk ∧
    hub_model h INGEST_EMBED_MODEL AutoDevice = Ok m ∧
    fs' = OutFiles (Holds index) (Holds (run_chunks tk (hub_env h env) tasks deliver)) ∧
    flat_d index = sm_dim m ∧
    py_len (flat_xb index) = py_len (run_chunks tk (hub_env h env) tasks deliver).
Proof.
  unfold ingest2_hub, ingest2.
  destruct (hub_tokenizer h INGEST_EMBED_MODEL) as [tk|]; [|done].
  intros (metadata & tasks & deliver & encode & texts & embs & index & _ & _
    & _ & _ & _ & Hmodel & _ & Htexts & Hembs & Hidx & ->)%main_Completed.
  apply result_map_Ok in Hmodel as (m & Hm & ->).
  exists tk, m, index, tasks, deliver.
  destruct (encode_rows _ _ _ _ _ Hm Hembs) as [Hlen Hrows].
  split_and!; [done..| |].
  - eapply build_index_dim; [|exact Hidx]. by apply normalize_embeddings_dim.
  - apply build_index_Ok in Hidx as [-> _].
    apply result_mapM_Ok, Forall2_length in Htexts.
    unfold py_len, normalize_embeddings. rewrite length_fmap. congruence.
Qed.

(** What a start-up that succeeds on the files of a completed ingestion
    holds: the index and chunks of the files and the encoder of the
    model loaded under [name]. *)
Lemma startup_named_Ok name keys fs srv index chunks :
  startup_named h name keys fs = Ok srv →
  fs = OutFiles (Holds index) (Holds chunks) →
  ∃ m, hub_model h name Cpu = Ok m ∧
       srv_store srv = Store index chunks (sm_encode_query m).
Proof.
  intros (st & _ & Hload & ->)%startup_Ok_inv ->. unfold load in Hload.
  cbn [index_faiss chunks_json] in Hload.
  destruct (hub_model h name Cpu) as [m|]; [|done].
  injection Hload as <-. by exists m.
Qed.

(** A server started on the files of a completed ingestion holds a
    matched pair whose index has the dimension of the query rows. *)
Lemma hub_server name env fs fs' keys srv :
  ingest2_hub h env fs = (Completed, fs') →
  startup_named h name keys fs' = Ok srv →
  ∃ m m', hub_model h INGEST_EMBED_MODEL AutoDevice = Ok m ∧
          hub_model h name Cpu = Ok m' ∧
          index_d (INDEX (srv_store srv)) = sm_dim m ∧
          MODEL_encode (srv_store srv) = sm_encode_query m' ∧
          matched_pair (srv_store srv) ∧
          texts_are_strings (CHUNKS (srv_store srv)).
Proof.
  intros (tk & m & index & tasks & deliver & _ & Hm & -> & Hd & Hlen)%ingest2_hub_Completed
    Hs.
  destruct (startup_named_Ok name keys _ srv _ _ Hs eq_refl) as (m' & Hm' & ->).
  exists m, m'. split_and!; [done..|].
  apply chunk_wf_texts, run_chunks_wf.
Qed.

(** The server answers every question with hits as soon as the model
    it loads has the dimension of the model of ingestion, whether it is
    the same model or not: the check of [retrieve] compares dimensions
    only. *)
Theorem hub_same_dimension name m m' env fs fs' keys srv query k keyword_boost :
  ingest2_hub h env fs = (Completed, fs') →
  startup_named h name keys fs' = Ok srv →
  hub_model h INGEST_EMBED_MODEL AutoDevice = Ok m →
  hub_model h name Cpu = Ok m' → sm_dim m' = sm_dim m →
  server_ok srv ∧ ∃ hits, retrieve (srv_store srv) query k keyword_boost = Ok hits.
Proof.
  intros Hi Hs Hm Hm' Hdim.
  destruct (hub_server name env fs fs' keys srv Hi Hs)
    as (m0 & m0' & Hm0 & Hm0' & Hd & Henc & Hpair & Htexts).
  apply startup_Ok_inv in Hs as Hs'. destruct Hs' as (st & Hk & Hl & Hsrv).
  split.
  - split_and!; [done..|]. rewrite Hsrv. apply (startup_Ok keys fs' _ st Hk Hl).
  - destruct (retrieve_Ok_results (srv_store srv) query k keyword_boost Htexts)
      as (results & _ & ->); [|by eexists].
    rewrite Henc, Hd, (encode_query_row _ _ _ query Hm0'). congruence.
Qed.

(** C13. After a completed ingestion, the server that loads the model named
    in [chat2.py] answers every question with hits: the dimension
    mismatch never arises. *)
Theorem hub_retrieve_total env fs fs' keys srv query k keyword_boost :
  ingest2_hub h env fs = (Completed, fs') →
  hub_startup h keys fs' = Ok srv →
  server_ok srv ∧ ∃ hits, retrieve (srv_store srv) query k keyword_boost = Ok hits.
Proof.
  intros Hi Hs.
  destruct (hub_server EMBED_MODEL env fs fs' keys srv Hi Hs)
    as (m & m' & Hm & Hm' & _).
  apply (hub_same_dimension EMBED_MODEL m m' env fs fs' keys); [done..|].
  change EMBED_MODEL with INGEST_EMBED_MODEL in Hm'.
  apply (model_dim_device _ _ _ _ _ Hm' Hm).
Qed.

(** A server that loads a model of another dimension than the one of
    ingestion refuses every question. *)
Theorem hub_other_model name m m' env fs fs' keys srv query k keyword_boost :
  ingest2_hub h env fs = (Completed, fs') →
  startup_named h name keys fs' = Ok srv →
  hub_model h INGEST_EMBED_MODEL AutoDevice = Ok m →
  hub_model h name Cpu = Ok m' → sm_dim m' ≠ sm_dim m →
  retrieve (srv_store srv) query k keyword_boost =
  Raise (ValueError "Embedding dimension mismatch!").
Proof.
  intros Hi Hs Hm Hm' Hne.
  destruct (hub_server name env fs fs' keys srv Hi Hs)
    as (m0 & m0' & Hm0 & Hm0' & Hd & Henc & _).
  apply retrieve_dimension_mismatch. rewrite Henc, Hd.
  rewrite (encode_query_row _ _ _ query Hm0'). congruence.
Qed.

End laws.
End hub.
Arguments sentence_model : clear implicits.
Arguments hub : clear implicits.

(** ** A hub with two repositories *)

Local Open Scope Q_scope.

(** The model of the corpus of [Ingest.v]: two dimensions, every text
    embedded as [(3, 4)], every question as [(1, 0)]. *)
Definition model_large : sentence_model Q :=
  SentenceModel 2 (λ texts, Ok ((λ _, [3; 4]) <$> texts)) (λ _, [1; 0]).

(** A model of one dimension. *)
Definition model_small : sentence_model Q :=
  SentenceModel 1 (λ texts, Ok ((λ _, [1]) <$> texts)) (λ _, [1]).

(** An earlier model of two dimensions, which embeds every question
    as [(0, 1)]. *)
Definition model_old : sentence_model Q :=
  SentenceModel 2 (λ texts, Ok ((λ _, [4; 3]) <$> texts)) (λ _, [0; 1]).

Definition hub_ex : hub Ascii.ascii Q :=
  Hub (λ name,
         if String.eqb name "intfloat/e5-large-v2" then Ok tk_chars
         else Raise (OtherError "repository not found"))
      (λ name _,
         if String.eqb name "intfloat/e5-large-v2" then Ok model_large
         else if String.eqb name "intfloat/e5-small-v2" then Ok model_small
         else if String.eqb name "intfloat/e5-large" then Ok model_old
         else Raise (OtherError "repository not found")).

Lemma hub_ex_model name dev m :
  hub_model hub_ex name dev = Ok m →
  m = model_large ∨ m = model_small ∨ m = model_old.
Proof. cbn. repeat case_match; naive_solver. Qed.

#[export] Instance hub_ex_laws : HubLaws hub_ex.
Proof.
  split.
  - intros name dev m texts embs [->|[->| ->]]%hub_ex_model [= <-];
      rewrite length_fmap; (split; [done|]); apply Forall_fmap, Forall_true; done.
  - by intros name dev m query [->|[->| ->]]%hub_ex_model.
  - intros name dev dev' m m'. cbn. repeat case_match; congruence.
Qed.

(** The server that loads the earlier model on the files of [fs_ex]. *)
Definition srv_old : server_state Q :=
  Eval vm_compute in
    match startup_named hub_ex "intfloat/e5-large" ["key-a"; "key-b"] fs_ex with
    | Ok srv => srv
    | Raise _ => srv_ex
    end.

(** The server that loads the small model on the files of [fs_ex]. *)
Definition srv_small : server_state Q :=
  Eval vm_compute in
    match startup_named hub_ex "intfloat/e5-small-v2" ["key-a"; "key-b"] fs_ex with
    | Ok srv => srv
    | Raise _ => srv_ex
    end.

(** The ingestion with the hub writes the files of [fs_ex], the server
    that loads the model of [chat2.py] is [srv_ex]. *)
Example hub_ex_run :
  ingest2_hub hub_ex env_ex fs_empty = (Completed, fs_ex) ∧
  hub_startup hub_ex ["key-a"; "key-b"] fs_ex = Ok srv_ex ∧
  startup_named hub_ex "intfloat/e5-small-v2" ["key-a"; "key-b"] fs_ex = Ok srv_small.
Proof. split_and!; vm_compute; reflexivity. Qed.

Lemma hub_retrieve_total_witness :
  server_ok srv_ex ∧
  ∃ hits, retrieve (srv_store srv_ex) "visa fee" 7 (1 # 5) = Ok hits.
Proof.
  apply (hub_retrieve_total hub_ex env_ex fs_empty fs_ex ["key-a"; "key-b"]);
    vm_compute; reflexivity.
Defined.

(** The server with the earlier model starts and answers, with other
    scores than the server with the model of ingestion. *)
Lemma hub_same_dimension_witness :
  server_ok srv_old ∧
  ∃ hits, retrieve (srv_store srv_old) "visa fee" 7 (1 # 5) = Ok hits.
Proof.
  apply (hub_same_dimension hub_ex "intfloat/e5-large" model_large model_old
           env_ex fs_empty fs_ex ["key-a"; "key-b"]);
    [vm_compute; reflexivity..|done].
Defined.

Example hub_skew_ex :
  hit_score <$> default [] (result_catch (result_map Some
    (retrieve (srv_store srv_ex) "visa fee" 1 (1 # 5))) (λ _, None)) ≠
  hit_score <$> default [] (result_catch (result_map Some
    (retrieve (srv_store srv_old) "visa fee" 1 (1 # 5))) (λ _, None)).
Proof. by vm_compute. Qed.

Lemma hub_other_model_witness :
  retrieve (srv_store srv_small) "visa fee" 7 (1 # 5) =
  Raise (ValueError "Embedding dimension mismatch!").
Proof.
  apply (hub_other_model hub_ex "intfloat/e5-small-v2" model_large model_small
           env_ex fs_empty fs_ex ["key-a"; "key-b"]);
    [vm_compute; reflexivity..|done].
Defined.
