(* ===== verification/Summation.v ===== *)
(** * Summation: the order in which an inner product is summed

    The index of [ingest2.py] is a [faiss.IndexFlatIP]: a search returns
    the inner products of the query with the rows.  The library does not
    say in which order it adds the products of two rows; its routines
    sum in lanes and blocks that depend on the processor.  This file
    leaves the order open:

    - [sum_any l s]: [s] is a sum of the terms of [l] in some order and
      some bracketing, started from zero or not;
    - [any_order ip]: the routine [ip] computes, for every two rows, a
      sum of their products in some order;
    - [dot] (the model's, summed from the right), [dot_left] (the loop
      with one accumulator) and [dot_lanes] (two accumulators, for the
      even and the odd positions) are such routines.

    On numbers whose addition is associative and commutative
    ([ScoreExact]: the rationals, the reals) every such routine computes
    [dot], and [retrieve] on an index with that routine is [retrieve] on
    the flat index ([kernel_retrieve_exact]).  On binary floating-point
    numbers two routines can differ in the score of a row and in the row
    a search puts first ([float_order_matters]); the theorems of
    [Ieee.v], which hold of any index, do not depend on the order. *)

From Stdlib Require Import QArith Reals Lra.
From Stdlib Require Import Floats.SpecFloat.
From S2P Require Import Prelude PyData Score PySort VectorIndex Retriever.
From S2P Require Import AnswerClient Json Api Ieee Ingest Norm.

Local Open Scope Z_scope.

(** ** Sums in any order *)

Section any_order.
Context `{ScoreOps Sc}.
Implicit Types (l : list Sc) (u v : list Sc) (s : Sc).

(** [s] is a sum of the terms of [l]. *)
Inductive sum_any : list Sc → Sc → Prop :=
| sum_any_nil : sum_any [] s_zero
| sum_any_one x : sum_any [x] x
| sum_any_split l1 l2 a b :
    sum_any l1 a → sum_any l2 b → sum_any (l1 ++ l2) (s_add a b)
| sum_any_perm l1 l2 s : l1 ≡ₚ l2 → sum_any l1 s → sum_any l2 s.

(** The products of two rows, position by position. *)
Definition products u v : list Sc := zip_with s_mul u v.

(** [s] is an inner product of [u] and [v]. *)
Definition dot_any u v s : Prop := sum_any (products u v) s.

(** A routine that sums the products in some order. *)
Definition any_order (ip : list Sc → list Sc → Sc) : Prop :=
  ∀ u v, dot_any u v (ip u v).

(** The sum from the right, ended by zero, and the sum from the left,
    started from zero. *)
Definition sum_right l : Sc := foldr s_add s_zero l.
Definition sum_left l : Sc := foldl s_add s_zero l.

(** The loop with one accumulator: [acc += u[i] * v[i]]. *)
Definition dot_left u v : Sc := sum_left (products u v).

(** The terms at the even positions and those at the odd positions. *)
Fixpoint alternate l : list Sc * list Sc :=
  match l with
  | [] => ([], [])
  | x :: l => (x :: (alternate l).2, (alternate l).1)
  end.

(** Two accumulators, one for the even and one for the odd positions,
    added at the end. *)
Definition dot_lanes u v : Sc :=
  s_add (sum_left (alternate (products u v)).1)
        (sum_left (alternate (products u v)).2).

(** ** The three routines sum in some order *)

#[export] Instance sum_any_proper : Proper ((≡ₚ) ==> eq ==> iff) sum_any.
Proof.
  intros l1 l2 Hl s ? <-. split; apply sum_any_perm; [done|by symmetry].
Qed.

Lemma dot_products u v : dot u v = sum_right (products u v).
Proof.
  unfold dot, sum_right, products. revert v.
  induction u as [|a u IH]; intros [|b v]; [done..|].
  cbn. by rewrite IH.
Qed.

Lemma sum_right_any l : sum_any l (sum_right l).
Proof.
  induction l as [|x l IH]; [constructor|].
  apply (sum_any_split [x] l); [constructor|exact IH].
Qed.

Lemma foldl_sum_any l1 l2 a :
  sum_any l1 a → sum_any (l1 ++ l2) (foldl s_add a l2).
Proof.
  revert l1 a. induction l2 as [|x l2 IH]; intros l1 a Ha.
  { by rewrite app_nil_r. }
  cbn [foldl]. rewrite (cons_middle x l1 l2), app_assoc. apply IH.
  apply sum_any_split; [done|constructor].
Qed.

Lemma sum_left_any l : sum_any l (sum_left l).
Proof. apply (foldl_sum_any [] l). constructor. Qed.

Lemma alternate_perm l : (alternate l).1 ++ (alternate l).2 ≡ₚ l.
Proof.
  induction l as [|x l IH]; [done|].
  cbn. constructor. by rewrite Permutation_app_comm.
Qed.

Lemma dot_any_order : any_order dot.
Proof. intros u v. unfold dot_any. rewrite dot_products. apply sum_right_any. Qed.

Lemma dot_left_any_order : any_order dot_left.
Proof. intros u v. apply sum_left_any. Qed.

Lemma dot_lanes_any_order : any_order dot_lanes.
Proof.
  intros u v. unfold dot_any, dot_lanes.
  rewrite <- (alternate_perm (products u v)) at 1.
  apply sum_any_split; apply sum_left_any.
Qed.

End any_order.

(** ** Exact numbers *)

(** Addition is associative and commutative and zero is neutral. *)
Class ScoreExact (Sc : Type) `{ScoreOps Sc} : Prop := {
  s_add_assoc a b c : s_add a (s_add b c) = s_add (s_add a b) c;
  s_add_comm a b : s_add a b = s_add b a;
  s_add_zero a : s_add a s_zero = a;
}.

Section exact.
Context `{ScoreExact Sc}.
Implicit Types (l : list Sc) (u v : list Sc) (s : Sc).

Lemma sum_right_app l1 l2 :
  sum_right (l1 ++ l2) = s_add (sum_right l1) (sum_right l2).
Proof.
  induction l1 as [|x l1 IH]; cbn.
  - by rewrite s_add_comm, s_add_zero.
  - fold (sum_right (l1 ++ l2)) (sum_right l1). by rewrite IH, s_add_assoc.
Qed.

#[export] Instance sum_right_proper : Proper ((≡ₚ) ==> eq) sum_right.
Proof.
  intros l1 l2 Hl. induction Hl as [|x l1 l2 _ IH|x y l|l1 l2 l3 _ IH1 _ IH2].
  - done.
  - cbn. fold (sum_right l1) (sum_right l2). by rewrite IH.
  - cbn. fold (sum_right l).
    by rewrite !s_add_assoc, (s_add_comm x y).
  - congruence.
Qed.

(** Every sum of the terms is the sum from the right. *)
Lemma sum_any_exact l s : sum_any l s → s = sum_right l.
Proof.
  induction 1 as [|x|l1 l2 a b _ IH1 _ IH2|l1 l2 s Hl _ IH].
  - done.
  - cbn. by rewrite s_add_zero.
  - by rewrite sum_right_app, IH1, IH2.
  - by rewrite <- Hl.
Qed.

(** Every routine that sums in some order computes [dot]. *)
Theorem any_order_exact ip u v : any_order ip → ip u v = dot u v.
Proof. intros Hip. rewrite dot_products. apply sum_any_exact, Hip. Qed.

(** The search with such a routine is the search of the flat index. *)
Lemma search_with_exact ip idx q k :
  any_order ip → search_with ip idx q k = flat_search idx q k.
Proof.
  intros Hip. apply search_with_ext, Forall_true. intros row.
  by apply any_order_exact.
Qed.

(** C19. On exact numbers, whatever the order in which the index sums,
    [retrieve] answers as on the flat index. *)
Theorem kernel_retrieve_exact ip idx chunks encode query k keyword_boost :
  any_order ip →
  retrieve (Store (KernelIndex ip idx) chunks encode) query k keyword_boost =
  retrieve (Store idx chunks encode) query k keyword_boost.
Proof.
  intros Hip. unfold retrieve, candidates.
  cbn [INDEX CHUNKS MODEL_encode index_d index_search kernel_index_search
       flat_index_search kernel_ip kernel_flat].
  by rewrite (search_with_exact ip) by done.
Qed.

End exact.

(** The rationals and the reals are exact. *)
#[export] Instance Q_score_exact : ScoreExact Q.
Proof.
  split; intros *; cbn [s_add s_zero Q_score]; unfold Qplus;
    destruct a as [an ad]; try destruct b as [bn bd]; try destruct c as [cn cd];
    cbn [Qnum Qden]; f_equal; lia.
Qed.

#[export] Instance R_score_exact : ScoreExact R.
Proof. split; intros *; cbn [s_add s_zero R_score]; lra. Qed.

(** ** A run on the rationals *)

Lemma kernel_retrieve_exact_witness :
  retrieve (Store (KernelIndex dot_lanes (INDEX (srv_store srv_ex)))
              (CHUNKS (srv_store srv_ex)) encode_ex) "visa fee" 7 (1 # 5)%Q =
  retrieve (Store (INDEX (srv_store srv_ex)) (CHUNKS (srv_store srv_ex)) encode_ex)
    "visa fee" 7 (1 # 5)%Q.
Proof. apply kernel_retrieve_exact, dot_lanes_any_order. Defined.

Lemma any_order_exact_witness :
  dot_left [1; 2; 3]%Q [4; 5; 6]%Q = dot [1; 2; 3]%Q [4; 5; 6]%Q.
Proof. apply any_order_exact, dot_left_any_order. Defined.

(** ** Binary floating point: the order matters *)

Section binary32_runs.
#[local] Existing Instance binary32.

(** The single-precision number nearest to an integer. *)
Definition f32 (z : Z) : spec_float := float_of_Z 24 128 z.

(** A row whose products with the query cancel, a row of score one
    half, and a query of ones. *)
Definition row_cancel : list spec_float := [f32 16777216; f32 1; f32 (-16777216)].
Definition row_half : list spec_float := [float_of_ratio 24 128 false 1 2; f32 0; f32 0].
Definition query_ones : list spec_float := [f32 1; f32 1; f32 1].
Definition idx_f32 : flat_index := FlatIndex 3 [row_cancel; row_half].

(** Summed from the right or in two lanes the first row scores 1; with
    one accumulator from the left the 1 is absorbed and it scores 0. *)
Example dot_order_f32 :
  dot query_ones row_cancel = f32 1 ∧
  dot_lanes query_ones row_cancel = f32 1 ∧
  dot_left query_ones row_cancel = f32 0.
Proof. by vm_compute. Qed.

(** Two routines that both sum the products of the rows put different
    rows first: on floating-point numbers the ranking of the index
    depends on the order of summation. *)
Theorem float_order_matters :
  any_order dot ∧ any_order dot_left ∧
  (search_with dot idx_f32 query_ones 1).2 = [0] ∧
  (search_with dot_left idx_f32 query_ones 1).2 = [1].
Proof.
  split_and!; [apply dot_any_order|apply dot_left_any_order|by vm_compute..].
Qed.

(** Single-precision addition is not associative. *)
Theorem binary32_not_exact : ¬ ScoreExact spec_float.
Proof.
  intros Hex.
  pose proof (any_order_exact dot_left query_ones row_cancel dot_left_any_order) as Heq.
  by vm_compute in Heq.
Qed.

End binary32_runs.
