(* ===== verification/System.v ===== *)
(** * System: from the archive to an answer

    The development models the scripts one by one and composes them by
    pairs: the scripts through their files ([Pipeline]), the worker with
    the recognition program ([Ocr]), ingestion and the server through
    the name of the embedding model ([Hub]).  This file puts them
    together: the scraper lists the archive, the downloader fills the
    folder, ingestion reads the folder with [pdfplumber] and the
    recognition program, embeds with the model of the hub and writes
    the index and the chunks, the server starts on them with the model
    of the same name, and a question arrives.

    [system_answers]: the handler finds hits and renders them; the
    recognition program was where [tesseract_cmd] says; and every hit
    cites a file of the archive that was fetched with status 200 and
    read to its end. *)

From Stdlib Require Import QArith.
From S2P Require Import Prelude PyData Score PySort Chunker VectorIndex Ingest.
From S2P Require Import Retriever AnswerClient Json Api Downloader Scraper.
From S2P Require Import Pipeline Ocr Hub.

Local Open Scope Z_scope.
Local Open Scope result_scope.

Section system.
Context {token page image : Type}.
Context `{ScoreOps Sc} `{FloatConv Sc}.
Context (net : network) (disk : storage).
Context (lib : pdf_library page image) (host : ocr_host image).
Context (h : hub token Sc) `{!HubLaws h}.
Context (generate : string → list string → result string).
Context (encode_other : jval Sc → result (list Sc)).

(** The world of ingestion after the scraper and the downloader: the
    metadata are the list file, a PDF is a file of the folder, read by
    [pdfplumber] from its bytes and recognised page by page; the pool
    and the writes are those of [env]. *)
Definition system_env (list_file : file (list pydict)) (fs : folder)
    (env : ingest_env Sc) : ingest_env Sc :=
  pipeline_env (ocr_reader lib host) list_file fs env.

(** The script [ingest2.py] in that world, with the tokenizer and the
    model of the hub. *)
Definition system_ingest (list_file : file (list pydict)) (fs : folder)
    (env : ingest_env Sc) (fsout : out_files) : exit_status * out_files :=
  ingest2_hub h (system_env list_file fs env) fsout.

(** ** Lemmas *)

(** Without the recognition program no worker of the system returns a
    chunk. *)
Lemma system_worker_absent (tk : tokenizer token) fs t :
  host_program host tesseract_cmd = None →
  process_pdf_for_worker tk (folder_open (ocr_reader lib host) fs) t = [].
Proof.
  intros Habsent. apply worker_no_page. intros path pages. unfold folder_open.
  destruct (data_name path) as [name|]; [|done].
  destruct (fs !! name) as [content|]; [|done]. by apply ocr_reader_absent.
Qed.

(** A run of the system that completes found the recognition program. *)
Lemma system_ingest_program list_file fs env fsout fsout' :
  system_ingest list_file fs env fsout = (Completed, fsout') →
  is_Some (host_program host tesseract_cmd).
Proof.
  unfold system_ingest, ingest2_hub, ingest2.
  destruct (hub_tokenizer h INGEST_EMBED_MODEL) as [tk|]; [|done]. intros Hmain.
  destruct (host_program host tesseract_cmd) eqn:Hp; [done|].
  destruct (main_no_output tk (hub_env h (system_env list_file fs env)) fsout)
    as [_ Hst]; [|by rewrite Hmain in Hst].
  intros t. by apply system_worker_absent.
Qed.

(** The chunks of a run of the system that completes come from the
    entries of the scraper. *)
Lemma system_chunks (fuel : nat) (web : browser) entries fs env fsout fsout' :
  scrape_mha_whats_new fuel web = Some (Ok entries) →
  NoDup (entry_filename <$> entries) →
  main_run net disk (Holds (entry_dict <$> entries)) ∅ Completed fs →
  (∃ e, plumber_open lib "" = Raise e) →
  (∀ deliver tasks, env_pool env = Ok deliver → deliver tasks ⊆ tasks) →
  system_ingest (Holds (entry_dict <$> entries)) fs env fsout = (Completed, fsout') →
  ∃ chunks, chunks_json fsout' = Holds chunks ∧
            Forall (from_entry net disk (ocr_reader lib host) entries) chunks.
Proof.
  intros Hscrape Hnd Hdown [e He] Hpool. unfold system_ingest, ingest2_hub, ingest2.
  destruct (hub_tokenizer h INGEST_EMBED_MODEL) as [tk|]; [|done]. intros Hmain.
  destruct (pipeline_chunks tk net disk (ocr_reader lib host) fuel web entries fs
    (hub_env h env) fsout fsout' Hscrape Hnd Hdown) as (chunks & Hc & _ & Hfrom);
    [|done|exact Hmain|by exists chunks].
  exists e. unfold ocr_reader. by rewrite He.
Qed.

(** ** The system *)

(** C11. After the scraper, the downloader, a completed ingestion with the
    recognition program and the model of the hub, and the start-up of
    the server with the model of the same name, every question whose
    fields are read is answered: [retrieve] returns hits, the response
    is the body [chat_endpoint] builds from them as the framework
    renders it, the recognition program was found at [tesseract_cmd],
    and every hit cites a file of an entry of the archive whose body
    was fetched with status 200 and read to its end. *)
Theorem system_answers (fuel : nat) (web : browser) entries fs env fsout fsout'
    keys srv data query k keyword_boost :
  scrape_mha_whats_new fuel web = Some (Ok entries) →
  NoDup (entry_filename <$> entries) →
  main_run net disk (Holds (entry_dict <$> entries)) ∅ Completed fs →
  (∃ e, plumber_open lib "" = Raise e) →
  (∀ deliver tasks, env_pool env = Ok deliver → deliver tasks ⊆ tasks) →
  system_ingest (Holds (entry_dict <$> entries)) fs env fsout = (Completed, fsout') →
  hub_startup h keys fsout' = Ok srv →
  chat_fields data = Ok (JStr query, k, keyword_boost) →
  ∃ hits,
    retrieve (srv_store srv) query k keyword_boost = Ok hits ∧
    chat_endpoint generate encode_other srv (Ok data) =
      json_response
        (ChatResponse
           (query_llm generate (srv_client srv)
              (build_context (hit_dict <$> hits)) query)
           hits (build_context (hit_dict <$> hits))) ∧
    is_Some (host_program host tesseract_cmd) ∧
    Forall (λ hit, ∃ e content,
              e ∈ entries ∧ hit_source hit = PStr (entry_filename e) ∧
              net (PStr (entry_url e)) = Ok (200, Ok content)) hits.
Proof.
  intros Hscrape Hnd Hdown Hempty Hpool Hmain Hstart Hfields.
  destruct (system_chunks fuel web entries fs env fsout fsout'
    Hscrape Hnd Hdown Hempty Hpool Hmain) as (chunks & Hfile & Hfrom).
  destruct (hub_server h EMBED_MODEL _ fsout fsout' keys srv Hmain Hstart)
    as (m & m' & Hm & Hm' & _).
  destruct (hub_same_dimension h EMBED_MODEL m m' _ fsout fsout' keys srv
    query k keyword_boost Hmain Hstart Hm Hm') as [_ [hits Hr]].
  { apply (model_dim_device _ _ _ _ _ Hm' Hm). }
  exists hits. split_and!; [done| |by eapply system_ingest_program|].
  - rewrite (chat_endpoint_str _ _ _ _ _ _ _ Hfields). unfold chat_answer.
    by rewrite Hr.
  - destruct (startup_needs_files keys fsout' _ srv Hstart) as (_ & Hchunks & _).
    rewrite Hfile in Hchunks. injection Hchunks as ->.
    apply Forall_forall. intros hit Hhit. by eapply hit_from_entry.
Qed.

End system.

(** ** A concrete system *)

(** A PDF library that takes the bytes of a file for its one page and
    a file without bytes for no PDF; the image of a page is its text. *)
Definition lib_bytes : pdf_library string string :=
  PdfLibrary
    (λ content,
       if str_is_empty content then Raise (OtherError "No /Root object")
       else Ok [content])
    (λ p _, Ok p).

(** The files the ingestion of the system writes over the archive of
    [pages_ex], the network of [net_pipe] and a disk that stores every
    file, on the machine with the recognition program. *)
Definition system_files : @out_files Q :=
  Eval vm_compute in
    (system_ingest lib_bytes host_windows hub_ex
       (Holds (entry_dict <$> entries_ex)) folder_ex env_ex fs_empty).2.

(** The run completes and the server starts; on the machine without
    the program the same run ends with status 0 and no file. *)
Example system_ex :
  system_ingest lib_bytes host_windows hub_ex
    (Holds (entry_dict <$> entries_ex)) folder_ex env_ex fs_empty =
    (Completed, system_files) ∧
  hub_startup hub_ex ["key-a"; "key-b"] system_files = Ok pipe_srv ∧
  system_ingest lib_bytes host_posix hub_ex
    (Holds (entry_dict <$> entries_ex)) folder_ex env_ex fs_empty =
    (Exit 0, fs_empty).
Proof. split_and!; vm_compute; reflexivity. Qed.

Lemma system_answers_witness :
  ∃ hits,
    retrieve (srv_store pipe_srv) "order" 1 DEFAULT_KEYWORD_BOOST = Ok hits ∧
    chat_endpoint generate_ex other_ex pipe_srv (Ok (ask "order" 1)) =
      json_response
        (ChatResponse
           (query_llm generate_ex (srv_client pipe_srv)
              (build_context (hit_dict <$> hits)) "order")
           hits (build_context (hit_dict <$> hits))) ∧
    is_Some (host_program host_windows tesseract_cmd) ∧
    Forall (λ hit, ∃ e content,
              e ∈ entries_ex ∧ hit_source hit = PStr (entry_filename e) ∧
              net_pipe (PStr (entry_url e)) = Ok (200, Ok content)) hits.
Proof.
  apply (system_answers net_pipe disk_pipe lib_bytes host_windows hub_ex
           generate_ex other_ex 3 pages_ex entries_ex folder_ex env_ex fs_empty
           system_files ["key-a"; "key-b"] pipe_srv (ask "order" 1)).
  - reflexivity.
  - apply entries_ex_nodup.
  - eapply MainCompleted; [done|apply entry_tasks_dicts|apply sequential_run].
  - by eexists.
  - intros deliver tasks [= <-]. done.
  - vm_compute. reflexivity.
  - vm_compute. reflexivity.
  - reflexivity.
Defined.
