(* ===== verification/Embed.v ===== *)
(** * Embed: what the embedding model reads of a chunk

    [chunk_text] of [ingest2.py] cuts a page into windows of
    [CHUNK_SIZE] tokens, counted without the special tokens
    ([add_special_tokens=False]), and decodes each window to a string.
    [model.encode] (line 156) tokenises that string again, adds the
    special tokens of the model and keeps the first
    [model.get_max_seq_length()] tokens (the length line 145 prints);
    the rest of the chunk is not read.  Line 32 raises the limit of
    the tokenizer, which silences its warning, not the limit of the
    model.

    [transformer] is the model as the library runs it: its tokenizer,
    its sequence length, the number of special tokens it adds and what
    it computes from the tokens it keeps.  [tokens_read] are the tokens
    of a text that reach the model.  Under the assumption that a window
    is tokenised as it was cut ([round_trip]):

    - the tokens read of the [i]-th chunk are the first
      [min W (L - special)] tokens of the [i]-th window
      ([chunk_tokens_read]); a window that fits is read whole
      ([chunk_read_whole]);
    - when one stride fits, a token of the page is read in some chunk
      exactly when it lies before the cut of the last window
      ([tokens_read_cover]): the overlap hides the cut of every window
      but the last;
    - with the constants of the code and a model of 512 positions that
      adds two special tokens, only the last two tokens of a page can
      stay unread ([page_tail_unread]);
    - the row a completed ingestion stores for a chunk is computed from
      the tokens read of its text ([index_rows_read]), so two texts
      with the same tokens read get the same row, and two questions
      with the same tokens read the same candidates
      ([question_tokens_read]). *)

From Stdlib Require Import QArith.
From S2P Require Import Prelude PyData Score PySort Chunker VectorIndex Ingest.
From S2P Require Import Retriever AnswerClient Json Api Hub.

Local Open Scope Z_scope.
Local Open Scope result_scope.

Section embed.
Context {token Sc : Type}.

(** A model of the sentence-transformers library. *)
Record transformer := Transformer {
  tf_tokenizer : tokenizer token;
  tf_max_seq_length : Z;
  tf_special : Z;
  tf_forward : list token → list Sc;
}.

(** The tokens of a text the model has room for. *)
Definition room (m : transformer) : Z := tf_max_seq_length m - tf_special m.

(** The tokens of a text that reach the model: the text is tokenised
    and cut to the room. *)
Definition tokens_read (m : transformer) (text : string) : list token :=
  take (Z.to_nat (room m)) (encode (tf_tokenizer m) text).

(** The embedding of one text. *)
Definition tf_embed (m : transformer) (text : string) : list Sc :=
  tf_forward m (tokens_read m text).

(** [model.encode(texts)]. *)
Definition tf_encode (m : transformer) (texts : list pyval)
    : result (list (list Sc)) :=
  result_mapM (λ t, match t with
                    | PStr s => Ok (tf_embed m s)
                    | _ => Raise (TypeError "expected a string")
                    end) texts.

(** The windows are tokenised as they were cut. *)
Definition round_trip (tk : tokenizer token) (ws : list (list token)) : Prop :=
  Forall (λ w, encode tk (decode tk w) = w) ws.

(** The token at position [p] of the page is read by the model in some
    chunk: it is the [j]-th token read of the [i]-th chunk. *)
Definition read_at (m : transformer) (text : string) (W O : Z) (p : nat) : Prop :=
  ∃ (i j : nat) chunk x,
    chunk_text text (tf_tokenizer m) W O !! i = Some chunk ∧
    tokens_read m chunk !! j = Some x ∧
    Z.of_nat p = Z.of_nat i * stride W O + Z.of_nat j ∧
    encode (tf_tokenizer m) text !! p = Some x.

(** ** What is read of a chunk *)

Section chunks.
Context (m : transformer) (text : string) (W O : Z).
Hypothesis Hv : valid_params W O.
Hypothesis Hrt :
  round_trip (tf_tokenizer m) (chunk_windows (encode (tf_tokenizer m) text) W O).

#[local] Abbreviation tk := (tf_tokenizer m).
#[local] Abbreviation ids := (encode (tf_tokenizer m) text).

(** A chunk is the decoded window of its rank, which is tokenised as
    it was cut. *)
Lemma chunk_text_window (i : nat) chunk :
  chunk_text text tk W O !! i = Some chunk →
  Z.of_nat i < Spec.num_windows (py_len ids) W (stride W O) ∧
  encode tk chunk = Spec.window ids W (stride W O) (Z.of_nat i).
Proof.
  unfold chunk_text. intros (w & -> & Hw)%list_lookup_fmap_Some.
  pose proof (proj1 (Forall_forall _ _) Hrt w (list_elem_of_lookup_2 _ _ _ Hw)) as ->.
  rewrite chunk_windows_windows in Hw by done.
  by apply windows_lookup in Hw as [? ->].
Qed.

(** The tokens read of the [i]-th chunk: the first [min W room] tokens
    of the [i]-th window. *)
Theorem chunk_tokens_read (i : nat) chunk :
  chunk_text text tk W O !! i = Some chunk →
  tokens_read m chunk =
  take (Z.to_nat (Z.min W (room m)))
       (drop (Z.to_nat (Z.of_nat i * stride W O)) ids).
Proof.
  intros [_ Hw]%chunk_text_window. unfold tokens_read. rewrite Hw.
  unfold Spec.window. rewrite take_take. f_equal. lia.
Qed.

(** A window that fits is read whole. *)
Theorem chunk_read_whole (i : nat) chunk :
  W ≤ room m → chunk_text text tk W O !! i = Some chunk →
  tokens_read m chunk = encode tk chunk.
Proof.
  intros Hroom Hc. destruct (chunk_text_window i chunk Hc) as [_ Hw].
  unfold tokens_read. rewrite Hw. unfold Spec.window at 1.
  rewrite take_take. unfold Spec.window. f_equal. lia.
Qed.

(** Where the model stops reading the page: the cut of the last
    window. *)
Definition read_end : Z :=
  Spec.short_windows (py_len ids) W (stride W O) * stride W O + room m.

(** A token read in a chunk lies before the cut of the last window. *)
Lemma read_at_before (p : nat) : read_at m text W O p → Z.of_nat p < read_end.
Proof.
  intros (i & j & chunk & x & Hc & Hj & -> & Hp).
  destruct (chunk_text_window i chunk Hc) as [Hi _].
  apply lookup_lt_Some in Hp. apply lookup_take_Some in Hj as [_ Hj].
  destruct (stride_valid W O Hv) as (_ & Hs & _).
  rewrite num_windows_pos in Hi by (unfold py_len; lia).
  unfold read_end. nia.
Qed.

(** The window that reads position [p]: the one [p] starts in, or the
    last. *)
Definition reader (p : nat) : Z :=
  Z.min (Spec.short_windows (py_len ids) W (stride W O)) (Z.of_nat p `div` stride W O).

Lemma reader_bounds (p : nat) :
  stride W O ≤ room m → (p < length ids)%nat → Z.of_nat p < read_end →
  0 ≤ reader p < Spec.num_windows (py_len ids) W (stride W O) ∧
  0 ≤ Z.of_nat p - reader p * stride W O < Z.min W (room m).
Proof.
  intros Hroom Hp Hend. destruct (stride_valid W O Hv) as (_ & Hs & HsW).
  pose proof (short_windows_nonneg (py_len ids) W (stride W O) ltac:(lia)) as Hq.
  destruct (window_last ids W (stride W O)) as [_ Hlast]; [lia..|unfold py_len; lia|].
  rewrite num_windows_pos by (unfold py_len; lia).
  pose proof (Z.div_mod (Z.of_nat p) (stride W O) ltac:(lia)) as Hdm.
  pose proof (Z.mod_pos_bound (Z.of_nat p) (stride W O) ltac:(lia)) as Hmod.
  pose proof (Z.div_pos (Z.of_nat p) (stride W O) ltac:(lia) ltac:(lia)) as Hdiv.
  unfold reader, read_end, py_len in *.
  destruct (Z.min_spec (Spec.short_windows (Z.of_nat (length ids)) W (stride W O))
              (Z.of_nat p `div` stride W O)) as [[Hlt ->]|[Hle ->]]; nia.
Qed.

(** A token before the cut of the last window is read in the chunk of
    its reader. *)
Lemma read_at_reader (p : nat) :
  stride W O ≤ room m → (p < length ids)%nat → Z.of_nat p < read_end →
  read_at m text W O p.
Proof.
  intros Hroom Hp Hend.
  destruct (reader_bounds p Hroom Hp Hend) as [[Hi0 Hi] [Hj0 Hj]].
  destruct (lookup_lt_is_Some_2 ids p Hp) as [x Hx].
  exists (Z.to_nat (reader p)), (Z.to_nat (Z.of_nat p - reader p * stride W O)),
    (decode tk (Spec.window ids W (stride W O) (reader p))), x.
  assert (chunk_text text tk W O !! Z.to_nat (reader p) =
          Some (decode tk (Spec.window ids W (stride W O) (reader p)))) as Hc.
  { unfold chunk_text. rewrite chunk_windows_windows, list_lookup_fmap by done.
    assert (Spec.windows ids W (stride W O) !! Z.to_nat (reader p) =
            Some (Spec.window ids W (stride W O) (reader p))) as ->; [|done].
    apply windows_lookup. rewrite Z2Nat.id by lia. split; [lia|done]. }
  split_and!; [done| |rewrite !Z2Nat.id by lia; lia|done].
  destruct (stride_valid W O Hv) as (_ & Hs & _).
  assert (0 ≤ reader p * stride W O) by nia.
  rewrite (chunk_tokens_read _ _ Hc), lookup_take, decide_True, lookup_drop by lia.
  rewrite <- Hx. f_equal. rewrite Z2Nat.id by lia. lia.
Qed.

(** C23. When one stride fits in the room of the model, a token of the page
    is read in some chunk exactly when it lies before the cut of the
    last window. *)
Theorem tokens_read_cover (p : nat) :
  stride W O ≤ room m → (p < length ids)%nat →
  read_at m text W O p ↔ Z.of_nat p < read_end.
Proof.
  intros Hroom Hp. split; [apply read_at_before|by apply read_at_reader].
Qed.

End chunks.

(** ** The constants of the code *)

(** With windows of [CHUNK_SIZE] tokens that overlap by
    [CHUNK_OVERLAP], a model of 512 positions that adds two special
    tokens reads every token of a page but, at most, its last two. *)
Theorem page_tail_unread (m : transformer) (text : string) (p : nat) :
  tf_max_seq_length m = 512 → tf_special m = 2 →
  round_trip (tf_tokenizer m)
    (chunk_windows (encode (tf_tokenizer m) text) CHUNK_SIZE CHUNK_OVERLAP) →
  (p < length (encode (tf_tokenizer m) text))%nat →
  ¬ read_at m text CHUNK_SIZE CHUNK_OVERLAP p →
  (length (encode (tf_tokenizer m) text) ≤ p + 2)%nat.
Proof.
  intros HL Hsp Hrt Hp Hno.
  assert (valid_params CHUNK_SIZE CHUNK_OVERLAP) as Hv by (unfold valid_params; done).
  assert (room m = 510) as Hroom by (unfold room; lia).
  assert (¬ Z.of_nat p < read_end m text CHUNK_SIZE CHUNK_OVERLAP) as Hend.
  { intros Hend. apply Hno. apply read_at_reader; [done..|by rewrite Hroom|done|done]. }
  clear Hno. rename Hend into Hno.
  destruct (window_last (encode (tf_tokenizer m) text) CHUNK_SIZE
              (stride CHUNK_SIZE CHUNK_OVERLAP)) as [_ Hlast];
    [done..|unfold py_len; lia|].
  unfold read_end, py_len in *. rewrite Hroom in Hno.
  change CHUNK_SIZE with 512 in *. lia.
Qed.

(** A page whose last window is longer than the room of the model
    loses its last token. *)
Theorem page_tail_lost (m : transformer) (text : string) (W O : Z) :
  valid_params W O →
  round_trip (tf_tokenizer m) (chunk_windows (encode (tf_tokenizer m) text) W O) →
  read_end m text W O < py_len (encode (tf_tokenizer m) text) →
  ¬ read_at m text W O (pred (length (encode (tf_tokenizer m) text))).
Proof.
  intros Hv Hrt Hend Hread%(read_at_before m text W O Hv Hrt).
  unfold py_len in Hend. lia.
Qed.

(** ** The rows of the index *)

Section ingestion.
Context `{ScoreOps Sc}.
Context (tk : tokenizer token) (m : transformer).

Lemma tf_encode_Ok texts embs :
  tf_encode m texts = Ok embs →
  Forall2 (λ t e, ∃ s, t = PStr s ∧ e = tf_embed m s) texts embs.
Proof.
  intros Hm%result_mapM_Ok. eapply Forall2_impl; [exact Hm|].
  intros [] e; try done. intros [= <-]. by eexists.
Qed.

(** The row a completed ingestion stores for a chunk is the normalised
    output of the model on the tokens read of its text. *)
Theorem index_rows_read (env : ingest_env Sc) fs fs' :
  env_model env = Ok (tf_encode m) →
  main tk env fs = (Completed, fs') →
  ∃ index chunks,
    fs' = OutFiles (Holds index) (Holds chunks) ∧
    ∀ (i : nat) c, chunks !! i = Some c →
      ∃ text, c !! "text" = Some (PStr text) ∧
              flat_xb index !! i =
                Some (normalize_row (tf_forward m (tokens_read m text))).
Proof.
  intros Hmodel (metadata & tasks & deliver & encode & texts & embs & index & _ & _
    & _ & _ & _ & Henc & _ & Htexts & Hembs & Hidx & ->)%main_Completed.
  rewrite Hmodel in Henc. injection Henc as <-.
  apply build_index_Ok in Hidx as [Hxb _]. apply result_mapM_Ok in Htexts.
  apply tf_encode_Ok in Hembs. eexists _, _. split; [done|]. intros i c Hc.
  destruct (Forall2_lookup_l _ _ _ _ _ Htexts Hc) as (t & Ht & Hitem).
  destruct (Forall2_lookup_l _ _ _ _ _ Hembs Ht) as (e & He & text & -> & ->).
  exists text. split.
  - unfold dict_item in Hitem. by destruct (c !! "text") as [v|]; simplify_eq.
  - rewrite Hxb. unfold normalize_embeddings. by rewrite list_lookup_fmap, He.
Qed.

End ingestion.

(** ** The question *)

(** [retrieve] of [chat2.py] embeds the question with the same call
    (line 92): two questions of which the model reads the same tokens
    get the same candidates from the index, whatever follows in them;
    the keyword boost still reads the whole question. *)
Theorem question_tokens_read `{ScoreOps Sc} `{IndexSearch Sc Ix} (m : transformer)
    (index : Ix) chunks (q1 q2 : string) k :
  tokens_read m q1 = tokens_read m q2 →
  candidates (Store index chunks (tf_embed m)) q1 k =
  candidates (Store index chunks (tf_embed m)) q2 k.
Proof.
  intros Hq. unfold candidates. cbn [MODEL_encode INDEX]. unfold tf_embed.
  by rewrite Hq.
Qed.

(** ** As a model of the hub *)

(** The model as [Hub.v] sees it: its dimension, the batch call and the
    call on one query. *)
Definition sentence_of (m : transformer) (dim : Z) : sentence_model Sc :=
  SentenceModel dim (tf_encode m) (tf_embed m).

(** A transformer whose output has [dim] entries satisfies what
    [HubLaws] asks of a model. *)
Lemma sentence_of_rows (m : transformer) (dim : Z) texts embs :
  (∀ tokens, py_len (tf_forward m tokens) = dim) →
  sm_encode (sentence_of m dim) texts = Ok embs →
  length embs = length texts ∧
  Forall (λ r, py_len r = sm_dim (sentence_of m dim)) embs.
Proof.
  intros Hdim Hembs%tf_encode_Ok. split; [symmetry; by eapply Forall2_length|].
  apply Forall_forall. intros e [i He]%list_elem_of_lookup.
  destruct (Forall2_lookup_r _ _ _ _ _ Hembs He) as (t & _ & s & _ & ->).
  apply Hdim.
Qed.

Lemma sentence_of_query (m : transformer) (dim : Z) query :
  (∀ tokens, py_len (tf_forward m tokens) = dim) →
  py_len (sm_encode_query (sentence_of m dim) query) = sm_dim (sentence_of m dim).
Proof. intros Hdim. apply Hdim. Qed.

End embed.
Arguments transformer : clear implicits.

(** ** A model with room for three tokens *)

Local Open Scope Q_scope.

(** The tokenizer of characters is read back as it was cut. *)
Lemma tk_chars_round_trip (ws : list (list Ascii.ascii)) : round_trip tk_chars ws.
Proof. apply Forall_true. intros w. apply String.list_ascii_of_string_of_list_ascii. Qed.

(** Five positions, two of them for the special tokens; the output
    counts the tokens read. *)
Definition model_ex : transformer Ascii.ascii Q :=
  Transformer tk_chars 5 2 (λ tokens, [inject_Z (py_len tokens); 1]).

(** Of the page [abcdefg], cut into windows of four characters that
    overlap by one, the model reads [abc] and [def]: the last
    character of the first window is read in the second, the last
    character of the page in none. *)
Example tokens_read_ex :
  chunk_text "abcdefg" tk_chars 4 1 = ["abcd"; "defg"] ∧
  tokens_read model_ex <$> chunk_text "abcdefg" tk_chars 4 1 =
    String.list_ascii_of_string <$> ["abc"; "def"] ∧
  read_end model_ex "abcdefg" 4 1 = 6%Z.
Proof. by vm_compute. Qed.

Lemma chunk_tokens_read_witness :
  tokens_read model_ex "defg" =
  take (Z.to_nat (Z.min 4 (room model_ex)))
       (drop (Z.to_nat (Z.of_nat 1 * stride 4 1)) (encode tk_chars "abcdefg")).
Proof.
  apply (chunk_tokens_read model_ex "abcdefg" 4 1 valid_params_4_1
           (tk_chars_round_trip _) 1 "defg").
  reflexivity.
Defined.

Lemma tokens_read_cover_witness :
  read_at model_ex "abcdefg" 4 1 5 ↔ (Z.of_nat 5 < read_end model_ex "abcdefg" 4 1)%Z.
Proof.
  apply (tokens_read_cover model_ex "abcdefg" 4 1 valid_params_4_1
           (tk_chars_round_trip _) 5); [by vm_compute|vm_compute; lia].
Defined.

Lemma page_tail_lost_witness : ¬ read_at model_ex "abcdefg" 4 1 6.
Proof.
  apply (page_tail_lost model_ex "abcdefg" 4 1 valid_params_4_1
           (tk_chars_round_trip _)).
  by vm_compute.
Defined.

(** A page of 511 characters under the constants of the code and a
    model of 512 positions: one window, of which the model reads 510
    characters. *)
Definition page_511 : string :=
  String.string_of_list_ascii (replicate 511 (Ascii.ascii_of_nat 97)).

Definition model_512 : transformer Ascii.ascii Q :=
  Transformer tk_chars 512 2 (λ tokens, [inject_Z (py_len tokens); 1]).

Lemma page_tail_unread_witness :
  (length (encode tk_chars page_511) ≤ 510 + 2)%nat.
Proof.
  apply (page_tail_unread model_512 page_511 510);
    [reflexivity|reflexivity|apply tk_chars_round_trip|vm_compute; lia|].
  apply (page_tail_lost model_512 page_511 CHUNK_SIZE CHUNK_OVERLAP);
    [done|apply tk_chars_round_trip|by vm_compute].
Defined.

(** The ingestion of the three-document corpus with [model_ex]: the row
    of every chunk is computed from the three characters read of it. *)
Definition env_embed : ingest_env Q :=
  IngestEnv (Ok ()) (Holds [meta_a; meta_b; meta_c]) (λ _, true) open_ex (Ok id)
    (Ok (tf_encode model_ex)) Written Written.

(** Two questions that differ after their third character have the
    same candidates. *)
Lemma question_tokens_read_witness :
  candidates (Store (FlatIndex 2 [[3 # 5; 4 # 5]]) [∅] (tf_embed model_ex)) "visa fee" 7 =
  candidates (Store (FlatIndex 2 [[3 # 5; 4 # 5]]) [∅] (tf_embed model_ex)) "visit" 7.
Proof. by apply question_tokens_read. Defined.

Lemma index_rows_read_witness :
  ∃ index chunks,
    (main tk_chars env_embed fs_empty).2 = OutFiles (Holds index) (Holds chunks) ∧
    ∀ (i : nat) c, chunks !! i = Some c →
      ∃ text, c !! "text" = Some (PStr text) ∧
              flat_xb index !! i =
                Some (normalize_row (tf_forward model_ex (tokens_read model_ex text))).
Proof.
  apply (index_rows_read tk_chars model_ex env_embed fs_empty); [reflexivity|].
  vm_compute. reflexivity.
Defined.
