(* ===== verification/Logs.v ===== *)
(** * Logs: what the downloader prints

    [download_pdf] of [download_pdfs.py] prints one line on every path:
    [Already downloaded] (line 18), [Downloaded] (line 27), [Failed to
    download] with the status (line 29) or [Error downloading] with the
    exception (line 31).  These lines are all the script reports of a
    file.  [download_print] is the line a coroutine prints when it runs
    without interruption from the folder [fs], beside the folder
    [download_pdf] leaves.

    The line [Downloaded] is printed exactly when the body was fetched
    with status 200, read, and stored whole ([downloaded_spec]).  The
    line [Error downloading] does not say whether a file was left: after
    a body that could not be read, or a write that failed, the folder
    holds a file under the name, and the next run prints [Already
    downloaded] for it ([error_then_already]). *)

From S2P Require Import Prelude PyData Downloader.

Local Open Scope Z_scope.

(** The line a coroutine prints. *)
Inductive download_line : Type :=
| AlreadyDownloaded (filename : string)
| Downloaded (filename : string)
| FailedToDownload (filename : string) (status : Z)
| ErrorDownloading (filename : string) (e : exn).

#[export] Instance download_line_eq_dec : EqDecision download_line.
Proof. solve_decision. Defined.

(** The exception of a disk that cannot open or write a file. *)
Definition disk_error : exn := OtherError "OSError".

(** The line [download_pdf(session, pdf_info)] prints from the folder
    [fs]. *)
Definition download_print (net : network) (disk : storage) (fs : folder)
    (pdf : pdf_info) : download_line :=
  let url := info_url pdf in
  let filename := info_filename pdf in
  if bool_decide (is_Some (fs !! filename)) then AlreadyDownloaded filename
  else
    match net url with
    | Ok (status, body) =>
        if status =? 200 then
          match disk filename, body with
          | OpenFails, _ => ErrorDownloading filename disk_error
          | _, Raise e => ErrorDownloading filename e
          | WriteFails _, Ok _ => ErrorDownloading filename disk_error
          | Stored, Ok _ => Downloaded filename
          end
        else FailedToDownload filename status
    | Raise e => ErrorDownloading filename e
    end.

(** The lines of the coroutines run one after the other. *)
Fixpoint sequential_print (net : network) (disk : storage) (fs : folder)
    (pdf_list : list pdf_info) : list download_line :=
  match pdf_list with
  | [] => []
  | pdf :: rest =>
      download_print net disk fs pdf ::
      sequential_print net disk (download_pdf net disk fs pdf) rest
  end.

Section logs.
Context (net : network) (disk : storage).
Implicit Types (fs : folder) (pdf : pdf_info).

(** Every coroutine prints the name of its file. *)
Definition line_name (l : download_line) : string :=
  match l with
  | AlreadyDownloaded f | Downloaded f | FailedToDownload f _ | ErrorDownloading f _ => f
  end.

Lemma download_print_name fs pdf :
  line_name (download_print net disk fs pdf) = info_filename pdf.
Proof.
  unfold download_print. case_bool_decide; [done|].
  destruct (net _) as [[status body]|]; [|done].
  destruct (status =? 200); [|done]. by destruct (disk _), body.
Qed.

Lemma sequential_print_length fs pdf_list :
  length (sequential_print net disk fs pdf_list) = length pdf_list.
Proof. revert fs. induction pdf_list as [|pdf rest IH]; intros fs; cbn; auto. Qed.

(** [Downloaded] is printed exactly when the file was not there, the
    body was fetched with status 200 and read, and the disk stored it;
    the folder then holds the body under the name. *)
Theorem downloaded_spec fs pdf :
  download_print net disk fs pdf = Downloaded (info_filename pdf) ↔
  fs !! info_filename pdf = None ∧ disk (info_filename pdf) = Stored ∧
  ∃ content, net (info_url pdf) = Ok (200, Ok content) ∧
             download_pdf net disk fs pdf !! info_filename pdf = Some content.
Proof.
  unfold download_print, download_pdf. case_bool_decide as Hex.
  { split; [done|]. intros [Hn _]. rewrite Hn in Hex. by destruct Hex. }
  apply eq_None_not_Some in Hex.
  destruct (net (info_url pdf)) as [[status body]|];
    [|split; [done|by intros (_ & _ & ? & ? & _)]].
  destruct (Z.eqb_spec status 200) as [->|Hst];
    [|split; [done|intros (_ & _ & ? & ? & _); by simplify_eq]].
  destruct (disk (info_filename pdf)) eqn:Hd, body as [content|e];
    try (split; [done|intros (_ & ? & ? & ? & _); by simplify_eq]).
  split; [intros _|done]. split_and!; [done..|]. exists content.
  by rewrite lookup_insert_eq.
Qed.

(** After [Failed to download] the folder is as it was. *)
Theorem failed_keeps fs pdf status :
  download_print net disk fs pdf = FailedToDownload (info_filename pdf) status →
  download_pdf net disk fs pdf = fs ∧ status ≠ 200.
Proof.
  unfold download_print, download_pdf. case_bool_decide; [done|].
  destruct (net _) as [[st body]|]; [|done].
  destruct (Z.eqb_spec st 200); [by destruct (disk _), body|].
  by intros [= <-].
Qed.

(** [Error downloading] is printed with and without a file left.  When
    the file could be opened and the error came after (the body could
    not be read, or the write failed), the folder holds a file under
    the name, and a second run, whatever the network and the disk then
    do, prints [Already downloaded] for it and leaves it. *)
Theorem error_then_already fs pdf e (net' : network) (disk' : storage) :
  download_print net disk fs pdf = ErrorDownloading (info_filename pdf) e →
  net (info_url pdf) ≠ Raise e → disk (info_filename pdf) ≠ OpenFails →
  let fs' := download_pdf net disk fs pdf in
  is_Some (fs' !! info_filename pdf) ∧
  download_print net' disk' fs' pdf = AlreadyDownloaded (info_filename pdf) ∧
  download_pdf net' disk' fs' pdf = fs'.
Proof.
  intros Hprint Hnet Hdisk fs'.
  assert (is_Some (fs' !! info_filename pdf)) as Hsome.
  { subst fs'. unfold download_print, download_pdf in *. case_bool_decide; [done|].
    destruct (net _) as [[status body]|]; [|by simplify_eq].
    destruct (status =? 200); [|done].
    destruct (disk _), body; try done; by rewrite lookup_insert_eq. }
  split; [done|]. unfold download_print, download_pdf.
  by rewrite !bool_decide_eq_true_2.
Qed.

End logs.

(** A document the site does not have. *)
Definition pdf_gone : pdf_info := PdfInfo (PStr "https://site/gone.pdf") "gone.pdf".

Lemma failed_keeps_witness :
  download_pdf net_ex disk_ex ∅ pdf_gone = ∅ ∧ 404 ≠ 200.
Proof. by apply (failed_keeps net_ex disk_ex ∅ pdf_gone 404). Defined.

Lemma error_then_already_witness :
  let fs' := download_pdf net_ex disk_ex ∅ pdf_c in
  is_Some (fs' !! "c.pdf") ∧
  download_print net_ex disk_ex fs' pdf_c = AlreadyDownloaded "c.pdf" ∧
  download_pdf net_ex disk_ex fs' pdf_c = fs'.
Proof.
  by apply (error_then_already net_ex disk_ex ∅ pdf_c (OtherError "reset")
              net_ex disk_ex).
Defined.

(** ** A run *)

(** The six documents of [Downloader.v] on the network of [net_ex] and
    the disk of [disk_ex], into an empty folder: one line per document,
    and a second run that reports four documents as downloaded, of which
    one is an empty file and one a part of a body. *)
Example sequential_print_ex :
  let tasks := [pdf_a; pdf_b; pdf_c; pdf_d; pdf_e] in
  let fs := main_sequential net_ex disk_ex ∅ tasks in
  line_name <$> sequential_print net_ex disk_ex ∅ tasks = info_filename <$> tasks ∧
  sequential_print net_ex disk_ex ∅ tasks =
    [Downloaded "a.pdf"; Downloaded "b.pdf";
     ErrorDownloading "c.pdf" (OtherError "reset");
     ErrorDownloading "d.pdf" disk_error; ErrorDownloading "e.pdf" disk_error] ∧
  sequential_print net_ex disk_ex fs tasks =
    [AlreadyDownloaded "a.pdf"; AlreadyDownloaded "b.pdf"; AlreadyDownloaded "c.pdf";
     ErrorDownloading "d.pdf" disk_error; AlreadyDownloaded "e.pdf"] ∧
  fs !! "c.pdf" = Some "" ∧ fs !! "e.pdf" = Some "EE".
Proof. by vm_compute. Qed.
